(** * KV-cache subsystem and readback staging heap of onnxruntime-genai

    A shallow embedding of [src/models/kv_cache.cpp] and
    [src/models/dml_readback_heap.cpp], with the properties of the
    specification stated and settled against it; and, with further
    properties of the code, of the roaming arrays of [src/smartptrs.h] and
    the batching engine of [src/engine.cpp].

    Conventions of the embedding:
    - C++ integers are [Z]; unsigned arithmetic that can wrap has its
      reduction written out ([mod 2^32], [mod 2^64]).
    - A tensor buffer is a [list byte]; a [std::span<T>] is a window of
      bytes of such a buffer, with [sizeof(T)] passed along.
    - A [std::unique_ptr<OrtValue>] is an [option OrtValue] (the owner holds
      the value); a raw [OrtValue*] is the identity of the tensor it points
      to, so that aliasing between the cache and the slots of the execution
      request is visible.
    - A C++ call either returns, throws, or leaves the behaviour undefined
      (out-of-range span, vector index past the end, null dereference):
      the three constructors of [outcome]. An object is not followed past
      an exception that leaves it half updated.
    - [assert]s are checks of debug builds only; they are recorded in
      comments and, where a property depends on them, proved to hold.
    - [OrtValue::CreateTensor] is not among the sources; it is taken to
      return a tensor (the allocator always has memory). Where a property
      says that an operation returns, that is with its allocations
      succeeding. *)

From stdpp Require Import base numbers list strings pretty.
From Stdlib Require Import ZArith Lia.
From Stdlib.Strings Require Import Ascii Byte.

Local Open Scope Z_scope.

(** ** Outcomes of a C++ call *)

Inductive hresult := E_OUTOFMEMORY | E_FAIL.

Inductive error :=
  | runtime_error (what : string)
  | hresult_error (hr : hresult).

Inductive outcome (A : Type) :=
  | Ok (a : A)
  | Throw (e : error)
  | Undefined.
Arguments Ok {A} a.
Arguments Throw {A} e.
Arguments Undefined {A}.

(** The monad of outcomes, with stdpp's [x ← m; k] notation. *)
Global Instance outcome_ret : MRet outcome := fun A a => Ok a.
Global Instance outcome_bind : MBind outcome := fun A B k m =>
  match m with
  | Ok a => k a
  | Throw e => Throw e
  | Undefined => Undefined
  end.
Global Instance outcome_fmap : FMap outcome := fun A B f m =>
  match m with
  | Ok a => Ok (f a)
  | Throw e => Throw e
  | Undefined => Undefined
  end.

Definition is_Ok {A} (m : outcome A) : Prop := exists a, m = Ok a.
Definition is_Throw {A} (m : outcome A) : Prop := exists e, m = Throw e.

(** [v[i]] and [v[i] = x] on a [std::vector]: past the end the behaviour is
    undefined. *)
Definition vec_get {A} (v : list A) (i : nat) : outcome A :=
  match v !! i with
  | Some x => Ok x
  | None => Undefined
  end.

Definition vec_set {A} (v : list A) (i : nat) (x : A) : outcome (list A) :=
  if decide (i < length v)%nat then Ok (<[i := x]> v) else Undefined.

(** [*p] on a [unique_ptr]: null is undefined behaviour. *)
Definition deref {A} (p : option A) : outcome A :=
  match p with
  | Some x => Ok x
  | None => Undefined
  end.

(** ** Byte buffers and spans *)

Definition in_range (len off cnt : Z) : bool :=
  (0 <=? off) && (0 <=? cnt) && (off + cnt <=? len).

(** Reading [cnt] bytes at byte offset [off] of an allocation. *)
Definition read_bytes (buf : list byte) (off cnt : Z) : outcome (list byte) :=
  if in_range (Z.of_nat (length buf)) off cnt
  then Ok (take (Z.to_nat cnt) (drop (Z.to_nat off) buf))
  else Undefined.

(** Overwriting the bytes at byte offset [off] of an allocation with [src]. *)
Definition write_bytes (buf : list byte) (off : Z) (src : list byte)
  : outcome (list byte) :=
  if in_range (Z.of_nat (length buf)) off (Z.of_nat (length src))
  then Ok (take (Z.to_nat off) buf ++ src
           ++ drop (Z.to_nat off + length src) buf)
  else Undefined.

(** A [std::span<T>] into an allocation: where [data()] lies in the
    allocation (in bytes) and [size()] (in elements). *)
Record span := Span { span_data : Z; span_size : Z }.

(** [s.subspan(offset, count)] for a span of elements of [sz] bytes. The
    arguments are [size_t]: a negative [int64_t] converts to a value above
    every extent. The standard requires [offset <= size()] and
    [count <= size() - offset]. *)
Definition subspan (sz : Z) (s : span) (offset count : Z) : outcome span :=
  if in_range (span_size s) offset count
  then Ok (Span (span_data s + offset * sz) count)
  else Undefined.

(** [copy(source, dest)] of smartptrs.h, and the [cudaMemcpyAsync] of the
    same bytes: [std::copy(source.begin(), source.end(), dest.begin())]
    between two different allocations.
    (smartptrs.h: [assert(source.size() == dest.size())].) *)
Definition copy (sz : Z) (src_buf : list byte) (source : span)
    (dst_buf : list byte) (dest : span) : outcome (list byte) :=
  bytes ← read_bytes src_buf (span_data source) (span_size source * sz);
  write_bytes dst_buf (span_data dest) bytes.

(** [std::copy] inside one allocation, first element first (the ranges of
    [Slide] overlap, with the destination before the source). *)
Fixpoint std_copy_within (n : nat) (buf : list byte) (src dst : nat)
  : outcome (list byte) :=
  match n with
  | O => Ok buf
  | S n' =>
      match buf !! src with
      | Some b =>
          buf' ← vec_set buf dst b;
          std_copy_within n' buf' (S src) (S dst)
      | None => Undefined
      end
  end.

(** The bytes [off, off+cnt) of a buffer, as a plain slice (used to state
    properties of contents). *)
Definition slice (buf : list byte) (off cnt : Z) : list byte :=
  take (Z.to_nat cnt) (drop (Z.to_nat off) buf).

(** ** Tensors *)

(** The numeric members of [ONNXTensorElementDataType] (onnxruntime C API). *)
Inductive ONNXTensorElementDataType :=
  | FLOAT | UINT8 | INT8 | UINT16 | INT16 | INT32 | INT64 | BOOL
  | FLOAT16 | DOUBLE | UINT32 | UINT64 | BFLOAT16.

Global Instance ONNXTensorElementDataType_eq_dec :
  EqDecision ONNXTensorElementDataType.
Proof. solve_decision. Defined.

(** The enumerators' values, as [std::to_string(type_)] prints them. *)
Definition type_code (ty : ONNXTensorElementDataType) : Z :=
  match ty with
  | FLOAT => 1 | UINT8 => 2 | INT8 => 3 | UINT16 => 4 | INT16 => 5
  | INT32 => 6 | INT64 => 7 | BOOL => 9 | FLOAT16 => 10 | DOUBLE => 11
  | UINT32 => 12 | UINT64 => 13 | BFLOAT16 => 16
  end.

(** Modelled from the spec: [SizeOf] is defined outside kv_cache.cpp; it is
    the byte width of one element (32-bit float: 4, half-precision
    float: 2, byte-typed sliding-window storage: 1, and the C++ widths of
    the other types). *)
Definition SizeOf (ty : ONNXTensorElementDataType) : Z :=
  match ty with
  | UINT8 | INT8 | BOOL => 1
  | UINT16 | INT16 | FLOAT16 | BFLOAT16 => 2
  | FLOAT | INT32 | UINT32 => 4
  | INT64 | DOUBLE | UINT64 => 8
  end.

(** [Ort::TypeToTensorType<float>] and [Ort::TypeToTensorType<Ort::Float16_t>]. *)
Definition TypeToTensorType_float := FLOAT.
Definition TypeToTensorType_Float16_t := FLOAT16.

(** An [OrtValue] holding a tensor. [ov_id] is the identity of the object:
    what a raw [OrtValue*] compares by. *)
Record OrtValue := {
  ov_id : nat;
  ov_type : ONNXTensorElementDataType;
  ov_shape : list Z;
  ov_data : list byte;
}.

(** [p.get()] of a [unique_ptr<OrtValue>]: [None] is [nullptr]. *)
Definition get (p : option OrtValue) : option nat := ov_id <$> p.

(** [std::accumulate(shape.begin(), shape.end(), int64_t{1}, multiplies)]. *)
Definition ElementCountFromShape (shape : list Z) : Z :=
  fold_left Z.mul shape 1.

(** The allocator hands out tensors nobody else holds. The memory of a new
    tensor is not initialised: [alloc_fill] stands for whatever bytes it
    happens to hold. Allocation failure is not modelled. *)
Record Allocator := {
  alloc_next : nat;
  alloc_fill : nat -> nat -> byte;
}.

(** [OrtValue::CreateTensor(allocator, shape, type)], also
    [CreateTensor<T>(allocator, shape)] and [CreateTensorOnStaticBuffer].
    The function is not among the sources: here it always returns a new
    tensor, and no property below is about what it does when memory runs
    out or a dimension is negative. *)
Definition CreateTensor (a : Allocator) (shape : list Z)
    (ty : ONNXTensorElementDataType) : OrtValue * Allocator :=
  let n := Z.to_nat (SizeOf ty * ElementCountFromShape shape) in
  ({| ov_id := alloc_next a; ov_type := ty; ov_shape := shape;
      ov_data := alloc_fill a (alloc_next a) <$> seq 0 n |},
   {| alloc_next := S (alloc_next a); alloc_fill := alloc_fill a |}).

(** [std::fill_n] / [memset] over the whole tensor. *)
Definition fill_tensor (v : OrtValue) (b : byte) : OrtValue :=
  {| ov_id := ov_id v; ov_type := ov_type v; ov_shape := ov_shape v;
     ov_data := replicate (length (ov_data v)) b |}.

Definition with_data (v : OrtValue) (data : list byte) : OrtValue :=
  {| ov_id := ov_id v; ov_type := ov_type v; ov_shape := ov_shape v;
     ov_data := data |}.

(** [static_cast<uint8_t>(int)]. *)
Definition uint8_of_int (z : Z) : byte :=
  default x00 (Byte.of_N (Z.to_N (z mod 256))).

(** ** Slot names *)

Definition NUL : ascii := Ascii.zero.

(** [snprintf(buf, n, fmt, index)] with one [int] argument, as far as the
    slot-name templates need it: ordinary characters, [%%], and one [%d]
    (or [%i]) that prints the argument in decimal. The format ends at its
    first NUL ([c_str()]). A second conversion has no argument left, and a
    conversion that is not modelled counts the same: undefined.
    The result is the text that would be written were the buffer large
    enough; its length is what [snprintf] returns. *)
Fixpoint vformat (fmt : string) (arg : option Z) : outcome string :=
  match fmt with
  | EmptyString => Ok EmptyString
  | String c rest =>
      if decide (c = NUL) then Ok EmptyString
      else if decide (c = "%"%char) then
        match rest with
        | String c' rest' =>
            if decide (c' = "%"%char) then String "%" <$> vformat rest' arg
            else if decide (c' = "d"%char \/ c' = "i"%char) then
              match arg with
              | Some n => (fun s => pretty n +:+ s) <$> vformat rest' None
              | None => Undefined
              end
            else Undefined
        | EmptyString => Undefined
        end
      else String c <$> vformat rest arg
  end.

Definition KeyValueNameLength : Z := 64.

Definition ComposeKeyValueName (template_string : string) (index : Z)
  : outcome string :=
  name ← vformat template_string (Some index);
  let length := Z.of_nat (String.length name) in
  if decide (length < 0 \/ length >= KeyValueNameLength) then
    Throw (runtime_error
      ("Unable to compose key value name from the provided template "
       +:+ template_string
       +:+ ". This could be either due to an encoding error or the name being too long."))
  else Ok name.

(** ** Configuration, session and execution state *)

Record SlidingWindowConfig := {
  window_size : Z;
  pad_value : Z;
}.

(** [model_.config_->model]: the fields the caches read. Name templates of
    [decoder.inputs] and [decoder.outputs] keep their names. The layer
    count is a count ([nat]); the other integers are [int]s. *)
Record Config := {
  model_type : string;
  context_length : Z;
  num_hidden_layers : nat;
  num_key_value_heads : Z;
  head_size : Z;
  past_names : string;
  past_key_names : string;
  past_value_names : string;
  cross_past_key_names : string;
  cross_past_value_names : string;
  present_names : string;
  present_key_names : string;
  present_value_names : string;
  cross_present_key_names : string;
  cross_present_value_names : string;
  sliding_window_key_value_cache : option SlidingWindowConfig;
}.

(** [state_.params_]: generator parameters, with [search] flattened. *)
Record GeneratorParams := {
  batch_size : Z;
  sequence_length : Z;
  num_beams : Z;
  max_length : Z;
  past_present_share_buffer : bool;
}.

(** Modelled from the spec: [BatchBeamSize] is defined outside kv_cache.cpp;
    the batch dimension is [batch_size × beam_width]. *)
Definition BatchBeamSize (p : GeneratorParams) : Z :=
  num_beams p * batch_size p.

Inductive DeviceType := CPU | CUDA | DML.

(** The global [g_log]. *)
Record LogItems := {
  log_enabled : bool;
  log_warning : bool;
}.

(** [model_]: configuration, the inputs the session declares with their
    element types, and the device (a CUDA device means a build with
    [USE_CUDA]). *)
Record Model := {
  config_ : Config;
  session_inputs : list (string * ONNXTensorElementDataType);
  device_type_ : DeviceType;
}.

(** Modelled from the spec: [SessionInfo::GetInputDataType] is defined
    outside kv_cache.cpp; it gives the element type the execution
    collaborator declares for the named input, and fails when there is no
    such input. *)
Definition GetInputDataType (m : Model) (name : string)
  : outcome ONNXTensorElementDataType :=
  match list_find (fun e => e.1 = name) (session_inputs m) with
  | Some (_, (_, ty)) => Ok ty
  | None => Throw (runtime_error ("Model input was not found: " +:+ name))
  end.

Definition HasInput (m : Model) (name : string) : bool :=
  bool_decide (is_Some (list_find (fun e => e.1 = name) (session_inputs m))).

(** [state_]: the named tensor slots of the execution request. A slot holds
    a raw [OrtValue*]. [captured_graph_info] is what
    [GetCapturedGraphInfo()] returns: the static buffers of a captured
    graph, if there is one. *)
Record State := {
  params_ : GeneratorParams;
  inputs_ : list (option nat);
  input_names_ : list string;
  outputs_ : list (option nat);
  output_names_ : list string;
  captured_graph_info : option (list nat);
}.

Definition push_input (st : State) (v : option nat) (name : string) : State :=
  {| params_ := params_ st;
     inputs_ := inputs_ st ++ [v]; input_names_ := input_names_ st ++ [name];
     outputs_ := outputs_ st; output_names_ := output_names_ st;
     captured_graph_info := captured_graph_info st |}.

Definition push_output (st : State) (v : option nat) (name : string) : State :=
  {| params_ := params_ st;
     inputs_ := inputs_ st; input_names_ := input_names_ st;
     outputs_ := outputs_ st ++ [v]; output_names_ := output_names_ st ++ [name];
     captured_graph_info := captured_graph_info st |}.

(** [state_.inputs_[i] = v] and [state_.outputs_[i] = v]. *)
Definition set_input (st : State) (i : nat) (v : option nat) : outcome State :=
  l ← vec_set (inputs_ st) i v;
  Ok {| params_ := params_ st;
        inputs_ := l; input_names_ := input_names_ st;
        outputs_ := outputs_ st; output_names_ := output_names_ st;
        captured_graph_info := captured_graph_info st |}.

Definition set_output (st : State) (i : nat) (v : option nat) : outcome State :=
  l ← vec_set (outputs_ st) i v;
  Ok {| params_ := params_ st;
        inputs_ := inputs_ st; input_names_ := input_names_ st;
        outputs_ := l; output_names_ := output_names_ st;
        captured_graph_info := captured_graph_info st |}.

(** [for (int i = 0; i < n; ++i) body(i)] over a threaded state. *)
Fixpoint for_loop {St : Type} (n : nat) (i : nat)
    (body : nat -> St -> outcome St) (s : St) : outcome St :=
  match n with
  | O => Ok s
  | S n' => s' ← body i s; for_loop n' (S i) body s'
  end.

(** [cudaMemcpyAsync(dst, src, count, cudaMemcpyDeviceToDevice, stream)]:
    the same bytes as [copy] moves, queued on the stream. *)
Definition cudaMemcpyAsync (dst_buf : list byte) (dst : span)
    (src_buf : list byte) (src : span) (size_bytes : Z)
  : outcome (list byte) :=
  bytes ← read_bytes src_buf (span_data src) size_bytes;
  write_bytes dst_buf (span_data dst) bytes.

(** [span.size_bytes()]. *)
Definition size_bytes (sz : Z) (s : span) : Z := span_size s * sz.

(** ** Combined KV cache: one tensor per layer, key and value along axis 0 *)

Module KV_Cache_Combined.

Record t := {
  layer_count_ : nat;
  shape_ : list Z;  (* std::array<int64_t, 5> *)
  type_ : ONNXTensorElementDataType;
  empty_past_ : option OrtValue;
  pasts_ : list (option OrtValue);
  presents_ : list (option OrtValue);
  input_name_strings_ : list string;
  output_name_strings_ : list string;
  input_index_ : nat;
  output_index_ : nat;
}.

Definition set_shape_ (c : t) (shape : list Z) : t :=
  {| layer_count_ := layer_count_ c; shape_ := shape; type_ := type_ c;
     empty_past_ := empty_past_ c; pasts_ := pasts_ c;
     presents_ := presents_ c;
     input_name_strings_ := input_name_strings_ c;
     output_name_strings_ := output_name_strings_ c;
     input_index_ := input_index_ c; output_index_ := output_index_ c |}.

Definition set_pasts_ (c : t) (pasts : list (option OrtValue)) : t :=
  {| layer_count_ := layer_count_ c; shape_ := shape_ c; type_ := type_ c;
     empty_past_ := empty_past_ c; pasts_ := pasts;
     presents_ := presents_ c;
     input_name_strings_ := input_name_strings_ c;
     output_name_strings_ := output_name_strings_ c;
     input_index_ := input_index_ c; output_index_ := output_index_ c |}.

Definition set_presents_ (c : t) (presents : list (option OrtValue)) : t :=
  {| layer_count_ := layer_count_ c; shape_ := shape_ c; type_ := type_ c;
     empty_past_ := empty_past_ c; pasts_ := pasts_ c;
     presents_ := presents;
     input_name_strings_ := input_name_strings_ c;
     output_name_strings_ := output_name_strings_ c;
     input_index_ := input_index_ c; output_index_ := output_index_ c |}.

Definition set_indices_ (c : t) (input_index output_index : nat) : t :=
  {| layer_count_ := layer_count_ c; shape_ := shape_ c; type_ := type_ c;
     empty_past_ := empty_past_ c; pasts_ := pasts_ c;
     presents_ := presents_ c;
     input_name_strings_ := input_name_strings_ c;
     output_name_strings_ := output_name_strings_ c;
     input_index_ := input_index; output_index_ := output_index |}.

(** The constructor [KV_Cache_Combined::KV_Cache_Combined(State&)]. *)
Definition KV_Cache_Combined (m : Model) (st : State) (a : Allocator)
  : outcome (t * Allocator) :=
  let cfg := config_ m in
  let layer_count := num_hidden_layers cfg in
  let shape := [2; BatchBeamSize (params_ st); num_key_value_heads cfg; 0;
                head_size cfg] in
  let pasts := replicate layer_count None in
  names ← for_loop layer_count 0 (fun i names =>
    input_name ← ComposeKeyValueName (past_names cfg) (Z.of_nat i);
    output_name ← ComposeKeyValueName (present_names cfg) (Z.of_nat i);
    Ok (names.1 ++ [input_name], names.2 ++ [output_name])) ([], []);
  (* Derive the KV data type from the KV input 0 *)
  name0 ← vec_get names.1 0;
  type ← GetInputDataType m name0;
  let '(empty_past, a) := CreateTensor a shape type in
  let shape := <[3%nat := sequence_length (params_ st)]> shape in
  r ← for_loop layer_count 0 (fun i r =>
    let '(v, a') := CreateTensor r.2 shape type in
    Ok (r.1 ++ [Some v], a')) ([], a);
  Ok ({| layer_count_ := layer_count; shape_ := shape; type_ := type;
         empty_past_ := Some empty_past; pasts_ := pasts; presents_ := r.1;
         input_name_strings_ := names.1; output_name_strings_ := names.2;
         input_index_ := 0; output_index_ := 0 |}, r.2).

Definition Add (c : t) (st : State) : outcome (t * State) :=
  let c := set_indices_ c (length (inputs_ st)) (length (outputs_ st)) in
  st ← for_loop (layer_count_ c) 0 (fun i st =>
    input_name ← vec_get (input_name_strings_ c) i;
    let st := push_input st (get (empty_past_ c)) input_name in
    present ← vec_get (presents_ c) i;
    output_name ← vec_get (output_name_strings_ c) i;
    Ok (push_output st (get present) output_name)) st;
  Ok (c, st).

(** The two loops of [PickPastState<ScoreType>]: [j] counts the
    destination beam rows, [beam_indices] is what is left of the list. *)
Fixpoint PickPastState_loop_cuda (sz block_size_per_beam past_key_size : Z)
    (present_span past_span : span) (present_buf : list byte)
    (j : Z) (beam_indices : list Z) (past_buf : list byte)
  : outcome (list byte) :=
  match beam_indices with
  | [] => Ok past_buf
  | beam_index :: rest =>
      present_key ← subspan sz present_span
        (beam_index * block_size_per_beam) block_size_per_beam;
      present_value ← subspan sz present_span
        (past_key_size + beam_index * block_size_per_beam) block_size_per_beam;
      past_key ← subspan sz past_span
        (j * block_size_per_beam) block_size_per_beam;
      past_value ← subspan sz past_span
        (past_key_size + j * block_size_per_beam) block_size_per_beam;
      past_buf ← cudaMemcpyAsync past_buf past_key present_buf present_key
        (size_bytes sz present_key);
      past_buf ← cudaMemcpyAsync past_buf past_value present_buf present_value
        (size_bytes sz present_value);
      PickPastState_loop_cuda sz block_size_per_beam past_key_size
        present_span past_span present_buf (j + 1) rest past_buf
  end.

Fixpoint PickPastState_loop (sz block_size_per_beam past_key_size : Z)
    (present_span past_span : span) (present_buf : list byte)
    (j : Z) (beam_indices : list Z) (past_buf : list byte)
  : outcome (list byte) :=
  match beam_indices with
  | [] => Ok past_buf
  | beam_index :: rest =>
      present_key ← subspan sz present_span
        (beam_index * block_size_per_beam) block_size_per_beam;
      present_value ← subspan sz present_span
        (past_key_size + beam_index * block_size_per_beam) block_size_per_beam;
      past_key ← subspan sz past_span
        (j * block_size_per_beam) block_size_per_beam;
      past_value ← subspan sz past_span
        (past_key_size + j * block_size_per_beam) block_size_per_beam;
      past_buf ← copy sz present_buf present_key past_buf past_key;
      past_buf ← copy sz present_buf present_value past_buf past_value;
      PickPastState_loop sz block_size_per_beam past_key_size
        present_span past_span present_buf (j + 1) rest past_buf
  end.

(** [PickPastState<ScoreType>]: copy present state to past state reordered
    by the beam indices. *)
Definition PickPastState_T (ScoreType : ONNXTensorElementDataType)
    (m : Model) (c : t) (a : Allocator) (beam_indices : list Z) (index : nat)
  : outcome (t * Allocator) :=
  let sz := SizeOf ScoreType in
  let block_size_per_beam :=
    shape_ c !!! 2%nat * shape_ c !!! 3%nat * shape_ c !!! 4%nat in
  let past_key_size := shape_ c !!! 1%nat * block_size_per_beam in
  let element_count := shape_ c !!! 0%nat * past_key_size in
  p ← vec_get (presents_ c) index;
  present ← deref p;
  let '(past, a) := CreateTensor a (shape_ c) ScoreType in
  let past_span := Span 0 element_count in
  let present_span := Span 0 element_count in
  data ←
    match device_type_ m with
    | CUDA =>
        PickPastState_loop_cuda sz block_size_per_beam past_key_size
          present_span past_span (ov_data present) 0 beam_indices (ov_data past)
    | _ =>
        PickPastState_loop sz block_size_per_beam past_key_size
          present_span past_span (ov_data present) 0 beam_indices (ov_data past)
    end;
  pasts ← vec_set (pasts_ c) index (Some (with_data past data));
  Ok (set_pasts_ c pasts, a).

Definition PickPastState (m : Model) (c : t) (a : Allocator)
    (beam_indices : list Z) (index : nat) : outcome (t * Allocator) :=
  if decide (type_ c = TypeToTensorType_float) then
    PickPastState_T TypeToTensorType_float m c a beam_indices index
  else
    PickPastState_T TypeToTensorType_Float16_t m c a beam_indices index.

(** [Update(beam_indices, current_length)].
    ([assert(num_beams == 1 || !beam_indices.empty())]: beam indices are
    required in a beam search.) *)
Definition Update (m : Model) (c : t) (st : State) (a : Allocator)
    (beam_indices : list Z) (current_length : Z)
  : outcome (t * State * Allocator) :=
  r ← for_loop (layer_count_ c) 0 (fun i r =>
    let c := r.1 in
    if decide (beam_indices = []) then
      present ← vec_get (presents_ c) i;
      pasts ← vec_set (pasts_ c) i present;
      presents ← vec_set (presents_ c) i None;
      Ok (set_presents_ (set_pasts_ c pasts) presents, r.2)
    else PickPastState m c r.2 beam_indices i) (c, a);
  let c := set_shape_ r.1 (<[3%nat := current_length]> (shape_ r.1)) in
  for_loop (layer_count_ c) 0 (fun i r =>
    let '(c, st, a) := r in
    let '(v, a) := CreateTensor a (shape_ c) (type_ c) in
    presents ← vec_set (presents_ c) i (Some v);
    let c := set_presents_ c presents in
    past ← vec_get (pasts_ c) i;
    st ← set_input st (input_index_ c + i) (get past);
    present ← vec_get (presents_ c) i;
    st ← set_output st (output_index_ c + i) (get present);
    Ok (c, st, a)) (c, st, r.2).

End KV_Cache_Combined.

(** ** Split KV cache: separate key and value tensors, optional shared buffer *)

Module KV_Cache.

Record t := {
  layer_count_ : nat;
  past_present_share_buffer_ : bool;
  shape_ : list Z;  (* std::array<int64_t, 4> *)
  type_ : ONNXTensorElementDataType;
  empty_past_ : option OrtValue;
  pasts_ : list (option OrtValue);
  presents_ : list (option OrtValue);
  sb_kv_caches_ : list nat;
  input_name_strings_ : list string;
  output_name_strings_ : list string;
  input_index_ : nat;
  output_index_ : nat;
}.

Definition set_shape_ (c : t) (shape : list Z) : t :=
  {| layer_count_ := layer_count_ c;
     past_present_share_buffer_ := past_present_share_buffer_ c;
     shape_ := shape; type_ := type_ c;
     empty_past_ := empty_past_ c; pasts_ := pasts_ c;
     presents_ := presents_ c; sb_kv_caches_ := sb_kv_caches_ c;
     input_name_strings_ := input_name_strings_ c;
     output_name_strings_ := output_name_strings_ c;
     input_index_ := input_index_ c; output_index_ := output_index_ c |}.

Definition set_pasts_ (c : t) (pasts : list (option OrtValue)) : t :=
  {| layer_count_ := layer_count_ c;
     past_present_share_buffer_ := past_present_share_buffer_ c;
     shape_ := shape_ c; type_ := type_ c;
     empty_past_ := empty_past_ c; pasts_ := pasts;
     presents_ := presents_ c; sb_kv_caches_ := sb_kv_caches_ c;
     input_name_strings_ := input_name_strings_ c;
     output_name_strings_ := output_name_strings_ c;
     input_index_ := input_index_ c; output_index_ := output_index_ c |}.

Definition set_presents_ (c : t) (presents : list (option OrtValue)) : t :=
  {| layer_count_ := layer_count_ c;
     past_present_share_buffer_ := past_present_share_buffer_ c;
     shape_ := shape_ c; type_ := type_ c;
     empty_past_ := empty_past_ c; pasts_ := pasts_ c;
     presents_ := presents; sb_kv_caches_ := sb_kv_caches_ c;
     input_name_strings_ := input_name_strings_ c;
     output_name_strings_ := output_name_strings_ c;
     input_index_ := input_index_ c; output_index_ := output_index_ c |}.

Definition set_indices_ (c : t) (input_index output_index : nat) : t :=
  {| layer_count_ := layer_count_ c;
     past_present_share_buffer_ := past_present_share_buffer_ c;
     shape_ := shape_ c; type_ := type_ c;
     empty_past_ := empty_past_ c; pasts_ := pasts_ c;
     presents_ := presents_ c; sb_kv_caches_ := sb_kv_caches_ c;
     input_name_strings_ := input_name_strings_ c;
     output_name_strings_ := output_name_strings_ c;
     input_index_ := input_index; output_index_ := output_index |}.

Definition IsCacheNeeded (m : Model) : outcome bool :=
  name ← ComposeKeyValueName (past_key_names (config_ m)) 0;
  Ok (HasInput m name).

Definition share_buffer_warning : string * string :=
  ("warning",
   "past_present_share_buffer search option set to true, but has been disabled due to the current configuration. See https://aka.ms/generate_config for details").

(** The constructor [KV_Cache::KV_Cache(State&)]. Besides the cache and the
    allocator it returns what was written to the log.
    ([assert(past_present_share_buffer_)] when there is a captured graph.) *)
Definition KV_Cache (g_log : LogItems) (m : Model) (st : State) (a : Allocator)
  : outcome (t * Allocator * list (string * string)) :=
  let cfg := config_ m in
  let layer_count := num_hidden_layers cfg in
  let share_buffer :=
    past_present_share_buffer (params_ st)
    && (bool_decide (num_beams (params_ st) = 1)
        || bool_decide (model_type cfg = "whisper")) in
  let shape := [BatchBeamSize (params_ st); num_key_value_heads cfg; 0;
                head_size cfg] in
  let log :=
    if log_enabled g_log && log_warning g_log
       && negb (Bool.eqb share_buffer (past_present_share_buffer (params_ st)))
    then [share_buffer_warning] else [] in
  let pasts := replicate (layer_count * 2)%nat None in
  names ← for_loop layer_count 0 (fun i names =>
    past_key ← ComposeKeyValueName (past_key_names cfg) (Z.of_nat i);
    past_value ← ComposeKeyValueName (past_value_names cfg) (Z.of_nat i);
    present_key ← ComposeKeyValueName (present_key_names cfg) (Z.of_nat i);
    present_value ← ComposeKeyValueName (present_value_names cfg) (Z.of_nat i);
    Ok (names.1 ++ [past_key; past_value],
        names.2 ++ [present_key; present_value])) ([], []);
  (* Derive the KV data type from the KV input 0 *)
  name0 ← vec_get names.1 0;
  type ← GetInputDataType m name0;
  let '(empty_past, a) := CreateTensor a shape type in
  (* Set the size after empty_past_ has been created with 0 for this field *)
  let shape :=
    if share_buffer then <[2%nat := max_length (params_ st)]> shape
    else <[2%nat := sequence_length (params_ st)]> shape in
  sb_kv_caches ←
    match captured_graph_info st with
    | Some buffers =>
        for_loop (layer_count * 2)%nat 0 (fun i sb =>
          b ← vec_get buffers i; Ok (sb ++ [b])) []
    | None => Ok []
    end;
  r ← for_loop (layer_count * 2)%nat 0 (fun i r =>
    v ← (if decide (sb_kv_caches = []) then Ok (CreateTensor r.2 shape type)
         else _ ← vec_get sb_kv_caches i; Ok (CreateTensor r.2 shape type));
    (* memset / cudaMemsetAsync of kv_cache_size_bytes zeros *)
    Ok (r.1 ++ [Some (fill_tensor v.1 x00)], v.2)) ([], a);
  Ok ({| layer_count_ := layer_count;
         past_present_share_buffer_ := share_buffer;
         shape_ := shape; type_ := type;
         empty_past_ := Some empty_past; pasts_ := pasts; presents_ := r.1;
         sb_kv_caches_ := sb_kv_caches;
         input_name_strings_ := names.1; output_name_strings_ := names.2;
         input_index_ := 0; output_index_ := 0 |}, r.2, log).

Definition AddEncoder (c : t) (st : State) : outcome State :=
  for_loop (layer_count_ c * 2)%nat 0 (fun i st =>
    present ← vec_get (presents_ c) i;
    output_name ← vec_get (output_name_strings_ c) i;
    Ok (push_output st (get present) output_name)) st.

Definition Add (c : t) (st : State) : outcome (t * State) :=
  let c := set_indices_ c (length (inputs_ st)) (length (outputs_ st)) in
  st ← for_loop (layer_count_ c * 2)%nat 0 (fun i st =>
    (* Set empty past here, AddEncoder() & Update() take care of the rest *)
    input_name ← vec_get (input_name_strings_ c) i;
    let st := push_input st (get (empty_past_ c)) input_name in
    present ← vec_get (presents_ c) i;
    output_name ← vec_get (output_name_strings_ c) i;
    Ok (push_output st (get present) output_name)) st;
  (* For shared_past_present, the past & presents never change, so set the
     inputs to the present values (outputs are already set above) *)
  st ←
    (if past_present_share_buffer_ c then
       for_loop (layer_count_ c * 2)%nat 0 (fun i st =>
         present ← vec_get (presents_ c) i;
         set_input st (input_index_ c + i) (get present)) st
     else Ok st);
  Ok (c, st).

Fixpoint PickPastState_loop_cuda (sz block_size_per_beam : Z)
    (present_span past_span : span) (present_buf : list byte)
    (j : Z) (beam_indices : list Z) (past_buf : list byte)
  : outcome (list byte) :=
  match beam_indices with
  | [] => Ok past_buf
  | beam_index :: rest =>
      present ← subspan sz present_span
        (beam_index * block_size_per_beam) block_size_per_beam;
      past ← subspan sz past_span
        (j * block_size_per_beam) block_size_per_beam;
      past_buf ← cudaMemcpyAsync past_buf past present_buf present
        (size_bytes sz present);
      PickPastState_loop_cuda sz block_size_per_beam present_span past_span
        present_buf (j + 1) rest past_buf
  end.

Fixpoint PickPastState_loop (sz block_size_per_beam : Z)
    (present_span past_span : span) (present_buf : list byte)
    (j : Z) (beam_indices : list Z) (past_buf : list byte)
  : outcome (list byte) :=
  match beam_indices with
  | [] => Ok past_buf
  | beam_index :: rest =>
      present ← subspan sz present_span
        (beam_index * block_size_per_beam) block_size_per_beam;
      past ← subspan sz past_span
        (j * block_size_per_beam) block_size_per_beam;
      past_buf ← copy sz present_buf present past_buf past;
      PickPastState_loop sz block_size_per_beam present_span past_span
        present_buf (j + 1) rest past_buf
  end.

(** [PickPastState<ScoreType>]: copy present state to past state reordered
    by the beam indices. *)
Definition PickPastState_T (ScoreType : ONNXTensorElementDataType)
    (m : Model) (c : t) (a : Allocator) (beam_indices : list Z) (index : nat)
  : outcome (t * Allocator) :=
  let sz := SizeOf ScoreType in
  let block_size_per_beam :=
    shape_ c !!! 1%nat * shape_ c !!! 2%nat * shape_ c !!! 3%nat in
  let element_count := shape_ c !!! 0%nat * block_size_per_beam in
  p ← vec_get (presents_ c) index;
  present_value ← deref p;
  let '(past_value, a) := CreateTensor a (shape_ c) ScoreType in
  let past_span := Span 0 element_count in
  let present_span := Span 0 element_count in
  data ←
    match device_type_ m with
    | CUDA =>
        PickPastState_loop_cuda sz block_size_per_beam present_span past_span
          (ov_data present_value) 0 beam_indices (ov_data past_value)
    | _ =>
        PickPastState_loop sz block_size_per_beam present_span past_span
          (ov_data present_value) 0 beam_indices (ov_data past_value)
    end;
  pasts ← vec_set (pasts_ c) index (Some (with_data past_value data));
  Ok (set_pasts_ c pasts, a).

Definition PickPastState (m : Model) (c : t) (a : Allocator)
    (beam_indices : list Z) (index : nat) : outcome (t * Allocator) :=
  if decide (type_ c = TypeToTensorType_float) then
    PickPastState_T TypeToTensorType_float m c a beam_indices index
  else
    PickPastState_T TypeToTensorType_Float16_t m c a beam_indices index.

Definition Update (m : Model) (c : t) (st : State) (a : Allocator)
    (beam_indices : list Z) (current_length : Z)
  : outcome (t * State * Allocator) :=
  (* If we're sharing past & present buffers there is nothing to do here,
     so early exit *)
  if past_present_share_buffer_ c then Ok (c, st, a)
  else
    r ← for_loop (layer_count_ c * 2)%nat 0 (fun i r =>
      let '(c, st, a) := r in
      ca ← (if decide (beam_indices = []) then
              present ← vec_get (presents_ c) i;
              pasts ← vec_set (pasts_ c) i present;
              presents ← vec_set (presents_ c) i None;
              Ok (set_presents_ (set_pasts_ c pasts) presents, a)
            else PickPastState m c a beam_indices i);
      past ← vec_get (pasts_ ca.1) i;
      st ← set_input st (input_index_ ca.1 + i) (get past);
      Ok (ca.1, st, ca.2)) (c, st, a);
    let '(c, st, a) := r in
    let c := set_shape_ c (<[2%nat := current_length]> (shape_ c)) in
    for_loop (layer_count_ c * 2)%nat 0 (fun i r =>
      let '(c, st, a) := r in
      let '(v, a) := CreateTensor a (shape_ c) (type_ c) in
      presents ← vec_set (presents_ c) i (Some v);
      let c := set_presents_ c presents in
      present ← vec_get (presents_ c) i;
      st ← set_output st (output_index_ c + i) (get present);
      Ok (c, st, a)) (c, st, a).

End KV_Cache.

(** ** Cross-attention cache *)

Module Cross_Cache.

Record t := {
  layer_count_ : nat;
  shape_ : list Z;
  type_ : ONNXTensorElementDataType;
  values_ : list (option OrtValue);
  input_name_strings_ : list string;
  output_name_strings_ : list string;
}.

Definition Cross_Cache (m : Model) (st : State) (a : Allocator)
  : outcome (t * Allocator) :=
  let cfg := config_ m in
  let layer_count := num_hidden_layers cfg in
  let shape := [BatchBeamSize (params_ st); num_key_value_heads cfg; 1500;
                head_size cfg] in
  names ← for_loop layer_count 0 (fun i names =>
    past_key ← ComposeKeyValueName (cross_past_key_names cfg) (Z.of_nat i);
    past_value ← ComposeKeyValueName (cross_past_value_names cfg) (Z.of_nat i);
    present_key ←
      ComposeKeyValueName (cross_present_key_names cfg) (Z.of_nat i);
    present_value ←
      ComposeKeyValueName (cross_present_value_names cfg) (Z.of_nat i);
    Ok (names.1 ++ [past_key; past_value],
        names.2 ++ [present_key; present_value])) ([], []);
  (* Derive the KV data type from the KV input 0 *)
  name0 ← vec_get names.1 0;
  type ← GetInputDataType m name0;
  r ← for_loop layer_count 0 (fun i r =>
    let '(v1, a) := CreateTensor r.2 shape type in
    let '(v2, a) := CreateTensor a shape type in
    Ok (r.1 ++ [Some v1; Some v2], a)) ([], a);
  Ok ({| layer_count_ := layer_count; shape_ := shape; type_ := type;
         values_ := r.1;
         input_name_strings_ := names.1; output_name_strings_ := names.2 |},
      r.2).

Definition AddOutputs (c : t) (st : State) : outcome State :=
  for_loop (layer_count_ c * 2)%nat 0 (fun i st =>
    v ← vec_get (values_ c) i;
    output_name ← vec_get (output_name_strings_ c) i;
    Ok (push_output st (get v) output_name)) st.

Definition AddInputs (c : t) (st : State) : outcome State :=
  for_loop (layer_count_ c * 2)%nat 0 (fun i st =>
    v ← vec_get (values_ c) i;
    input_name ← vec_get (input_name_strings_ c) i;
    Ok (push_input st (get v) input_name)) st.

End Cross_Cache.

(** ** Sliding-window KV cache *)

(** [cpu_span<uint8_t>(data + offset, size)] and
    [std::copy(src.begin(), src.end(), dst.begin())] between two tensors. *)
Definition std_copy (src_buf : list byte) (src : span)
    (dst_buf : list byte) (dst : span) : outcome (list byte) :=
  copy 1 src_buf src dst_buf dst.

(** The same inside one tensor. A negative size or offset is a [size_t] or
    an address outside the tensor. *)
Definition std_copy_same (buf : list byte) (src dst : span)
  : outcome (list byte) :=
  if decide (0 <= span_size src /\ 0 <= span_data src /\ 0 <= span_data dst)
  then std_copy_within (Z.to_nat (span_size src)) buf
         (Z.to_nat (span_data src)) (Z.to_nat (span_data dst))
  else Undefined.

Module SlidingWindowKeyValueCache.

Record t := {
  layer_count_ : nat;
  window_size_ : Z;
  key_cache_shape_in_ : list Z;
  key_cache_shape_out_ : list Z;
  value_cache_shape_in_ : list Z;
  value_cache_shape_out_ : list Z;
  type_ : ONNXTensorElementDataType;
  key_caches_in_ : list (option OrtValue);
  key_caches_out_ : list (option OrtValue);
  value_caches_in_ : list (option OrtValue);
  value_caches_out_ : list (option OrtValue);
  input_name_strings_ : list string;
  output_name_strings_ : list string;
  input_index_ : nat;
  output_index_ : nat;
}.

(** The four tensor vectors, as the loops over layers thread them. *)
Record caches := {
  c_key_in : list (option OrtValue);
  c_key_out : list (option OrtValue);
  c_value_in : list (option OrtValue);
  c_value_out : list (option OrtValue);
}.

Definition caches_of (c : t) : caches :=
  {| c_key_in := key_caches_in_ c; c_key_out := key_caches_out_ c;
     c_value_in := value_caches_in_ c; c_value_out := value_caches_out_ c |}.

Definition SlidingWindowKeyValueCache (m : Model) (st : State) (a : Allocator)
  : outcome (t * Allocator) :=
  let cfg := config_ m in
  let layer_count := num_hidden_layers cfg in
  sw ← deref (sliding_window_key_value_cache cfg);
  let window_size := window_size sw in
  let key_cache_shape_in :=
    [num_key_value_heads cfg; 1; head_size cfg;
     context_length cfg - window_size] in
  let key_cache_shape_out :=
    [num_key_value_heads cfg; 1; head_size cfg; window_size] in
  let value_cache_shape_in :=
    [num_key_value_heads cfg; 1; context_length cfg - window_size;
     head_size cfg] in
  let value_cache_shape_out :=
    [num_key_value_heads cfg; 1; window_size; head_size cfg] in
  names ← for_loop layer_count 0 (fun i names =>
    past_key ← ComposeKeyValueName (past_key_names cfg) (Z.of_nat i);
    past_value ← ComposeKeyValueName (past_value_names cfg) (Z.of_nat i);
    present_key ← ComposeKeyValueName (present_key_names cfg) (Z.of_nat i);
    present_value ← ComposeKeyValueName (present_value_names cfg) (Z.of_nat i);
    Ok (names.1 ++ [past_key; past_value],
        names.2 ++ [present_key; present_value])) ([], []);
  name0 ← vec_get names.1 0;
  type ← GetInputDataType m name0;
  if decide (type <> UINT8) then
    Throw (runtime_error
      ("Expected input data type to be uint8_t for SlidingWindowKeyValueCache. Actual: "
       +:+ pretty (type_code type)))
  else
    r ← for_loop layer_count 0 (fun i r =>
      let '(cs, a) := r in
      let '(key_in, a) := CreateTensor a key_cache_shape_in type in
      let key_in := fill_tensor key_in (uint8_of_int (pad_value sw)) in
      let '(value_in, a) := CreateTensor a value_cache_shape_in type in
      let value_in := fill_tensor value_in (uint8_of_int (pad_value sw)) in
      let '(key_out, a) := CreateTensor a key_cache_shape_out type in
      let '(value_out, a) := CreateTensor a value_cache_shape_out type in
      Ok ({| c_key_in := c_key_in cs ++ [Some key_in];
             c_key_out := c_key_out cs ++ [Some key_out];
             c_value_in := c_value_in cs ++ [Some value_in];
             c_value_out := c_value_out cs ++ [Some value_out] |}, a))
      ({| c_key_in := []; c_key_out := []; c_value_in := [];
          c_value_out := [] |}, a);
    Ok ({| layer_count_ := layer_count; window_size_ := window_size;
           key_cache_shape_in_ := key_cache_shape_in;
           key_cache_shape_out_ := key_cache_shape_out;
           value_cache_shape_in_ := value_cache_shape_in;
           value_cache_shape_out_ := value_cache_shape_out;
           type_ := type;
           key_caches_in_ := c_key_in r.1; key_caches_out_ := c_key_out r.1;
           value_caches_in_ := c_value_in r.1;
           value_caches_out_ := c_value_out r.1;
           input_name_strings_ := names.1; output_name_strings_ := names.2;
           input_index_ := 0; output_index_ := 0 |}, r.2).

Definition with_caches (c : t) (cs : caches) : t :=
  {| layer_count_ := layer_count_ c; window_size_ := window_size_ c;
     key_cache_shape_in_ := key_cache_shape_in_ c;
     key_cache_shape_out_ := key_cache_shape_out_ c;
     value_cache_shape_in_ := value_cache_shape_in_ c;
     value_cache_shape_out_ := value_cache_shape_out_ c;
     type_ := type_ c;
     key_caches_in_ := c_key_in cs; key_caches_out_ := c_key_out cs;
     value_caches_in_ := c_value_in cs; value_caches_out_ := c_value_out cs;
     input_name_strings_ := input_name_strings_ c;
     output_name_strings_ := output_name_strings_ c;
     input_index_ := input_index_ c; output_index_ := output_index_ c |}.

Definition Add (c : t) (st : State) : outcome (t * State) :=
  let input_index := length (inputs_ st) in
  let output_index := length (outputs_ st) in
  st ← for_loop (layer_count_ c) 0 (fun layer_idx st =>
    key_in ← vec_get (key_caches_in_ c) layer_idx;
    name ← vec_get (input_name_strings_ c) (2 * layer_idx);
    let st := push_input st (get key_in) name in
    value_in ← vec_get (value_caches_in_ c) layer_idx;
    name ← vec_get (input_name_strings_ c) (2 * layer_idx + 1);
    let st := push_input st (get value_in) name in
    key_out ← vec_get (key_caches_out_ c) layer_idx;
    name ← vec_get (output_name_strings_ c) (2 * layer_idx);
    let st := push_output st (get key_out) name in
    value_out ← vec_get (value_caches_out_ c) layer_idx;
    name ← vec_get (output_name_strings_ c) (2 * layer_idx + 1);
    Ok (push_output st (get value_out) name)) st;
  Ok ({| layer_count_ := layer_count_ c; window_size_ := window_size_ c;
         key_cache_shape_in_ := key_cache_shape_in_ c;
         key_cache_shape_out_ := key_cache_shape_out_ c;
         value_cache_shape_in_ := value_cache_shape_in_ c;
         value_cache_shape_out_ := value_cache_shape_out_ c;
         type_ := type_ c;
         key_caches_in_ := key_caches_in_ c;
         key_caches_out_ := key_caches_out_ c;
         value_caches_in_ := value_caches_in_ c;
         value_caches_out_ := value_caches_out_ c;
         input_name_strings_ := input_name_strings_ c;
         output_name_strings_ := output_name_strings_ c;
         input_index_ := input_index; output_index_ := output_index |}, st).

(** The loop over the key chunks of one layer in [Slide]. *)
Definition Slide_key_chunks (c : t) (key_cache_in_data key_cache_out_data : list byte)
  : outcome (list byte) :=
  let num_key_cache_chunks :=
    key_cache_shape_in_ c !!! 0%nat * key_cache_shape_in_ c !!! 2%nat in
  let in3 := key_cache_shape_in_ c !!! 3%nat in
  for_loop (Z.to_nat num_key_cache_chunks) 0 (fun j key_cache_in_data =>
    let j := Z.of_nat j in
    key_cache_in_data ←
      (let key_cache_dst := Span (j * in3) (in3 - window_size_ c) in
       let key_cache_src :=
         Span (j * in3 + window_size_ c) (in3 - window_size_ c) in
       std_copy_same key_cache_in_data key_cache_src key_cache_dst);
    let key_cache_dst :=
      Span (j * in3 + in3 - window_size_ c) (window_size_ c) in
    let key_cache_src :=
      Span (j * key_cache_shape_out_ c !!! 3%nat) (window_size_ c) in
    std_copy key_cache_out_data key_cache_src key_cache_in_data key_cache_dst)
    key_cache_in_data.

(** The loop over the value rows of one layer in [Slide]. *)
Definition Slide_value_rows (c : t)
    (value_cache_in_data value_cache_out_data : list byte)
  : outcome (list byte) :=
  let in2 := value_cache_shape_in_ c !!! 2%nat in
  let in3 := value_cache_shape_in_ c !!! 3%nat in
  let out2 := value_cache_shape_out_ c !!! 2%nat in
  let out3 := value_cache_shape_out_ c !!! 3%nat in
  for_loop (Z.to_nat (value_cache_shape_in_ c !!! 0%nat)) 0
    (fun j value_cache_in_data =>
    let j := Z.of_nat j in
    value_cache_in_data ←
      (let value_cache_dst :=
         Span (j * in2 * in3) ((in2 - window_size_ c) * in3) in
       let value_cache_src :=
         Span (j * in2 * in3 + window_size_ c * in3)
              ((in2 - window_size_ c) * in3) in
       std_copy_same value_cache_in_data value_cache_src value_cache_dst);
    let value_cache_dst :=
      Span (j * in2 * in3 + (in2 - window_size_ c) * in3)
           (window_size_ c * in3) in
    let value_cache_src := Span (j * out2 * out3) (window_size_ c * out3) in
    std_copy value_cache_out_data value_cache_src value_cache_in_data
      value_cache_dst)
    value_cache_in_data.

Definition Slide (c : t) : outcome t :=
  cs ← for_loop (layer_count_ c) 0 (fun layer_idx cs =>
    key_in ← vec_get (c_key_in cs) layer_idx ≫= deref;
    key_out ← vec_get (c_key_out cs) layer_idx ≫= deref;
    key_data ← Slide_key_chunks c (ov_data key_in) (ov_data key_out);
    key_caches_in ←
      vec_set (c_key_in cs) layer_idx (Some (with_data key_in key_data));
    value_in ← vec_get (c_value_in cs) layer_idx ≫= deref;
    value_out ← vec_get (c_value_out cs) layer_idx ≫= deref;
    value_data ← Slide_value_rows c (ov_data value_in) (ov_data value_out);
    value_caches_in ←
      vec_set (c_value_in cs) layer_idx (Some (with_data value_in value_data));
    Ok {| c_key_in := key_caches_in; c_key_out := c_key_out cs;
          c_value_in := value_caches_in; c_value_out := c_value_out cs |})
    (caches_of c);
  Ok (with_caches c cs).

(** The loop over the key chunks of one layer in [Update], filling the
    new tensor [key_cache_data] from the old in and out tensors. *)
Definition Update_key_chunks (c : t) (updated_key_cache_shape_in : list Z)
    (updated_window_size : Z)
    (key_cache_in_data key_cache_out_data key_cache_data : list byte)
  : outcome (list byte) :=
  let num_key_cache_chunks :=
    updated_key_cache_shape_in !!! 0%nat * updated_key_cache_shape_in !!! 2%nat in
  let up3 := updated_key_cache_shape_in !!! 3%nat in
  let in3 := key_cache_shape_in_ c !!! 3%nat in
  for_loop (Z.to_nat num_key_cache_chunks) 0 (fun j key_cache_data =>
    let j := Z.of_nat j in
    key_cache_data ←
      (let key_cache_dst := Span (j * up3) (up3 - updated_window_size) in
       let key_cache_src :=
         Span (j * in3 + updated_window_size) (in3 - updated_window_size) in
       std_copy key_cache_in_data key_cache_src key_cache_data key_cache_dst);
    let key_cache_dst :=
      Span (j * up3 + in3 - updated_window_size) (window_size_ c) in
    let key_cache_src :=
      Span (j * key_cache_shape_out_ c !!! 3%nat) (window_size_ c) in
    std_copy key_cache_out_data key_cache_src key_cache_data key_cache_dst)
    key_cache_data.

(** The loop over the value rows of one layer in [Update]. *)
Definition Update_value_rows (c : t) (updated_value_cache_shape_in : list Z)
    (updated_window_size : Z)
    (value_cache_in_data value_cache_out_data value_cache_data : list byte)
  : outcome (list byte) :=
  let up2 := updated_value_cache_shape_in !!! 2%nat in
  let up3 := updated_value_cache_shape_in !!! 3%nat in
  let in2 := value_cache_shape_in_ c !!! 2%nat in
  let in3 := value_cache_shape_in_ c !!! 3%nat in
  let out2 := value_cache_shape_out_ c !!! 2%nat in
  let out3 := value_cache_shape_out_ c !!! 3%nat in
  for_loop (Z.to_nat (updated_value_cache_shape_in !!! 0%nat)) 0
    (fun j value_cache_data =>
    let j := Z.of_nat j in
    value_cache_data ←
      (let value_cache_dst :=
         Span (j * up2 * up3) ((in2 - updated_window_size) * up3) in
       let value_cache_src :=
         Span (j * out2 * out3 + updated_window_size * out3)
              ((in2 - updated_window_size) * in3) in
       std_copy value_cache_in_data value_cache_src value_cache_data
         value_cache_dst);
    let value_cache_dst :=
      Span (j * up2 * up3 + (in2 - updated_window_size) * up3)
           (window_size_ c * out3) in
    let value_cache_src := Span (j * out2 * out3) (window_size_ c * out3) in
    std_copy value_cache_out_data value_cache_src value_cache_data
      value_cache_dst)
    value_cache_data.

Definition Update (m : Model) (c : t) (st : State) (a : Allocator)
    (beam_indices : list Z) (current_length : Z)
  : outcome (t * State * Allocator) :=
  if decide (window_size_ c = 1) then
    c ← Slide c; Ok (c, st, a)
  else
    (* No sliding needed. But we need to concatenate the last window_size_
       elements to the end of the cache *)
    let cfg := config_ m in
    let updated_window_size := 1 in
    let updated_key_cache_shape_in :=
      [num_key_value_heads cfg; 1; head_size cfg;
       context_length cfg - updated_window_size] in
    let updated_value_cache_shape_in :=
      [num_key_value_heads cfg; 1; context_length cfg - updated_window_size;
       head_size cfg] in
    let updated_key_cache_shape_out :=
      [num_key_value_heads cfg; 1; head_size cfg; updated_window_size] in
    let updated_value_cache_shape_out :=
      [num_key_value_heads cfg; 1; updated_window_size; head_size cfg] in
    r ← for_loop (layer_count_ c) 0 (fun layer_idx r =>
      let '(cs, a) := r in
      let '(key_cache, a) :=
        CreateTensor a updated_key_cache_shape_in (type_ c) in
      key_in ← vec_get (c_key_in cs) layer_idx ≫= deref;
      key_out ← vec_get (c_key_out cs) layer_idx ≫= deref;
      key_data ← Update_key_chunks c updated_key_cache_shape_in
        updated_window_size (ov_data key_in) (ov_data key_out)
        (ov_data key_cache);
      key_caches_in ←
        vec_set (c_key_in cs) layer_idx (Some (with_data key_cache key_data));
      let '(new_key_out, a) :=
        CreateTensor a updated_key_cache_shape_out (type_ c) in
      key_caches_out ← vec_set (c_key_out cs) layer_idx (Some new_key_out);
      let '(value_cache, a) :=
        CreateTensor a updated_value_cache_shape_in (type_ c) in
      value_in ← vec_get (c_value_in cs) layer_idx ≫= deref;
      value_out ← vec_get (c_value_out cs) layer_idx ≫= deref;
      value_data ← Update_value_rows c updated_value_cache_shape_in
        updated_window_size (ov_data value_in) (ov_data value_out)
        (ov_data value_cache);
      value_caches_in ←
        vec_set (c_value_in cs) layer_idx
          (Some (with_data value_cache value_data));
      let '(new_value_out, a) :=
        CreateTensor a updated_value_cache_shape_out (type_ c) in
      value_caches_out ←
        vec_set (c_value_out cs) layer_idx (Some new_value_out);
      Ok ({| c_key_in := key_caches_in; c_key_out := key_caches_out;
             c_value_in := value_caches_in;
             c_value_out := value_caches_out |}, a)) (caches_of c, a);
    let c :=
      {| layer_count_ := layer_count_ c; window_size_ := 1;
         key_cache_shape_in_ := updated_key_cache_shape_in;
         key_cache_shape_out_ := updated_key_cache_shape_out;
         value_cache_shape_in_ := updated_value_cache_shape_in;
         value_cache_shape_out_ := updated_value_cache_shape_out;
         type_ := type_ c;
         key_caches_in_ := c_key_in r.1; key_caches_out_ := c_key_out r.1;
         value_caches_in_ := c_value_in r.1;
         value_caches_out_ := c_value_out r.1;
         input_name_strings_ := input_name_strings_ c;
         output_name_strings_ := output_name_strings_ c;
         input_index_ := input_index_ c; output_index_ := output_index_ c |} in
    st ← for_loop (layer_count_ c) 0 (fun layer_idx st =>
      key_in ← vec_get (key_caches_in_ c) layer_idx;
      st ← set_input st (input_index_ c + 2 * layer_idx) (get key_in);
      value_in ← vec_get (value_caches_in_ c) layer_idx;
      st ← set_input st (input_index_ c + 2 * layer_idx + 1) (get value_in);
      key_out ← vec_get (key_caches_out_ c) layer_idx;
      st ← set_output st (output_index_ c + 2 * layer_idx) (get key_out);
      value_out ← vec_get (value_caches_out_ c) layer_idx;
      set_output st (output_index_ c + 2 * layer_idx + 1) (get value_out)) st;
    Ok (c, st, r.2).

End SlidingWindowKeyValueCache.

(** ** Readback staging heap (dml_readback_heap.cpp) *)

Module DmlReadbackHeap.

(** [std::numeric_limits<size_t>::max()] on a 64-bit target. *)
Definition SIZE_MAX : Z := 2 ^ 64 - 1.
Definition UINT32_MOD : Z := 2 ^ 32.

(** The device: [CreateCommittedResource] for a buffer of the given size
    either succeeds ([None]) or fails with an HRESULT. *)
Record ID3D12Device := {
  CreateCommittedResource : Z -> option hresult;
}.

(** A committed resource; [Width] is [GetDesc().Width]. *)
Record ID3D12Resource := { Width : Z }.

Record t := {
  m_readbackHeap : option ID3D12Resource;
  m_capacity : Z;
}.

(** What the execution context and the host are asked to do, in order. *)
Inductive command :=
  | CopyBufferRegion (dstOffset : Z) (src : nat) (srcOffset : Z) (byteCount : Z)
  | Flush
  | WaitForSignal
  | ReleaseCompletedReferences
  | Map
  | memcpy (dst : nat) (heapOffset : Z) (size : Z)
  | Unmap.

Definition CreateReadbackHeap (device : ID3D12Device) (size : Z)
  : outcome ID3D12Resource :=
  match CreateCommittedResource device size with
  | None => Ok {| Width := size |}
  | Some hr => Throw (hresult_error hr)
  end.

(** [DmlReadbackHeap::DmlReadbackHeap]: no heap yet, capacity 0. *)
Definition DmlReadbackHeap : t :=
  {| m_readbackHeap := None; m_capacity := 0 |}.

(** The [while] loop of [ComputeNewCapacity], unrolled [fuel] times. A loop
    that runs forever without any effect (here: from capacity 0) has
    undefined behaviour in C++; [ComputeNewCapacity_fuel] shows that the
    fuel below ends the loop in every other case. *)
Fixpoint ComputeNewCapacity_loop (fuel : nat) (newCapacity desiredCapacity : Z)
  : outcome Z :=
  match fuel with
  | O => Undefined
  | S fuel =>
      if decide (newCapacity < desiredCapacity) then
        if decide (newCapacity >= SIZE_MAX `div` 2) then
          (* Overflow; there's no way we can satisfy this allocation request *)
          Throw (hresult_error E_OUTOFMEMORY)
        else
          (* geometric growth *)
          ComputeNewCapacity_loop fuel ((newCapacity * 2) `mod` 2 ^ 64)
            desiredCapacity
      else Ok newCapacity
  end.

Definition ComputeNewCapacity (existingCapacity desiredCapacity : Z)
  : outcome Z :=
  ComputeNewCapacity_loop 65 existingCapacity desiredCapacity.

Section with_initial_capacity.

(** [c_initialCapacity] is a constant of dml_readback_heap.h: the
    implementation-chosen initial capacity. The properties below take it
    as any positive [size_t]. *)
Variable c_initialCapacity : Z.

(** [EnsureReadbackHeap(size)].
    ([assert(m_capacity == 0)] in the first branch,
     [assert(m_readbackHeap->GetDesc().Width >= size)] at the end.) *)
Definition EnsureReadbackHeap (device : ID3D12Device) (h : t) (size : Z)
  : outcome t :=
  match m_readbackHeap h with
  | None =>
      (* Initialize the readback heap for the first time *)
      capacity ← ComputeNewCapacity c_initialCapacity size;
      heap ← CreateReadbackHeap device capacity;
      Ok {| m_readbackHeap := Some heap; m_capacity := capacity |}
  | Some _ =>
      if decide (m_capacity h < size) then
        (* Ensure there's sufficient capacity *)
        capacity ← ComputeNewCapacity (m_capacity h) size;
        heap ← CreateReadbackHeap device capacity;
        Ok {| m_readbackHeap := Some heap; m_capacity := capacity |}
      else Ok h
  end.

(** The single-region [ReadbackFromGpu(dst, src, srcOffset, srcState)];
    [dst_size] is [dst.size()]. ([assert(!dst.empty())].) *)
Definition ReadbackFromGpu (device : ID3D12Device) (h : t)
    (dst : nat) (dst_size : Z) (src : nat) (srcOffset : Z)
  : outcome (t * list command) :=
  h ← EnsureReadbackHeap device h dst_size;
  Ok (h, [CopyBufferRegion 0 src srcOffset dst_size;
          Flush; WaitForSignal; ReleaseCompletedReferences;
          Map; memcpy dst 0 dst_size; Unmap]).

(** [uint32_t totalSize = 0; for (auto size : dstSizes) totalSize += size;] *)
Definition totalSize (dstSizes : list Z) : Z :=
  fold_left (fun totalSize size => (totalSize + size) `mod` UINT32_MOD)
    dstSizes 0.

(** The two loops over the regions: [offset] is a [uint32_t]. *)
Fixpoint copy_regions (n : nat) (i : nat) (offset : Z) (dstSizes : list Z)
    (src : list nat) : outcome (list command) :=
  match n with
  | O => Ok []
  | S n =>
      s ← vec_get src i;
      size ← vec_get dstSizes i;
      rest ← copy_regions n (S i) ((offset + size) `mod` UINT32_MOD)
        dstSizes src;
      Ok (CopyBufferRegion offset s 0 size :: rest)
  end.

Fixpoint memcpy_regions (n : nat) (i : nat) (offset : Z) (dst : list nat)
    (dstSizes : list Z) : outcome (list command) :=
  match n with
  | O => Ok []
  | S n =>
      d ← vec_get dst i;
      size ← vec_get dstSizes i;
      rest ← memcpy_regions n (S i) ((offset + size) `mod` UINT32_MOD)
        dst dstSizes;
      Ok (memcpy d offset size :: rest)
  end.

(** The multi-region [ReadbackFromGpu(dst, dstSizes, src, srcState)].
    ([assert(dst.size() == src.size())],
     [assert(dstSizes.size() == src.size())].) *)
Definition ReadbackFromGpu_regions (device : ID3D12Device) (h : t)
    (dst : list nat) (dstSizes : list Z) (src : list nat)
  : outcome (t * list command) :=
  if decide (dst = []) then Ok (h, [])
  else
    h ← EnsureReadbackHeap device h (totalSize dstSizes);
    (* Copy from the source resource into the readback heap *)
    copies ← copy_regions (length dst) 0 0 dstSizes src;
    (* Map the readback heap and copy it into the destination *)
    memcpys ← memcpy_regions (length dst) 0 0 dst dstSizes;
    Ok (h, copies ++ [Flush; WaitForSignal; ReleaseCompletedReferences; Map]
           ++ memcpys ++ [Unmap]).

End with_initial_capacity.

End DmlReadbackHeap.

(** ** Roaming arrays (smartptrs.h, the [USE_CUDA] variant) *)

Module RoamingArray.

Section with_element.

(** The element type [T], and what newly allocated memory happens to hold
    (by array and position). *)
Variable T : Type.
Variable uninitialised : nat -> nat -> T.

(** Host and device memory is a [list (option (list T))]: the arrays
    allocated so far, by number. A freed array is gone ([None]). *)

(** A [cpu_span<T>] or [gpu_span<T>]: [data()], an array and a position in
    it ([None] is [nullptr]), and [size()]. *)
Record span := Span { data : option (nat * nat); size : nat }.

(** [span{}]. *)
Definition default_span : span := Span None 0.

Definition empty (s : span) : bool := bool_decide (size s = 0%nat).

(** [cudaMemcpy(dst, src, count, kind)], with [count] in elements. Nothing
    is touched when [count] is 0; otherwise both ranges must lie in live
    arrays. *)
Definition cudaMemcpy (mem : list (option (list T)))
    (dst src : option (nat * nat)) (count : nat)
  : outcome (list (option (list T))) :=
  if decide (count = 0%nat) then Ok mem
  else
    match dst, src with
    | Some (db, dpos), Some (sb, spos) =>
        match mem !! db, mem !! sb with
        | Some (Some dl), Some (Some sl) =>
            if decide (dpos + count <= length dl
                       /\ spos + count <= length sl)%nat
            then Ok (<[db := Some (take dpos dl ++ take count (drop spos sl)
                                   ++ drop (dpos + count) dl)]> mem)
            else Undefined
        | _, _ => Undefined
        end
    | _, _ => Undefined
    end.

(** [CudaMallocHostArray<T>(count, &span)] and [CudaMallocArray<T>(count,
    &span)]: a new array of [count] elements; the pointer returned (to be
    owned) and the span written through [p_span]. *)
Definition CudaMallocArray (mem : list (option (list T))) (count : nat)
  : nat * span * list (option (list T)) :=
  let p := length mem in
  (p, Span (Some (p, 0%nat)) count,
   mem ++ [Some (uninitialised p <$> seq 0 count)]).

(** Assigning to a [cuda_unique_ptr] frees the array it owned. *)
Definition free (mem : list (option (list T))) (owner : option nat)
  : list (option (list T)) :=
  match owner with
  | Some p => <[p := None]> mem
  | None => mem
  end.

Record t := {
  cpu_ : span;
  cpu_owner_ : option nat;
  device_ : span;
  device_owner_ : option nat;
}.

(** [RoamingArray() = default]. *)
Definition RoamingArray : t :=
  {| cpu_ := default_span; cpu_owner_ := None;
     device_ := default_span; device_owner_ := None |}.

Definition SetCPU (r : t) (cpu : span) : t :=
  {| cpu_ := cpu; cpu_owner_ := cpu_owner_ r;
     device_ := default_span; device_owner_ := device_owner_ r |}.

Definition SetGPU (r : t) (device : span) : t :=
  {| cpu_ := default_span; cpu_owner_ := cpu_owner_ r;
     device_ := device; device_owner_ := device_owner_ r |}.

Definition GetCPU (mem : list (option (list T))) (r : t)
  : outcome (span * t * list (option (list T))) :=
  if empty (cpu_ r) && negb (empty (device_ r)) then
    let '(p, cpu, mem) := CudaMallocArray mem (size (device_ r)) in
    let mem := free mem (cpu_owner_ r) in
    mem ← cudaMemcpy mem (data cpu) (data (device_ r)) (size cpu);
    Ok (cpu,
        {| cpu_ := cpu; cpu_owner_ := Some p;
           device_ := device_ r; device_owner_ := device_owner_ r |},
        mem)
  else Ok (cpu_ r, r, mem).

Definition GetGPU (mem : list (option (list T))) (r : t)
  : outcome (span * t * list (option (list T))) :=
  if empty (device_ r) && negb (empty (cpu_ r)) then
    let '(p, device, mem) := CudaMallocArray mem (size (cpu_ r)) in
    let mem := free mem (device_owner_ r) in
    mem ← cudaMemcpy mem (data device) (data (cpu_ r)) (size device);
    Ok (device,
        {| cpu_ := cpu_ r; cpu_owner_ := cpu_owner_ r;
           device_ := device; device_owner_ := Some p |},
        mem)
  else Ok (device_ r, r, mem).

Definition FlushCPUChanges (mem : list (option (list T))) (r : t)
  : outcome (list (option (list T))) :=
  if negb (empty (device_ r)) then
    cudaMemcpy mem (data (device_ r)) (data (cpu_ r)) (size (cpu_ r))
  else Ok mem.

Definition FlushGPUChanges (mem : list (option (list T))) (r : t)
  : outcome (list (option (list T))) :=
  if negb (empty (cpu_ r)) then
    cudaMemcpy mem (data (cpu_ r)) (data (device_ r)) (size (cpu_ r))
  else Ok mem.

Definition Assign (v : t) (r : t) : t :=
  {| cpu_ := cpu_ v; cpu_owner_ := cpu_owner_ r;
     device_ := device_ v; device_owner_ := device_owner_ r |}.

(** The elements a span shows, when it lies in a live array. *)
Definition contents (mem : list (option (list T))) (s : span)
  : option (list T) :=
  match data s with
  | Some (b, pos) =>
      match mem !! b with
      | Some (Some l) =>
          if decide (pos + size s <= length l)%nat
          then Some (take (size s) (drop pos l)) else None
      | _ => None
      end
  | None => if decide (size s = 0%nat) then Some [] else None
  end.

(** The array an owner holds (if any) exists and is not the one the span
    looks into. *)
Definition owner_apart (mem : list (option (list T))) (owner : option nat)
    (s : span) : Prop :=
  match owner with
  | Some o => (o < length mem)%nat /\ forall pos, data s <> Some (o, pos)
  | None => True
  end.

(** Two spans of the same non-zero size that show live elements of two
    different arrays. *)
Definition mirrored (mem : list (option (list T))) (s1 s2 : span) : Prop :=
  size s1 <> 0%nat /\ size s2 = size s1 /\
  is_Some (contents mem s1) /\ is_Some (contents mem s2) /\
  forall b1 p1 b2 p2, data s1 = Some (b1, p1) -> data s2 = Some (b2, p2) ->
                      b1 <> b2.

End with_element.

Arguments cudaMemcpy {T} mem dst src count.
Arguments free {T} mem owner.
Arguments GetCPU {T} uninitialised mem r.
Arguments GetGPU {T} uninitialised mem r.
Arguments FlushCPUChanges {T} mem r.
Arguments FlushGPUChanges {T} mem r.
Arguments contents {T} mem s.
Arguments owner_apart {T} mem owner s.
Arguments mirrored {T} mem s1 s2.

End RoamingArray.

(** ** The batching engine (engine.cpp) *)

Module OgaEngine.

(** [std::numeric_limits<int64_t>::max()]. *)
Definition INT64_MAX : Z := 2 ^ 63 - 1.

(** The engine's own state: the queue of prompts not yet scheduled (front
    first) and the next request id. A prompt ([const char*]) is the text it
    points to. *)
Record t := {
  unscheduled_prompts_ : list string;
  request_id_ : Z;
}.

Section with_collaborators.

(** [kMaxBatchSize] is a constant of engine.h. *)
Variable kMaxBatchSize : Z.

(** One pass of the tokenizer and the model over a batch, as the loop of
    [Generate] makes it: [EncodeBatch], [Generate] with [max_length] 200,
    [DecodeBatch]. It gives the decoded texts, or throws. *)
Variable run_batch : list string -> outcome (list string).

(** The loop of [Schedule]: [n] iterations are left. *)
Fixpoint Schedule_loop (n : nat)
    (unscheduled_prompts scheduled_prompts : list string)
  : list string * list string :=
  match n with
  | O => (scheduled_prompts, unscheduled_prompts)
  | S n =>
      match unscheduled_prompts with
      | [] => (scheduled_prompts, unscheduled_prompts)  (* break *)
      | front :: rest => Schedule_loop n rest (scheduled_prompts ++ [front])
      end
  end.

Definition Schedule (e : t) : list string * t :=
  let r := Schedule_loop (Z.to_nat kMaxBatchSize) (unscheduled_prompts_ e) [] in
  (r.1, {| unscheduled_prompts_ := r.2; request_id_ := request_id_ e |}).

(** The [while] loop of [Generate], unrolled [fuel] times; [None] when the
    loop has not ended by then. *)
Fixpoint Generate_loop (fuel : nat) (e : t) (outputs : list string)
  : option (outcome (list string * t)) :=
  match fuel with
  | O => None
  | S fuel =>
      if decide (unscheduled_prompts_ e = []) then Some (Ok (outputs, e))
      else
        let r := Schedule e in
        match run_batch r.1 with
        | Ok out_strings => Generate_loop fuel r.2 (outputs ++ out_strings)
        | Throw err => Some (Throw err)
        | Undefined => Some Undefined
        end
  end.

Definition Generate (fuel : nat) (e : t) (prompts : list string)
  : option (outcome (list string * t)) :=
  let e := {| unscheduled_prompts_ := unscheduled_prompts_ e ++ prompts;
              request_id_ := request_id_ e |} in
  (* std::vector<std::string> outputs(prompts.size()); *)
  Generate_loop fuel e (replicate (length prompts) ""%string).

(** [AddRequest]: [request_id_++] on the largest [int64_t] overflows. *)
Definition AddRequest (e : t) (prompt : string) : outcome (Z * t) :=
  let rid := request_id_ e in
  if decide (rid = INT64_MAX) then Undefined
  else Ok (rid, {| unscheduled_prompts_ := unscheduled_prompts_ e ++ [prompt];
                   request_id_ := rid + 1 |}).

(** A queue cut into batches of [k] prompts, front first (the last batch
    may be shorter). *)
Fixpoint batches_of (fuel k : nat) (queue : list string) : list (list string) :=
  match fuel with
  | O => []
  | S fuel =>
      match queue with
      | [] => []
      | _ => take k queue :: batches_of fuel k (drop k queue)
      end
  end.

Definition batches (k : nat) (queue : list string) : list (list string) :=
  batches_of (length queue) k queue.

(** The batches run one after the other; the first one that throws ends
    the run. *)
Fixpoint run_batches (bs : list (list string)) : outcome (list string) :=
  match bs with
  | [] => Ok []
  | b :: bs =>
      out_strings ← run_batch b;
      rest ← run_batches bs;
      Ok (out_strings ++ rest)
  end.

(** Several requests added one after the other. *)
Fixpoint AddRequest_many (e : t) (prompts : list string)
  : outcome (list Z * t) :=
  match prompts with
  | [] => Ok ([], e)
  | prompt :: prompts =>
      r ← AddRequest e prompt;
      rs ← AddRequest_many r.2 prompts;
      Ok (r.1 :: rs.1, rs.2)
  end.

End with_collaborators.

End OgaEngine.

(** * Vocabulary of the properties *)

(** A row of [rb] bytes of a buffer of rows. *)
Definition row (buf : list byte) (rb : Z) (r : Z) : list byte :=
  slice buf (r * rb) rb.

(** The two element types the gather is written for. *)
Definition float_or_half (ty : ONNXTensorElementDataType) : Prop :=
  ty = FLOAT \/ ty = FLOAT16.

(** A tensor of the given type and shape with storage of the matching size. *)
Definition tensor_of (ty : ONNXTensorElementDataType) (shape : list Z)
    (v : OrtValue) : Prop :=
  ov_type v = ty /\ ov_shape v = shape /\
  length (ov_data v) = Z.to_nat (SizeOf ty * ElementCountFromShape shape).

(** What [Update] of the Combined cache needs: a non-negative shape
    [2; B; H; S; D], a supported element type, every present tensor
    allocated with that shape and type, and the slots registered by [Add]. *)
Definition Combined_ready (c : KV_Cache_Combined.t) (st : State)
    (B H S D : Z) : Prop :=
  KV_Cache_Combined.shape_ c = [2; B; H; S; D] /\
  (0 <= B /\ 0 <= H /\ 0 <= S /\ 0 <= D) /\
  float_or_half (KV_Cache_Combined.type_ c) /\
  length (KV_Cache_Combined.pasts_ c) = KV_Cache_Combined.layer_count_ c /\
  length (KV_Cache_Combined.presents_ c) = KV_Cache_Combined.layer_count_ c /\
  Forall (fun p => exists v, p = Some v /\
            tensor_of (KV_Cache_Combined.type_ c)
              (KV_Cache_Combined.shape_ c) v)
    (KV_Cache_Combined.presents_ c) /\
  (KV_Cache_Combined.input_index_ c + KV_Cache_Combined.layer_count_ c
   <= length (inputs_ st))%nat /\
  (KV_Cache_Combined.output_index_ c + KV_Cache_Combined.layer_count_ c
   <= length (outputs_ st))%nat.

(** What [Update] of the Split cache needs of the cache and of the
    execution request it is bound to: not in shared-buffer mode, a
    non-negative shape [B; H; S; D], a supported element type, every
    present tensor allocated with that shape and type, and the slots
    registered by [Add]. *)
Definition Split_ready (c : KV_Cache.t) (st : State) (B H S D : Z) : Prop :=
  KV_Cache.past_present_share_buffer_ c = false /\
  KV_Cache.shape_ c = [B; H; S; D] /\
  (0 <= B /\ 0 <= H /\ 0 <= S /\ 0 <= D) /\
  float_or_half (KV_Cache.type_ c) /\
  length (KV_Cache.pasts_ c) = (KV_Cache.layer_count_ c * 2)%nat /\
  length (KV_Cache.presents_ c) = (KV_Cache.layer_count_ c * 2)%nat /\
  Forall (fun p => exists v, p = Some v /\
            tensor_of (KV_Cache.type_ c) (KV_Cache.shape_ c) v)
    (KV_Cache.presents_ c) /\
  (KV_Cache.input_index_ c + KV_Cache.layer_count_ c * 2
   <= length (inputs_ st))%nat /\
  (KV_Cache.output_index_ c + KV_Cache.layer_count_ c * 2
   <= length (outputs_ st))%nat.


(** The shared-buffer flag the constructor computes. *)
Definition effective_share_buffer (m : Model) (st : State) : bool :=
  past_present_share_buffer (params_ st)
  && (bool_decide (num_beams (params_ st) = 1)
      || bool_decide (model_type (config_ m) = "whisper")).

(** Several calls of [Update] in a row. *)
Fixpoint Update_many (m : Model) (c : KV_Cache.t) (st : State) (a : Allocator)
    (calls : list (list Z * Z)) : outcome (KV_Cache.t * State * Allocator) :=
  match calls with
  | [] => Ok (c, st, a)
  | (beam_indices, current_length) :: rest =>
      r ← KV_Cache.Update m c st a beam_indices current_length;
      Update_many m r.1.1 r.1.2 r.2 rest
  end.

(** What the collapse needs of a sliding-window cache: window [W] with
    [1 < W < C], the four shapes of the constructor, byte tensors of
    those shapes in every layer, the slots registered by [Add], and the
    old value rows within reach of the value loop. *)
Definition SlidingWindow_ready (m : Model) (c : SlidingWindowKeyValueCache.t)
    (st : State) (Hh Dd C W : Z) : Prop :=
  let L := SlidingWindowKeyValueCache.layer_count_ c in
  let all_of shape (l : list (option OrtValue)) :=
    length l = L /\
    Forall (fun p => exists v, p = Some v /\ tensor_of UINT8 shape v) l in
  num_key_value_heads (config_ m) = Hh /\ head_size (config_ m) = Dd /\
  context_length (config_ m) = C /\
  SlidingWindowKeyValueCache.window_size_ c = W /\
  (0 <= Hh /\ 0 <= Dd /\ 1 < W /\ W < C) /\
  (Hh <= 1 \/ 2 * W <= C) /\
  SlidingWindowKeyValueCache.type_ c = UINT8 /\
  SlidingWindowKeyValueCache.key_cache_shape_in_ c = [Hh; 1; Dd; C - W] /\
  SlidingWindowKeyValueCache.key_cache_shape_out_ c = [Hh; 1; Dd; W] /\
  SlidingWindowKeyValueCache.value_cache_shape_in_ c = [Hh; 1; C - W; Dd] /\
  SlidingWindowKeyValueCache.value_cache_shape_out_ c = [Hh; 1; W; Dd] /\
  all_of [Hh; 1; Dd; C - W] (SlidingWindowKeyValueCache.key_caches_in_ c) /\
  all_of [Hh; 1; Dd; W] (SlidingWindowKeyValueCache.key_caches_out_ c) /\
  all_of [Hh; 1; C - W; Dd] (SlidingWindowKeyValueCache.value_caches_in_ c) /\
  all_of [Hh; 1; W; Dd] (SlidingWindowKeyValueCache.value_caches_out_ c) /\
  (SlidingWindowKeyValueCache.input_index_ c + 2 * L <= length (inputs_ st))%nat /\
  (SlidingWindowKeyValueCache.output_index_ c + 2 * L
   <= length (outputs_ st))%nat.

(** The same model with every input declared with element type [ty]. *)
Definition declare_type (ty : ONNXTensorElementDataType) (m : Model) : Model :=
  {| config_ := config_ m;
     session_inputs := (fun e => (e.1, ty)) <$> session_inputs m;
     device_type_ := device_type_ m |}.

(** The template reaches a [%d] (or [%i]) conversion: the layer index is
    part of every name formatted from it. *)
Fixpoint prints_index (fmt : string) : bool :=
  match fmt with
  | EmptyString => false
  | String c rest =>
      if decide (c = NUL) then false
      else if decide (c = "%"%char) then
        match rest with
        | String c' rest' =>
            if decide (c' = "%"%char) then prints_index rest'
            else if decide (c' = "d"%char \/ c' = "i"%char) then true
            else false
        | EmptyString => false
        end
      else prints_index rest
  end.

(** [names] holds one name per layer, formatted from [template]. *)
Definition one_per_layer (template : string) (L : nat) (names : list string)
  : Prop :=
  length names = L /\
  forall i, (i < L)%nat ->
    exists n, names !! i = Some n
      /\ ComposeKeyValueName template (Z.of_nat i) = Ok n.

(** [names] holds two names per layer: the key name at [2 i], the value
    name at [2 i + 1]. *)
Definition two_per_layer (key_template value_template : string) (L : nat)
    (names : list string) : Prop :=
  length names = (2 * L)%nat /\
  forall i, (i < L)%nat ->
    exists k v,
      names !! (2 * i)%nat = Some k /\ names !! (2 * i + 1)%nat = Some v
      /\ ComposeKeyValueName key_template (Z.of_nat i) = Ok k
      /\ ComposeKeyValueName value_template (Z.of_nat i) = Ok v.

(** What every heap reached from [DmlReadbackHeap] by successful calls
    satisfies: no buffer and capacity 0, or a buffer as wide as the
    capacity, which is the initial capacity doubled some number of times. *)
Definition heap_inv (c_initialCapacity : Z) (h : DmlReadbackHeap.t) : Prop :=
  match DmlReadbackHeap.m_readbackHeap h with
  | None => DmlReadbackHeap.m_capacity h = 0
  | Some r =>
      DmlReadbackHeap.Width r = DmlReadbackHeap.m_capacity h
      /\ DmlReadbackHeap.m_capacity h <= DmlReadbackHeap.SIZE_MAX
      /\ exists k : nat,
           DmlReadbackHeap.m_capacity h = c_initialCapacity * 2 ^ Z.of_nat k
  end.

(** ** Vocabulary of the further properties *)

(** A text without [%] and without NUL: [snprintf] copies it as it is. *)
Fixpoint plain (s : string) : bool :=
  match s with
  | EmptyString => true
  | String c rest =>
      negb (bool_decide (c = NUL)) && negb (bool_decide (c = "%"%char))
      && plain rest
  end.

(** The four name templates of a cache compose for every layer below [L]. *)
Definition names_compose (t1 t2 t3 t4 : string) (L : nat) : Prop :=
  forall i, (i < L)%nat ->
    is_Ok (ComposeKeyValueName t1 (Z.of_nat i)) /\
    is_Ok (ComposeKeyValueName t2 (Z.of_nat i)) /\
    is_Ok (ComposeKeyValueName t3 (Z.of_nat i)) /\
    is_Ok (ComposeKeyValueName t4 (Z.of_nat i)).

(** The slots of a request outside the range [first, first + n) are the
    same in two slot lists. *)
Definition same_outside (first n : nat) (l l' : list (option nat)) : Prop :=
  length l' = length l /\
  forall k, ~ (first <= k < first + n)%nat -> l' !! k = l !! k.

(** The state of a Split cache and its request after an [Update] that
    returned (shared buffers off). *)
Record Split_updated (c : KV_Cache.t) (st : State) (a : Allocator)
    (current_length : Z) (c' : KV_Cache.t) (st' : State) (a' : Allocator)
  : Prop := {
  su_layer_count : KV_Cache.layer_count_ c' = KV_Cache.layer_count_ c;
  su_share : KV_Cache.past_present_share_buffer_ c' = false;
  su_type : KV_Cache.type_ c' = KV_Cache.type_ c;
  su_shape :
    KV_Cache.shape_ c' = <[2%nat := current_length]> (KV_Cache.shape_ c);
  su_input_index : KV_Cache.input_index_ c' = KV_Cache.input_index_ c;
  su_output_index : KV_Cache.output_index_ c' = KV_Cache.output_index_ c;
  su_pasts : length (KV_Cache.pasts_ c') = length (KV_Cache.pasts_ c);
  su_presents : length (KV_Cache.presents_ c') = length (KV_Cache.presents_ c);
  su_names : input_names_ st' = input_names_ st
             /\ output_names_ st' = output_names_ st
             /\ params_ st' = params_ st;
  su_inputs : same_outside (KV_Cache.input_index_ c)
                (KV_Cache.layer_count_ c * 2) (inputs_ st) (inputs_ st');
  su_outputs : same_outside (KV_Cache.output_index_ c)
                 (KV_Cache.layer_count_ c * 2) (outputs_ st) (outputs_ st');
  su_alloc : (alloc_next a <= alloc_next a')%nat;
  su_slots : forall i, (i < KV_Cache.layer_count_ c * 2)%nat ->
    exists p v,
      KV_Cache.pasts_ c' !! i = Some p /\
      inputs_ st' !! (KV_Cache.input_index_ c + i)%nat = Some (get p) /\
      KV_Cache.presents_ c' !! i = Some (Some v) /\
      outputs_ st' !! (KV_Cache.output_index_ c + i)%nat = Some (Some (ov_id v)) /\
      tensor_of (KV_Cache.type_ c)
        (<[2%nat := current_length]> (KV_Cache.shape_ c)) v /\
      (alloc_next a <= ov_id v < alloc_next a')%nat;
}.

(** The same for the Combined cache. *)
Record Combined_updated (c : KV_Cache_Combined.t) (st : State) (a : Allocator)
    (current_length : Z) (c' : KV_Cache_Combined.t) (st' : State)
    (a' : Allocator) : Prop := {
  cu_layer_count :
    KV_Cache_Combined.layer_count_ c' = KV_Cache_Combined.layer_count_ c;
  cu_type : KV_Cache_Combined.type_ c' = KV_Cache_Combined.type_ c;
  cu_shape :
    KV_Cache_Combined.shape_ c'
    = <[3%nat := current_length]> (KV_Cache_Combined.shape_ c);
  cu_input_index :
    KV_Cache_Combined.input_index_ c' = KV_Cache_Combined.input_index_ c;
  cu_output_index :
    KV_Cache_Combined.output_index_ c' = KV_Cache_Combined.output_index_ c;
  cu_pasts :
    length (KV_Cache_Combined.pasts_ c') = length (KV_Cache_Combined.pasts_ c);
  cu_presents :
    length (KV_Cache_Combined.presents_ c')
    = length (KV_Cache_Combined.presents_ c);
  cu_names : input_names_ st' = input_names_ st
             /\ output_names_ st' = output_names_ st
             /\ params_ st' = params_ st;
  cu_inputs : same_outside (KV_Cache_Combined.input_index_ c)
                (KV_Cache_Combined.layer_count_ c) (inputs_ st) (inputs_ st');
  cu_outputs : same_outside (KV_Cache_Combined.output_index_ c)
                 (KV_Cache_Combined.layer_count_ c) (outputs_ st) (outputs_ st');
  cu_alloc : (alloc_next a <= alloc_next a')%nat;
  cu_slots : forall i, (i < KV_Cache_Combined.layer_count_ c)%nat ->
    exists p v,
      KV_Cache_Combined.pasts_ c' !! i = Some p /\
      inputs_ st' !! (KV_Cache_Combined.input_index_ c + i)%nat = Some (get p) /\
      KV_Cache_Combined.presents_ c' !! i = Some (Some v) /\
      outputs_ st' !! (KV_Cache_Combined.output_index_ c + i)%nat
      = Some (Some (ov_id v)) /\
      tensor_of (KV_Cache_Combined.type_ c)
        (<[3%nat := current_length]> (KV_Cache_Combined.shape_ c)) v /\
      (alloc_next a <= ov_id v < alloc_next a')%nat;
}.

(** A sliding-window cache in its steady state: window 1, the shapes of
    the collapsed cache for context length [C], and byte tensors of those
    shapes in every layer. *)
Definition SlidingWindow_steady (c : SlidingWindowKeyValueCache.t)
    (Hh Dd C : Z) : Prop :=
  let L := SlidingWindowKeyValueCache.layer_count_ c in
  let all_of shape (l : list (option OrtValue)) :=
    length l = L /\
    Forall (fun p => exists v, p = Some v /\ tensor_of UINT8 shape v) l in
  SlidingWindowKeyValueCache.window_size_ c = 1 /\
  (0 <= Hh /\ 0 <= Dd /\ 1 < C) /\
  SlidingWindowKeyValueCache.key_cache_shape_in_ c = [Hh; 1; Dd; C - 1] /\
  SlidingWindowKeyValueCache.key_cache_shape_out_ c = [Hh; 1; Dd; 1] /\
  SlidingWindowKeyValueCache.value_cache_shape_in_ c = [Hh; 1; C - 1; Dd] /\
  SlidingWindowKeyValueCache.value_cache_shape_out_ c = [Hh; 1; 1; Dd] /\
  all_of [Hh; 1; Dd; C - 1] (SlidingWindowKeyValueCache.key_caches_in_ c) /\
  all_of [Hh; 1; Dd; 1] (SlidingWindowKeyValueCache.key_caches_out_ c) /\
  all_of [Hh; 1; C - 1; Dd] (SlidingWindowKeyValueCache.value_caches_in_ c) /\
  all_of [Hh; 1; 1; Dd] (SlidingWindowKeyValueCache.value_caches_out_ c).

(** What the slide does to one layer: the tensors stay the ones they
    were, with the key chunks and the value rows moved up by one
    position and the new column and row taken from the out tensors. *)
Definition slid_layer (Hh Dd C : Z) (c c' : SlidingWindowKeyValueCache.t)
    (layer : nat) : Prop :=
  exists key_in key_out new_key value_in value_out new_value,
    SlidingWindowKeyValueCache.key_caches_in_ c !! layer = Some (Some key_in) /\
    SlidingWindowKeyValueCache.key_caches_out_ c !! layer = Some (Some key_out) /\
    SlidingWindowKeyValueCache.key_caches_in_ c' !! layer = Some (Some new_key) /\
    ov_id new_key = ov_id key_in /\
    SlidingWindowKeyValueCache.value_caches_in_ c !! layer
    = Some (Some value_in) /\
    SlidingWindowKeyValueCache.value_caches_out_ c !! layer
    = Some (Some value_out) /\
    SlidingWindowKeyValueCache.value_caches_in_ c' !! layer
    = Some (Some new_value) /\
    ov_id new_value = ov_id value_in /\
    (forall row, 0 <= row < Hh * Dd ->
       slice (ov_data new_key) (row * (C - 1)) (C - 2)
       = slice (ov_data key_in) (row * (C - 1) + 1) (C - 2) /\
       slice (ov_data new_key) (row * (C - 1) + (C - 2)) 1
       = slice (ov_data key_out) row 1) /\
    (forall h, 0 <= h < Hh ->
       slice (ov_data new_value) (h * (C - 1) * Dd) ((C - 2) * Dd)
       = slice (ov_data value_in) (h * (C - 1) * Dd + Dd) ((C - 2) * Dd) /\
       slice (ov_data new_value) (h * (C - 1) * Dd + (C - 2) * Dd) Dd
       = slice (ov_data value_out) (h * Dd) Dd).

(** What the collapse does to one layer: four new tensors, allocated in
    the order key-in, key-out, value-in, value-out. The new key-in chunk is
    the old chunk without its oldest element followed by the chunk of
    key-out; the new value-in rows of a head are the old rows from row
    [h W + 1] on, followed by the head's rows of value-out. *)
Definition collapsed_layer (Hh Dd C W : Z) (a : Allocator)
    (c c' : SlidingWindowKeyValueCache.t) (layer : nat) : Prop :=
  exists key_in key_out value_in value_out
         new_key new_key_out new_value new_value_out,
    (SlidingWindowKeyValueCache.key_caches_in_ c !! layer = Some (Some key_in) /\
     SlidingWindowKeyValueCache.key_caches_out_ c !! layer = Some (Some key_out) /\
     SlidingWindowKeyValueCache.value_caches_in_ c !! layer
     = Some (Some value_in) /\
     SlidingWindowKeyValueCache.value_caches_out_ c !! layer
     = Some (Some value_out)) /\
    (SlidingWindowKeyValueCache.key_caches_in_ c' !! layer = Some (Some new_key) /\
     SlidingWindowKeyValueCache.key_caches_out_ c' !! layer
     = Some (Some new_key_out) /\
     SlidingWindowKeyValueCache.value_caches_in_ c' !! layer
     = Some (Some new_value) /\
     SlidingWindowKeyValueCache.value_caches_out_ c' !! layer
     = Some (Some new_value_out)) /\
    (ov_id new_key = (alloc_next a + 4 * layer)%nat /\
     ov_id new_key_out = (alloc_next a + 4 * layer + 1)%nat /\
     ov_id new_value = (alloc_next a + 4 * layer + 2)%nat /\
     ov_id new_value_out = (alloc_next a + 4 * layer + 3)%nat) /\
    (tensor_of UINT8 [Hh; 1; Dd; C - 1] new_key /\
     tensor_of UINT8 [Hh; 1; Dd; 1] new_key_out /\
     tensor_of UINT8 [Hh; 1; C - 1; Dd] new_value /\
     tensor_of UINT8 [Hh; 1; 1; Dd] new_value_out) /\
    (forall row, 0 <= row < Hh * Dd ->
       slice (ov_data new_key) (row * (C - 1)) (C - W - 1)
       = slice (ov_data key_in) (row * (C - W) + 1) (C - W - 1) /\
       slice (ov_data new_key) (row * (C - 1) + (C - 1 - W)) W
       = slice (ov_data key_out) (row * W) W) /\
    (forall h, 0 <= h < Hh ->
       slice (ov_data new_value) (h * (C - 1) * Dd) ((C - W - 1) * Dd)
       = slice (ov_data value_in) ((h * W + 1) * Dd) ((C - W - 1) * Dd) /\
       slice (ov_data new_value) (h * (C - 1) * Dd + (C - W - 1) * Dd) (W * Dd)
       = slice (ov_data value_out) (h * W * Dd) (W * Dd)).

(** Several calls of [Update] of the sliding-window cache in a row. *)
Fixpoint SlidingWindow_Update_many (m : Model)
    (c : SlidingWindowKeyValueCache.t) (st : State) (a : Allocator)
    (calls : list (list Z * Z))
  : outcome (SlidingWindowKeyValueCache.t * State * Allocator) :=
  match calls with
  | [] => Ok (c, st, a)
  | (beam_indices, current_length) :: rest =>
      r ← SlidingWindowKeyValueCache.Update m c st a beam_indices current_length;
      SlidingWindow_Update_many m r.1.1 r.1.2 r.2 rest
  end.

(** * Concrete models and caches *)

(** A one-layer model with two beams: batch×beam = 2, one head of size 1,
    context length 6 and a sliding window of 2. *)
Definition example_config : Config :=
  {| model_type := "llama";
     context_length := 6;
     num_hidden_layers := 1;
     num_key_value_heads := 1;
     head_size := 1;
     past_names := "past_%d";
     past_key_names := "past_key_values.%d.key";
     past_value_names := "past_key_values.%d.value";
     cross_past_key_names := "past_key_values.%d.encoder.key";
     cross_past_value_names := "past_key_values.%d.encoder.value";
     present_names := "present_%d";
     present_key_names := "present.%d.key";
     present_value_names := "present.%d.value";
     cross_present_key_names := "present.%d.encoder.key";
     cross_present_value_names := "present.%d.encoder.value";
     sliding_window_key_value_cache :=
       Some {| window_size := 2; pad_value := 0 |} |}.

Definition example_model (ty : ONNXTensorElementDataType) : Model :=
  {| config_ := example_config;
     session_inputs :=
       [("past_0", ty); ("past_key_values.0.key", ty);
        ("past_key_values.0.value", ty);
        ("past_key_values.0.encoder.key", ty);
        ("past_key_values.0.encoder.value", ty)];
     device_type_ := CPU |}.

Definition example_params (beams : Z) (share : bool) : GeneratorParams :=
  {| batch_size := 1; sequence_length := 1; num_beams := beams;
     max_length := 4; past_present_share_buffer := share |}.

Definition example_state (beams : Z) (share : bool) : State :=
  {| params_ := example_params beams share;
     inputs_ := []; input_names_ := [];
     outputs_ := []; output_names_ := [];
     captured_graph_info := None |}.

(** New memory holds bytes that tell the tensors and positions apart. *)
Definition example_allocator : Allocator :=
  {| alloc_next := 1;
     alloc_fill := fun id k => uint8_of_int (Z.of_nat (16 * id + k)) |}.

(** A Combined cache after construction and [Add]. *)
Definition example_combined
  : outcome (KV_Cache_Combined.t * State * Allocator) :=
  r ← KV_Cache_Combined.KV_Cache_Combined (example_model FLOAT)
        (example_state 2 false) example_allocator;
  r' ← KV_Cache_Combined.Add r.1 (example_state 2 false);
  Ok (r'.1, r'.2, r.2).

(** A Split cache after construction and [Add]. *)
Definition example_split (ty : ONNXTensorElementDataType) (beams : Z)
    (share : bool) : outcome (KV_Cache.t * State * Allocator) :=
  r ← KV_Cache.KV_Cache {| log_enabled := true; log_warning := true |}
        (example_model ty) (example_state beams share) example_allocator;
  r' ← KV_Cache.Add r.1.1 (example_state beams share);
  Ok (r'.1, r'.2, r.1.2).

(** A Sliding-Window cache after construction and [Add]: window 2,
    context length 6, one head of size 1. *)
Definition example_sliding
  : outcome (SlidingWindowKeyValueCache.t * State * Allocator) :=
  r ← SlidingWindowKeyValueCache.SlidingWindowKeyValueCache
        (example_model UINT8) (example_state 1 false) example_allocator;
  r' ← SlidingWindowKeyValueCache.Add r.1 (example_state 1 false);
  Ok (r'.1, r'.2, r.2).


(** C2, failing input: two heads, context length 5 and a sliding window
    of 3; the cache after construction and [Add]. *)
Definition example_model_two_heads : Model :=
  {| config_ :=
       {| model_type := "llama"; context_length := 5;
          num_hidden_layers := 1; num_key_value_heads := 2; head_size := 1;
          past_names := "past_%d";
          past_key_names := "past_key_values.%d.key";
          past_value_names := "past_key_values.%d.value";
          cross_past_key_names := "past_key_values.%d.encoder.key";
          cross_past_value_names := "past_key_values.%d.encoder.value";
          present_names := "present_%d";
          present_key_names := "present.%d.key";
          present_value_names := "present.%d.value";
          cross_present_key_names := "present.%d.encoder.key";
          cross_present_value_names := "present.%d.encoder.value";
          sliding_window_key_value_cache :=
            Some {| window_size := 3; pad_value := 0 |} |};
     session_inputs := session_inputs (example_model UINT8);
     device_type_ := CPU |}.

Definition example_sliding_two_heads
  : outcome (SlidingWindowKeyValueCache.t * State * Allocator) :=
  r ← SlidingWindowKeyValueCache.SlidingWindowKeyValueCache
        example_model_two_heads (example_state 1 false) example_allocator;
  r' ← SlidingWindowKeyValueCache.Add r.1 (example_state 1 false);
  Ok (r'.1, r'.2, r.2).

(** C8, counterexample: the Cross cache of a one-layer model has two input
    names and two output names; and a template without a conversion gives
    every layer the same name. *)
Definition example_model_plain_names : Model :=
  {| config_ :=
       {| model_type := "gpt2"; context_length := 6;
          num_hidden_layers := 2; num_key_value_heads := 1; head_size := 1;
          past_names := "past"; past_key_names := "k"; past_value_names := "v";
          cross_past_key_names := "ck"; cross_past_value_names := "cv";
          present_names := "present"; present_key_names := "pk";
          present_value_names := "pv";
          cross_present_key_names := "cpk"; cross_present_value_names := "cpv";
          sliding_window_key_value_cache := None |};
     session_inputs := [("past", FLOAT)];
     device_type_ := CPU |}.

(** C6 and C10 on a heap with 1 MB initial capacity and a device that
    commits whatever is asked. *)
Definition example_device : DmlReadbackHeap.ID3D12Device :=
  {| DmlReadbackHeap.CreateCommittedResource := fun _ => None |}.

(** A device that refuses every buffer. *)
Definition failing_device : DmlReadbackHeap.ID3D12Device :=
  {| DmlReadbackHeap.CreateCommittedResource := fun _ => Some E_FAIL |}.

(** The example model without a single layer. *)
Definition example_model_no_layers : Model :=
  {| config_ :=
       {| model_type := "llama"; context_length := 6;
          num_hidden_layers := 0; num_key_value_heads := 1; head_size := 1;
          past_names := "past_%d";
          past_key_names := "past_key_values.%d.key";
          past_value_names := "past_key_values.%d.value";
          cross_past_key_names := "past_key_values.%d.encoder.key";
          cross_past_value_names := "past_key_values.%d.encoder.value";
          present_names := "present_%d";
          present_key_names := "present.%d.key";
          present_value_names := "present.%d.value";
          cross_present_key_names := "present.%d.encoder.key";
          cross_present_value_names := "present.%d.encoder.value";
          sliding_window_key_value_cache :=
            Some {| window_size := 2; pad_value := 0 |} |};
     session_inputs := session_inputs (example_model FLOAT);
     device_type_ := CPU |}.

(** The Sliding-Window cache of the example after its first [Update]. *)
Definition example_sliding_collapsed
  : outcome (SlidingWindowKeyValueCache.t * State * Allocator) :=
  r ← example_sliding;
  SlidingWindowKeyValueCache.Update (example_model UINT8) r.1.1 r.1.2 r.2 [] 2.

(** Host and device memory with two arrays of numbers, and a roaming
    array with a span into each. *)
Definition example_memory : list (option (list Z)) :=
  [Some [10; 20; 30]; Some [1; 2]; Some [3; 4]].

Definition example_roaming : RoamingArray.t :=
  {| RoamingArray.cpu_ := RoamingArray.Span (Some (1%nat, 0%nat)) 2;
     RoamingArray.cpu_owner_ := None;
     RoamingArray.device_ := RoamingArray.Span (Some (2%nat, 0%nat)) 2;
     RoamingArray.device_owner_ := None |}.

(** An engine with one prompt queued, batches of two, and a model that
    answers every prompt with the prompt and an exclamation mark. *)
Definition example_engine : OgaEngine.t :=
  {| OgaEngine.unscheduled_prompts_ := ["a"%string];
     OgaEngine.request_id_ := 5 |}.

Definition example_run_batch (batch : list string) : outcome (list string) :=
  Ok ((fun prompt => prompt +:+ "!") <$> batch).

(** * Properties *)

(** ** Byte buffers *)

Section buffer_lemmas.
Implicit Types buf src : list byte.

Lemma in_range_spec len off cnt :
    in_range len off cnt = true <-> 0 <= off /\ 0 <= cnt /\ off + cnt <= len.
Proof. unfold in_range. rewrite !andb_true_iff, !Z.leb_le. tauto. Qed.

Lemma read_bytes_Ok buf off cnt :
    0 <= off -> 0 <= cnt -> off + cnt <= Z.of_nat (length buf) ->
    read_bytes buf off cnt = Ok (slice buf off cnt).
Proof.
    intros. unfold read_bytes.
    destruct (in_range _ _ _) eqn:E; [done|].
    assert (in_range (Z.of_nat (length buf)) off cnt = true)
      by (apply in_range_spec; lia).
    congruence.
Qed.

Lemma read_bytes_inv buf off cnt bytes :
    read_bytes buf off cnt = Ok bytes ->
    bytes = slice buf off cnt /\
    0 <= off /\ 0 <= cnt /\ off + cnt <= Z.of_nat (length buf).
Proof.
    unfold read_bytes. destruct (in_range _ _ _) eqn:E; [|done].
    apply in_range_spec in E. intros [= <-]. done.
Qed.

Lemma length_slice buf off cnt :
    0 <= off -> 0 <= cnt -> off + cnt <= Z.of_nat (length buf) ->
    length (slice buf off cnt) = Z.to_nat cnt.
Proof. intros. unfold slice. rewrite length_take, length_drop. lia. Qed.

Lemma write_bytes_Ok buf off src :
    0 <= off -> off + Z.of_nat (length src) <= Z.of_nat (length buf) ->
    write_bytes buf off src
    = Ok (take (Z.to_nat off) buf ++ src
          ++ drop (Z.to_nat off + length src) buf).
Proof.
    intros. unfold write_bytes.
    destruct (in_range _ _ _) eqn:E; [done|].
    assert (in_range (Z.of_nat (length buf)) off (Z.of_nat (length src)) = true)
      by (apply in_range_spec; lia).
    congruence.
Qed.

Lemma write_bytes_inv buf off src buf' :
    write_bytes buf off src = Ok buf' ->
    buf' = take (Z.to_nat off) buf ++ src
           ++ drop (Z.to_nat off + length src) buf /\
    0 <= off /\ off + Z.of_nat (length src) <= Z.of_nat (length buf).
Proof.
    unfold write_bytes. destruct (in_range _ _ _) eqn:E; [|done].
    apply in_range_spec in E. intros [= <-]. split; [done|lia].
Qed.

  (** Writing keeps the size of the allocation. *)
Lemma write_bytes_length buf off src buf' :
    write_bytes buf off src = Ok buf' -> length buf' = length buf.
Proof.
    intros [-> [? ?]]%write_bytes_inv.
    rewrite !length_app, length_take, length_drop. lia.
Qed.

  (** The written range reads back as the source. *)
Lemma write_bytes_slice_same buf off src buf' :
    write_bytes buf off src = Ok buf' ->
    slice buf' off (Z.of_nat (length src)) = src.
Proof.
    intros [-> [? ?]]%write_bytes_inv. unfold slice.
    rewrite drop_app_length' by (rewrite length_take; lia).
    rewrite Nat2Z.id. by rewrite take_app_length.
Qed.

  (** A range that ends before the written one is untouched. *)
Lemma write_bytes_slice_before buf off src buf' o n :
    write_bytes buf off src = Ok buf' ->
    0 <= o -> 0 <= n -> o + n <= off ->
    slice buf' o n = slice buf o n.
Proof.
    intros [-> [? ?]]%write_bytes_inv ? ? ?. unfold slice.
    rewrite drop_app_le by (rewrite length_take; lia).
    rewrite take_app_le by (rewrite length_drop, length_take; lia).
    rewrite take_drop_commute, take_take.
    rewrite (take_drop_commute buf). f_equal. f_equal. lia.
Qed.

  (** A range that starts after the written one is untouched. *)
Lemma write_bytes_slice_after buf off src buf' o n :
    write_bytes buf off src = Ok buf' ->
    off + Z.of_nat (length src) <= o -> 0 <= n ->
    slice buf' o n = slice buf o n.
Proof.
    intros [-> [? ?]]%write_bytes_inv ? ?. unfold slice.
    rewrite app_assoc.
    rewrite drop_app_ge by (rewrite length_app, length_take; lia).
    rewrite length_app, length_take, drop_drop. do 2 f_equal. lia.
Qed.
End buffer_lemmas.

(** ** Readback staging heap *)

Section readback_heap.
Import DmlReadbackHeap.

Variable c_initialCapacity : Z.
Hypothesis c_initialCapacity_pos : 0 < c_initialCapacity.
Hypothesis c_initialCapacity_size_t : c_initialCapacity <= SIZE_MAX.

Lemma heap_inv_initial : heap_inv c_initialCapacity DmlReadbackHeap.
Proof. reflexivity. Qed.

Lemma SIZE_MAX_half : SIZE_MAX `div` 2 = 2 ^ 63 - 1.
Proof. reflexivity. Qed.

(** With enough fuel the loop ends: it throws E_OUTOFMEMORY or returns the
    existing capacity doubled [k] times, the first such value that reaches
    the desired one; no product is reduced modulo 2^64 on the way. *)
Lemma ComputeNewCapacity_loop_spec fuel cap desired :
  0 < cap -> cap <= SIZE_MAX ->
  2 ^ 63 <= cap * 2 ^ (Z.of_nat fuel - 1) ->
  ComputeNewCapacity_loop fuel cap desired = Throw (hresult_error E_OUTOFMEMORY)
  \/ exists k : nat,
       ComputeNewCapacity_loop fuel cap desired = Ok (cap * 2 ^ Z.of_nat k)
       /\ desired <= cap * 2 ^ Z.of_nat k <= SIZE_MAX
       /\ (k = 0%nat \/ cap * 2 ^ (Z.of_nat k - 1) < desired).
Proof.
  revert cap. induction fuel as [|fuel IH]; intros cap Hpos Hmax Hfuel.
  { lia. }
  simpl. destruct (decide (cap < desired)) as [Hlt|Hge].
  - destruct (decide (cap >= SIZE_MAX `div` 2)) as [Hbig|Hsmall]; [by left|].
    rewrite SIZE_MAX_half in Hsmall.
    assert (Hmod : (cap * 2) `mod` 2 ^ 64 = cap * 2)
      by (apply Z.mod_small; lia).
    rewrite Hmod.
    assert (Hf : (0 < Z.of_nat fuel)%Z).
    { destruct fuel; [|lia]. simpl in Hfuel. lia. }
    destruct (IH (cap * 2)) as [->|(k & -> & Hk & Hmin)].
    + lia.
    + unfold SIZE_MAX. lia.
    + replace (Z.of_nat (S fuel) - 1) with (Z.succ (Z.of_nat fuel - 1)) in Hfuel
        by lia.
      rewrite Z.pow_succ_r in Hfuel by lia. lia.
    + by left.
    + right. exists (S k).
      replace (Z.of_nat (S k)) with (Z.succ (Z.of_nat k)) by lia.
      rewrite Z.pow_succ_r by lia.
      replace (cap * (2 * 2 ^ Z.of_nat k)) with (cap * 2 * 2 ^ Z.of_nat k)
        by lia.
      split; [done|]. split; [done|]. right.
      replace (Z.succ (Z.of_nat k) - 1) with (Z.of_nat k) by lia.
      destruct Hmin as [->|Hmin]; [simpl; lia|].
      replace (Z.of_nat k) with (Z.succ (Z.of_nat k - 1)) at 1 by lia.
      destruct (decide (k = 0%nat)) as [->|].
      { lia. }
      rewrite Z.pow_succ_r by lia. lia.
  - right. exists 0%nat. simpl. rewrite Z.mul_1_r.
    split; [done|]. split; [lia|]. by left.
Qed.

(** The fuel of [ComputeNewCapacity] is enough: more fuel gives the same
    result, for every capacity above 0. *)
Lemma ComputeNewCapacity_fuel fuel cap desired :
  0 < cap -> cap <= SIZE_MAX -> (65 <= fuel)%nat ->
  ComputeNewCapacity_loop fuel cap desired = ComputeNewCapacity cap desired.
Proof.
  unfold ComputeNewCapacity.
  assert (H : forall f1 f2 c, 0 < c -> c <= SIZE_MAX ->
            2 ^ 63 <= c * 2 ^ (Z.of_nat f1 - 1) ->
            2 ^ 63 <= c * 2 ^ (Z.of_nat f2 - 1) ->
            ComputeNewCapacity_loop f1 c desired
            = ComputeNewCapacity_loop f2 c desired).
  { induction f1 as [|f1 IH]; intros f2 c Hpos Hmax H1 H2.
    { lia. }
    destruct f2 as [|f2].
    { lia. }
    simpl. destruct (decide (c < desired)); [|done].
    destruct (decide (c >= SIZE_MAX `div` 2)) as [|Hsmall]; [done|].
    rewrite SIZE_MAX_half in Hsmall.
    rewrite (Z.mod_small (c * 2)) by lia.
    assert (forall f, 2 ^ 63 <= c * 2 ^ (Z.of_nat (S f) - 1) ->
                      2 ^ 63 <= c * 2 * 2 ^ (Z.of_nat f - 1)) as Hstep.
    { intros f Hf. destruct f as [|f]; [simpl in Hf; lia|].
      replace (Z.of_nat (S (S f)) - 1) with (Z.succ (Z.of_nat (S f) - 1)) in Hf
        by lia.
      rewrite Z.pow_succ_r in Hf by lia. lia. }
    apply IH; [lia|unfold SIZE_MAX; lia|by apply Hstep..]. }
  intros Hpos Hmax Hfuel. apply H; [done|done|..].
  - assert (2 ^ 64 <= 2 ^ (Z.of_nat fuel - 1))
      by (apply Z.pow_le_mono_r; lia).
    nia.
  - change (Z.of_nat 65 - 1) with 64. lia.
Qed.

(** From capacity 0 the loop never ends, whatever the fuel. *)
Lemma ComputeNewCapacity_loop_zero fuel desired :
  0 < desired -> ComputeNewCapacity_loop fuel 0 desired = Undefined.
Proof.
  intros Hd. induction fuel as [|fuel IH]; [done|].
  cbn [ComputeNewCapacity_loop].
  destruct (decide (0 < desired)); [|lia].
  destruct (decide (0 >= SIZE_MAX `div` 2)) as [Hbig|_].
  { rewrite SIZE_MAX_half in Hbig. lia. }
  exact IH.
Qed.

Lemma ComputeNewCapacity_spec cap desired :
  0 < cap -> cap <= SIZE_MAX ->
  ComputeNewCapacity cap desired = Throw (hresult_error E_OUTOFMEMORY)
  \/ exists k : nat,
       ComputeNewCapacity cap desired = Ok (cap * 2 ^ Z.of_nat k)
       /\ desired <= cap * 2 ^ Z.of_nat k <= SIZE_MAX
       /\ (k = 0%nat \/ cap * 2 ^ (Z.of_nat k - 1) < desired).
Proof.
  intros. apply ComputeNewCapacity_loop_spec; [done..|].
  change (Z.of_nat 65 - 1) with 64. lia.
Qed.

Lemma pow2_pos (k : nat) : 0 < 2 ^ Z.of_nat k.
Proof. apply Z.pow_pos_nonneg; lia. Qed.

(** A request of at most half the [size_t] range is never refused. *)
Lemma ComputeNewCapacity_loop_not_refused fuel cap desired e :
  desired <= SIZE_MAX `div` 2 ->
  ComputeNewCapacity_loop fuel cap desired <> Throw e.
Proof.
  intros Hd. revert cap. induction fuel as [|fuel IH]; intros cap; [done|].
  cbn [ComputeNewCapacity_loop].
  destruct (decide (cap < desired)) as [Hlt|Hge]; [|done].
  destruct (decide (cap >= SIZE_MAX `div` 2)); [lia|]. apply IH.
Qed.

(** A request of at most half the [size_t] range is granted. *)
Lemma ComputeNewCapacity_returns existing desired :
  0 < existing <= SIZE_MAX -> desired <= SIZE_MAX `div` 2 ->
  exists c, ComputeNewCapacity existing desired = Ok c.
Proof.
  intros [Hpos Hmax] Hd.
  destruct (ComputeNewCapacity_spec existing desired Hpos Hmax)
    as [Hthrow|(k & Hk & _)]; [|eauto].
  by apply ComputeNewCapacity_loop_not_refused in Hthrow.
Qed.

(** One call of [EnsureReadbackHeap] on a heap that has a buffer or is
    new, split by what [ComputeNewCapacity] starts from. *)
Lemma EnsureReadbackHeap_grow device (start size : Z) (k0 : nat) :
  start = c_initialCapacity * 2 ^ Z.of_nat k0 -> start <= SIZE_MAX ->
  let r :=
    capacity ← ComputeNewCapacity start size;
    heap ← CreateReadbackHeap device capacity;
    Ok {| m_readbackHeap := Some heap; m_capacity := capacity |} in
  r <> Undefined /\
  (forall h', r = Ok h' ->
     heap_inv c_initialCapacity h' /\ start <= m_capacity h' /\ size <= m_capacity h' /\
     (exists res, m_readbackHeap h' = Some res /\ Width res = m_capacity h') /\
     exists k : nat, m_capacity h' = c_initialCapacity * 2 ^ Z.of_nat k) /\
  ((forall k : nat, size <= c_initialCapacity * 2 ^ Z.of_nat k ->
                    SIZE_MAX < c_initialCapacity * 2 ^ Z.of_nat k) ->
   r = Throw (hresult_error E_OUTOFMEMORY)).
Proof.
  intros Hstart Hmax r. pose proof (pow2_pos k0) as Hk0.
  assert (0 < start) as Hpos by (subst start; nia).
  subst r.
  destruct (ComputeNewCapacity_spec start size Hpos Hmax)
    as [->|(k & -> & [Hge Hle] & _)]; [done|].
  pose proof (pow2_pos k) as Hk.
  assert (Hcap : start * 2 ^ Z.of_nat k
                 = c_initialCapacity * 2 ^ Z.of_nat (k0 + k)).
  { rewrite Hstart, Nat2Z.inj_add, Z.pow_add_r by lia. lia. }
  cbn. unfold CreateReadbackHeap.
  destruct (CreateCommittedResource device _) as [hr|]; cbn.
  - split; [done|]. split; [done|]. intros Hnone.
    specialize (Hnone (k0 + k)%nat). lia.
  - split; [done|]. split.
    + intros h' [= <-]. unfold heap_inv. cbn.
      repeat split; eauto; nia.
    + intros Hnone. specialize (Hnone (k0 + k)%nat). lia.
Qed.

(** A request of at most half the [size_t] range on a device that commits
    every buffer is served. *)
Lemma EnsureReadbackHeap_returns device h size :
  heap_inv c_initialCapacity h -> size <= SIZE_MAX `div` 2 ->
  (forall s, CreateCommittedResource device s = None) ->
  exists h', EnsureReadbackHeap c_initialCapacity device h size = Ok h'.
Proof.
  intros Hinv Hsize Hdev.
  assert (Hgrow : forall start, 0 < start <= SIZE_MAX ->
    exists h',
      (capacity ← ComputeNewCapacity start size;
       heap ← CreateReadbackHeap device capacity;
       Ok {| m_readbackHeap := Some heap; m_capacity := capacity |}) = Ok h').
  { intros start Hstart.
    destruct (ComputeNewCapacity_returns start size Hstart Hsize)
      as [capacity ->].
    cbn. unfold CreateReadbackHeap. rewrite Hdev. cbn. eauto. }
  unfold EnsureReadbackHeap, heap_inv in *.
  destruct (m_readbackHeap h) as [res|]; [|by apply Hgrow].
  destruct (decide (m_capacity h < size)); [|eauto].
  apply Hgrow. destruct Hinv as (_ & Hmax & k & Hk).
  pose proof (pow2_pos k). split; [nia|done].
Qed.

(** C6. [EnsureReadbackHeap] ends, by returning or by throwing, and it
    does return, with a buffer, for every size up to [SIZE_MAX / 2] when
    the device commits the buffer. When it returns, the capacity has not
    shrunk, is the initial capacity times a power of two (the mathematical
    product: nothing was reduced modulo 2^64), is at least the requested
    size, and is the width of the buffer. When no such multiple fits in
    [size_t], the call throws E_OUTOFMEMORY. *)
Theorem EnsureReadbackHeap_capacity device h size :
  heap_inv c_initialCapacity h -> 0 <= size <= SIZE_MAX ->
  EnsureReadbackHeap c_initialCapacity device h size <> Undefined /\
  (size <= SIZE_MAX `div` 2 ->
   (forall s, CreateCommittedResource device s = None) ->
   exists h', EnsureReadbackHeap c_initialCapacity device h size = Ok h') /\
  (forall h', EnsureReadbackHeap c_initialCapacity device h size = Ok h' ->
     heap_inv c_initialCapacity h' /\ m_capacity h <= m_capacity h' /\ size <= m_capacity h' /\
     (exists res, m_readbackHeap h' = Some res /\ Width res = m_capacity h') /\
     exists k : nat, m_capacity h' = c_initialCapacity * 2 ^ Z.of_nat k) /\
  ((forall k : nat, size <= c_initialCapacity * 2 ^ Z.of_nat k ->
                    SIZE_MAX < c_initialCapacity * 2 ^ Z.of_nat k) ->
   EnsureReadbackHeap c_initialCapacity device h size
   = Throw (hresult_error E_OUTOFMEMORY)).
Proof.
  intros Hinv Hsize.
  assert (Hreturns :
    size <= SIZE_MAX `div` 2 ->
    (forall s, CreateCommittedResource device s = None) ->
    exists h', EnsureReadbackHeap c_initialCapacity device h size = Ok h')
    by (intros; by apply EnsureReadbackHeap_returns).
  unfold EnsureReadbackHeap, heap_inv in *.
  destruct (m_readbackHeap h) as [res|] eqn:Hheap.
  - destruct Hinv as (Hw & Hmax & k0 & Hk0).
    destruct (decide (m_capacity h < size)) as [Hsmall|Hfits].
    + destruct (EnsureReadbackHeap_grow device (m_capacity h) size k0)
        as (H1 & H2 & H3); [done..|].
      split; [done|]. split; [done|]. split; [done|done].
    + split; [done|]. split; [done|]. split.
      * intros h' [= <-]. rewrite Hheap. repeat split; eauto; lia.
      * intros Hnone. specialize (Hnone k0). lia.
  - destruct (EnsureReadbackHeap_grow device c_initialCapacity size 0)
      as (H1 & H2 & H3); [simpl; lia|done|].
    split; [done|]. split; [done|]. split; [|done].
    intros h' Hh'. destruct (H2 h' Hh') as (? & ? & ? & ? & ?).
    repeat split; try done. lia.
Qed.





End readback_heap.

(** ** Beam reordering *)

Lemma bind_Ok_inv {A B} (m : outcome A) (k : A -> outcome B) b :
  m ≫= k = Ok b -> exists a, m = Ok a /\ k a = Ok b.
Proof. destruct m as [a| |]; cbn; [eauto|done..]. Qed.

Lemma bind_not_Throw {A B} (m : outcome A) (k : A -> outcome B) :
  ~ is_Throw m -> (forall a, ~ is_Throw (k a)) -> ~ is_Throw (m ≫= k).
Proof.
  intros Hm Hk. destruct m as [a| |]; cbn.
  - apply Hk.
  - destruct Hm. by eexists.
  - by intros [? ?].
Qed.


Lemma subspan_Undefined sz s offset count :
  offset < 0 \/ span_size s < offset + count ->
  subspan sz s offset count = Undefined.
Proof.
  intros. unfold subspan.
  destruct (in_range _ _ _) eqn:E; [|done].
  apply in_range_spec in E. lia.
Qed.






(** Loop invariants for [for_loop]: an invariant that every iteration
    re-establishes holds at the end, and the loop returns. *)
Lemma for_loop_inv {St} (P : nat -> St -> Prop) body n i0 (s : St) :
  P i0 s ->
  (forall i s, (i0 <= i < i0 + n)%nat -> P i s ->
     exists s', body i s = Ok s' /\ P (S i) s') ->
  exists s', for_loop n i0 body s = Ok s' /\ P (i0 + n)%nat s'.
Proof.
  revert i0 s. induction n as [|n IH]; intros i0 s H0 Hstep.
  { exists s. rewrite Nat.add_0_r. done. }
  cbn [for_loop]. destruct (Hstep i0 s) as (s1 & -> & H1); [lia|done|].
  unfold mbind, outcome_bind.
  destruct (IH (S i0) s1) as (s' & Hs' & HP); [done| |].
  { intros i s2 Hi. apply Hstep. lia. }
  exists s'. split; [done|]. by replace (i0 + S n)%nat with (S i0 + n)%nat by lia.
Qed.

(** Whatever a loop returns satisfies an invariant its iterations keep. *)
Lemma for_loop_Ok_inv {St} (P : nat -> St -> Prop) body n i0 (s s' : St) :
  for_loop n i0 body s = Ok s' ->
  P i0 s ->
  (forall i s s', (i0 <= i < i0 + n)%nat -> P i s -> body i s = Ok s' ->
     P (S i) s') ->
  P (i0 + n)%nat s'.
Proof.
  revert i0 s. induction n as [|n IH]; intros i0 s Hrun H0 Hstep.
  { cbn in Hrun. injection Hrun as <-. by rewrite Nat.add_0_r. }
  cbn [for_loop] in Hrun. apply bind_Ok_inv in Hrun as (s1 & Hbody & Hrun).
  replace (i0 + S n)%nat with (S i0 + n)%nat by lia.
  eapply IH; [exact Hrun| |].
  - eapply Hstep; [|exact H0|exact Hbody]. lia.
  - intros i s2 s3 Hi. apply Hstep. lia.
Qed.

Lemma CreateTensor_spec a shape ty :
  tensor_of ty shape (CreateTensor a shape ty).1 /\
  ov_id (CreateTensor a shape ty).1 = alloc_next a /\
  alloc_next (CreateTensor a shape ty).2 = S (alloc_next a).
Proof.
  unfold CreateTensor, tensor_of. cbn.
  by rewrite length_fmap, length_seq.
Qed.





Lemma vec_get_Ok {A} (l : list A) i x : l !! i = Some x -> vec_get l i = Ok x.
Proof. unfold vec_get. by intros ->. Qed.

Lemma vec_set_Ok {A} (l : list A) i x :
  (i < length l)%nat -> vec_set l i x = Ok (<[i := x]> l).
Proof. intros. unfold vec_set. by rewrite decide_True. Qed.

Lemma set_input_Ok st i v :
  (i < length (inputs_ st))%nat ->
  exists st', set_input st i v = Ok st'
    /\ inputs_ st' = <[i := v]> (inputs_ st)
    /\ outputs_ st' = outputs_ st.
Proof.
  intros Hi. unfold set_input, vec_set. rewrite decide_True by done.
  eexists. split; [done|]. done.
Qed.

Lemma set_output_Ok st i v :
  (i < length (outputs_ st))%nat ->
  exists st', set_output st i v = Ok st'
    /\ outputs_ st' = <[i := v]> (outputs_ st)
    /\ inputs_ st' = inputs_ st.
Proof.
  intros Hi. unfold set_output, vec_set. rewrite decide_True by done.
  eexists. split; [done|]. done.
Qed.

(** The second loop of [Update] (new present tensors, outputs rebound)
    returns and leaves the past tensors alone. *)
Lemma Split_Update_presents_loop c st a :
  length (KV_Cache.presents_ c) = (KV_Cache.layer_count_ c * 2)%nat ->
  (KV_Cache.output_index_ c + KV_Cache.layer_count_ c * 2
   <= length (outputs_ st))%nat ->
  exists c' st' a',
    for_loop (KV_Cache.layer_count_ c * 2)%nat 0 (fun i r =>
      let '(c, st, a) := r in
      let '(v, a) := CreateTensor a (KV_Cache.shape_ c) (KV_Cache.type_ c) in
      presents ← vec_set (KV_Cache.presents_ c) i (Some v);
      let c := KV_Cache.set_presents_ c presents in
      present ← vec_get (KV_Cache.presents_ c) i;
      st ← set_output st (KV_Cache.output_index_ c + i) (get present);
      Ok (c, st, a)) (c, st, a) = Ok (c', st', a')
    /\ KV_Cache.pasts_ c' = KV_Cache.pasts_ c
    /\ inputs_ st' = inputs_ st.
Proof.
  intros Hlen Hout.
  edestruct (for_loop_inv (fun (i : nat) (r : KV_Cache.t * State * Allocator) =>
      exists prs, r.1.1 = KV_Cache.set_presents_ c prs
        /\ length prs = (KV_Cache.layer_count_ c * 2)%nat
        /\ length (outputs_ r.1.2) = length (outputs_ st)
        /\ inputs_ r.1.2 = inputs_ st))
    as ([[c' st'] a'] & Hrun & prs & Hc' & _ & _ & Hin); [| |].
  3: { exists c', st', a'. split; [exact Hrun|]. cbn in *. by subst c'. }
  - exists (KV_Cache.presents_ c). cbn. by destruct c.
  - intros i [[c1 st1] a1] Hi (prs & Hc1 & Hprs & Houts & Hins).
    cbn [fst snd] in *. subst c1.
    destruct (CreateTensor a1 _ _) as [v a2].
    unfold vec_set. cbn [KV_Cache.presents_ KV_Cache.set_presents_].
    rewrite decide_True by lia. unfold mbind at 1, outcome_bind.
    unfold vec_get. cbn [KV_Cache.presents_ KV_Cache.set_presents_].
    rewrite list_lookup_insert_eq by lia. unfold mbind at 1, outcome_bind.
    destruct (set_output_Ok st1
                (KV_Cache.output_index_ c + i) (get (Some v)))
      as (st2 & Hst2 & Ho2 & Hi2); [lia|].
    cbn [KV_Cache.output_index_ KV_Cache.set_presents_].
    rewrite Hst2. unfold mbind, outcome_bind.
    eexists. split; [done|]. cbn [fst snd].
    exists (<[i := Some v]> prs). split; [done|].
    rewrite length_insert, Ho2, length_insert, Hi2. done.
Qed.

Lemma Forall_lookup_present {A} (P : A -> Prop) (l : list (option A)) i :
  Forall (fun p => exists v, p = Some v /\ P v) l ->
  (i < length l)%nat ->
  exists v, l !! i = Some (Some v) /\ P v.
Proof.
  intros Hall Hi. destruct (lookup_lt_is_Some_2 l i Hi) as [p Hp].
  rewrite Forall_lookup in Hall. destruct (Hall i p Hp) as (v & -> & Hv).
  eauto.
Qed.



(** The second loop of [Update] of the Combined cache: it returns, keeps
    the past tensors and binds input slot [input_index_ + i] to past [i]. *)
Lemma Combined_Update_rebind_loop c st a :
  length (KV_Cache_Combined.pasts_ c) = KV_Cache_Combined.layer_count_ c ->
  length (KV_Cache_Combined.presents_ c) = KV_Cache_Combined.layer_count_ c ->
  (KV_Cache_Combined.input_index_ c + KV_Cache_Combined.layer_count_ c
   <= length (inputs_ st))%nat ->
  (KV_Cache_Combined.output_index_ c + KV_Cache_Combined.layer_count_ c
   <= length (outputs_ st))%nat ->
  exists c' st' a',
    for_loop (KV_Cache_Combined.layer_count_ c) 0 (fun i r =>
      let '(c, st, a) := r in
      let '(v, a) := CreateTensor a (KV_Cache_Combined.shape_ c)
                       (KV_Cache_Combined.type_ c) in
      presents ← vec_set (KV_Cache_Combined.presents_ c) i (Some v);
      let c := KV_Cache_Combined.set_presents_ c presents in
      past ← vec_get (KV_Cache_Combined.pasts_ c) i;
      st ← set_input st (KV_Cache_Combined.input_index_ c + i) (get past);
      present ← vec_get (KV_Cache_Combined.presents_ c) i;
      st ← set_output st (KV_Cache_Combined.output_index_ c + i) (get present);
      Ok (c, st, a)) (c, st, a) = Ok (c', st', a')
    /\ KV_Cache_Combined.pasts_ c' = KV_Cache_Combined.pasts_ c
    /\ forall k p, KV_Cache_Combined.pasts_ c !! k = Some p ->
         inputs_ st' !! (KV_Cache_Combined.input_index_ c + k)%nat
         = Some (get p).
Proof.
  intros Hpasts Hpresents Hin Hout.
  set (L := KV_Cache_Combined.layer_count_ c) in *.
  edestruct (for_loop_inv
    (fun (i : nat) (r : KV_Cache_Combined.t * State * Allocator) =>
      exists prs, r.1.1 = KV_Cache_Combined.set_presents_ c prs
        /\ length prs = L
        /\ length (outputs_ r.1.2) = length (outputs_ st)
        /\ length (inputs_ r.1.2) = length (inputs_ st)
        /\ forall k p, (k < i)%nat ->
             KV_Cache_Combined.pasts_ c !! k = Some p ->
             inputs_ r.1.2 !! (KV_Cache_Combined.input_index_ c + k)%nat
             = Some (get p)))
    as ([[c' st'] a'] & Hrun & prs & Hc' & _ & _ & _ & Hbound); [| |].
  3: { exists c', st', a'. split; [exact Hrun|]. cbn in *. subst c'.
       split; [done|]. intros k p Hk. apply Hbound; [|done].
       apply lookup_lt_Some in Hk. unfold L. lia. }
  - exists (KV_Cache_Combined.presents_ c). cbn. split; [by destruct c|].
    repeat split; try done. intros k p Hk. lia.
  - intros i [[c1 st1] a1] Hi (prs & Hc1 & Hprs & Houts & Hins & Hprev).
    cbn [fst snd] in *. subst c1.
    destruct (CreateTensor a1 _ _) as [v a2].
    unfold vec_set.
    cbn [KV_Cache_Combined.presents_ KV_Cache_Combined.set_presents_].
    rewrite decide_True by lia. unfold mbind at 1, outcome_bind.
    cbn [KV_Cache_Combined.pasts_ KV_Cache_Combined.set_presents_
         KV_Cache_Combined.presents_ KV_Cache_Combined.input_index_
         KV_Cache_Combined.output_index_].
    destruct (lookup_lt_is_Some_2 (KV_Cache_Combined.pasts_ c) i) as [p Hp];
      [lia|].
    rewrite (vec_get_Ok _ _ _ Hp). unfold mbind at 1, outcome_bind.
    destruct (set_input_Ok st1 (KV_Cache_Combined.input_index_ c + i) (get p))
      as (st2 & -> & Hi2 & Ho2); [lia|].
    unfold mbind at 1, outcome_bind.
    rewrite (vec_get_Ok _ i (Some v)) by (apply list_lookup_insert_eq; lia).
    unfold mbind at 1, outcome_bind.
    destruct (set_output_Ok st2
                (KV_Cache_Combined.output_index_ c + i) (get (Some v)))
      as (st3 & -> & Ho3 & Hi3); [rewrite Ho2; lia|].
    unfold mbind, outcome_bind.
    eexists. split; [done|]. cbn [fst snd].
    exists (<[i := Some v]> prs). split; [done|].
    rewrite length_insert, Ho3, length_insert, Hi3, Hi2, length_insert, Ho2.
    repeat split; try done.
    intros k q Hk Hq. destruct (decide (k = i)) as [->|Hki].
    + rewrite list_lookup_insert_eq by lia. congruence.
    + rewrite list_lookup_insert_ne by lia. apply Hprev; [lia|done].
Qed.



(** ** No reordering: the empty list and the identity list *)

(** [Update] of the Split cache with no beam indices: every present
    tensor becomes the past tensor, as it is. *)
Lemma Split_Update_empty m c st a current_length B H S D :
  Split_ready c st B H S D ->
  exists c' st' a',
    KV_Cache.Update m c st a [] current_length = Ok (c', st', a')
    /\ forall i, (i < KV_Cache.layer_count_ c * 2)%nat ->
         KV_Cache.pasts_ c' !! i = KV_Cache.presents_ c !! i.
Proof.
  intros (Hshare & Hshape & _ & Hty & Hpasts & Hpresents & Hall & Hin & Hout).
  unfold KV_Cache.Update. rewrite Hshare.
  set (L2 := (KV_Cache.layer_count_ c * 2)%nat) in *.
  edestruct (for_loop_inv (fun (i : nat) (r : KV_Cache.t * State * Allocator) =>
      exists ps prs,
        r.1.1 = KV_Cache.set_presents_ (KV_Cache.set_pasts_ c ps) prs
        /\ length ps = L2 /\ length prs = L2
        /\ length (inputs_ r.1.2) = length (inputs_ st)
        /\ outputs_ r.1.2 = outputs_ st
        /\ (forall k, (k < i)%nat -> ps !! k = KV_Cache.presents_ c !! k)
        /\ (forall k, (i <= k)%nat -> prs !! k = KV_Cache.presents_ c !! k)))
    as ([[c1 st1] a1] & Hrun & ps & prs & Hc1 & Hps & Hprs & Hins & Houts
        & Hdone & _); [| |rewrite Hrun].
  - exists (KV_Cache.pasts_ c), (KV_Cache.presents_ c). cbn.
    split; [by destruct c|]. repeat split; try done. intros k Hk. lia.
  - intros i [[c1 st1] a1] Hi
      (ps & prs & Hc1 & Hps & Hprs & Hins & Houts & Hprev & Hnext).
    cbn [fst snd] in *. subst c1. rewrite decide_True by done.
    cbn [KV_Cache.presents_ KV_Cache.pasts_ KV_Cache.set_presents_
         KV_Cache.set_pasts_].
    destruct (lookup_lt_is_Some_2 prs i) as [p Hp]; [lia|].
    rewrite (vec_get_Ok _ _ _ Hp). cbn [mbind outcome_bind].
    rewrite !vec_set_Ok by lia.
    cbn [mbind outcome_bind fst snd KV_Cache.presents_ KV_Cache.pasts_
         KV_Cache.set_presents_ KV_Cache.set_pasts_ KV_Cache.input_index_].
    rewrite (vec_get_Ok _ i p) by (apply list_lookup_insert_eq; lia).
    cbn [mbind outcome_bind].
    destruct (set_input_Ok st1 (KV_Cache.input_index_ c + i) (get p))
      as (st2 & -> & Hi2 & Ho2); [lia|].
    cbn [mbind outcome_bind]. eexists. split; [done|]. cbn [fst snd].
    exists (<[i := p]> ps), (<[i := None]> prs). split; [done|].
    rewrite !length_insert, Hi2, length_insert, Ho2.
    repeat split; try done.
    + intros k Hk. destruct (decide (k = i)) as [->|Hki].
      * rewrite list_lookup_insert_eq by lia. rewrite <- Hp. apply Hnext. lia.
      * rewrite list_lookup_insert_ne by lia. apply Hprev. lia.
    + intros k Hk. rewrite list_lookup_insert_ne by lia. apply Hnext. lia.
  - cbn [fst snd] in *. subst c1.
    destruct (Split_Update_presents_loop
                (KV_Cache.set_shape_
                   (KV_Cache.set_presents_ (KV_Cache.set_pasts_ c ps) prs)
                   (<[2%nat := current_length]>
                      (KV_Cache.shape_
                         (KV_Cache.set_presents_ (KV_Cache.set_pasts_ c ps) prs))))
                st1 a1)
      as (c2 & st2 & a2 & Hrun2 & Hpasts2 & Hins2);
      [done|cbn; rewrite Houts; unfold L2 in *; lia|].
    unfold mbind, outcome_bind.
    exists c2, st2, a2. split; [exact Hrun2|].
    intros i Hi. rewrite Hpasts2. cbn. apply Hdone. lia.
Qed.

(** The same for the Combined cache. *)
Lemma Combined_Update_empty m c st a current_length B H S D :
  Combined_ready c st B H S D ->
  exists c' st' a',
    KV_Cache_Combined.Update m c st a [] current_length = Ok (c', st', a')
    /\ forall i, (i < KV_Cache_Combined.layer_count_ c)%nat ->
         KV_Cache_Combined.pasts_ c' !! i
         = KV_Cache_Combined.presents_ c !! i.
Proof.
  intros (Hshape & _ & Hty & Hpasts & Hpresents & Hall & Hin & Hout).
  unfold KV_Cache_Combined.Update.
  set (L := KV_Cache_Combined.layer_count_ c) in *.
  edestruct (for_loop_inv
    (fun (i : nat) (r : KV_Cache_Combined.t * Allocator) =>
      exists ps prs,
        r.1 = KV_Cache_Combined.set_presents_
                (KV_Cache_Combined.set_pasts_ c ps) prs
        /\ length ps = L /\ length prs = L
        /\ (forall k, (k < i)%nat ->
              ps !! k = KV_Cache_Combined.presents_ c !! k)
        /\ (forall k, (i <= k)%nat ->
              prs !! k = KV_Cache_Combined.presents_ c !! k)))
    as ([c1 a1] & Hrun & ps & prs & Hc1 & Hps & Hprs & Hdone & _);
    [| |rewrite Hrun].
  - exists (KV_Cache_Combined.pasts_ c), (KV_Cache_Combined.presents_ c). cbn.
    split; [by destruct c|]. repeat split; try done. intros k Hk. lia.
  - intros i [c1 a1] Hi (ps & prs & Hc1 & Hps & Hprs & Hprev & Hnext).
    cbn [fst snd] in *. subst c1. rewrite decide_True by done.
    cbn [KV_Cache_Combined.presents_ KV_Cache_Combined.pasts_
         KV_Cache_Combined.set_presents_ KV_Cache_Combined.set_pasts_].
    destruct (lookup_lt_is_Some_2 prs i) as [p Hp]; [lia|].
    rewrite (vec_get_Ok _ _ _ Hp). unfold mbind at 1, outcome_bind.
    rewrite !vec_set_Ok by lia. unfold mbind, outcome_bind.
    eexists. split; [done|]. cbn [fst snd].
    exists (<[i := p]> ps), (<[i := None]> prs). split; [done|].
    rewrite !length_insert. repeat split; try done.
    + intros k Hk. destruct (decide (k = i)) as [->|Hki].
      * rewrite list_lookup_insert_eq by lia. rewrite <- Hp. apply Hnext. lia.
      * rewrite list_lookup_insert_ne by lia. apply Hprev. lia.
    + intros k Hk. rewrite list_lookup_insert_ne by lia. apply Hnext. lia.
  - cbn [fst snd] in *. subst c1. unfold mbind, outcome_bind.
    destruct (Combined_Update_rebind_loop
                (KV_Cache_Combined.set_shape_
                   (KV_Cache_Combined.set_presents_
                      (KV_Cache_Combined.set_pasts_ c ps) prs)
                   (<[3%nat := current_length]>
                      (KV_Cache_Combined.shape_
                         (KV_Cache_Combined.set_presents_
                            (KV_Cache_Combined.set_pasts_ c ps) prs)))) st a1)
      as (c2 & st2 & a2 & Hrun2 & Hpasts2 & _); [done..|].
    exists c2, st2, a2. split; [exact Hrun2|].
    intros i Hi. rewrite Hpasts2. cbn. apply Hdone. lia.
Qed.






(** ** Shared-buffer mode of the Split cache *)

(** What the constructor of the Split cache returns, read off its last
    line: the flag and the log. *)
Lemma KV_Cache_ctor_inv g_log m st a c a' log :
  KV_Cache.KV_Cache g_log m st a = Ok (c, a', log) ->
  KV_Cache.past_present_share_buffer_ c = effective_share_buffer m st /\
  KV_Cache.layer_count_ c = num_hidden_layers (config_ m) /\
  log = (if log_enabled g_log && log_warning g_log
            && negb (Bool.eqb (effective_share_buffer m st)
                       (past_present_share_buffer (params_ st)))
         then [KV_Cache.share_buffer_warning] else []).
Proof.
  unfold KV_Cache.KV_Cache, effective_share_buffer. intros Hrun.
  apply bind_Ok_inv in Hrun as (names & _ & Hrun).
  apply bind_Ok_inv in Hrun as (name0 & _ & Hrun).
  apply bind_Ok_inv in Hrun as (ty & _ & Hrun).
  destruct (CreateTensor a _ ty) as [empty_past a1].
  apply bind_Ok_inv in Hrun as (sb & _ & Hrun).
  apply bind_Ok_inv in Hrun as (r & _ & Hrun).
  injection Hrun as <- <- <-. done.
Qed.

(** C3. A Split cache constructed with shared-buffer mode requested and a
    configuration that allows it (one beam, or a whisper model), once bound
    by [Add], is left as it is by any sequence of [Update] calls, whatever
    the beam indices and lengths: the cache, the allocator and the
    execution request, with the tensor bound to every input and output
    slot, are the same after as before. *)
Theorem Update_shared_buffer_noop g_log m st a c a0 log st0 c1 st1 :
  KV_Cache.KV_Cache g_log m st a = Ok (c, a0, log) ->
  past_present_share_buffer (params_ st) = true ->
  num_beams (params_ st) = 1 \/ model_type (config_ m) = "whisper" ->
  KV_Cache.Add c st0 = Ok (c1, st1) ->
  forall a1 calls,
    Update_many m c1 st1 a1 calls = Ok (c1, st1, a1).
Proof.
  intros Hctor Hreq Hcompat Hadd a1 calls.
  apply KV_Cache_ctor_inv in Hctor as (Hshare & _ & _).
  assert (KV_Cache.past_present_share_buffer_ c1 = true) as Hc1.
  { unfold KV_Cache.Add in Hadd.
    apply bind_Ok_inv in Hadd as (s1 & _ & Hadd).
    apply bind_Ok_inv in Hadd as (s2 & _ & Hadd).
    injection Hadd as <- _. cbn. rewrite Hshare.
    unfold effective_share_buffer. rewrite Hreq. cbn.
    destruct Hcompat as [Hb|Hw].
    - by rewrite (bool_decide_eq_true_2 _ Hb).
    - rewrite (bool_decide_eq_true_2 _ Hw). by rewrite orb_true_r. }
  revert a1. induction calls as [|[bis len] calls IH]; intros a1; [done|].
  cbn [Update_many]. unfold KV_Cache.Update. rewrite Hc1.
  cbn [mbind outcome_bind fst snd]. apply IH.
Qed.

(** C5, as the code has it. The constructor of the Split cache sets the
    shared-buffer flag to the requested flag AND (one beam OR a whisper
    model). It logs the warning exactly when that differs from the request
    and the log is enabled with warnings on; otherwise it logs nothing.
    The log settings change nothing else: the same cache is built, or the
    same error raised, whatever they are. *)
Theorem KV_Cache_share_buffer_flag g_log m st a :
  (forall c a' log,
     KV_Cache.KV_Cache g_log m st a = Ok (c, a', log) ->
     KV_Cache.past_present_share_buffer_ c
     = past_present_share_buffer (params_ st)
       && (bool_decide (num_beams (params_ st) = 1)
           || bool_decide (model_type (config_ m) = "whisper"))
     /\ log = (if log_enabled g_log && log_warning g_log
                  && negb (Bool.eqb (KV_Cache.past_present_share_buffer_ c)
                             (past_present_share_buffer (params_ st)))
               then [KV_Cache.share_buffer_warning] else []))
  /\ (forall g_log',
        (fun r => r.1) <$> KV_Cache.KV_Cache g_log m st a
        = (fun r => r.1) <$> KV_Cache.KV_Cache g_log' m st a).
Proof.
  split.
  - intros c a' log Hctor.
    apply KV_Cache_ctor_inv in Hctor as (Hshare & _ & ->).
    rewrite Hshare. done.
  - intros g_log'. unfold KV_Cache.KV_Cache.
    destruct (for_loop _ _ _ _) as [names| |]; [|done..].
    cbn [mbind outcome_bind].
    destruct (vec_get _ _) as [name0| |]; [|done..].
    cbn [mbind outcome_bind].
    destruct (GetInputDataType _ _) as [ty| |]; [|done..].
    cbn [mbind outcome_bind].
    destruct (CreateTensor a _ ty) as [empty_past a1].
    destruct (match captured_graph_info st with
              | Some _ => _ | None => _ end) as [sb| |]; [|done..].
    cbn [mbind outcome_bind].
    destruct (for_loop _ _ _ _) as [r| |]; [|done..].
    done.
Qed.

(** ** Beam indices out of range *)

(** None of the operations the gather is made of raises an error: each
    returns or is undefined. *)
Lemma Ok_not_Throw {A} (a : A) : ~ is_Throw (Ok a).
Proof. by intros [? ?]. Qed.

Lemma Undefined_not_Throw {A} : ~ is_Throw (@Undefined A).
Proof. by intros [? ?]. Qed.

Lemma vec_get_not_Throw {A} (l : list A) i : ~ is_Throw (vec_get l i).
Proof. unfold vec_get. destruct (l !! i); by intros [? ?]. Qed.

Lemma vec_set_not_Throw {A} (l : list A) i x : ~ is_Throw (vec_set l i x).
Proof. unfold vec_set. destruct (decide _); by intros [? ?]. Qed.

Lemma deref_not_Throw {A} (p : option A) : ~ is_Throw (deref p).
Proof. destruct p; by intros [? ?]. Qed.

Lemma subspan_not_Throw sz s off cnt : ~ is_Throw (subspan sz s off cnt).
Proof. unfold subspan. destruct (in_range _ _ _); by intros [? ?]. Qed.

Lemma read_bytes_not_Throw buf off cnt : ~ is_Throw (read_bytes buf off cnt).
Proof. unfold read_bytes. destruct (in_range _ _ _); by intros [? ?]. Qed.

Lemma write_bytes_not_Throw buf off src : ~ is_Throw (write_bytes buf off src).
Proof. unfold write_bytes. destruct (in_range _ _ _); by intros [? ?]. Qed.

Lemma copy_not_Throw sz sb s db d : ~ is_Throw (copy sz sb s db d).
Proof.
  unfold copy. apply bind_not_Throw; [apply read_bytes_not_Throw|].
  intros. apply write_bytes_not_Throw.
Qed.

Lemma set_input_not_Throw st i v : ~ is_Throw (set_input st i v).
Proof.
  unfold set_input. apply bind_not_Throw; [apply vec_set_not_Throw|].
  intros. apply Ok_not_Throw.
Qed.

Lemma set_output_not_Throw st i v : ~ is_Throw (set_output st i v).
Proof.
  unfold set_output. apply bind_not_Throw; [apply vec_set_not_Throw|].
  intros. apply Ok_not_Throw.
Qed.


Create HintDb no_throw.
#[local] Hint Resolve Ok_not_Throw Undefined_not_Throw vec_get_not_Throw
  vec_set_not_Throw deref_not_Throw subspan_not_Throw read_bytes_not_Throw
  write_bytes_not_Throw copy_not_Throw set_input_not_Throw
  set_output_not_Throw : no_throw.













(** ** Sliding-window cache: the collapse of the window *)

(** [std_copy] of [n] bytes between two tensors, inside both. *)
Lemma std_copy_spec src_buf dst_buf so d n sz' :
  0 <= so -> 0 <= n -> so + n <= Z.of_nat (length src_buf) ->
  0 <= d -> d + n <= Z.of_nat (length dst_buf) ->
  exists dst_buf',
    std_copy src_buf (Span so n) dst_buf (Span d sz') = Ok dst_buf'
    /\ length dst_buf' = length dst_buf
    /\ slice dst_buf' d n = slice src_buf so n
    /\ (forall o k, 0 <= o -> 0 <= k -> o + k <= d ->
          slice dst_buf' o k = slice dst_buf o k)
    /\ (forall o k, d + n <= o -> 0 <= k ->
          slice dst_buf' o k = slice dst_buf o k).
Proof.
  intros Hso Hn Hsrc Hd Hdst. unfold std_copy, copy.
  cbn [span_data span_size]. rewrite Z.mul_1_r.
  rewrite read_bytes_Ok by lia. cbn [mbind outcome_bind].
  assert (Hlen : length (slice src_buf so n) = Z.to_nat n)
    by (apply length_slice; lia).
  assert (exists buf', write_bytes dst_buf d (slice src_buf so n) = Ok buf')
    as [buf' Hw] by (eexists; apply write_bytes_Ok; rewrite ?Hlen; lia).
  rewrite Hw. exists buf'. split; [done|].
  split; [by apply write_bytes_length in Hw|]. split; [|split].
  - pose proof (write_bytes_slice_same _ _ _ _ Hw) as Hsame.
    rewrite Hlen, Z2Nat.id in Hsame by done. exact Hsame.
  - intros o k Ho Hk Hend. eapply write_bytes_slice_before; eauto.
  - intros o k Ho Hk. eapply write_bytes_slice_after; eauto.
    rewrite Hlen. lia.
Qed.

(** The key loop of the collapse for one layer: chunk [j] of the new
    key-in tensor is chunk [j] of the old key-in tensor without its first
    element, followed by chunk [j] of the old key-out tensor. *)
Lemma Update_key_chunks_spec (c : SlidingWindowKeyValueCache.t)
    (Hh Dd C W : Z) key_in key_out new_key :
  SlidingWindowKeyValueCache.window_size_ c = W ->
  SlidingWindowKeyValueCache.key_cache_shape_in_ c = [Hh; 1; Dd; C - W] ->
  SlidingWindowKeyValueCache.key_cache_shape_out_ c = [Hh; 1; Dd; W] ->
  0 <= Hh -> 0 <= Dd -> 0 < W -> W < C ->
  Z.of_nat (length key_in) = Hh * Dd * (C - W) ->
  Z.of_nat (length key_out) = Hh * Dd * W ->
  Z.of_nat (length new_key) = Hh * Dd * (C - 1) ->
  exists data,
    SlidingWindowKeyValueCache.Update_key_chunks c [Hh; 1; Dd; C - 1] 1
      key_in key_out new_key = Ok data
    /\ length data = length new_key
    /\ forall j, 0 <= j < Hh * Dd ->
         slice data (j * (C - 1)) (C - W - 1)
         = slice key_in (j * (C - W) + 1) (C - W - 1)
         /\ slice data (j * (C - 1) + (C - 1 - W)) W
            = slice key_out (j * W) W.
Proof.
  intros HW Hin Hout HHh HDd HWpos HWC Hlin Hlout Hlnew.
  unfold SlidingWindowKeyValueCache.Update_key_chunks.
  rewrite HW, Hin, Hout. cbn [lookup_total list_lookup_total].
  edestruct (for_loop_inv (fun (i : nat) (buf : list byte) =>
      length buf = length new_key
      /\ forall j, 0 <= j < Z.of_nat i ->
           slice buf (j * (C - 1)) (C - W - 1)
           = slice key_in (j * (C - W) + 1) (C - W - 1)
           /\ slice buf (j * (C - 1) + (C - 1 - W)) W
              = slice key_out (j * W) W))
    as (data & Hrun & Hlen & Hchunks); [| |].
  3: { exists data. split; [exact Hrun|]. split; [done|].
       intros j Hj. apply Hchunks. lia. }
  - split; [done|]. intros j Hj. lia.
  - intros i buf Hi [Hlen Hprev].
    assert (0 <= Z.of_nat i < Hh * Dd) as Hi' by lia.
    destruct (std_copy_spec key_in buf (Z.of_nat i * (C - W) + 1)
                (Z.of_nat i * (C - 1)) (C - W - 1) (C - 1 - 1))
      as (buf1 & -> & Hlen1 & Hsame1 & Hbefore1 & _); try nia.
    cbn [mbind outcome_bind].
    destruct (std_copy_spec key_out buf1 (Z.of_nat i * W)
                (Z.of_nat i * (C - 1) + (C - W) - 1) W W)
      as (buf2 & -> & Hlen2 & Hsame2 & Hbefore2 & _); try nia.
    eexists. split; [done|]. split; [congruence|].
    intros j Hj. destruct (decide (j = Z.of_nat i)) as [->|Hne].
    + split.
      * rewrite Hbefore2 by nia. exact Hsame1.
      * rewrite <- Hsame2. f_equal. lia.
    + destruct (Hprev j) as [Hp1 Hp2]; [lia|].
      rewrite !Hbefore2, !Hbefore1 by nia. done.
Qed.

(** The value loop of the collapse for one layer returns. The source rows
    of the old value-in tensor are taken at the stride of the out tensor,
    so they lie inside it when there is one head or the window is at most
    half the context. *)
Lemma Update_value_rows_Ok (c : SlidingWindowKeyValueCache.t)
    (Hh Dd C W : Z) value_in value_out new_value :
  SlidingWindowKeyValueCache.window_size_ c = W ->
  SlidingWindowKeyValueCache.value_cache_shape_in_ c = [Hh; 1; C - W; Dd] ->
  SlidingWindowKeyValueCache.value_cache_shape_out_ c = [Hh; 1; W; Dd] ->
  0 <= Hh -> 0 <= Dd -> 0 < W -> W < C ->
  Hh <= 1 \/ 2 * W <= C ->
  Z.of_nat (length value_in) = Hh * (C - W) * Dd ->
  Z.of_nat (length value_out) = Hh * W * Dd ->
  Z.of_nat (length new_value) = Hh * (C - 1) * Dd ->
  exists data,
    SlidingWindowKeyValueCache.Update_value_rows c [Hh; 1; C - 1; Dd] 1
      value_in value_out new_value = Ok data
    /\ length data = length new_value.
Proof.
  intros HW Hin Hout HHh HDd HWpos HWC Hfit Hlin Hlout Hlnew.
  unfold SlidingWindowKeyValueCache.Update_value_rows.
  rewrite HW, Hin, Hout. cbn [lookup_total list_lookup_total].
  edestruct (for_loop_inv (fun (i : nat) (buf : list byte) =>
      length buf = length new_value))
    as (data & Hrun & Hlen); [| |by exists data].
  - done.
  - intros i buf Hi Hlen.
    assert (0 <= Z.of_nat i < Hh) as Hi' by lia.
    assert (Z.of_nat i * W + (C - W) <= Hh * (C - W)) as Hsrc.
    { destruct Hfit; [assert (Z.of_nat i = 0) as -> by lia; nia|nia]. }
    assert ((Z.of_nat i * W + (C - W)) * Dd <= Hh * (C - W) * Dd) as Hsrc'
      by (apply Z.mul_le_mono_nonneg_r; lia).
    assert ((Z.of_nat i + 1) * (C - 1) <= Hh * (C - 1)) as Hdst by nia.
    assert ((Z.of_nat i + 1) * (C - 1) * Dd <= Hh * (C - 1) * Dd) as Hdst'
      by (apply Z.mul_le_mono_nonneg_r; lia).
    assert ((Z.of_nat i + 1) * W * Dd <= Hh * W * Dd) as Hout'
      by (apply Z.mul_le_mono_nonneg_r; nia).
    destruct (std_copy_spec value_in buf
                (Z.of_nat i * W * Dd + 1 * Dd) (Z.of_nat i * (C - 1) * Dd)
                ((C - W - 1) * Dd) ((C - W - 1) * Dd))
      as (buf1 & -> & Hlen1 & _); try nia.
    cbn [mbind outcome_bind].
    destruct (std_copy_spec value_out buf1 (Z.of_nat i * W * Dd)
                (Z.of_nat i * (C - 1) * Dd + (C - W - 1) * Dd)
                (W * Dd) (W * Dd))
      as (buf2 & -> & Hlen2 & _); try nia.
    eexists. split; [done|]. congruence.
Qed.

Lemma tensor_of_UINT8_length (a b d e : Z) v :
  0 <= a * b * d * e ->
  tensor_of UINT8 [a; b; d; e] v ->
  Z.of_nat (length (ov_data v)) = a * b * d * e.
Proof. intros Hnn (_ & _ & Hlen). rewrite Hlen. cbn. lia. Qed.

(** The last loop of [Update]: the slots are rebound, the loop returns. *)
Lemma SlidingWindow_rebind_loop (c : SlidingWindowKeyValueCache.t) st :
  length (SlidingWindowKeyValueCache.key_caches_in_ c)
  = SlidingWindowKeyValueCache.layer_count_ c ->
  length (SlidingWindowKeyValueCache.key_caches_out_ c)
  = SlidingWindowKeyValueCache.layer_count_ c ->
  length (SlidingWindowKeyValueCache.value_caches_in_ c)
  = SlidingWindowKeyValueCache.layer_count_ c ->
  length (SlidingWindowKeyValueCache.value_caches_out_ c)
  = SlidingWindowKeyValueCache.layer_count_ c ->
  (SlidingWindowKeyValueCache.input_index_ c
   + 2 * SlidingWindowKeyValueCache.layer_count_ c <= length (inputs_ st))%nat ->
  (SlidingWindowKeyValueCache.output_index_ c
   + 2 * SlidingWindowKeyValueCache.layer_count_ c <= length (outputs_ st))%nat ->
  is_Ok (for_loop (SlidingWindowKeyValueCache.layer_count_ c) 0
    (fun layer_idx st =>
      key_in ← vec_get (SlidingWindowKeyValueCache.key_caches_in_ c) layer_idx;
      st ← set_input st
             (SlidingWindowKeyValueCache.input_index_ c + 2 * layer_idx)
             (get key_in);
      value_in ←
        vec_get (SlidingWindowKeyValueCache.value_caches_in_ c) layer_idx;
      st ← set_input st
             (SlidingWindowKeyValueCache.input_index_ c + 2 * layer_idx + 1)
             (get value_in);
      key_out ← vec_get (SlidingWindowKeyValueCache.key_caches_out_ c) layer_idx;
      st ← set_output st
             (SlidingWindowKeyValueCache.output_index_ c + 2 * layer_idx)
             (get key_out);
      value_out ←
        vec_get (SlidingWindowKeyValueCache.value_caches_out_ c) layer_idx;
      set_output st
        (SlidingWindowKeyValueCache.output_index_ c + 2 * layer_idx + 1)
        (get value_out)) st).
Proof.
  intros Hki Hko Hvi Hvo Hin Hout.
  edestruct (for_loop_inv (fun (i : nat) (s : State) =>
      length (inputs_ s) = length (inputs_ st)
      /\ length (outputs_ s) = length (outputs_ st)))
    as (st' & Hrun & _); [| |by exists st'].
  - done.
  - intros i s Hi [Hli Hlo].
    destruct (lookup_lt_is_Some_2
                (SlidingWindowKeyValueCache.key_caches_in_ c) i) as [ki Hk1];
      [lia|].
    destruct (lookup_lt_is_Some_2
                (SlidingWindowKeyValueCache.value_caches_in_ c) i) as [vi Hk2];
      [lia|].
    destruct (lookup_lt_is_Some_2
                (SlidingWindowKeyValueCache.key_caches_out_ c) i) as [ko Hk3];
      [lia|].
    destruct (lookup_lt_is_Some_2
                (SlidingWindowKeyValueCache.value_caches_out_ c) i) as [vo Hk4];
      [lia|].
    rewrite (vec_get_Ok _ _ _ Hk1), (vec_get_Ok _ _ _ Hk2),
      (vec_get_Ok _ _ _ Hk3), (vec_get_Ok _ _ _ Hk4).
    cbn [mbind outcome_bind].
    destruct (set_input_Ok s
                (SlidingWindowKeyValueCache.input_index_ c + 2 * i) (get ki))
      as (s1 & -> & Hi1 & Ho1); [lia|].
    cbn [mbind outcome_bind].
    destruct (set_input_Ok s1
                (SlidingWindowKeyValueCache.input_index_ c + 2 * i + 1) (get vi))
      as (s2 & -> & Hi2 & Ho2); [rewrite Hi1, length_insert; lia|].
    cbn [mbind outcome_bind].
    destruct (set_output_Ok s2
                (SlidingWindowKeyValueCache.output_index_ c + 2 * i) (get ko))
      as (s3 & -> & Ho3 & Hi3); [rewrite Ho2, Ho1; lia|].
    cbn [mbind outcome_bind].
    destruct (set_output_Ok s3
                (SlidingWindowKeyValueCache.output_index_ c + 2 * i + 1)
                (get vo))
      as (s4 & -> & Ho4 & Hi4);
      [rewrite Ho3, length_insert, Ho2, Ho1; lia|].
    eexists. split; [done|].
    rewrite Hi4, Hi3, Hi2, length_insert, Hi1, length_insert.
    rewrite Ho4, length_insert, Ho3, length_insert, Ho2, Ho1. done.
Qed.

(** The collapse that C2 describes, on the caches the value loop can
    serve. One [Update] of a sliding-window cache whose window is [W > 1]
    (and smaller than the context length [C]) returns; afterwards the
    window size is 1, the key-in shape has gone from
    [num_kv_heads, 1, head_size, C - W] to [num_kv_heads, 1, head_size, C - 1]
    in the cache and in the tensor of every layer, and the last [W] bytes
    of each row of the new key-in tensor are the row of the key-out tensor
    of before the call, in the same order. (For the call to return, the
    value loop must stay inside the old value-in tensor, which
    [SlidingWindow_ready] asks for: one head, or [2 W <= C].) *)
Theorem Update_collapses_window m c st a beam_indices current_length Hh Dd C W :
  SlidingWindow_ready m c st Hh Dd C W ->
  exists c' st' a',
    SlidingWindowKeyValueCache.Update m c st a beam_indices current_length
    = Ok (c', st', a')
    /\ SlidingWindowKeyValueCache.window_size_ c' = 1
    /\ SlidingWindowKeyValueCache.key_cache_shape_in_ c = [Hh; 1; Dd; C - W]
    /\ SlidingWindowKeyValueCache.key_cache_shape_in_ c' = [Hh; 1; Dd; C - 1]
    /\ forall layer, (layer < SlidingWindowKeyValueCache.layer_count_ c)%nat ->
       exists old_in old_out new_in,
         SlidingWindowKeyValueCache.key_caches_in_ c !! layer
         = Some (Some old_in)
         /\ SlidingWindowKeyValueCache.key_caches_out_ c !! layer
            = Some (Some old_out)
         /\ SlidingWindowKeyValueCache.key_caches_in_ c' !! layer
            = Some (Some new_in)
         /\ ov_shape old_in = [Hh; 1; Dd; C - W]
         /\ ov_shape new_in = [Hh; 1; Dd; C - 1]
         /\ forall row, 0 <= row < Hh * Dd ->
              slice (ov_data new_in) (row * (C - 1) + (C - 1 - W)) W
              = slice (ov_data old_out) (row * W) W.
Proof.
  intros (HHh & HDd & HC & HW & (Hh0 & Dd0 & HW1 & HWC) & Hfit & Hty
          & Hkin & Hkout & Hvin & Hvout & [Lki Aki] & [Lko Ako] & [Lvi Avi]
          & [Lvo Avo] & Hin & Hout).
  unfold SlidingWindowKeyValueCache.Update.
  rewrite decide_False by lia. rewrite HHh, HDd, HC, Hty.
  set (L := SlidingWindowKeyValueCache.layer_count_ c) in *.
  set (Q := fun (k : nat) (l : list (option OrtValue)) =>
    exists old_in old_out new_in,
      SlidingWindowKeyValueCache.key_caches_in_ c !! k = Some (Some old_in)
      /\ SlidingWindowKeyValueCache.key_caches_out_ c !! k
         = Some (Some old_out)
      /\ l !! k = Some (Some new_in)
      /\ ov_shape old_in = [Hh; 1; Dd; C - W]
      /\ ov_shape new_in = [Hh; 1; Dd; C - 1]
      /\ forall row, 0 <= row < Hh * Dd ->
           slice (ov_data new_in) (row * (C - 1) + (C - 1 - W)) W
           = slice (ov_data old_out) (row * W) W).
  edestruct (for_loop_inv
    (fun (i : nat) (r : SlidingWindowKeyValueCache.caches * Allocator) =>
      let cs := r.1 in
      (length (SlidingWindowKeyValueCache.c_key_in cs) = L
       /\ length (SlidingWindowKeyValueCache.c_key_out cs) = L
       /\ length (SlidingWindowKeyValueCache.c_value_in cs) = L
       /\ length (SlidingWindowKeyValueCache.c_value_out cs) = L)
      /\ (forall k, (i <= k)%nat ->
            SlidingWindowKeyValueCache.c_key_in cs !! k
            = SlidingWindowKeyValueCache.key_caches_in_ c !! k
            /\ SlidingWindowKeyValueCache.c_key_out cs !! k
               = SlidingWindowKeyValueCache.key_caches_out_ c !! k
            /\ SlidingWindowKeyValueCache.c_value_in cs !! k
               = SlidingWindowKeyValueCache.value_caches_in_ c !! k
            /\ SlidingWindowKeyValueCache.c_value_out cs !! k
               = SlidingWindowKeyValueCache.value_caches_out_ c !! k)
      /\ forall k, (k < i)%nat ->
           Q k (SlidingWindowKeyValueCache.c_key_in cs)))
    as ([cs a1] & Hrun & (Hl1 & Hl2 & Hl3 & Hl4) & _ & Hdone);
    [| |rewrite Hrun].
  - cbn. split; [done|]. split; [done|]. intros k Hk. lia.
  - intros i [cs a1] Hi ((Hl1 & Hl2 & Hl3 & Hl4) & Hrest & Hprev).
    cbn [fst snd] in *.
    destruct (Hrest i (le_n _)) as (Eki & Eko & Evi & Evo).
    destruct (Forall_lookup_present _ _ i Aki) as (key_in & Hki & Tki); [lia|].
    destruct (Forall_lookup_present _ _ i Ako) as (key_out & Hko & Tko); [lia|].
    destruct (Forall_lookup_present _ _ i Avi) as (val_in & Hvi & Tvi); [lia|].
    destruct (Forall_lookup_present _ _ i Avo) as (val_out & Hvo & Tvo); [lia|].
    rewrite <- Eki in Hki. rewrite <- Eko in Hko.
    rewrite <- Evi in Hvi. rewrite <- Evo in Hvo.
    pose proof (CreateTensor_spec a1 [Hh; 1; Dd; C - 1] UINT8)
      as (Tnk & Hidk & _).
    destruct (CreateTensor a1 [Hh; 1; Dd; C - 1] UINT8) as [key_cache a2].
    cbn [fst snd] in Tnk, Hidk.
    rewrite (vec_get_Ok _ _ _ Hki), (vec_get_Ok _ _ _ Hko).
    cbn [mbind outcome_bind deref].
    destruct (Update_key_chunks_spec c Hh Dd C W (ov_data key_in)
                (ov_data key_out) (ov_data key_cache))
      as (key_data & -> & Hkdlen & Hkrows); try done; try lia;
      [rewrite (tensor_of_UINT8_length Hh 1 Dd (C - W)); [lia|nia|done]
      |rewrite (tensor_of_UINT8_length Hh 1 Dd W); [lia|nia|done]
      |rewrite (tensor_of_UINT8_length Hh 1 Dd (C - 1)); [lia|nia|done]|].
    cbn [mbind outcome_bind]. rewrite vec_set_Ok by lia.
    cbn [mbind outcome_bind].
    destruct (CreateTensor a2 [Hh; 1; Dd; 1] UINT8) as [new_key_out a3].
    rewrite vec_set_Ok by lia. cbn [mbind outcome_bind].
    pose proof (CreateTensor_spec a3 [Hh; 1; C - 1; Dd] UINT8) as (Tnv & _).
    destruct (CreateTensor a3 [Hh; 1; C - 1; Dd] UINT8) as [value_cache a4].
    cbn [fst snd] in Tnv.
    rewrite (vec_get_Ok _ _ _ Hvi), (vec_get_Ok _ _ _ Hvo).
    cbn [mbind outcome_bind deref].
    destruct (Update_value_rows_Ok c Hh Dd C W (ov_data val_in)
                (ov_data val_out) (ov_data value_cache))
      as (value_data & -> & _); try done; try lia;
      [rewrite (tensor_of_UINT8_length Hh 1 (C - W) Dd); [lia|nia|done]
      |rewrite (tensor_of_UINT8_length Hh 1 W Dd); [lia|nia|done]
      |rewrite (tensor_of_UINT8_length Hh 1 (C - 1) Dd); [lia|nia|done]|].
    cbn [mbind outcome_bind]. rewrite vec_set_Ok by lia.
    cbn [mbind outcome_bind].
    destruct (CreateTensor a4 [Hh; 1; 1; Dd] UINT8) as [new_value_out a5].
    rewrite vec_set_Ok by lia. cbn [mbind outcome_bind].
    eexists. split; [done|]. cbn [fst snd
      SlidingWindowKeyValueCache.c_key_in SlidingWindowKeyValueCache.c_key_out
      SlidingWindowKeyValueCache.c_value_in
      SlidingWindowKeyValueCache.c_value_out].
    rewrite !length_insert. split; [done|]. split.
    + intros k Hk. rewrite !list_lookup_insert_ne by lia. apply Hrest. lia.
    + intros k Hk. destruct (decide (k = i)) as [->|Hki'].
      * exists key_in, key_out, (with_data key_cache key_data).
        rewrite list_lookup_insert_eq by lia.
        rewrite <- Eki, <- Eko.
        split; [done|]. split; [done|]. split; [done|].
        split; [apply Tki|]. split; [apply Tnk|].
        intros row Hrow. by apply Hkrows.
      * destruct (Hprev k) as (oi & oo & ni & ? & ? & ? & ?); [lia|].
        exists oi, oo, ni. rewrite list_lookup_insert_ne by lia. done.
  - cbn [mbind outcome_bind fst snd].
    match goal with
    | |- context [for_loop ?n 0 ?body st] =>
        destruct (SlidingWindow_rebind_loop
          {| SlidingWindowKeyValueCache.layer_count_ := L;
             SlidingWindowKeyValueCache.window_size_ := 1;
             SlidingWindowKeyValueCache.key_cache_shape_in_ :=
               [Hh; 1; Dd; C - 1];
             SlidingWindowKeyValueCache.key_cache_shape_out_ :=
               [Hh; 1; Dd; 1];
             SlidingWindowKeyValueCache.value_cache_shape_in_ :=
               [Hh; 1; C - 1; Dd];
             SlidingWindowKeyValueCache.value_cache_shape_out_ :=
               [Hh; 1; 1; Dd];
             SlidingWindowKeyValueCache.type_ := UINT8;
             SlidingWindowKeyValueCache.key_caches_in_ :=
               SlidingWindowKeyValueCache.c_key_in cs;
             SlidingWindowKeyValueCache.key_caches_out_ :=
               SlidingWindowKeyValueCache.c_key_out cs;
             SlidingWindowKeyValueCache.value_caches_in_ :=
               SlidingWindowKeyValueCache.c_value_in cs;
             SlidingWindowKeyValueCache.value_caches_out_ :=
               SlidingWindowKeyValueCache.c_value_out cs;
             SlidingWindowKeyValueCache.input_name_strings_ :=
               SlidingWindowKeyValueCache.input_name_strings_ c;
             SlidingWindowKeyValueCache.output_name_strings_ :=
               SlidingWindowKeyValueCache.output_name_strings_ c;
             SlidingWindowKeyValueCache.input_index_ :=
               SlidingWindowKeyValueCache.input_index_ c;
             SlidingWindowKeyValueCache.output_index_ :=
               SlidingWindowKeyValueCache.output_index_ c |} st)
          as [st' Hst']; try done
    end.
    cbn [SlidingWindowKeyValueCache.layer_count_
         SlidingWindowKeyValueCache.key_caches_in_
         SlidingWindowKeyValueCache.key_caches_out_
         SlidingWindowKeyValueCache.value_caches_in_
         SlidingWindowKeyValueCache.value_caches_out_
         SlidingWindowKeyValueCache.input_index_
         SlidingWindowKeyValueCache.output_index_] in Hst' |- *.
    rewrite Hst'. cbn [mbind outcome_bind].
    eexists _, st', a1. split; [done|]. cbn.
    split; [done|]. split; [done|]. split; [done|].
    intros layer Hlayer. destruct (Hdone layer) as (oi & oo & ni & ?); [lia|].
    by exists oi, oo, ni.
Qed.

(** ** Element types *)

Lemma GetInputDataType_declare_type ty m name ty0 :
  GetInputDataType m name = Ok ty0 ->
  GetInputDataType (declare_type ty m) name = Ok ty.
Proof.
  unfold GetInputDataType, declare_type. cbn [session_inputs].
  induction (session_inputs m) as [|[n t] l IH]; [done|].
  cbn. destruct (decide (n = name)); [done|].
  destruct (list_find _ l) as [[i [n1 t1]]|]; [|done].
  destruct (list_find _ (_ <$> l)) as [[i' [n2 t2]]|]; cbn in *; [done|].
  intros Hfound. by apply IH.
Qed.

(** A loop whose iterations each return, returns. *)
Lemma for_loop_total {St} n i body (s : St) :
  (forall i s, is_Ok (body i s)) -> is_Ok (for_loop n i body s).
Proof.
  intros Hbody.
  destruct (for_loop_inv (fun _ _ => True) body n i s) as (s' & Hs' & _);
    [done| |by exists s'].
  intros j t _ _. destruct (Hbody j t) as [t' Ht']. eauto.
Qed.

(** Two loops whose iterations return on the same indices return together. *)
Lemma for_loop_Ok_transfer {St St'} n i (body : nat -> St -> outcome St)
    (body' : nat -> St' -> outcome St') s s' :
  (forall i s s', is_Ok (body i s) -> is_Ok (body' i s')) ->
  is_Ok (for_loop n i body s) -> is_Ok (for_loop n i body' s').
Proof.
  intros Hsim. revert i s s'. induction n as [|n IH]; intros i s s' [t Ht].
  { by eexists. }
  cbn [for_loop] in *. apply bind_Ok_inv in Ht as (s1 & Hs1 & Ht).
  destruct (Hsim i s s') as [s1' Hs1']; [by eexists|].
  rewrite Hs1'. cbn [mbind outcome_bind]. eapply IH. by eexists.
Qed.

(** The constructor of the Combined cache does not look at the element
    type: if it returns for a model, it returns for the same model with
    any other declared element type, and takes that type. *)
Lemma Combined_ctor_any_type ty m st a :
  is_Ok (KV_Cache_Combined.KV_Cache_Combined m st a) ->
  exists c a',
    KV_Cache_Combined.KV_Cache_Combined (declare_type ty m) st a = Ok (c, a')
    /\ KV_Cache_Combined.type_ c = ty.
Proof.
  intros [[c0 a0] Hctor]. unfold KV_Cache_Combined.KV_Cache_Combined in *.
  cbn [config_ declare_type].
  apply bind_Ok_inv in Hctor as (names & -> & Hctor).
  cbn [mbind outcome_bind].
  apply bind_Ok_inv in Hctor as (name0 & -> & Hctor).
  cbn [mbind outcome_bind].
  apply bind_Ok_inv in Hctor as (ty0 & Hty0 & _).
  rewrite (GetInputDataType_declare_type ty m name0 ty0 Hty0).
  cbn [mbind outcome_bind].
  destruct (CreateTensor a _ ty) as [empty_past a1].
  match goal with
  | |- context [for_loop ?n 0 ?body ?s] =>
      destruct (for_loop_total n 0 body s) as [r ->]
  end.
  { intros i [l a2]. cbn [fst snd]. destruct (CreateTensor a2 _ ty).
    by eexists. }
  cbn [mbind outcome_bind]. by eexists _, _.
Qed.

(** The same for the Split cache. *)
Lemma Split_ctor_any_type ty g_log m st a :
  is_Ok (KV_Cache.KV_Cache g_log m st a) ->
  exists c a' log,
    KV_Cache.KV_Cache g_log (declare_type ty m) st a = Ok (c, a', log)
    /\ KV_Cache.type_ c = ty.
Proof.
  intros [[[c0 a0] log0] Hctor]. unfold KV_Cache.KV_Cache in *.
  cbn [config_ declare_type].
  apply bind_Ok_inv in Hctor as (names & -> & Hctor).
  cbn [mbind outcome_bind].
  apply bind_Ok_inv in Hctor as (name0 & -> & Hctor).
  cbn [mbind outcome_bind].
  apply bind_Ok_inv in Hctor as (ty0 & Hty0 & Hctor).
  rewrite (GetInputDataType_declare_type ty m name0 ty0 Hty0).
  cbn [mbind outcome_bind].
  destruct (CreateTensor a _ ty0) as [empty_past0 a10].
  destruct (CreateTensor a _ ty) as [empty_past a1].
  apply bind_Ok_inv in Hctor as (sb & -> & Hctor).
  cbn [mbind outcome_bind].
  apply bind_Ok_inv in Hctor as (r0 & Hr0 & _).
  match type of Hr0 with
  | for_loop ?n 0 ?body0 ?s0 = _ =>
      match goal with
      | |- context [for_loop n 0 ?body ?s] =>
          destruct (for_loop_Ok_transfer n 0 body0 body s0 s) as [r ->];
            [|by eexists|]
      end
  end.
  { intros i [l1 b1] [l2 b2]. cbn [fst snd].
    destruct (decide (sb = [])); [by eexists|].
    destruct (vec_get sb i); cbn [mbind outcome_bind];
      intros [? ?]; [by eexists|done..]. }
  cbn [mbind outcome_bind]. by eexists _, _, _.
Qed.

(** C7, as the code has it. The gather has two specialisations, 32-bit
    float and half-precision float: a cache whose element type is float is
    gathered as float, a cache of any other element type as half-precision
    float. The constructors of the Combined and the Split cache do not
    check the element type: where construction succeeds with some declared
    input type, it succeeds with every other one, and the cache takes it. *)
Theorem PickPastState_type_dispatch :
  (forall m c a beam_indices index,
     (KV_Cache_Combined.type_ c = FLOAT ->
      KV_Cache_Combined.PickPastState m c a beam_indices index
      = KV_Cache_Combined.PickPastState_T FLOAT m c a beam_indices index)
     /\
     (KV_Cache_Combined.type_ c <> FLOAT ->
      KV_Cache_Combined.PickPastState m c a beam_indices index
      = KV_Cache_Combined.PickPastState_T FLOAT16 m c a beam_indices index))
  /\
  (forall m c a beam_indices index,
     (KV_Cache.type_ c = FLOAT ->
      KV_Cache.PickPastState m c a beam_indices index
      = KV_Cache.PickPastState_T FLOAT m c a beam_indices index)
     /\
     (KV_Cache.type_ c <> FLOAT ->
      KV_Cache.PickPastState m c a beam_indices index
      = KV_Cache.PickPastState_T FLOAT16 m c a beam_indices index))
  /\
  (forall ty m st a,
     is_Ok (KV_Cache_Combined.KV_Cache_Combined m st a) ->
     exists c a',
       KV_Cache_Combined.KV_Cache_Combined (declare_type ty m) st a
       = Ok (c, a')
       /\ KV_Cache_Combined.type_ c = ty)
  /\
  (forall ty g_log m st a,
     is_Ok (KV_Cache.KV_Cache g_log m st a) ->
     exists c a' log,
       KV_Cache.KV_Cache g_log (declare_type ty m) st a = Ok (c, a', log)
       /\ KV_Cache.type_ c = ty).
Proof.
  split; [|split; [|split]].
  - intros m c a bis index. unfold KV_Cache_Combined.PickPastState.
    split; intros Hty.
    + by rewrite decide_True.
    + by rewrite decide_False.
  - intros m c a bis index. unfold KV_Cache.PickPastState.
    split; intros Hty.
    + by rewrite decide_True.
    + by rewrite decide_False.
  - apply Combined_ctor_any_type.
  - apply Split_ctor_any_type.
Qed.

(** ** Slot names *)

Lemma string_length_app (s1 s2 : string) :
  String.length (s1 +:+ s2) = (String.length s1 + String.length s2)%nat.
Proof.
  induction s1 as [|c s1 IH]; [done|].
  change (String c s1 +:+ s2) with (String c (s1 +:+ s2)).
  cbn [String.length]. by rewrite IH.
Qed.

Lemma string_app_inv_tail (s1 s2 s : string) :
  s1 +:+ s = s2 +:+ s -> s1 = s2.
Proof.
  revert s2. induction s1 as [|c s1 IH]; intros [|c2 s2] Heq.
  - done.
  - apply (f_equal String.length) in Heq.
    rewrite !string_length_app in Heq. cbn in Heq. lia.
  - apply (f_equal String.length) in Heq.
    rewrite !string_length_app in Heq. cbn in Heq. lia.
  - change (String c (s1 +:+ s) = String c2 (s2 +:+ s)) in Heq.
    injection Heq as -> Heq. f_equal. by apply IH.
Qed.

Lemma fmap_Ok_inv {A B} (f : A -> B) (m : outcome A) b :
  f <$> m = Ok b -> exists a, m = Ok a /\ b = f a.
Proof. destruct m as [a| |]; cbn; [|done..]. intros [= <-]. eauto. Qed.

(** Two layer indices formatted by a template that prints the index give
    different texts. *)
Lemma vformat_inj fmt i j s :
  prints_index fmt = true ->
  vformat fmt (Some i) = Ok s -> vformat fmt (Some j) = Ok s -> i = j.
Proof.
  remember (String.length fmt) as n eqn:Hn.
  revert fmt Hn s. induction n as [n IH] using lt_wf_ind.
  intros [|c rest] Hn s; [done|]. cbn [prints_index vformat].
  destruct (decide (c = NUL)); [done|].
  destruct (decide (c = "%"%char)).
  - destruct rest as [|c' rest']; [done|].
    destruct (decide (c' = "%"%char)).
    + intros Hp (s1 & H1 & ->)%fmap_Ok_inv (s2 & H2 & [= <-])%fmap_Ok_inv.
      eapply (IH (String.length rest')); [cbn in Hn; lia|done|done|..]; done.
    + destruct (decide _); [|done].
      intros _ (s1 & H1 & ->)%fmap_Ok_inv (s2 & H2 & Heq)%fmap_Ok_inv.
      assert (s2 = s1) as -> by congruence.
      apply string_app_inv_tail in Heq. by apply (inj pretty) in Heq.
  - intros Hp (s1 & H1 & ->)%fmap_Ok_inv (s2 & H2 & [= <-])%fmap_Ok_inv.
    eapply (IH (String.length rest)); [cbn in Hn; lia|done|done|..]; done.
Qed.

Lemma ComposeKeyValueName_Ok_inv template index name :
  ComposeKeyValueName template index = Ok name ->
  vformat template (Some index) = Ok name
  /\ (String.length name < 64)%nat.
Proof.
  unfold ComposeKeyValueName, KeyValueNameLength.
  intros (s & Hs & Hif)%bind_Ok_inv.
  destruct (decide _) as [|Hlen]; [done|]. injection Hif as <-.
  split; [done|]. lia.
Qed.

Lemma ComposeKeyValueName_inj template i j name :
  prints_index template = true ->
  ComposeKeyValueName template i = Ok name ->
  ComposeKeyValueName template j = Ok name -> i = j.
Proof.
  intros Hp [Hi _]%ComposeKeyValueName_Ok_inv [Hj _]%ComposeKeyValueName_Ok_inv.
  by eapply vformat_inj.
Qed.

(** The name loop of the Combined constructor. *)
Lemma names_loop_one t_in t_out L names :
  for_loop L 0 (fun i (names : list string * list string) =>
    input_name ← ComposeKeyValueName t_in (Z.of_nat i);
    output_name ← ComposeKeyValueName t_out (Z.of_nat i);
    Ok (names.1 ++ [input_name], names.2 ++ [output_name])) ([], [])
  = Ok names ->
  one_per_layer t_in L names.1 /\ one_per_layer t_out L names.2.
Proof.
  intros Hrun.
  apply (for_loop_Ok_inv (fun i (names : list string * list string) =>
           one_per_layer t_in i names.1 /\ one_per_layer t_out i names.2))
    in Hrun; [done| |].
  - split; (split; [done|]); intros i Hi; lia.
  - clear. intros i [l1 l2] [l1' l2'] _ [[Hl1 H1] [Hl2 H2]] Hbody.
    cbn [fst snd] in *.
    apply bind_Ok_inv in Hbody as (n1 & Hn1 & Hbody).
    apply bind_Ok_inv in Hbody as (n2 & Hn2 & [= <- <-]).
    split; (split; [rewrite length_app; cbn; lia|]); intros k Hk.
    + destruct (decide (k = i)) as [->|].
      * exists n1. by rewrite lookup_app_r, Hl1, Nat.sub_diag by lia.
      * destruct (H1 k) as (nm & ? & ?); [lia|].
        exists nm. by rewrite lookup_app_l by lia.
    + destruct (decide (k = i)) as [->|].
      * exists n2. by rewrite lookup_app_r, Hl2, Nat.sub_diag by lia.
      * destruct (H2 k) as (nm & ? & ?); [lia|].
        exists nm. by rewrite lookup_app_l by lia.
Qed.

(** The name loop of the Split, Cross and Sliding-Window constructors. *)
Lemma names_loop_two t1 t2 t3 t4 L names :
  for_loop L 0 (fun i (names : list string * list string) =>
    past_key ← ComposeKeyValueName t1 (Z.of_nat i);
    past_value ← ComposeKeyValueName t2 (Z.of_nat i);
    present_key ← ComposeKeyValueName t3 (Z.of_nat i);
    present_value ← ComposeKeyValueName t4 (Z.of_nat i);
    Ok (names.1 ++ [past_key; past_value],
        names.2 ++ [present_key; present_value])) ([], [])
  = Ok names ->
  two_per_layer t1 t2 L names.1 /\ two_per_layer t3 t4 L names.2.
Proof.
  intros Hrun.
  apply (for_loop_Ok_inv (fun i (names : list string * list string) =>
           two_per_layer t1 t2 i names.1 /\ two_per_layer t3 t4 i names.2))
    in Hrun; [done| |].
  - split; (split; [done|]); intros i Hi; lia.
  - clear. intros i [l1 l2] [l1' l2'] _ [[Hl1 H1] [Hl2 H2]] Hbody.
    cbn [fst snd] in *.
    apply bind_Ok_inv in Hbody as (n1 & Hn1 & Hbody).
    apply bind_Ok_inv in Hbody as (n2 & Hn2 & Hbody).
    apply bind_Ok_inv in Hbody as (n3 & Hn3 & Hbody).
    apply bind_Ok_inv in Hbody as (n4 & Hn4 & [= <- <-]).
    split; (split; [rewrite length_app; cbn; lia|]); intros k Hk.
    + destruct (decide (k = i)) as [->|].
      * exists n1, n2. rewrite !lookup_app_r, Hl1 by lia.
        replace (2 * i - 2 * i)%nat with 0%nat by lia.
        replace (2 * i + 1 - 2 * i)%nat with 1%nat by lia. done.
      * destruct (H1 k) as (k1 & v1 & ? & ? & ?); [lia|].
        exists k1, v1. by rewrite !lookup_app_l by lia.
    + destruct (decide (k = i)) as [->|].
      * exists n3, n4. rewrite !lookup_app_r, Hl2 by lia.
        replace (2 * i - 2 * i)%nat with 0%nat by lia.
        replace (2 * i + 1 - 2 * i)%nat with 1%nat by lia. done.
      * destruct (H2 k) as (k1 & v1 & ? & ? & ?); [lia|].
        exists k1, v1. by rewrite !lookup_app_l by lia.
Qed.

Lemma one_per_layer_NoDup template L names :
  prints_index template = true ->
  one_per_layer template L names -> NoDup names.
Proof.
  intros Hp [Hlen Hnames]. apply NoDup_alt. intros i j n Hi Hj.
  pose proof (lookup_lt_Some _ _ _ Hi) as Hi'.
  pose proof (lookup_lt_Some _ _ _ Hj) as Hj'.
  destruct (Hnames i) as (ni & Hni & Hci); [lia|].
  destruct (Hnames j) as (nj & Hnj & Hcj); [lia|].
  assert (ni = n) as -> by congruence. assert (nj = n) as -> by congruence.
  apply Nat2Z.inj. by eapply ComposeKeyValueName_inj.
Qed.

(** C8, as the code has it. A constructor that returns has formatted, for
    [L] layers: [L] input names and [L] output names for the Combined
    cache, and [2 L] input names and [2 L] output names, a key name and a
    value name per layer, for the Split, the Cross and the Sliding-Window
    cache. Names formatted from one template for different layers are
    distinct when the template prints the layer index (so the names of the
    Combined cache are pairwise distinct among the inputs and among the
    outputs); names are not compared otherwise. *)
Theorem constructors_slot_names :
  (forall m st a c a',
     KV_Cache_Combined.KV_Cache_Combined m st a = Ok (c, a') ->
     let cfg := config_ m in
     one_per_layer (past_names cfg) (num_hidden_layers cfg)
       (KV_Cache_Combined.input_name_strings_ c)
     /\ one_per_layer (present_names cfg) (num_hidden_layers cfg)
          (KV_Cache_Combined.output_name_strings_ c)
     /\ (prints_index (past_names cfg) = true ->
         NoDup (KV_Cache_Combined.input_name_strings_ c))
     /\ (prints_index (present_names cfg) = true ->
         NoDup (KV_Cache_Combined.output_name_strings_ c)))
  /\
  (forall g_log m st a c a' log,
     KV_Cache.KV_Cache g_log m st a = Ok (c, a', log) ->
     let cfg := config_ m in
     two_per_layer (past_key_names cfg) (past_value_names cfg)
       (num_hidden_layers cfg) (KV_Cache.input_name_strings_ c)
     /\ two_per_layer (present_key_names cfg) (present_value_names cfg)
          (num_hidden_layers cfg) (KV_Cache.output_name_strings_ c))
  /\
  (forall m st a c a',
     Cross_Cache.Cross_Cache m st a = Ok (c, a') ->
     let cfg := config_ m in
     two_per_layer (cross_past_key_names cfg) (cross_past_value_names cfg)
       (num_hidden_layers cfg) (Cross_Cache.input_name_strings_ c)
     /\ two_per_layer (cross_present_key_names cfg)
          (cross_present_value_names cfg)
          (num_hidden_layers cfg) (Cross_Cache.output_name_strings_ c))
  /\
  (forall m st a c a',
     SlidingWindowKeyValueCache.SlidingWindowKeyValueCache m st a
     = Ok (c, a') ->
     let cfg := config_ m in
     two_per_layer (past_key_names cfg) (past_value_names cfg)
       (num_hidden_layers cfg)
       (SlidingWindowKeyValueCache.input_name_strings_ c)
     /\ two_per_layer (present_key_names cfg) (present_value_names cfg)
          (num_hidden_layers cfg)
          (SlidingWindowKeyValueCache.output_name_strings_ c))
  /\
  (forall template i j name,
     prints_index template = true ->
     ComposeKeyValueName template i = Ok name ->
     ComposeKeyValueName template j = Ok name -> i = j).
Proof.
  split; [|split; [|split; [|split]]].
  - intros m st a c a' Hctor cfg.
    unfold KV_Cache_Combined.KV_Cache_Combined in Hctor.
    apply bind_Ok_inv in Hctor as (names & Hnames & Hctor).
    apply bind_Ok_inv in Hctor as (name0 & _ & Hctor).
    apply bind_Ok_inv in Hctor as (ty & _ & Hctor).
    destruct (CreateTensor a _ ty) as [empty_past a1].
    apply bind_Ok_inv in Hctor as (r & _ & [= <- _]).
    cbn [KV_Cache_Combined.input_name_strings_
         KV_Cache_Combined.output_name_strings_].
    apply names_loop_one in Hnames as [H1 H2].
    split; [done|]. split; [done|].
    split; intros Hp; by eapply one_per_layer_NoDup.
  - intros g_log m st a c a' log Hctor cfg.
    unfold KV_Cache.KV_Cache in Hctor.
    apply bind_Ok_inv in Hctor as (names & Hnames & Hctor).
    apply bind_Ok_inv in Hctor as (name0 & _ & Hctor).
    apply bind_Ok_inv in Hctor as (ty & _ & Hctor).
    destruct (CreateTensor a _ ty) as [empty_past a1].
    apply bind_Ok_inv in Hctor as (sb & _ & Hctor).
    apply bind_Ok_inv in Hctor as (r & _ & [= <- _ _]).
    cbn [KV_Cache.input_name_strings_ KV_Cache.output_name_strings_].
    by apply names_loop_two in Hnames.
  - intros m st a c a' Hctor cfg.
    unfold Cross_Cache.Cross_Cache in Hctor.
    apply bind_Ok_inv in Hctor as (names & Hnames & Hctor).
    apply bind_Ok_inv in Hctor as (name0 & _ & Hctor).
    apply bind_Ok_inv in Hctor as (ty & _ & Hctor).
    apply bind_Ok_inv in Hctor as (r & _ & [= <- _]).
    cbn [Cross_Cache.input_name_strings_ Cross_Cache.output_name_strings_].
    by apply names_loop_two in Hnames.
  - intros m st a c a' Hctor cfg.
    unfold SlidingWindowKeyValueCache.SlidingWindowKeyValueCache in Hctor.
    apply bind_Ok_inv in Hctor as (sw & _ & Hctor).
    apply bind_Ok_inv in Hctor as (names & Hnames & Hctor).
    apply bind_Ok_inv in Hctor as (name0 & _ & Hctor).
    apply bind_Ok_inv in Hctor as (ty & _ & Hctor).
    destruct (decide (ty <> UINT8)); [done|].
    apply bind_Ok_inv in Hctor as (r & _ & [= <- _]).
    cbn [SlidingWindowKeyValueCache.input_name_strings_
         SlidingWindowKeyValueCache.output_name_strings_].
    by apply names_loop_two in Hnames.
  - apply ComposeKeyValueName_inj.
Qed.

(** ** Caches as the constructors and [Add] leave them *)

Lemma push_input_lengths st v name :
  length (inputs_ (push_input st v name)) = S (length (inputs_ st))
  /\ length (outputs_ (push_input st v name)) = length (outputs_ st).
Proof. cbn. rewrite length_app. cbn. lia. Qed.

Lemma push_output_lengths st v name :
  length (outputs_ (push_output st v name)) = S (length (outputs_ st))
  /\ length (inputs_ (push_output st v name)) = length (inputs_ st).
Proof. cbn. rewrite length_app. cbn. lia. Qed.

(** A Combined cache of a supported element type, once constructed and
    bound by [Add], is ready for [Update]. *)
Lemma Combined_ready_after_Add m st a c a' st0 c1 st1 :
  KV_Cache_Combined.KV_Cache_Combined m st a = Ok (c, a') ->
  KV_Cache_Combined.Add c st0 = Ok (c1, st1) ->
  float_or_half (KV_Cache_Combined.type_ c) ->
  0 <= BatchBeamSize (params_ st) -> 0 <= num_key_value_heads (config_ m) ->
  0 <= sequence_length (params_ st) -> 0 <= head_size (config_ m) ->
  Combined_ready c1 st1 (BatchBeamSize (params_ st))
    (num_key_value_heads (config_ m)) (sequence_length (params_ st))
    (head_size (config_ m)).
Proof.
  intros Hctor Hadd Hty HB HH HS HD.
  unfold KV_Cache_Combined.KV_Cache_Combined in Hctor.
  apply bind_Ok_inv in Hctor as (names & Hnames & Hctor).
  apply bind_Ok_inv in Hctor as (name0 & _ & Hctor).
  apply bind_Ok_inv in Hctor as (ty & _ & Hctor).
  destruct (CreateTensor a _ ty) as [empty_past a1].
  apply bind_Ok_inv in Hctor as (r & Hpresents & [= <- _]).
  apply names_loop_one in Hnames as [[Hlin _] [Hlout _]].
  apply (for_loop_Ok_inv (fun i (r : list (option OrtValue) * Allocator) =>
           length r.1 = i
           /\ Forall (fun p => exists v, p = Some v /\
                tensor_of ty
                  (<[3%nat := sequence_length (params_ st)]>
                     [2; BatchBeamSize (params_ st);
                      num_key_value_heads (config_ m); 0;
                      head_size (config_ m)]) v) r.1))
    in Hpresents as [Hlen Hall]; [|by split|].
  2: { intros i [l b] [l' b'] _ [Hl Hf] Hbody. cbn [fst snd] in *.
       pose proof (CreateTensor_spec b
         (<[3%nat := sequence_length (params_ st)]>
            [2; BatchBeamSize (params_ st); num_key_value_heads (config_ m);
             0; head_size (config_ m)]) ty) as (Ht & _).
       destruct (CreateTensor b _ ty) as [v b2]. injection Hbody as <- <-.
       split; [rewrite length_app; cbn; lia|].
       apply Forall_app. split; [done|]. repeat constructor. eauto. }
  unfold KV_Cache_Combined.Add in Hadd. cbn in Hadd.
  apply bind_Ok_inv in Hadd as (st2 & Hloop & [= <- <-]).
  apply (for_loop_Ok_inv (fun i (s : State) =>
           length (inputs_ s) = (length (inputs_ st0) + i)%nat
           /\ length (outputs_ s) = (length (outputs_ st0) + i)%nat))
    in Hloop as [Hli Hlo]; [|lia|].
  2: { intros i s s' _ [Hi Ho] Hbody.
       apply bind_Ok_inv in Hbody as (n1 & _ & Hbody).
       apply bind_Ok_inv in Hbody as (pr & _ & Hbody).
       apply bind_Ok_inv in Hbody as (n2 & _ & [= <-]).
       cbn. rewrite !length_app. cbn. lia. }
  unfold Combined_ready. cbn in *.
  split; [done|]. split; [done|]. split; [done|].
  split; [by rewrite length_replicate|]. split; [done|].
  split; [done|]. lia.
Qed.

(** The same for the Split cache, when shared-buffer mode is off. *)
Lemma Split_ready_after_Add g_log m st a c a' log st0 c1 st1 :
  KV_Cache.KV_Cache g_log m st a = Ok (c, a', log) ->
  KV_Cache.Add c st0 = Ok (c1, st1) ->
  KV_Cache.past_present_share_buffer_ c = false ->
  float_or_half (KV_Cache.type_ c) ->
  0 <= BatchBeamSize (params_ st) -> 0 <= num_key_value_heads (config_ m) ->
  0 <= sequence_length (params_ st) -> 0 <= head_size (config_ m) ->
  Split_ready c1 st1 (BatchBeamSize (params_ st))
    (num_key_value_heads (config_ m)) (sequence_length (params_ st))
    (head_size (config_ m)).
Proof.
  intros Hctor Hadd Hshare Hty HB HH HS HD.
  unfold KV_Cache.KV_Cache in Hctor.
  apply bind_Ok_inv in Hctor as (names & Hnames & Hctor).
  apply bind_Ok_inv in Hctor as (name0 & _ & Hctor).
  apply bind_Ok_inv in Hctor as (ty & _ & Hctor).
  destruct (CreateTensor a _ ty) as [empty_past a1].
  apply bind_Ok_inv in Hctor as (sb & _ & Hctor).
  apply bind_Ok_inv in Hctor as (r & Hpresents & [= <- _ _]).
  cbn [KV_Cache.past_present_share_buffer_] in Hshare.
  rewrite Hshare in Hpresents.
  apply (for_loop_Ok_inv (fun i (r : list (option OrtValue) * Allocator) =>
           length r.1 = i
           /\ Forall (fun p => exists v, p = Some v /\
                tensor_of ty
                  (<[2%nat := sequence_length (params_ st)]>
                     [BatchBeamSize (params_ st);
                      num_key_value_heads (config_ m); 0;
                      head_size (config_ m)]) v) r.1))
    in Hpresents as [Hlen Hall]; [|by split|].
  2: { intros i [l b] [l' b'] _ [Hl Hf] Hbody. cbn [fst snd] in *.
       pose proof (CreateTensor_spec b
         (<[2%nat := sequence_length (params_ st)]>
            [BatchBeamSize (params_ st); num_key_value_heads (config_ m);
             0; head_size (config_ m)]) ty) as ((Ht1 & Ht2 & Ht3) & _).
       apply bind_Ok_inv in Hbody as (v & Hv & [= <- <-]).
       assert (v = CreateTensor b
                 (<[2%nat := sequence_length (params_ st)]>
                    [BatchBeamSize (params_ st);
                     num_key_value_heads (config_ m); 0;
                     head_size (config_ m)]) ty) as ->.
       { destruct (decide (sb = [])); [congruence|].
         apply bind_Ok_inv in Hv as (? & _ & ?). congruence. }
       split; [rewrite length_app; cbn; lia|].
       apply Forall_app. split; [done|]. repeat constructor.
       eexists. split; [done|]. unfold tensor_of, fill_tensor. cbn.
       rewrite length_replicate. done. }
  unfold KV_Cache.Add in Hadd.
  cbn [KV_Cache.past_present_share_buffer_ KV_Cache.set_indices_
       KV_Cache.layer_count_ KV_Cache.presents_ KV_Cache.empty_past_
       KV_Cache.input_name_strings_ KV_Cache.output_name_strings_] in Hadd.
  rewrite Hshare in Hadd.
  apply bind_Ok_inv in Hadd as (st2 & Hloop & Hadd).
  cbn [mbind outcome_bind] in Hadd. injection Hadd as <- <-.
  apply (for_loop_Ok_inv (fun i (s : State) =>
           length (inputs_ s) = (length (inputs_ st0) + i)%nat
           /\ length (outputs_ s) = (length (outputs_ st0) + i)%nat))
    in Hloop as [Hli Hlo]; [|lia|].
  2: { intros i s s' _ [Hi Ho] Hbody.
       apply bind_Ok_inv in Hbody as (n1 & _ & Hbody).
       apply bind_Ok_inv in Hbody as (pr & _ & Hbody).
       apply bind_Ok_inv in Hbody as (n2 & _ & [= <-]).
       cbn. rewrite !length_app. cbn. lia. }
  unfold Split_ready.
  cbn [KV_Cache.past_present_share_buffer_ KV_Cache.set_indices_
       KV_Cache.shape_ KV_Cache.type_ KV_Cache.pasts_ KV_Cache.presents_
       KV_Cache.layer_count_ KV_Cache.input_index_ KV_Cache.output_index_]
    in Hty |- *.
  cbn [fst snd] in *.
  split; [done|]. split; [reflexivity|]. split; [done|]. split; [done|].
  split; [by rewrite length_replicate|]. split; [exact Hlen|].
  split; [exact Hall|]. lia.
Qed.

Lemma fill_tensor_tensor_of ty shape v b :
  tensor_of ty shape v -> tensor_of ty shape (fill_tensor v b).
Proof.
  intros (? & ? & ?). unfold tensor_of, fill_tensor. cbn.
  by rewrite length_replicate.
Qed.

(** A Sliding-Window cache with window [1 < W < C], once constructed and
    bound by [Add], is ready for the collapse (given the reach of the
    value loop). *)
Lemma SlidingWindow_ready_after_Add m st a c a' st0 c1 st1 sw :
  SlidingWindowKeyValueCache.SlidingWindowKeyValueCache m st a = Ok (c, a') ->
  SlidingWindowKeyValueCache.Add c st0 = Ok (c1, st1) ->
  sliding_window_key_value_cache (config_ m) = Some sw ->
  0 <= num_key_value_heads (config_ m) -> 0 <= head_size (config_ m) ->
  1 < window_size sw -> window_size sw < context_length (config_ m) ->
  num_key_value_heads (config_ m) <= 1
  \/ 2 * window_size sw <= context_length (config_ m) ->
  SlidingWindow_ready m c1 st1 (num_key_value_heads (config_ m))
    (head_size (config_ m)) (context_length (config_ m)) (window_size sw).
Proof.
  intros Hctor Hadd Hsw HH HD HW1 HWC Hfit.
  unfold SlidingWindowKeyValueCache.SlidingWindowKeyValueCache in Hctor.
  rewrite Hsw in Hctor. cbn [deref mbind outcome_bind] in Hctor.
  apply bind_Ok_inv in Hctor as (names & _ & Hctor).
  apply bind_Ok_inv in Hctor as (name0 & _ & Hctor).
  apply bind_Ok_inv in Hctor as (ty & _ & Hctor).
  destruct (decide (ty <> UINT8)) as [|Hty]; [done|].
  assert (ty = UINT8) as -> by (by destruct (decide (ty = UINT8))).
  apply bind_Ok_inv in Hctor as (r & Hloop & [= <- _]).
  set (all_of := fun (i : nat) shape (l : list (option OrtValue)) =>
         length l = i /\
         Forall (fun p => exists v, p = Some v /\ tensor_of UINT8 shape v) l).
  apply (for_loop_Ok_inv
    (fun i (r : SlidingWindowKeyValueCache.caches * Allocator) =>
       all_of i [num_key_value_heads (config_ m); 1; head_size (config_ m);
                 context_length (config_ m) - window_size sw]
         (SlidingWindowKeyValueCache.c_key_in r.1)
       /\ all_of i [num_key_value_heads (config_ m); 1; head_size (config_ m);
                    window_size sw]
            (SlidingWindowKeyValueCache.c_key_out r.1)
       /\ all_of i [num_key_value_heads (config_ m); 1;
                    context_length (config_ m) - window_size sw;
                    head_size (config_ m)]
            (SlidingWindowKeyValueCache.c_value_in r.1)
       /\ all_of i [num_key_value_heads (config_ m); 1; window_size sw;
                    head_size (config_ m)]
            (SlidingWindowKeyValueCache.c_value_out r.1)))
    in Hloop as ([L1 A1] & [L2 A2] & [L3 A3] & [L4 A4]).
  2: { by repeat split. }
  2: { clear. intros i [cs b] [cs' b'] _ ([L1 A1] & [L2 A2] & [L3 A3] & [L4 A4])
         Hbody. cbn [fst snd] in *.
       match type of Hbody with
       | context [CreateTensor b ?sh UINT8] =>
           pose proof (CreateTensor_spec b sh UINT8) as (T1 & _);
           destruct (CreateTensor b sh UINT8) as [v1 b1]
       end.
       match type of Hbody with
       | context [CreateTensor b1 ?sh UINT8] =>
           pose proof (CreateTensor_spec b1 sh UINT8) as (T2 & _);
           destruct (CreateTensor b1 sh UINT8) as [v2 b2]
       end.
       match type of Hbody with
       | context [CreateTensor b2 ?sh UINT8] =>
           pose proof (CreateTensor_spec b2 sh UINT8) as (T3 & _);
           destruct (CreateTensor b2 sh UINT8) as [v3 b3]
       end.
       match type of Hbody with
       | context [CreateTensor b3 ?sh UINT8] =>
           pose proof (CreateTensor_spec b3 sh UINT8) as (T4 & _);
           destruct (CreateTensor b3 sh UINT8) as [v4 b4]
       end.
       injection Hbody as <- <-. cbn [fst snd] in *.
       cbn [SlidingWindowKeyValueCache.c_key_in
            SlidingWindowKeyValueCache.c_key_out
            SlidingWindowKeyValueCache.c_value_in
            SlidingWindowKeyValueCache.c_value_out].
       repeat split; try (rewrite length_app; cbn; lia);
         (apply Forall_app; split; [done|]; repeat constructor;
          eexists; split; [done|]);
         try apply fill_tensor_tensor_of; done. }
  unfold SlidingWindowKeyValueCache.Add in Hadd.
  apply bind_Ok_inv in Hadd as (st2 & Hbind & [= <- <-]).
  apply (for_loop_Ok_inv (fun i (s : State) =>
           length (inputs_ s) = (length (inputs_ st0) + 2 * i)%nat
           /\ length (outputs_ s) = (length (outputs_ st0) + 2 * i)%nat))
    in Hbind as [Hli Hlo]; [|lia|].
  2: { clear. intros i s s' _ [Hi Ho] Hbody.
       repeat match type of Hbody with
       | _ ≫= _ = Ok _ => apply bind_Ok_inv in Hbody as (? & _ & Hbody)
       end.
       injection Hbody as <-. cbn. rewrite !length_app. cbn. lia. }
  unfold SlidingWindow_ready. cbn in *.
  repeat split; try done; lia.
Qed.

(** ** Readback staging heap: growth, reuse and the layout of the regions *)

Section readback_heap_more.
Import DmlReadbackHeap.

(** Whatever [ComputeNewCapacity] returns is no less than the desired
    capacity: the loop only leaves by its condition. *)
Lemma ComputeNewCapacity_loop_reaches fuel cap desired c :
  ComputeNewCapacity_loop fuel cap desired = Ok c -> desired <= c.
Proof.
  revert cap. induction fuel as [|fuel IH]; intros cap; [done|].
  cbn [ComputeNewCapacity_loop].
  destruct (decide (cap < desired)) as [Hlt|Hge].
  - destruct (decide (cap >= SIZE_MAX `div` 2)); [done|]. apply IH.
  - intros [= <-]. lia.
Qed.

(** X1. [ComputeNewCapacity] keeps a capacity that is enough, never more than
    doubles what is asked for when it grows, and does not refuse a request
    of at most [SIZE_MAX / 2]. *)
Theorem ComputeNewCapacity_tight existing desired :
  0 < existing <= SIZE_MAX ->
  (desired <= existing -> ComputeNewCapacity existing desired = Ok existing) /\
  (forall c, ComputeNewCapacity existing desired = Ok c ->
     existing < desired -> desired <= c < 2 * desired) /\
  (desired <= SIZE_MAX `div` 2 ->
     exists c, ComputeNewCapacity existing desired = Ok c).
Proof.
  intros [Hpos Hmax]. split; [|split].
  - intros Hle. unfold ComputeNewCapacity. cbn [ComputeNewCapacity_loop].
    by rewrite decide_False by lia.
  - intros c Hc Hlt.
    destruct (ComputeNewCapacity_spec existing desired Hpos Hmax)
      as [Hthrow|(k & Hk & [Hge _] & Hmin)]; [congruence|].
    rewrite Hk in Hc. injection Hc as <-. split; [done|].
    destruct Hmin as [->|Hmin].
    { cbn in Hge. lia. }
    destruct (decide (k = 0%nat)) as [->|Hk0].
    { cbn in Hge. lia. }
    replace (Z.of_nat k) with (Z.succ (Z.of_nat k - 1)) by lia.
    rewrite Z.pow_succ_r by lia. lia.
  - intros Hd. by apply ComputeNewCapacity_returns.
Qed.

(** X2. Once the heap has been ensured for a size, ensuring it for that size or
    a smaller one changes nothing and does not touch the device. *)
Theorem EnsureReadbackHeap_reuse c_initialCapacity device device' h size size'
    h' :
  EnsureReadbackHeap c_initialCapacity device h size = Ok h' ->
  size' <= size ->
  EnsureReadbackHeap c_initialCapacity device' h' size' = Ok h'.
Proof.
  intros Hrun Hle.
  assert (Hh' : exists res, m_readbackHeap h' = Some res /\ size <= m_capacity h').
  { unfold EnsureReadbackHeap in Hrun.
    assert (Hgrow : forall start,
      (capacity ← ComputeNewCapacity start size;
       heap ← CreateReadbackHeap device capacity;
       Ok {| m_readbackHeap := Some heap; m_capacity := capacity |}) = Ok h' ->
      exists res, m_readbackHeap h' = Some res /\ size <= m_capacity h').
    { intros start Hg.
      apply bind_Ok_inv in Hg as (capacity & Hcap & Hg).
      apply bind_Ok_inv in Hg as (heap & _ & [= <-]).
      apply ComputeNewCapacity_loop_reaches in Hcap. cbn. eauto. }
    destruct (m_readbackHeap h) as [res|] eqn:Hheap; [|by eapply Hgrow].
    destruct (decide (m_capacity h < size)); [by eapply Hgrow|].
    injection Hrun as <-. exists res. split; [done|lia]. }
  destruct Hh' as (res & Hres & Hcap).
  unfold EnsureReadbackHeap. rewrite Hres.
  by rewrite decide_False by lia.
Qed.

(** X3. On a heap reached from the constructor, a request of at most
    [SIZE_MAX / 2] fails only if the device fails: with a device that
    commits every buffer the call returns, and when the heap has to be
    created or enlarged and the device refuses with [hr], the call throws
    that [hr]. *)
Theorem EnsureReadbackHeap_device_failure c_initialCapacity device h size :
  0 < c_initialCapacity <= SIZE_MAX ->
  heap_inv c_initialCapacity h ->
  size <= SIZE_MAX `div` 2 ->
  ((forall s, CreateCommittedResource device s = None) ->
     exists h', EnsureReadbackHeap c_initialCapacity device h size = Ok h') /\
  (forall hr,
     (forall s, CreateCommittedResource device s = Some hr) ->
     m_readbackHeap h = None \/ m_capacity h < size ->
     EnsureReadbackHeap c_initialCapacity device h size
     = Throw (hresult_error hr)).
Proof.
  intros Hc0 Hinv Hsize.
  assert (Hstart : forall start, 0 < start <= SIZE_MAX ->
            exists capacity, ComputeNewCapacity start size = Ok capacity).
  { intros start Hs. by apply ComputeNewCapacity_returns. }
  assert (Hcap : m_readbackHeap h <> None -> 0 < m_capacity h <= SIZE_MAX).
  { unfold heap_inv in Hinv. destruct (m_readbackHeap h); [|done].
    intros _. destruct Hinv as (_ & Hmax & k & Hk).
    pose proof (pow2_pos k). split; [nia|done]. }
  split.
  - intros Hdev. unfold EnsureReadbackHeap.
    destruct (m_readbackHeap h) as [res|] eqn:Hheap.
    + destruct (decide (m_capacity h < size)); [|eauto].
      destruct (Hstart (m_capacity h)) as [capacity ->]; [by apply Hcap|].
      cbn. unfold CreateReadbackHeap. rewrite Hdev. cbn. eauto.
    + destruct (Hstart c_initialCapacity) as [capacity ->]; [done|].
      cbn. unfold CreateReadbackHeap. rewrite Hdev. cbn. eauto.
  - intros hr Hdev Hneed. unfold EnsureReadbackHeap.
    destruct (m_readbackHeap h) as [res|] eqn:Hheap.
    + destruct Hneed as [|Hlt]; [done|]. rewrite decide_True by done.
      destruct (Hstart (m_capacity h)) as [capacity ->]; [by apply Hcap|].
      cbn. unfold CreateReadbackHeap. by rewrite Hdev.
    + destruct (Hstart c_initialCapacity) as [capacity ->]; [done|].
      cbn. unfold CreateReadbackHeap. by rewrite Hdev.
Qed.

(** The running [uint32_t] offset after [i] regions. *)
Lemma totalSize_take_S dstSizes (i : nat) size :
  dstSizes !! i = Some size ->
  totalSize (take (S i) dstSizes)
  = (totalSize (take i dstSizes) + size) `mod` UINT32_MOD.
Proof.
  intros Hi. rewrite (take_S_r _ _ _ Hi). unfold totalSize.
  by rewrite fold_left_app.
Qed.

Lemma copy_regions_spec dstSizes src n i l :
  copy_regions n i (totalSize (take i dstSizes)) dstSizes src = Ok l ->
  length l = n /\ (n = 0%nat \/ (i + n <= length src)%nat
                               /\ (i + n <= length dstSizes)%nat) /\
  forall k s size, (k < n)%nat ->
    src !! (i + k)%nat = Some s -> dstSizes !! (i + k)%nat = Some size ->
    l !! k = Some (CopyBufferRegion (totalSize (take (i + k) dstSizes)) s 0 size).
Proof.
  revert i l. induction n as [|n IH]; intros i l.
  { cbn. intros [= <-]. split; [done|]. split; [by left|]. intros; lia. }
  cbn [copy_regions]. intros Hrun.
  apply bind_Ok_inv in Hrun as (s0 & Hs0 & Hrun).
  apply bind_Ok_inv in Hrun as (size0 & Hsize0 & Hrun).
  apply bind_Ok_inv in Hrun as (rest & Hrest & [= <-]).
  unfold vec_get in Hs0, Hsize0.
  destruct (src !! i) as [s0'|] eqn:Hsrc; [|done]. injection Hs0 as ->.
  destruct (dstSizes !! i) as [size0'|] eqn:Hsz; [|done]. injection Hsize0 as ->.
  rewrite <- (totalSize_take_S _ _ _ Hsz) in Hrest.
  apply IH in Hrest as (Hlen & Hbounds & Hlk).
  pose proof (lookup_lt_Some _ _ _ Hsrc). pose proof (lookup_lt_Some _ _ _ Hsz).
  split; [cbn; lia|]. split; [right; destruct Hbounds; lia|].
  intros [|k] s size Hk Hs Hsize.
  - rewrite Nat.add_0_r in *. cbn. congruence.
  - cbn. replace (i + S k)%nat with (S i + k)%nat in * by lia.
    apply Hlk; [lia|done..].
Qed.

Lemma memcpy_regions_spec dstSizes dst n i l :
  memcpy_regions n i (totalSize (take i dstSizes)) dst dstSizes = Ok l ->
  length l = n /\
  forall k d size, (k < n)%nat ->
    dst !! (i + k)%nat = Some d -> dstSizes !! (i + k)%nat = Some size ->
    l !! k = Some (memcpy d (totalSize (take (i + k) dstSizes)) size).
Proof.
  revert i l. induction n as [|n IH]; intros i l.
  { cbn. intros [= <-]. split; [done|]. intros; lia. }
  cbn [memcpy_regions]. intros Hrun.
  apply bind_Ok_inv in Hrun as (d0 & Hd0 & Hrun).
  apply bind_Ok_inv in Hrun as (size0 & Hsize0 & Hrun).
  apply bind_Ok_inv in Hrun as (rest & Hrest & [= <-]).
  unfold vec_get in Hd0, Hsize0.
  destruct (dst !! i) as [d0'|] eqn:Hdst; [|done]. injection Hd0 as ->.
  destruct (dstSizes !! i) as [size0'|] eqn:Hsz; [|done]. injection Hsize0 as ->.
  rewrite <- (totalSize_take_S _ _ _ Hsz) in Hrest.
  apply IH in Hrest as (Hlen & Hlk).
  split; [cbn; lia|].
  intros [|k] d size Hk Hd Hsize.
  - rewrite Nat.add_0_r in *. cbn. congruence.
  - cbn. replace (i + S k)%nat with (S i + k)%nat in * by lia.
    apply Hlk; [lia|done..].
Qed.

Lemma lookup_past_four {A} (a b c d : A) l (i : nat) :
  (a :: b :: c :: d :: l) !! (4 + i)%nat = l !! i.
Proof. done. Qed.

(** X4. A multi-region readback that returns has found a source and a size for
    every destination. Its commands are: one copy per region into the
    heap, the wait for the device, one [memcpy] per region out of the heap,
    and the unmap. Region [i] is staged at the [uint32_t] sum of the sizes
    before it, and is read back from that same offset. *)
Theorem ReadbackFromGpu_regions_layout c_initialCapacity device h dst dstSizes
    src h' cmds :
  dst <> [] ->
  ReadbackFromGpu_regions c_initialCapacity device h dst dstSizes src
  = Ok (h', cmds) ->
  let n := length dst in
  (n <= length src)%nat /\ (n <= length dstSizes)%nat /\
  length cmds = (2 * n + 5)%nat /\
  (forall (i : nat) d s size,
     dst !! i = Some d -> src !! i = Some s -> dstSizes !! i = Some size ->
     cmds !! i
     = Some (CopyBufferRegion (totalSize (take i dstSizes)) s 0 size) /\
     cmds !! (n + 4 + i)%nat
     = Some (memcpy d (totalSize (take i dstSizes)) size)) /\
  take 4 (drop n cmds)
  = [Flush; WaitForSignal; ReleaseCompletedReferences; Map] /\
  cmds !! (2 * n + 4)%nat = Some Unmap.
Proof.
  intros Hdst Hrun n. unfold ReadbackFromGpu_regions in Hrun.
  rewrite decide_False in Hrun by done.
  apply bind_Ok_inv in Hrun as (h1 & _ & Hrun).
  apply bind_Ok_inv in Hrun as (copies & Hcopies & Hrun).
  apply bind_Ok_inv in Hrun as (memcpys & Hmemcpys & [= _ <-]).
  apply (copy_regions_spec dstSizes src _ 0) in Hcopies
    as (Hlc & Hbounds & Hc).
  apply (memcpy_regions_spec dstSizes dst _ 0) in Hmemcpys as (Hlm & Hm).
  fold n in Hlc, Hlm, Hbounds.
  assert (n <> 0%nat) by (unfold n; by destruct dst).
  destruct Hbounds as [|[? ?]]; [done|].
  split; [lia|]. split; [lia|]. split; [|split; [|split]].
  - rewrite length_app, Hlc. cbn. rewrite length_app, Hlm. cbn. lia.
  - intros i d s size Hd Hs Hsize.
    pose proof (lookup_lt_Some _ _ _ Hd) as Hi. fold n in Hi. split.
    + rewrite lookup_app_l by lia. by apply (Hc i).
    + rewrite lookup_app_r by lia. rewrite Hlc.
      replace (n + 4 + i - n)%nat with (4 + i)%nat by lia.
      rewrite lookup_past_four, lookup_app_l by lia. by apply (Hm i).
  - rewrite drop_app_length' by done. done.
  - rewrite lookup_app_r by lia. rewrite Hlc.
    replace (2 * n + 4 - n)%nat with (4 + n)%nat by lia.
    rewrite lookup_past_four, lookup_app_r by lia. rewrite Hlm.
    by replace (n - n)%nat with 0%nat by lia.
Qed.

(** X5. Reading back one region of fewer than 2^32 bytes through the
    multi-region call does what the single-region call does from source
    offset 0. *)
Theorem ReadbackFromGpu_one_region c_initialCapacity device h dst size src :
  0 <= size < 2 ^ 32 ->
  ReadbackFromGpu_regions c_initialCapacity device h [dst] [size] [src]
  = ReadbackFromGpu c_initialCapacity device h dst size src 0.
Proof.
  intros Hsize. unfold ReadbackFromGpu_regions, ReadbackFromGpu.
  rewrite decide_False by done.
  assert (Htotal : totalSize [size] = size).
  { unfold totalSize, UINT32_MOD. cbn [fold_left].
    rewrite Z.add_0_l. apply Z.mod_small. lia. }
  rewrite Htotal.
  destruct (EnsureReadbackHeap _ _ _ _) as [h1| |]; [|done..].
  cbn. done.
Qed.

End readback_heap_more.

(** ** The slots that [Add] registers *)

Lemma vec_get_Ok_inv {A} (l : list A) i x :
  vec_get l i = Ok x -> l !! i = Some x.
Proof. unfold vec_get. destruct (l !! i); [|done]. by intros [= ->]. Qed.

Lemma take_S_lookup {A} (l : list A) i x :
  l !! i = Some x -> take (S i) l = take i l ++ [x].
Proof. apply take_S_r. Qed.

(** X6. [Add] of the Combined cache appends, for each layer in order, one
    input slot holding the empty past under the layer's input name and one
    output slot holding the layer's present tensor under its output name,
    and records where its slots start. *)
Theorem Combined_Add_slots c st c' st' :
  KV_Cache_Combined.Add c st = Ok (c', st') ->
  let L := KV_Cache_Combined.layer_count_ c in
  inputs_ st'
  = inputs_ st ++ replicate L (get (KV_Cache_Combined.empty_past_ c)) /\
  input_names_ st'
  = input_names_ st ++ take L (KV_Cache_Combined.input_name_strings_ c) /\
  outputs_ st'
  = outputs_ st ++ (get <$> take L (KV_Cache_Combined.presents_ c)) /\
  output_names_ st'
  = output_names_ st ++ take L (KV_Cache_Combined.output_name_strings_ c) /\
  (L <= length (KV_Cache_Combined.input_name_strings_ c))%nat /\
  (L <= length (KV_Cache_Combined.presents_ c))%nat /\
  (L <= length (KV_Cache_Combined.output_name_strings_ c))%nat /\
  KV_Cache_Combined.input_index_ c' = length (inputs_ st) /\
  KV_Cache_Combined.output_index_ c' = length (outputs_ st) /\
  KV_Cache_Combined.presents_ c' = KV_Cache_Combined.presents_ c.
Proof.
  intros Hadd L. unfold KV_Cache_Combined.Add in Hadd.
  apply bind_Ok_inv in Hadd as (st2 & Hloop & [= <- <-]).
  cbn [KV_Cache_Combined.set_indices_ KV_Cache_Combined.layer_count_
       KV_Cache_Combined.input_name_strings_ KV_Cache_Combined.presents_
       KV_Cache_Combined.output_name_strings_ KV_Cache_Combined.empty_past_
       KV_Cache_Combined.input_index_ KV_Cache_Combined.output_index_]
    in Hloop |- *.
  apply (for_loop_Ok_inv (fun (i : nat) (s : State) =>
    inputs_ s
    = inputs_ st ++ replicate i (get (KV_Cache_Combined.empty_past_ c)) /\
    input_names_ s
    = input_names_ st ++ take i (KV_Cache_Combined.input_name_strings_ c) /\
    outputs_ s
    = outputs_ st ++ (get <$> take i (KV_Cache_Combined.presents_ c)) /\
    output_names_ s
    = output_names_ st ++ take i (KV_Cache_Combined.output_name_strings_ c) /\
    (i <= length (KV_Cache_Combined.input_name_strings_ c))%nat /\
    (i <= length (KV_Cache_Combined.presents_ c))%nat /\
    (i <= length (KV_Cache_Combined.output_name_strings_ c))%nat))
    in Hloop.
  - cbn [Nat.add] in Hloop. fold L in Hloop.
    destruct Hloop as (? & ? & ? & ? & ? & ? & ?). done.
  - cbn. rewrite !app_nil_r. repeat split; lia.
  - clear. intros i s s' _ (Hi & Hin & Ho & Hon & _) Hbody.
    apply bind_Ok_inv in Hbody as (n1 & Hn1%vec_get_Ok_inv & Hbody).
    apply bind_Ok_inv in Hbody as (pr & Hpr%vec_get_Ok_inv & Hbody).
    apply bind_Ok_inv in Hbody as (n2 & Hn2%vec_get_Ok_inv & [= <-]).
    cbn [push_input push_output inputs_ input_names_ outputs_ output_names_].
    rewrite Hi, Hin, Ho, Hon.
    rewrite (take_S_lookup _ _ _ Hn1), (take_S_lookup _ _ _ Hpr),
      (take_S_lookup _ _ _ Hn2), fmap_app, <- !(assoc_L (++)).
    rewrite replicate_S_end.
    apply lookup_lt_Some in Hn1, Hpr, Hn2.
    repeat split; try done; lia.
Qed.

(** X7. [Add] of the Split cache appends two input and two output slots per
    layer. Without shared buffers every input slot holds the empty past;
    with shared buffers input slot [i] holds the very tensor of output
    slot [i]. *)
Theorem Split_Add_slots c st c' st' :
  KV_Cache.Add c st = Ok (c', st') ->
  let n := (KV_Cache.layer_count_ c * 2)%nat in
  inputs_ st'
  = inputs_ st ++
      (if KV_Cache.past_present_share_buffer_ c
       then get <$> take n (KV_Cache.presents_ c)
       else replicate n (get (KV_Cache.empty_past_ c))) /\
  input_names_ st'
  = input_names_ st ++ take n (KV_Cache.input_name_strings_ c) /\
  outputs_ st' = outputs_ st ++ (get <$> take n (KV_Cache.presents_ c)) /\
  output_names_ st'
  = output_names_ st ++ take n (KV_Cache.output_name_strings_ c) /\
  (n <= length (KV_Cache.input_name_strings_ c))%nat /\
  (n <= length (KV_Cache.presents_ c))%nat /\
  (n <= length (KV_Cache.output_name_strings_ c))%nat /\
  KV_Cache.input_index_ c' = length (inputs_ st) /\
  KV_Cache.output_index_ c' = length (outputs_ st) /\
  KV_Cache.presents_ c' = KV_Cache.presents_ c.
Proof.
  intros Hadd n. unfold KV_Cache.Add in Hadd.
  cbn [KV_Cache.set_indices_ KV_Cache.layer_count_
       KV_Cache.input_name_strings_ KV_Cache.presents_
       KV_Cache.output_name_strings_ KV_Cache.empty_past_
       KV_Cache.input_index_ KV_Cache.output_index_
       KV_Cache.past_present_share_buffer_] in Hadd.
  fold n in Hadd.
  apply bind_Ok_inv in Hadd as (st2 & Hloop & Hadd).
  apply bind_Ok_inv in Hadd as (st3 & Hshare & [= <- <-]).
  cbn [KV_Cache.input_index_ KV_Cache.output_index_ KV_Cache.presents_].
  apply (for_loop_Ok_inv (fun (i : nat) (s : State) =>
    inputs_ s = inputs_ st ++ replicate i (get (KV_Cache.empty_past_ c)) /\
    input_names_ s
    = input_names_ st ++ take i (KV_Cache.input_name_strings_ c) /\
    outputs_ s = outputs_ st ++ (get <$> take i (KV_Cache.presents_ c)) /\
    output_names_ s
    = output_names_ st ++ take i (KV_Cache.output_name_strings_ c) /\
    (i <= length (KV_Cache.input_name_strings_ c))%nat /\
    (i <= length (KV_Cache.presents_ c))%nat /\
    (i <= length (KV_Cache.output_name_strings_ c))%nat))
    in Hloop.
  2: { cbn. rewrite !app_nil_r. repeat split; lia. }
  2: { clear. intros i s s' _ (Hi & Hin & Ho & Hon & _) Hbody.
       apply bind_Ok_inv in Hbody as (n1 & Hn1%vec_get_Ok_inv & Hbody).
       apply bind_Ok_inv in Hbody as (pr & Hpr%vec_get_Ok_inv & Hbody).
       apply bind_Ok_inv in Hbody as (n2 & Hn2%vec_get_Ok_inv & [= <-]).
       cbn [push_input push_output inputs_ input_names_ outputs_ output_names_].
       rewrite Hi, Hin, Ho, Hon.
       rewrite (take_S_lookup _ _ _ Hn1), (take_S_lookup _ _ _ Hpr),
         (take_S_lookup _ _ _ Hn2), fmap_app, <- !(assoc_L (++)).
       rewrite replicate_S_end.
       apply lookup_lt_Some in Hn1, Hpr, Hn2.
       repeat split; try done; lia. }
  cbn [Nat.add] in Hloop.
  destruct Hloop as (Hi & Hin & Ho & Hon & Hl1 & Hl2 & Hl3).
  destruct (KV_Cache.past_present_share_buffer_ c).
  - apply (for_loop_Ok_inv (fun (i : nat) (s : State) =>
      inputs_ s = inputs_ st ++ (get <$> take i (KV_Cache.presents_ c))
                    ++ replicate (n - i) (get (KV_Cache.empty_past_ c)) /\
      input_names_ s = input_names_ st2 /\
      outputs_ s = outputs_ st2 /\ output_names_ s = output_names_ st2))
      in Hshare.
    + cbn [Nat.add] in Hshare. rewrite Nat.sub_diag in Hshare. cbn in Hshare.
      rewrite app_nil_r in Hshare.
      destruct Hshare as (-> & -> & -> & ->). done.
    + rewrite Nat.sub_0_r. done.
    + intros i s s' Hr (Hsi & Hsn & Hso & Hson) Hbody.
      apply bind_Ok_inv in Hbody as (pr & Hpr%vec_get_Ok_inv & Hbody).
      unfold set_input in Hbody.
      apply bind_Ok_inv in Hbody as (l & Hl & [= <-]).
      cbn [inputs_ input_names_ outputs_ output_names_].
      split; [|done].
      unfold vec_set in Hl. destruct (decide _); [|done]. injection Hl as <-.
      rewrite Hsi, (take_S_lookup _ _ _ Hpr), fmap_app.
      assert (Hlen : length (get <$> take i (KV_Cache.presents_ c)) = i).
      { rewrite length_fmap, length_take. apply lookup_lt_Some in Hpr. lia. }
      rewrite insert_app_r_alt by lia.
      replace (length (inputs_ st) + i - length (inputs_ st))%nat with i by lia.
      rewrite insert_app_r_alt by lia. rewrite Hlen, Nat.sub_diag.
      replace (n - i)%nat with (S (n - S i)) by lia. cbn.
      by rewrite <- (assoc_L (++)).
  - injection Hshare as <-. done.
Qed.

(** X8. [AddEncoder] appends the same output slots as [Add] and nothing else:
    the input slots are untouched. *)
Theorem AddEncoder_slots c st st' :
  KV_Cache.AddEncoder c st = Ok st' ->
  let n := (KV_Cache.layer_count_ c * 2)%nat in
  inputs_ st' = inputs_ st /\ input_names_ st' = input_names_ st /\
  outputs_ st' = outputs_ st ++ (get <$> take n (KV_Cache.presents_ c)) /\
  output_names_ st'
  = output_names_ st ++ take n (KV_Cache.output_name_strings_ c) /\
  (n <= length (KV_Cache.presents_ c))%nat /\
  (n <= length (KV_Cache.output_name_strings_ c))%nat.
Proof.
  intros Hadd n. unfold KV_Cache.AddEncoder in Hadd. fold n in Hadd.
  apply (for_loop_Ok_inv (fun (i : nat) (s : State) =>
    inputs_ s = inputs_ st /\ input_names_ s = input_names_ st /\
    outputs_ s = outputs_ st ++ (get <$> take i (KV_Cache.presents_ c)) /\
    output_names_ s
    = output_names_ st ++ take i (KV_Cache.output_name_strings_ c) /\
    (i <= length (KV_Cache.presents_ c))%nat /\
    (i <= length (KV_Cache.output_name_strings_ c))%nat))
    in Hadd; [done| |].
  - cbn. rewrite !app_nil_r. repeat split; lia.
  - clear. intros i s s' _ (Hi & Hin & Ho & Hon & _) Hbody.
    apply bind_Ok_inv in Hbody as (pr & Hpr%vec_get_Ok_inv & Hbody).
    apply bind_Ok_inv in Hbody as (n2 & Hn2%vec_get_Ok_inv & [= <-]).
    cbn [push_output inputs_ input_names_ outputs_ output_names_].
    rewrite Ho, Hon, (take_S_lookup _ _ _ Hpr), (take_S_lookup _ _ _ Hn2),
      fmap_app, <- !(assoc_L (++)).
    apply lookup_lt_Some in Hpr, Hn2. repeat split; try done; lia.
Qed.

(** X9. The Cross cache hands the encoder's outputs to the decoder: the tensors
    [AddOutputs] registers as outputs of one request are, in the same
    order, the tensors [AddInputs] registers as inputs of another. *)
Theorem Cross_Cache_outputs_are_inputs c st1 st1' st2 st2' :
  Cross_Cache.AddOutputs c st1 = Ok st1' ->
  Cross_Cache.AddInputs c st2 = Ok st2' ->
  let n := (Cross_Cache.layer_count_ c * 2)%nat in
  let tensors := get <$> take n (Cross_Cache.values_ c) in
  length tensors = n /\
  outputs_ st1' = outputs_ st1 ++ tensors /\
  output_names_ st1'
  = output_names_ st1 ++ take n (Cross_Cache.output_name_strings_ c) /\
  inputs_ st1' = inputs_ st1 /\
  inputs_ st2' = inputs_ st2 ++ tensors /\
  input_names_ st2'
  = input_names_ st2 ++ take n (Cross_Cache.input_name_strings_ c) /\
  outputs_ st2' = outputs_ st2.
Proof.
  intros Hout Hin n tensors. unfold Cross_Cache.AddOutputs in Hout.
  unfold Cross_Cache.AddInputs in Hin. fold n in Hout, Hin.
  apply (for_loop_Ok_inv (fun (i : nat) (s : State) =>
    inputs_ s = inputs_ st1 /\
    outputs_ s = outputs_ st1 ++ (get <$> take i (Cross_Cache.values_ c)) /\
    output_names_ s
    = output_names_ st1 ++ take i (Cross_Cache.output_name_strings_ c) /\
    (i <= length (Cross_Cache.values_ c))%nat)) in Hout.
  2: { cbn. rewrite !app_nil_r. repeat split; lia. }
  2: { clear. intros i s s' _ (Hi & Ho & Hon & _) Hbody.
       apply bind_Ok_inv in Hbody as (pr & Hpr%vec_get_Ok_inv & Hbody).
       apply bind_Ok_inv in Hbody as (n2 & Hn2%vec_get_Ok_inv & [= <-]).
       cbn [push_output inputs_ input_names_ outputs_ output_names_].
       rewrite Ho, Hon, (take_S_lookup _ _ _ Hpr), (take_S_lookup _ _ _ Hn2),
         fmap_app, <- !(assoc_L (++)).
       apply lookup_lt_Some in Hpr. repeat split; try done; lia. }
  apply (for_loop_Ok_inv (fun (i : nat) (s : State) =>
    outputs_ s = outputs_ st2 /\
    inputs_ s = inputs_ st2 ++ (get <$> take i (Cross_Cache.values_ c)) /\
    input_names_ s
    = input_names_ st2 ++ take i (Cross_Cache.input_name_strings_ c))) in Hin.
  2: { cbn. by rewrite !app_nil_r. }
  2: { clear. intros i s s' _ (Hi & Ho & Hon) Hbody.
       apply bind_Ok_inv in Hbody as (pr & Hpr%vec_get_Ok_inv & Hbody).
       apply bind_Ok_inv in Hbody as (n2 & Hn2%vec_get_Ok_inv & [= <-]).
       cbn [push_input inputs_ input_names_ outputs_ output_names_].
       rewrite Ho, Hon, (take_S_lookup _ _ _ Hpr), (take_S_lookup _ _ _ Hn2),
         fmap_app, <- !(assoc_L (++)). done. }
  cbn [Nat.add] in Hout, Hin.
  destruct Hout as (? & ? & ? & ?). destruct Hin as (? & ? & ?).
  repeat split; try done.
  unfold tensors. rewrite length_fmap, length_take. lia.
Qed.

(** ** What the constructors build *)

Lemma ElementCountFromShape_4 a b c d :
  ElementCountFromShape [a; b; c; d] = a * b * c * d.
Proof. unfold ElementCountFromShape. cbn. lia. Qed.

(** X10. The Split constructor without a captured graph: the shape it settles
    on, the empty past (a tensor without a single byte), the null pasts,
    and the present tensors: new tensors of the cache's type and shape, all
    different, every byte of them zero. *)
Theorem KV_Cache_ctor_tensors g_log m st a c a' log :
  KV_Cache.KV_Cache g_log m st a = Ok (c, a', log) ->
  captured_graph_info st = None ->
  let L2 := (num_hidden_layers (config_ m) * 2)%nat in
  let B := BatchBeamSize (params_ st) in
  let H := num_key_value_heads (config_ m) in
  let D := head_size (config_ m) in
  let S := if effective_share_buffer m st then max_length (params_ st)
           else sequence_length (params_ st) in
  KV_Cache.shape_ c = [B; H; S; D] /\
  (exists e, KV_Cache.empty_past_ c = Some e /\ ov_id e = alloc_next a
             /\ ov_shape e = [B; H; 0; D] /\ ov_data e = []) /\
  KV_Cache.pasts_ c = replicate L2 None /\
  length (KV_Cache.presents_ c) = L2 /\
  (forall i, (i < L2)%nat ->
     exists v, KV_Cache.presents_ c !! i = Some (Some v)
       /\ ov_id v = (alloc_next a + 1 + i)%nat
       /\ tensor_of (KV_Cache.type_ c) [B; H; S; D] v
       /\ Forall (fun b => b = x00) (ov_data v)) /\
  alloc_next a' = (alloc_next a + 1 + L2)%nat.
Proof.
  intros Hctor Hgraph L2 B H D S. unfold KV_Cache.KV_Cache in Hctor.
  apply bind_Ok_inv in Hctor as (names & _ & Hctor).
  apply bind_Ok_inv in Hctor as (name0 & _ & Hctor).
  apply bind_Ok_inv in Hctor as (ty & _ & Hctor).
  pose proof (CreateTensor_spec a [B; H; 0; D] ty)
    as ((_ & Hes & Hel) & Heid & Hea).
  fold B H D in Hctor.
  destruct (CreateTensor a [B; H; 0; D] ty) as [empty_past a1].
  cbn [fst snd] in *.
  rewrite Hgraph in Hctor.
  apply bind_Ok_inv in Hctor as (sb & [= <-] & Hctor).
  apply bind_Ok_inv in Hctor as (r & Hpresents & [= <- <- _]).
  cbn [KV_Cache.shape_ KV_Cache.empty_past_ KV_Cache.pasts_
       KV_Cache.presents_ KV_Cache.type_].
  match type of Hpresents with
  | context [CreateTensor _ ?sh ty] => assert (Hshape : sh = [B; H; S; D])
  end.
  { unfold S, effective_share_buffer.
    by destruct (past_present_share_buffer (params_ st) && _). }
  rewrite Hshape in Hpresents.
  apply (for_loop_Ok_inv (fun i (r : list (option OrtValue) * Allocator) =>
           length r.1 = i /\ alloc_next r.2 = (alloc_next a + 1 + i)%nat /\
           forall k, (k < i)%nat ->
             exists v, r.1 !! k = Some (Some v)
               /\ ov_id v = (alloc_next a + 1 + k)%nat
               /\ tensor_of ty [B; H; S; D] v
               /\ Forall (fun b => b = x00) (ov_data v)))
    in Hpresents as (Hlen & Hnext & Hall).
  - split; [exact Hshape|]. split.
    { exists empty_past. repeat split; try done.
      apply nil_length_inv. rewrite Hel, ElementCountFromShape_4. f_equal. lia. }
    split; [done|]. split; [done|]. split; [done|]. rewrite Hnext. lia.
  - cbn. split; [done|]. split; [lia|]. intros k Hk. lia.
  - clear -Hea. intros i [l b] [l' b'] _ (Hl & Hb & Hprev) Hbody.
    cbn [fst snd] in *.
    pose proof (CreateTensor_spec b [B; H; S; D] ty) as (Ht & Hid & Hnext).
    apply bind_Ok_inv in Hbody as (v & Hv & [= <- <-]).
    assert (v = CreateTensor b [B; H; S; D] ty) as ->.
    { by destruct (decide (_ = [])); [congruence|]. }
    split; [rewrite length_app; cbn; lia|]. split; [lia|].
    intros k Hk. destruct (decide (k = i)) as [->|].
    + eexists. rewrite lookup_app_r, Hl, Nat.sub_diag by lia.
      split; [done|]. cbn [fill_tensor ov_id ov_data].
      split; [lia|]. split; [by apply fill_tensor_tensor_of|].
      apply Forall_forall. by intros x [-> _]%elem_of_replicate.
    + destruct (Hprev k) as (v & ? & ?); [lia|].
      exists v. by rewrite lookup_app_l by lia.
Qed.

(** X11. The Cross constructor builds two tensors per layer, all different, of
    shape [batch×beam, heads, 1500, head size]. *)
Theorem Cross_Cache_ctor_tensors m st a c a' :
  Cross_Cache.Cross_Cache m st a = Ok (c, a') ->
  let L2 := (num_hidden_layers (config_ m) * 2)%nat in
  let shape := [BatchBeamSize (params_ st); num_key_value_heads (config_ m);
                1500; head_size (config_ m)] in
  Cross_Cache.layer_count_ c = num_hidden_layers (config_ m) /\
  Cross_Cache.shape_ c = shape /\
  length (Cross_Cache.values_ c) = L2 /\
  (forall i, (i < L2)%nat ->
     exists v, Cross_Cache.values_ c !! i = Some (Some v)
       /\ ov_id v = (alloc_next a + i)%nat
       /\ tensor_of (Cross_Cache.type_ c) shape v) /\
  alloc_next a' = (alloc_next a + L2)%nat.
Proof.
  intros Hctor L2 shape. unfold Cross_Cache.Cross_Cache in Hctor.
  apply bind_Ok_inv in Hctor as (names & _ & Hctor).
  apply bind_Ok_inv in Hctor as (name0 & _ & Hctor).
  apply bind_Ok_inv in Hctor as (ty & _ & Hctor).
  apply bind_Ok_inv in Hctor as (r & Hvalues & [= <- <-]).
  cbn [Cross_Cache.layer_count_ Cross_Cache.shape_ Cross_Cache.values_
       Cross_Cache.type_].
  fold shape in Hvalues.
  apply (for_loop_Ok_inv (fun i (r : list (option OrtValue) * Allocator) =>
           length r.1 = (i * 2)%nat /\ alloc_next r.2 = (alloc_next a + i * 2)%nat /\
           forall k, (k < i * 2)%nat ->
             exists v, r.1 !! k = Some (Some v)
               /\ ov_id v = (alloc_next a + k)%nat
               /\ tensor_of ty shape v))
    in Hvalues as (Hlen & Hnext & Hall).
  - done.
  - cbn. split; [done|]. split; [lia|]. intros k Hk. lia.
  - clear. intros i [l b] [l' b'] _ (Hl & Hb & Hprev) Hbody.
    cbn [fst snd] in *.
    pose proof (CreateTensor_spec b shape ty) as (Ht1 & Hid1 & Hnext1).
    destruct (CreateTensor b shape ty) as [v1 b1]. cbn [fst snd] in *.
    pose proof (CreateTensor_spec b1 shape ty) as (Ht2 & Hid2 & Hnext2).
    destruct (CreateTensor b1 shape ty) as [v2 b2]. cbn [fst snd] in *.
    injection Hbody as <- <-.
    split; [rewrite length_app; cbn; lia|]. split; [lia|].
    intros k Hk.
    destruct (decide (k < i * 2)%nat).
    + destruct (Hprev k) as (v & ? & ?); [lia|].
      exists v. by rewrite lookup_app_l by lia.
    + rewrite lookup_app_r, Hl by lia.
      destruct (decide (k = (i * 2)%nat)) as [->|].
      * exists v1. rewrite Nat.sub_diag. split; [done|]. split; [lia|done].
      * exists v2. replace (k - i * 2)%nat with 1%nat by lia.
        split; [done|]. split; [lia|done].
Qed.

Lemma names_loop_two_total t1 t2 t3 t4 L :
  names_compose t1 t2 t3 t4 L ->
  exists names,
    for_loop L 0 (fun i (names : list string * list string) =>
      past_key ← ComposeKeyValueName t1 (Z.of_nat i);
      past_value ← ComposeKeyValueName t2 (Z.of_nat i);
      present_key ← ComposeKeyValueName t3 (Z.of_nat i);
      present_value ← ComposeKeyValueName t4 (Z.of_nat i);
      Ok (names.1 ++ [past_key; past_value],
          names.2 ++ [present_key; present_value])) ([], [])
    = Ok names.
Proof.
  intros Hall.
  edestruct (for_loop_inv (fun (_ : nat) (_ : list string * list string) => True))
    as (names & Hrun & _); [| |by eexists]; [done|].
  intros i s Hi _.
  destruct (Hall i) as ([n1 ->] & [n2 ->] & [n3 ->] & [n4 ->]); [lia|].
  cbn. eauto.
Qed.

(** X13. A model without layers cannot be given a cache: every constructor
    reads [input_name_strings_[0]], which is not there. *)
Theorem constructors_need_a_layer g_log m st a :
  num_hidden_layers (config_ m) = 0%nat ->
  KV_Cache_Combined.KV_Cache_Combined m st a = Undefined /\
  KV_Cache.KV_Cache g_log m st a = Undefined /\
  Cross_Cache.Cross_Cache m st a = Undefined /\
  SlidingWindowKeyValueCache.SlidingWindowKeyValueCache m st a = Undefined.
Proof.
  intros HL.
  unfold KV_Cache_Combined.KV_Cache_Combined, KV_Cache.KV_Cache,
    Cross_Cache.Cross_Cache,
    SlidingWindowKeyValueCache.SlidingWindowKeyValueCache.
  rewrite HL. cbn [for_loop mbind outcome_bind fst snd].
  repeat split; try done.
  by destruct (sliding_window_key_value_cache (config_ m)).
Qed.

(** X14. The Sliding-Window constructor accepts byte tensors only: with any
    other declared element type it throws, naming the type's code; and a
    model without a sliding-window configuration has no defined
    construction. *)
Theorem SlidingWindow_ctor_type_check m st a :
  (forall c a',
     SlidingWindowKeyValueCache.SlidingWindowKeyValueCache m st a = Ok (c, a') ->
     SlidingWindowKeyValueCache.type_ c = UINT8) /\
  (forall name0 ty,
     is_Some (sliding_window_key_value_cache (config_ m)) ->
     (1 <= num_hidden_layers (config_ m))%nat ->
     names_compose (past_key_names (config_ m)) (past_value_names (config_ m))
       (present_key_names (config_ m)) (present_value_names (config_ m))
       (num_hidden_layers (config_ m)) ->
     ComposeKeyValueName (past_key_names (config_ m)) 0 = Ok name0 ->
     GetInputDataType m name0 = Ok ty -> ty <> UINT8 ->
     SlidingWindowKeyValueCache.SlidingWindowKeyValueCache m st a
     = Throw (runtime_error
         ("Expected input data type to be uint8_t for SlidingWindowKeyValueCache. Actual: "
          +:+ pretty (type_code ty)))) /\
  (sliding_window_key_value_cache (config_ m) = None ->
   SlidingWindowKeyValueCache.SlidingWindowKeyValueCache m st a = Undefined).
Proof.
  split; [|split].
  - intros c a' Hctor.
    unfold SlidingWindowKeyValueCache.SlidingWindowKeyValueCache in Hctor.
    apply bind_Ok_inv in Hctor as (sw & _ & Hctor).
    apply bind_Ok_inv in Hctor as (names & _ & Hctor).
    apply bind_Ok_inv in Hctor as (name0 & _ & Hctor).
    apply bind_Ok_inv in Hctor as (ty & _ & Hctor).
    destruct (decide (ty <> UINT8)) as [|Hty]; [done|].
    apply bind_Ok_inv in Hctor as (r & _ & [= <- _]). cbn.
    by destruct (decide (ty = UINT8)).
  - intros name0 ty [sw Hsw] HL Hcompose Hname0 Hty Hne.
    unfold SlidingWindowKeyValueCache.SlidingWindowKeyValueCache.
    rewrite Hsw. cbn [deref mbind outcome_bind].
    destruct (names_loop_two_total _ _ _ _ _ Hcompose) as [names Hnames].
    rewrite Hnames. cbn [mbind outcome_bind].
    apply names_loop_two in Hnames as [[Hlen Hnames] _].
    destruct (Hnames 0%nat) as (k & v & Hk & _ & Hck & _); [lia|].
    change (2 * 0)%nat with 0%nat in Hk. change (Z.of_nat 0) with 0 in Hck.
    rewrite (vec_get_Ok _ _ _ Hk). cbn [mbind outcome_bind].
    assert (k = name0) as -> by congruence.
    rewrite Hty. cbn [mbind outcome_bind]. by rewrite decide_True.
  - intros Hsw.
    unfold SlidingWindowKeyValueCache.SlidingWindowKeyValueCache.
    by rewrite Hsw.
Qed.

(** X15. The Sliding-Window constructor builds four tensors per layer, all
    different. The key and value inputs are filled with the pad value
    (cut to a byte); the outputs are left as allocated. The window and the
    four shapes are those of the configuration. *)
Theorem SlidingWindow_ctor_padding m st a c a' sw :
  SlidingWindowKeyValueCache.SlidingWindowKeyValueCache m st a = Ok (c, a') ->
  sliding_window_key_value_cache (config_ m) = Some sw ->
  let Hh := num_key_value_heads (config_ m) in
  let Dd := head_size (config_ m) in
  let W := window_size sw in
  let C := context_length (config_ m) in
  let pad := uint8_of_int (pad_value sw) in
  SlidingWindowKeyValueCache.window_size_ c = W /\
  SlidingWindowKeyValueCache.key_cache_shape_in_ c = [Hh; 1; Dd; C - W] /\
  SlidingWindowKeyValueCache.key_cache_shape_out_ c = [Hh; 1; Dd; W] /\
  SlidingWindowKeyValueCache.value_cache_shape_in_ c = [Hh; 1; C - W; Dd] /\
  SlidingWindowKeyValueCache.value_cache_shape_out_ c = [Hh; 1; W; Dd] /\
  forall i, (i < num_hidden_layers (config_ m))%nat ->
    exists key_in value_in key_out value_out,
      SlidingWindowKeyValueCache.key_caches_in_ c !! i = Some (Some key_in) /\
      SlidingWindowKeyValueCache.value_caches_in_ c !! i = Some (Some value_in) /\
      SlidingWindowKeyValueCache.key_caches_out_ c !! i = Some (Some key_out) /\
      SlidingWindowKeyValueCache.value_caches_out_ c !! i = Some (Some value_out) /\
      ov_id key_in = (alloc_next a + 4 * i)%nat /\
      ov_id value_in = (alloc_next a + 4 * i + 1)%nat /\
      ov_id key_out = (alloc_next a + 4 * i + 2)%nat /\
      ov_id value_out = (alloc_next a + 4 * i + 3)%nat /\
      ov_data key_in = replicate (Z.to_nat (Hh * 1 * Dd * (C - W))) pad /\
      ov_data value_in = replicate (Z.to_nat (Hh * 1 * (C - W) * Dd)) pad /\
      tensor_of UINT8 [Hh; 1; Dd; W] key_out /\
      tensor_of UINT8 [Hh; 1; W; Dd] value_out.
Proof.
  intros Hctor Hsw Hh Dd W C pad.
  unfold SlidingWindowKeyValueCache.SlidingWindowKeyValueCache in Hctor.
  rewrite Hsw in Hctor. cbn [deref mbind outcome_bind] in Hctor.
  apply bind_Ok_inv in Hctor as (names & _ & Hctor).
  apply bind_Ok_inv in Hctor as (name0 & _ & Hctor).
  apply bind_Ok_inv in Hctor as (ty & _ & Hctor).
  destruct (decide (ty <> UINT8)) as [|Hty]; [done|].
  assert (ty = UINT8) as -> by (by destruct (decide (ty = UINT8))).
  apply bind_Ok_inv in Hctor as (r & Hloop & [= <- _]).
  cbn [SlidingWindowKeyValueCache.window_size_
       SlidingWindowKeyValueCache.key_cache_shape_in_
       SlidingWindowKeyValueCache.key_cache_shape_out_
       SlidingWindowKeyValueCache.value_cache_shape_in_
       SlidingWindowKeyValueCache.value_cache_shape_out_
       SlidingWindowKeyValueCache.key_caches_in_
       SlidingWindowKeyValueCache.key_caches_out_
       SlidingWindowKeyValueCache.value_caches_in_
       SlidingWindowKeyValueCache.value_caches_out_].
  do 5 (split; [done|]).
  fold Hh Dd W C pad in Hloop.
  apply (for_loop_Ok_inv
    (fun (i : nat) (r : SlidingWindowKeyValueCache.caches * Allocator) =>
       length (SlidingWindowKeyValueCache.c_key_in r.1) = i /\
       length (SlidingWindowKeyValueCache.c_key_out r.1) = i /\
       length (SlidingWindowKeyValueCache.c_value_in r.1) = i /\
       length (SlidingWindowKeyValueCache.c_value_out r.1) = i /\
       alloc_next r.2 = (alloc_next a + 4 * i)%nat /\
       forall k, (k < i)%nat ->
         exists key_in value_in key_out value_out,
           SlidingWindowKeyValueCache.c_key_in r.1 !! k = Some (Some key_in) /\
           SlidingWindowKeyValueCache.c_value_in r.1 !! k = Some (Some value_in) /\
           SlidingWindowKeyValueCache.c_key_out r.1 !! k = Some (Some key_out) /\
           SlidingWindowKeyValueCache.c_value_out r.1 !! k = Some (Some value_out) /\
           ov_id key_in = (alloc_next a + 4 * k)%nat /\
           ov_id value_in = (alloc_next a + 4 * k + 1)%nat /\
           ov_id key_out = (alloc_next a + 4 * k + 2)%nat /\
           ov_id value_out = (alloc_next a + 4 * k + 3)%nat /\
           ov_data key_in = replicate (Z.to_nat (Hh * 1 * Dd * (C - W))) pad /\
           ov_data value_in = replicate (Z.to_nat (Hh * 1 * (C - W) * Dd)) pad /\
           tensor_of UINT8 [Hh; 1; Dd; W] key_out /\
           tensor_of UINT8 [Hh; 1; W; Dd] value_out))
    in Hloop as (_ & _ & _ & _ & _ & Hall); [exact Hall| |].
  - cbn. repeat split; lia.
  - clear. intros i [cs b] [cs' b'] _ (L1 & L2 & L3 & L4 & Hb & Hprev) Hbody.
    cbn [fst snd] in *.
    pose proof (CreateTensor_spec b [Hh; 1; Dd; C - W] UINT8)
      as ((_ & _ & T1) & I1 & N1).
    destruct (CreateTensor b [Hh; 1; Dd; C - W] UINT8) as [v1 b1].
    pose proof (CreateTensor_spec b1 [Hh; 1; C - W; Dd] UINT8)
      as ((_ & _ & T2) & I2 & N2).
    destruct (CreateTensor b1 [Hh; 1; C - W; Dd] UINT8) as [v2 b2].
    pose proof (CreateTensor_spec b2 [Hh; 1; Dd; W] UINT8) as (T3 & I3 & N3).
    destruct (CreateTensor b2 [Hh; 1; Dd; W] UINT8) as [v3 b3].
    pose proof (CreateTensor_spec b3 [Hh; 1; W; Dd] UINT8) as (T4 & I4 & N4).
    destruct (CreateTensor b3 [Hh; 1; W; Dd] UINT8) as [v4 b4].
    cbn [fst snd] in *. injection Hbody as <- <-. cbn [fst snd].
    cbn [SlidingWindowKeyValueCache.c_key_in
         SlidingWindowKeyValueCache.c_key_out
         SlidingWindowKeyValueCache.c_value_in
         SlidingWindowKeyValueCache.c_value_out].
    rewrite !length_app. cbn [length].
    do 4 (split; [lia|]). split; [lia|].
    intros k Hk. destruct (decide (k = i)) as [->|].
    + exists (fill_tensor v1 pad), (fill_tensor v2 pad), v3, v4.
      rewrite !lookup_app_r by lia. rewrite L1, L2, L3, L4, Nat.sub_diag.
      cbn [fill_tensor ov_id ov_data].
      rewrite T1, T2, !ElementCountFromShape_4.
      change (SizeOf UINT8) with 1. rewrite !Z.mul_1_l.
      do 4 (split; [done|]). do 4 (split; [lia|]). by do 3 (split; [done|]).
    + destruct (Hprev k) as (k1 & k2 & k3 & k4 & ? & ? & ? & ? & ?); [lia|].
      exists k1, k2, k3, k4. by rewrite !lookup_app_l by lia.
Qed.

(** ** The names [ComposeKeyValueName] composes *)

Lemma vformat_plain s arg : plain s = true -> vformat s arg = Ok s.
Proof.
  induction s as [|c s IH]; [done|]. cbn [plain vformat].
  intros [[Hn%negb_true_iff%bool_decide_eq_false
           Hp%negb_true_iff%bool_decide_eq_false]%andb_true_iff
            Hs]%andb_true_iff.
  rewrite !decide_False by done. rewrite IH by done. done.
Qed.

Lemma vformat_plain_app prefix rest arg :
  plain prefix = true ->
  vformat (prefix +:+ rest) arg = (fun s => prefix +:+ s) <$> vformat rest arg.
Proof.
  induction prefix as [|c s IH].
  { intros _. change ("" +:+ rest) with rest.
    by destruct (vformat rest arg). }
  cbn [plain].
  intros [[Hn%negb_true_iff%bool_decide_eq_false
           Hp%negb_true_iff%bool_decide_eq_false]%andb_true_iff
            Hs]%andb_true_iff.
  change (String c s +:+ rest) with (String c (s +:+ rest)).
  cbn [vformat]. rewrite !decide_False by done. rewrite IH by done.
  by destruct (vformat rest arg).
Qed.

(** X16. What the names look like. A template [prefix%dsuffix], where prefix and
    suffix hold no conversion, composes for layer [index] the text
    prefix, the index in decimal, suffix; a template without a conversion
    composes itself, whatever the index. Either way the name must stay
    below 64 characters: a longer one is an error, not a truncation. *)
Theorem ComposeKeyValueName_format prefix suffix index :
  plain prefix = true -> plain suffix = true ->
  let template := prefix +:+ "%d" +:+ suffix in
  let name := prefix +:+ pretty index +:+ suffix in
  ((String.length name < 64)%nat ->
     ComposeKeyValueName template index = Ok name) /\
  ((64 <= String.length name)%nat ->
     is_Throw (ComposeKeyValueName template index)) /\
  ((String.length prefix < 64)%nat ->
     ComposeKeyValueName prefix index = Ok prefix) /\
  ((64 <= String.length prefix)%nat ->
     is_Throw (ComposeKeyValueName prefix index)).
Proof.
  intros Hp Hs template name.
  assert (Hfmt : vformat template (Some index) = Ok name).
  { unfold template, name. rewrite vformat_plain_app by done.
    change ("%d" +:+ suffix) with (String "%" (String "d" suffix)).
    cbn [vformat]. rewrite decide_False by done. rewrite decide_True by done.
    rewrite decide_False by done. rewrite decide_True by (by left).
    by rewrite vformat_plain. }
  unfold ComposeKeyValueName, KeyValueNameLength.
  rewrite Hfmt, (vformat_plain prefix) by done. cbn [mbind outcome_bind].
  repeat split; intros Hlen;
    [rewrite decide_False by lia|rewrite decide_True by lia
    |rewrite decide_False by lia|rewrite decide_True by lia];
    try done; by eexists.
Qed.

(** X17. Construction followed by [Add] makes a cache ready for [Update]: the
    Combined and the Split cache (shared buffers off) of a supported element
    type, with the sequence length as sequence dimension; and the
    Sliding-Window cache with a window [1 < W < C] within reach of the
    value loop. *)
Theorem constructors_then_Add_ready m st st0 :
  (forall a c a' c1 st1,
     KV_Cache_Combined.KV_Cache_Combined m st a = Ok (c, a') ->
     KV_Cache_Combined.Add c st0 = Ok (c1, st1) ->
     float_or_half (KV_Cache_Combined.type_ c) ->
     0 <= BatchBeamSize (params_ st) -> 0 <= num_key_value_heads (config_ m) ->
     0 <= sequence_length (params_ st) -> 0 <= head_size (config_ m) ->
     Combined_ready c1 st1 (BatchBeamSize (params_ st))
       (num_key_value_heads (config_ m)) (sequence_length (params_ st))
       (head_size (config_ m))) /\
  (forall g_log a c a' log c1 st1,
     KV_Cache.KV_Cache g_log m st a = Ok (c, a', log) ->
     KV_Cache.Add c st0 = Ok (c1, st1) ->
     KV_Cache.past_present_share_buffer_ c = false ->
     float_or_half (KV_Cache.type_ c) ->
     0 <= BatchBeamSize (params_ st) -> 0 <= num_key_value_heads (config_ m) ->
     0 <= sequence_length (params_ st) -> 0 <= head_size (config_ m) ->
     Split_ready c1 st1 (BatchBeamSize (params_ st))
       (num_key_value_heads (config_ m)) (sequence_length (params_ st))
       (head_size (config_ m))) /\
  (forall a c a' c1 st1 sw,
     SlidingWindowKeyValueCache.SlidingWindowKeyValueCache m st a = Ok (c, a') ->
     SlidingWindowKeyValueCache.Add c st0 = Ok (c1, st1) ->
     sliding_window_key_value_cache (config_ m) = Some sw ->
     0 <= num_key_value_heads (config_ m) -> 0 <= head_size (config_ m) ->
     1 < window_size sw -> window_size sw < context_length (config_ m) ->
     num_key_value_heads (config_ m) <= 1
     \/ 2 * window_size sw <= context_length (config_ m) ->
     SlidingWindow_ready m c1 st1 (num_key_value_heads (config_ m))
       (head_size (config_ m)) (context_length (config_ m)) (window_size sw)).
Proof.
  split; [|split].
  - intros a c a' c1 st1 Hctor Hadd. by eapply Combined_ready_after_Add.
  - intros g_log a c a' log c1 st1 Hctor Hadd.
    by eapply Split_ready_after_Add.
  - intros a c a' c1 st1 sw Hctor Hadd.
    by eapply SlidingWindow_ready_after_Add.
Qed.

(** ** [Update] of the Combined and the Split cache, step after step *)

Lemma vec_set_Ok_inv {A} (l : list A) i x l' :
  vec_set l i x = Ok l' -> (i < length l)%nat /\ l' = <[i := x]> l.
Proof. unfold vec_set. destruct (decide _); [|done]. by intros [= <-]. Qed.

Lemma set_input_Ok_inv st i v st' :
  set_input st i v = Ok st' ->
  (i < length (inputs_ st))%nat /\
  inputs_ st' = <[i := v]> (inputs_ st) /\ outputs_ st' = outputs_ st /\
  input_names_ st' = input_names_ st /\ output_names_ st' = output_names_ st /\
  params_ st' = params_ st.
Proof.
  unfold set_input. intros (l & [Hi ->]%vec_set_Ok_inv & [= <-])%bind_Ok_inv.
  done.
Qed.

Lemma set_output_Ok_inv st i v st' :
  set_output st i v = Ok st' ->
  (i < length (outputs_ st))%nat /\
  outputs_ st' = <[i := v]> (outputs_ st) /\ inputs_ st' = inputs_ st /\
  input_names_ st' = input_names_ st /\ output_names_ st' = output_names_ st /\
  params_ st' = params_ st.
Proof.
  unfold set_output. intros (l & [Hi ->]%vec_set_Ok_inv & [= <-])%bind_Ok_inv.
  done.
Qed.

Lemma same_outside_refl first n l : same_outside first n l l.
Proof. by split. Qed.

Lemma same_outside_insert first n i l l' v :
  same_outside first i l l' -> (i < n)%nat ->
  same_outside first (S i) l (<[(first + i)%nat := v]> l').
Proof.
  intros [Hlen Hout] Hi. split; [by rewrite length_insert|].
  intros k Hk. rewrite list_lookup_insert_ne by lia. apply Hout. lia.
Qed.

Lemma same_outside_mono first i n l l' :
  same_outside first i l l' -> (i <= n)%nat -> same_outside first n l l'.
Proof. intros [Hlen Hout] Hi. split; [done|]. intros k Hk. apply Hout. lia. Qed.

(** What one call of the gather leaves behind, whatever it gathered. *)
Lemma Split_PickPastState_Ok_inv m c a bis index c' a' :
  KV_Cache.PickPastState m c a bis index = Ok (c', a') ->
  exists past,
    c' = KV_Cache.set_pasts_ c (<[index := Some past]> (KV_Cache.pasts_ c)) /\
    (index < length (KV_Cache.pasts_ c))%nat /\
    alloc_next a' = S (alloc_next a).
Proof.
  assert (H : forall ty,
    KV_Cache.PickPastState_T ty m c a bis index = Ok (c', a') ->
    exists past,
      c' = KV_Cache.set_pasts_ c (<[index := Some past]> (KV_Cache.pasts_ c)) /\
      (index < length (KV_Cache.pasts_ c))%nat /\
      alloc_next a' = S (alloc_next a)).
  { intros ty Hrun. unfold KV_Cache.PickPastState_T in Hrun.
    apply bind_Ok_inv in Hrun as (p & _ & Hrun).
    apply bind_Ok_inv in Hrun as (present & _ & Hrun).
    pose proof (CreateTensor_spec a (KV_Cache.shape_ c) ty) as (_ & _ & Hnext).
    destruct (CreateTensor a (KV_Cache.shape_ c) ty) as [past a1].
    apply bind_Ok_inv in Hrun as (data & _ & Hrun).
    apply bind_Ok_inv in Hrun as (pasts & [Hi ->]%vec_set_Ok_inv & [= <- <-]).
    eauto. }
  unfold KV_Cache.PickPastState. destruct (decide _); apply H.
Qed.

Lemma Combined_PickPastState_Ok_inv m c a bis index c' a' :
  KV_Cache_Combined.PickPastState m c a bis index = Ok (c', a') ->
  exists past,
    c' = KV_Cache_Combined.set_pasts_ c
           (<[index := Some past]> (KV_Cache_Combined.pasts_ c)) /\
    (index < length (KV_Cache_Combined.pasts_ c))%nat /\
    alloc_next a' = S (alloc_next a).
Proof.
  assert (H : forall ty,
    KV_Cache_Combined.PickPastState_T ty m c a bis index = Ok (c', a') ->
    exists past,
      c' = KV_Cache_Combined.set_pasts_ c
             (<[index := Some past]> (KV_Cache_Combined.pasts_ c)) /\
      (index < length (KV_Cache_Combined.pasts_ c))%nat /\
      alloc_next a' = S (alloc_next a)).
  { intros ty Hrun. unfold KV_Cache_Combined.PickPastState_T in Hrun.
    apply bind_Ok_inv in Hrun as (p & _ & Hrun).
    apply bind_Ok_inv in Hrun as (present & _ & Hrun).
    pose proof (CreateTensor_spec a (KV_Cache_Combined.shape_ c) ty)
      as (_ & _ & Hnext).
    destruct (CreateTensor a (KV_Cache_Combined.shape_ c) ty) as [past a1].
    apply bind_Ok_inv in Hrun as (data & _ & Hrun).
    apply bind_Ok_inv in Hrun as (pasts & [Hi ->]%vec_set_Ok_inv & [= <- <-]).
    eauto. }
  unfold KV_Cache_Combined.PickPastState. destruct (decide _); apply H.
Qed.

Lemma Split_Update_Ok_inv m c st a bis current_length c' st' a' :
  KV_Cache.Update m c st a bis current_length = Ok (c', st', a') ->
  KV_Cache.past_present_share_buffer_ c = false ->
  Split_updated c st a current_length c' st' a'.
Proof.
  intros Hrun Hshare. unfold KV_Cache.Update in Hrun. rewrite Hshare in Hrun.
  apply bind_Ok_inv in Hrun as ([[c1 st1] a1] & Hloop1 & Hloop2).
  set (n := (KV_Cache.layer_count_ c * 2)%nat) in *.
  set (ii := KV_Cache.input_index_ c) in *.
  set (oi := KV_Cache.output_index_ c) in *.
  apply (for_loop_Ok_inv (fun (i : nat) (r : KV_Cache.t * State * Allocator) =>
    let '(c1, st1, a1) := r in
    (KV_Cache.layer_count_ c1 = KV_Cache.layer_count_ c /\
     KV_Cache.past_present_share_buffer_ c1 = false /\
     KV_Cache.type_ c1 = KV_Cache.type_ c /\
     KV_Cache.shape_ c1 = KV_Cache.shape_ c /\
     KV_Cache.input_index_ c1 = ii /\ KV_Cache.output_index_ c1 = oi /\
     length (KV_Cache.pasts_ c1) = length (KV_Cache.pasts_ c) /\
     length (KV_Cache.presents_ c1) = length (KV_Cache.presents_ c)) /\
    (input_names_ st1 = input_names_ st /\ output_names_ st1 = output_names_ st
     /\ params_ st1 = params_ st /\ outputs_ st1 = outputs_ st) /\
    same_outside ii i (inputs_ st) (inputs_ st1) /\
    (alloc_next a <= alloc_next a1)%nat /\
    forall k, (k < i)%nat ->
      exists p, KV_Cache.pasts_ c1 !! k = Some p /\
                inputs_ st1 !! (ii + k)%nat = Some (get p)))
    in Hloop1.
  2: { repeat split; try done. intros k Hk. lia. }
  2: { intros i [[c2 st2] a2] [[c3 st3] a3] Hi
         ((Hl & Hs & Ht & Hsh & Hii & Hoi & Hlp & Hlpr) & (S1 & S2 & S3 & S4)
          & Hsame & Ha & Hprev) Hbody.
       apply bind_Ok_inv in Hbody as ([c4 a4] & Hca & Hbody).
       cbn [fst snd] in Hbody.
       apply bind_Ok_inv in Hbody as (past & Hpast%vec_get_Ok_inv & Hbody).
       apply bind_Ok_inv in Hbody as (st4 & Hset%set_input_Ok_inv & [= <- <- <-]).
       destruct Hset as (Hlt & Hin4 & Hout4 & Hn4 & Hon4 & Hp4).
       assert (Hc4 : (KV_Cache.layer_count_ c4 = KV_Cache.layer_count_ c2 /\
                 KV_Cache.past_present_share_buffer_ c4
                 = KV_Cache.past_present_share_buffer_ c2 /\
                 KV_Cache.type_ c4 = KV_Cache.type_ c2 /\
                 KV_Cache.shape_ c4 = KV_Cache.shape_ c2 /\
                 KV_Cache.input_index_ c4 = KV_Cache.input_index_ c2 /\
                 KV_Cache.output_index_ c4 = KV_Cache.output_index_ c2 /\
                 length (KV_Cache.pasts_ c4) = length (KV_Cache.pasts_ c2) /\
                 length (KV_Cache.presents_ c4) = length (KV_Cache.presents_ c2)) /\
                (alloc_next a2 <= alloc_next a4)%nat /\
                forall k, k <> i ->
                  KV_Cache.pasts_ c4 !! k = KV_Cache.pasts_ c2 !! k).
       { destruct (decide (bis = [])).
         - apply bind_Ok_inv in Hca as (present & _ & Hca).
           apply bind_Ok_inv in Hca as (pasts & [? ->]%vec_set_Ok_inv & Hca).
           apply bind_Ok_inv in Hca
             as (presents & [? ->]%vec_set_Ok_inv & [= <- <-]).
           cbn. rewrite !length_insert. repeat split; try done.
           intros k Hk. by rewrite list_lookup_insert_ne.
         - apply Split_PickPastState_Ok_inv in Hca as (p & -> & ? & Hnext).
           cbn. rewrite !length_insert. repeat split; try done; [lia|].
           intros k Hk. by rewrite list_lookup_insert_ne. }
       destruct Hc4 as ((E1 & E2 & E3 & E4 & E5 & E6 & E7 & E8) & Ha4 & Hother).
       rewrite E5, Hii in Hin4, Hlt.
       split; [repeat split; congruence|].
       split; [repeat split; congruence|].
       split; [rewrite Hin4; apply (same_outside_insert _ n); [done|lia]|].
       split; [lia|].
       intros k Hk. rewrite Hin4. destruct (decide (k = i)) as [->|].
       - exists past. split; [done|]. by rewrite list_lookup_insert_eq.
       - destruct (Hprev k) as (p & Hp1 & Hp2); [lia|].
         exists p. rewrite Hother by done.
         split; [done|]. by rewrite list_lookup_insert_ne by lia. }
  cbn [Nat.add] in Hloop1.
  destruct Hloop1
    as ((Hl & Hs & Ht & Hsh & Hii & Hoi & Hlp & Hlpr) & (Hn1 & Hon1 & Hp1 & Ho1)
        & Hsame & Ha & Hpasts).
  cbn [KV_Cache.layer_count_ KV_Cache.set_shape_] in Hloop2.
  rewrite Hl in Hloop2. fold n in Hloop2.
  set (shape' := <[2%nat := current_length]> (KV_Cache.shape_ c1)) in *.
  apply (for_loop_Ok_inv (fun (i : nat) (r : KV_Cache.t * State * Allocator) =>
    let '(c2, st2, a2) := r in
    (KV_Cache.layer_count_ c2 = KV_Cache.layer_count_ c /\
     KV_Cache.past_present_share_buffer_ c2 = false /\
     KV_Cache.type_ c2 = KV_Cache.type_ c /\
     KV_Cache.shape_ c2 = shape' /\
     KV_Cache.input_index_ c2 = ii /\ KV_Cache.output_index_ c2 = oi /\
     KV_Cache.pasts_ c2 = KV_Cache.pasts_ c1 /\
     length (KV_Cache.presents_ c2) = length (KV_Cache.presents_ c)) /\
    (input_names_ st2 = input_names_ st /\ output_names_ st2 = output_names_ st
     /\ params_ st2 = params_ st /\ inputs_ st2 = inputs_ st1) /\
    same_outside oi i (outputs_ st) (outputs_ st2) /\
    (alloc_next a1 <= alloc_next a2)%nat /\
    forall k, (k < i)%nat ->
      exists v, KV_Cache.presents_ c2 !! k = Some (Some v) /\
                outputs_ st2 !! (oi + k)%nat = Some (Some (ov_id v)) /\
                tensor_of (KV_Cache.type_ c) shape' v /\
                (alloc_next a1 <= ov_id v < alloc_next a2)%nat))
    in Hloop2.
  2: { cbn. rewrite Ho1. repeat split; try done. intros k Hk. lia. }
  2: { intros i [[c2 st2] a2] [[c3 st3] a3] Hi
         ((F1 & F2 & F3 & F4 & F5 & F6 & F7 & F8) & (G1 & G2 & G3 & G4)
          & Hsame2 & Ha2 & Hprev) Hbody.
       pose proof (CreateTensor_spec a2 (KV_Cache.shape_ c2) (KV_Cache.type_ c2))
         as (Htensor & Hid & Hnext).
       destruct (CreateTensor a2 (KV_Cache.shape_ c2) (KV_Cache.type_ c2))
         as [v a4]. cbn [fst snd] in *.
       apply bind_Ok_inv in Hbody as (presents & [Hlt ->]%vec_set_Ok_inv & Hbody).
       apply bind_Ok_inv in Hbody as (present & Hpr%vec_get_Ok_inv & Hbody).
       apply bind_Ok_inv in Hbody
         as (st4 & Hset%set_output_Ok_inv & [= <- <- <-]).
       cbn [KV_Cache.presents_ KV_Cache.set_presents_ KV_Cache.output_index_]
         in Hpr, Hset.
       rewrite list_lookup_insert_eq in Hpr by done. injection Hpr as <-.
       destruct Hset as (Hlt4 & Hout4 & Hin4 & Hn4 & Hon4 & Hp4).
       rewrite F6 in Hout4. cbn [get fmap option_fmap option_map] in Hout4.
       cbn [KV_Cache.layer_count_ KV_Cache.past_present_share_buffer_
            KV_Cache.type_ KV_Cache.shape_ KV_Cache.input_index_
            KV_Cache.output_index_ KV_Cache.pasts_ KV_Cache.presents_
            KV_Cache.set_presents_].
       rewrite length_insert.
       split; [done|]. split; [repeat split; congruence|].
       split; [rewrite Hout4; apply (same_outside_insert _ n); [done|lia]|].
       split; [lia|].
       intros k Hk. rewrite Hout4. destruct (decide (k = i)) as [->|].
       - exists v. rewrite !list_lookup_insert_eq by (rewrite ?F6 in *; lia).
         split; [done|]. split; [done|].
         split; [by rewrite <- F3, <- F4|]. lia.
       - destruct (Hprev k) as (v' & Hv1 & Hv2 & Hv3 & Hv4); [lia|].
         exists v'. rewrite !list_lookup_insert_ne by lia.
         split; [done|]. split; [done|]. split; [done|]. lia. }
  cbn [Nat.add] in Hloop2.
  destruct Hloop2
    as ((F1 & F2 & F3 & F4 & F5 & F6 & F7 & F8) & (G1 & G2 & G3 & G4)
        & Hsame2 & Ha2 & Hpresents).
  unfold shape' in *. rewrite Hsh in *.
  constructor; try done; try congruence.
  - by rewrite G4.
  - lia.
  - intros i Hi. destruct (Hpasts i Hi) as (p & Hq1 & Hq2).
    destruct (Hpresents i Hi) as (v & Hv1 & Hv2 & Hv3 & Hv4).
    exists p, v. rewrite F7, G4. do 5 (split; [done|]). lia.
Qed.

Lemma Combined_Update_Ok_inv m c st a bis current_length c' st' a' :
  KV_Cache_Combined.Update m c st a bis current_length = Ok (c', st', a') ->
  Combined_updated c st a current_length c' st' a'.
Proof.
  intros Hrun. unfold KV_Cache_Combined.Update in Hrun.
  apply bind_Ok_inv in Hrun as ([c1 a1] & Hloop1 & Hloop2).
  set (n := KV_Cache_Combined.layer_count_ c) in *.
  set (ii := KV_Cache_Combined.input_index_ c) in *.
  set (oi := KV_Cache_Combined.output_index_ c) in *.
  apply (for_loop_Ok_inv (fun (i : nat) (r : KV_Cache_Combined.t * Allocator) =>
    (KV_Cache_Combined.layer_count_ r.1 = n /\
     KV_Cache_Combined.type_ r.1 = KV_Cache_Combined.type_ c /\
     KV_Cache_Combined.shape_ r.1 = KV_Cache_Combined.shape_ c /\
     KV_Cache_Combined.input_index_ r.1 = ii /\
     KV_Cache_Combined.output_index_ r.1 = oi /\
     length (KV_Cache_Combined.pasts_ r.1)
     = length (KV_Cache_Combined.pasts_ c) /\
     length (KV_Cache_Combined.presents_ r.1)
     = length (KV_Cache_Combined.presents_ c)) /\
    (alloc_next a <= alloc_next r.2)%nat)) in Hloop1.
  2: { by repeat split. }
  2: { intros i [c2 a2] [c3 a3] Hi
         ((Hl & Ht & Hsh & Hii & Hoi & Hlp & Hlpr) & Ha) Hbody.
       cbn [fst snd] in *.
       destruct (decide (bis = [])).
       - apply bind_Ok_inv in Hbody as (present & _ & Hbody).
         apply bind_Ok_inv in Hbody as (pasts & [? ->]%vec_set_Ok_inv & Hbody).
         apply bind_Ok_inv in Hbody
           as (presents & [? ->]%vec_set_Ok_inv & [= <- <-]).
         cbn. rewrite !length_insert. by repeat split.
       - apply Combined_PickPastState_Ok_inv in Hbody as (p & -> & ? & Hnext).
         cbn. rewrite !length_insert. repeat split; try done. lia. }
  cbn [Nat.add fst snd] in Hloop1, Hloop2.
  destruct Hloop1 as ((Hl & Ht & Hsh & Hii & Hoi & Hlp & Hlpr) & Ha).
  cbn [KV_Cache_Combined.layer_count_ KV_Cache_Combined.set_shape_] in Hloop2.
  rewrite Hl in Hloop2.
  set (shape' := <[3%nat := current_length]> (KV_Cache_Combined.shape_ c1)) in *.
  apply (for_loop_Ok_inv
    (fun (i : nat) (r : KV_Cache_Combined.t * State * Allocator) =>
    let '(c2, st2, a2) := r in
    (KV_Cache_Combined.layer_count_ c2 = n /\
     KV_Cache_Combined.type_ c2 = KV_Cache_Combined.type_ c /\
     KV_Cache_Combined.shape_ c2 = shape' /\
     KV_Cache_Combined.input_index_ c2 = ii /\
     KV_Cache_Combined.output_index_ c2 = oi /\
     KV_Cache_Combined.pasts_ c2 = KV_Cache_Combined.pasts_ c1 /\
     length (KV_Cache_Combined.presents_ c2)
     = length (KV_Cache_Combined.presents_ c)) /\
    (input_names_ st2 = input_names_ st /\ output_names_ st2 = output_names_ st
     /\ params_ st2 = params_ st) /\
    same_outside ii i (inputs_ st) (inputs_ st2) /\
    same_outside oi i (outputs_ st) (outputs_ st2) /\
    (alloc_next a1 <= alloc_next a2)%nat /\
    forall k, (k < i)%nat ->
      exists p v,
        KV_Cache_Combined.pasts_ c2 !! k = Some p /\
        inputs_ st2 !! (ii + k)%nat = Some (get p) /\
        KV_Cache_Combined.presents_ c2 !! k = Some (Some v) /\
        outputs_ st2 !! (oi + k)%nat = Some (Some (ov_id v)) /\
        tensor_of (KV_Cache_Combined.type_ c) shape' v /\
        (alloc_next a1 <= ov_id v < alloc_next a2)%nat))
    in Hloop2.
  2: { cbn. repeat split; try done. intros k Hk. lia. }
  2: { intros i [[c2 st2] a2] [[c3 st3] a3] Hi
         ((F1 & F3 & F4 & F5 & F6 & F7 & F8) & (G1 & G2 & G3)
          & Hsi & Hso & Ha2 & Hprev) Hbody.
       pose proof (CreateTensor_spec a2 (KV_Cache_Combined.shape_ c2)
                     (KV_Cache_Combined.type_ c2)) as (Htensor & Hid & Hnext).
       destruct (CreateTensor a2 (KV_Cache_Combined.shape_ c2)
                   (KV_Cache_Combined.type_ c2)) as [v a4]. cbn [fst snd] in *.
       apply bind_Ok_inv in Hbody as (presents & [Hlt ->]%vec_set_Ok_inv & Hbody).
       apply bind_Ok_inv in Hbody as (past & Hpast%vec_get_Ok_inv & Hbody).
       apply bind_Ok_inv in Hbody as (st4 & Hseti%set_input_Ok_inv & Hbody).
       apply bind_Ok_inv in Hbody as (present & Hpr%vec_get_Ok_inv & Hbody).
       apply bind_Ok_inv in Hbody
         as (st5 & Hseto%set_output_Ok_inv & [= <- <- <-]).
       cbn [KV_Cache_Combined.presents_ KV_Cache_Combined.set_presents_
            KV_Cache_Combined.output_index_ KV_Cache_Combined.input_index_
            KV_Cache_Combined.pasts_] in Hpr, Hseti, Hseto, Hpast.
       rewrite list_lookup_insert_eq in Hpr by done. injection Hpr as <-.
       destruct Hseti as (Hlti & Hin4 & Hout4 & Hn4 & Hon4 & Hp4).
       destruct Hseto as (Hlto & Hout5 & Hin5 & Hn5 & Hon5 & Hp5).
       rewrite F5 in Hin4, Hlti. rewrite F6 in Hout5, Hlto.
       rewrite Hout4 in Hlto.
       cbn [get fmap option_fmap option_map] in Hout5.
       cbn [KV_Cache_Combined.layer_count_ KV_Cache_Combined.type_
            KV_Cache_Combined.shape_ KV_Cache_Combined.input_index_
            KV_Cache_Combined.output_index_ KV_Cache_Combined.pasts_
            KV_Cache_Combined.presents_ KV_Cache_Combined.set_presents_].
       rewrite length_insert.
       split; [done|]. split; [repeat split; congruence|].
       split; [rewrite Hin5, Hin4; apply (same_outside_insert _ n); [done|lia]|].
       split; [rewrite Hout5, Hout4; apply (same_outside_insert _ n); [done|lia]|].
       split; [lia|].
       intros k Hk. rewrite Hin5, Hin4, Hout5, Hout4.
       destruct (decide (k = i)) as [->|].
       - exists past, v.
         rewrite !list_lookup_insert_eq by lia.
         split; [congruence|]. do 3 (split; [done|]).
         split; [by rewrite <- F3, <- F4|]. lia.
       - destruct (Hprev k) as (p' & v' & Hv0 & Hv1 & Hv2 & Hv3 & Hv4 & Hv5);
           [lia|].
         exists p', v'. rewrite !list_lookup_insert_ne by lia.
         do 5 (split; [done|]). lia. }
  cbn [Nat.add] in Hloop2.
  destruct Hloop2
    as ((F1 & F3 & F4 & F5 & F6 & F7 & F8) & (G1 & G2 & G3)
        & Hsi & Hso & Ha2 & Hslots).
  unfold shape' in *. rewrite Hsh in *.
  constructor; try done; try congruence.
  - lia.
  - intros i Hi.
    destruct (Hslots i Hi) as (p & v & Hv0 & Hv1 & Hv2 & Hv3 & Hv4 & Hv5).
    exists p, v. do 5 (split; [done|]). lia.
Qed.

(** X18. After an [Update] that returns, the request mirrors the cache: input
    slot [i] of the cache holds its past tensor [i] and output slot [i] its
    present tensor [i]; the present tensors are tensors allocated by this
    call, of the cache's type and of its shape with the current length as
    sequence dimension. *)
Theorem Update_binds_slots m bis current_length :
  (forall c st a c' st' a',
     KV_Cache_Combined.Update m c st a bis current_length = Ok (c', st', a') ->
     KV_Cache_Combined.shape_ c'
     = <[3%nat := current_length]> (KV_Cache_Combined.shape_ c) /\
     forall i, (i < KV_Cache_Combined.layer_count_ c)%nat ->
       exists p v,
         KV_Cache_Combined.pasts_ c' !! i = Some p /\
         inputs_ st' !! (KV_Cache_Combined.input_index_ c + i)%nat
         = Some (get p) /\
         KV_Cache_Combined.presents_ c' !! i = Some (Some v) /\
         outputs_ st' !! (KV_Cache_Combined.output_index_ c + i)%nat
         = Some (Some (ov_id v)) /\
         tensor_of (KV_Cache_Combined.type_ c') (KV_Cache_Combined.shape_ c') v /\
         (alloc_next a <= ov_id v < alloc_next a')%nat) /\
  (forall c st a c' st' a',
     KV_Cache.past_present_share_buffer_ c = false ->
     KV_Cache.Update m c st a bis current_length = Ok (c', st', a') ->
     KV_Cache.shape_ c' = <[2%nat := current_length]> (KV_Cache.shape_ c) /\
     forall i, (i < KV_Cache.layer_count_ c * 2)%nat ->
       exists p v,
         KV_Cache.pasts_ c' !! i = Some p /\
         inputs_ st' !! (KV_Cache.input_index_ c + i)%nat = Some (get p) /\
         KV_Cache.presents_ c' !! i = Some (Some v) /\
         outputs_ st' !! (KV_Cache.output_index_ c + i)%nat
         = Some (Some (ov_id v)) /\
         tensor_of (KV_Cache.type_ c') (KV_Cache.shape_ c') v /\
         (alloc_next a <= ov_id v < alloc_next a')%nat).
Proof.
  split.
  - intros c st a c' st' a' Hrun.
    apply Combined_Update_Ok_inv in Hrun as [].
    split; [done|]. intros i Hi. rewrite cu_type0, cu_shape0. eauto.
  - intros c st a c' st' a' Hshare Hrun.
    apply Split_Update_Ok_inv in Hrun as []; [|done].
    split; [done|]. intros i Hi. rewrite su_type0, su_shape0. eauto.
Qed.

(** X19. [Update] touches nothing but its own slots: the slot names, the
    generator parameters and every input and output slot outside the
    cache's range are as before; so are the cache's layer count, element
    type and slot indices. *)
Theorem Update_frame m bis current_length :
  (forall c st a c' st' a',
     KV_Cache_Combined.Update m c st a bis current_length = Ok (c', st', a') ->
     input_names_ st' = input_names_ st /\
     output_names_ st' = output_names_ st /\ params_ st' = params_ st /\
     same_outside (KV_Cache_Combined.input_index_ c)
       (KV_Cache_Combined.layer_count_ c) (inputs_ st) (inputs_ st') /\
     same_outside (KV_Cache_Combined.output_index_ c)
       (KV_Cache_Combined.layer_count_ c) (outputs_ st) (outputs_ st') /\
     KV_Cache_Combined.layer_count_ c' = KV_Cache_Combined.layer_count_ c /\
     KV_Cache_Combined.type_ c' = KV_Cache_Combined.type_ c /\
     KV_Cache_Combined.input_index_ c' = KV_Cache_Combined.input_index_ c /\
     KV_Cache_Combined.output_index_ c' = KV_Cache_Combined.output_index_ c) /\
  (forall c st a c' st' a',
     KV_Cache.Update m c st a bis current_length = Ok (c', st', a') ->
     input_names_ st' = input_names_ st /\
     output_names_ st' = output_names_ st /\ params_ st' = params_ st /\
     same_outside (KV_Cache.input_index_ c)
       (KV_Cache.layer_count_ c * 2) (inputs_ st) (inputs_ st') /\
     same_outside (KV_Cache.output_index_ c)
       (KV_Cache.layer_count_ c * 2) (outputs_ st) (outputs_ st') /\
     KV_Cache.layer_count_ c' = KV_Cache.layer_count_ c /\
     KV_Cache.type_ c' = KV_Cache.type_ c /\
     KV_Cache.input_index_ c' = KV_Cache.input_index_ c /\
     KV_Cache.output_index_ c' = KV_Cache.output_index_ c).
Proof.
  split.
  - intros c st a c' st' a' Hrun.
    apply Combined_Update_Ok_inv in Hrun as [].
    destruct cu_names0 as (? & ? & ?). done.
  - intros c st a c' st' a' Hrun.
    destruct (KV_Cache.past_present_share_buffer_ c) eqn:Hshare.
    + unfold KV_Cache.Update in Hrun. rewrite Hshare in Hrun.
      injection Hrun as <- <- <-. repeat split; done.
    + apply Split_Update_Ok_inv in Hrun as []; [|done].
      destruct su_names0 as (? & ? & ?). done.
Qed.

(** X20. Readiness is kept from step to step: an [Update] of a ready cache that
    returns leaves it ready for the next one, with the current length as
    sequence dimension. *)
Theorem Update_keeps_ready m bis current_length B H S D :
  0 <= current_length ->
  (forall c st a c' st' a',
     Combined_ready c st B H S D ->
     KV_Cache_Combined.Update m c st a bis current_length = Ok (c', st', a') ->
     Combined_ready c' st' B H current_length D) /\
  (forall c st a c' st' a',
     Split_ready c st B H S D ->
     KV_Cache.Update m c st a bis current_length = Ok (c', st', a') ->
     Split_ready c' st' B H current_length D).
Proof.
  intros Hcl. split.
  - intros c st a c' st' a'
      (Hshape & (HB & HH & HS & HD) & Hty & Hpasts & Hpresents & Hall & Hin & Hout)
      Hrun.
    apply Combined_Update_Ok_inv in Hrun as [].
    destruct cu_inputs0 as [Hli _]. destruct cu_outputs0 as [Hlo _].
    unfold Combined_ready.
    rewrite cu_shape0, cu_type0, cu_layer_count0, cu_pasts0, cu_presents0,
      cu_input_index0, cu_output_index0, Hli, Hlo, Hshape.
    split; [done|]. split; [done|]. split; [done|]. split; [done|].
    split; [done|]. split; [|done].
    apply Forall_lookup. intros i p Hp.
    pose proof (lookup_lt_Some _ _ _ Hp) as Hi.
    destruct (cu_slots0 i) as (p' & v & _ & _ & Hv & _ & Htensor & _); [lia|].
    rewrite Hshape in Htensor. exists v. split; [congruence|done].
  - intros c st a c' st' a'
      (Hshare & Hshape & (HB & HH & HS & HD) & Hty & Hpasts & Hpresents & Hall
       & Hin & Hout) Hrun.
    apply Split_Update_Ok_inv in Hrun as []; [|done].
    destruct su_inputs0 as [Hli _]. destruct su_outputs0 as [Hlo _].
    unfold Split_ready.
    rewrite su_shape0, su_type0, su_layer_count0, su_pasts0, su_presents0,
      su_input_index0, su_output_index0, Hli, Hlo, Hshape.
    split; [done|]. split; [done|]. split; [done|]. split; [done|].
    split; [done|]. split; [done|]. split; [|done].
    apply Forall_lookup. intros i p Hp.
    pose proof (lookup_lt_Some _ _ _ Hp) as Hi.
    destruct (su_slots0 i) as (p' & v & _ & _ & Hv & _ & Htensor & _); [lia|].
    rewrite Hshape in Htensor. exists v. split; [congruence|done].
Qed.

(** X21. Without beam indices nothing is copied: [Update] hands each present
    tensor over as the past tensor of the next step, the same tensor with
    the same bytes, and binds it to the input slot. *)
Theorem Update_empty_hands_over m current_length B H S D :
  (forall c st a,
     Combined_ready c st B H S D ->
     exists c' st' a',
       KV_Cache_Combined.Update m c st a [] current_length = Ok (c', st', a') /\
       forall i, (i < KV_Cache_Combined.layer_count_ c)%nat ->
         exists v,
           KV_Cache_Combined.presents_ c !! i = Some (Some v) /\
           KV_Cache_Combined.pasts_ c' !! i = Some (Some v) /\
           inputs_ st' !! (KV_Cache_Combined.input_index_ c + i)%nat
           = Some (Some (ov_id v))) /\
  (forall c st a,
     Split_ready c st B H S D ->
     exists c' st' a',
       KV_Cache.Update m c st a [] current_length = Ok (c', st', a') /\
       forall i, (i < KV_Cache.layer_count_ c * 2)%nat ->
         exists v,
           KV_Cache.presents_ c !! i = Some (Some v) /\
           KV_Cache.pasts_ c' !! i = Some (Some v) /\
           inputs_ st' !! (KV_Cache.input_index_ c + i)%nat
           = Some (Some (ov_id v))).
Proof.
  split.
  - intros c st a Hready.
    destruct (Combined_Update_empty m c st a current_length B H S D Hready)
      as (c' & st' & a' & Hrun & Hpasts).
    exists c', st', a'. split; [done|]. intros i Hi.
    destruct Hready as (_ & _ & _ & _ & Hlen & Hall & _).
    destruct (Forall_lookup_present _ _ i Hall) as (v & Hv & _); [lia|].
    apply Combined_Update_Ok_inv in Hrun as [].
    destruct (cu_slots0 i Hi) as (p & _ & Hp & Hinp & _).
    rewrite Hpasts, Hv in Hp by done. injection Hp as <-.
    exists v. rewrite Hpasts by done. done.
  - intros c st a Hready.
    destruct (Split_Update_empty m c st a current_length B H S D Hready)
      as (c' & st' & a' & Hrun & Hpasts).
    exists c', st', a'. split; [done|]. intros i Hi.
    destruct Hready as (Hshare & _ & _ & _ & _ & Hlen & Hall & _).
    destruct (Forall_lookup_present _ _ i Hall) as (v & Hv & _); [lia|].
    apply Split_Update_Ok_inv in Hrun as []; [|done].
    destruct (su_slots0 i Hi) as (p & _ & Hp & Hinp & _).
    rewrite Hpasts, Hv in Hp by done. injection Hp as <-.
    exists v. rewrite Hpasts by done. done.
Qed.

(** ** Sliding-window cache: the slide *)

Lemma lookup_slice buf (o k : Z) (i : nat) :
  0 <= o -> 0 <= k ->
  slice buf o k !! i
  = if decide (i < Z.to_nat k)%nat then buf !! (Z.to_nat o + i)%nat else None.
Proof.
  intros Ho Hk. unfold slice. destruct (decide (i < Z.to_nat k)%nat).
  - by rewrite lookup_take_lt, lookup_drop by done.
  - by rewrite lookup_take_ge by lia.
Qed.

(** Two slices with the same bytes, position by position. *)
Lemma slice_ext buf1 buf2 (o1 o2 k : Z) :
  0 <= o1 -> 0 <= o2 -> 0 <= k ->
  (forall i : nat, (i < Z.to_nat k)%nat ->
     buf1 !! (Z.to_nat o1 + i)%nat = buf2 !! (Z.to_nat o2 + i)%nat) ->
  slice buf1 o1 k = slice buf2 o2 k.
Proof.
  intros H1 H2 Hk Hext. apply list_eq. intros i.
  rewrite !lookup_slice by done. destruct (decide _); [by apply Hext|done].
Qed.

(** [std::copy] inside one buffer towards lower addresses, first element
    first: every destination element gets the element that was at the
    matching source position before the call. *)
Lemma std_copy_within_lookup n buf src dst :
  (dst <= src)%nat -> (src + n <= length buf)%nat ->
  exists buf',
    std_copy_within n buf src dst = Ok buf'
    /\ length buf' = length buf
    /\ forall i, buf' !! i
         = if decide (dst <= i < dst + n)%nat then buf !! (i - dst + src)%nat
           else buf !! i.
Proof.
  revert buf src dst. induction n as [|n IH]; intros buf src dst Hle Hlen.
  { exists buf. split; [done|]. split; [done|]. intros i.
    by rewrite decide_False by lia. }
  cbn [std_copy_within].
  destruct (lookup_lt_is_Some_2 buf src) as [b Hb]; [lia|]. rewrite Hb.
  rewrite vec_set_Ok by lia. cbn [mbind outcome_bind].
  destruct (IH (<[dst := b]> buf) (S src) (S dst)) as (buf' & -> & Hl & Hlk);
    [lia|rewrite length_insert; lia|].
  exists buf'. split; [done|]. split; [by rewrite Hl, length_insert|].
  intros i. rewrite Hlk. destruct (decide (S dst <= i < S dst + n)%nat).
  - rewrite decide_True by lia. rewrite list_lookup_insert_ne by lia.
    f_equal. lia.
  - destruct (decide (i = dst)) as [->|].
    + rewrite decide_True by lia. rewrite list_lookup_insert_eq by lia.
      by replace (dst - dst + src)%nat with src by lia.
    + rewrite decide_False by lia. by rewrite list_lookup_insert_ne by lia.
Qed.

Lemma std_copy_same_spec buf so d n sz' :
  0 <= d -> d <= so -> 0 <= n -> so + n <= Z.of_nat (length buf) ->
  exists buf',
    std_copy_same buf (Span so n) (Span d sz') = Ok buf'
    /\ length buf' = length buf
    /\ slice buf' d n = slice buf so n
    /\ (forall o k, 0 <= o -> 0 <= k -> o + k <= d ->
          slice buf' o k = slice buf o k)
    /\ (forall o k, d + n <= o -> 0 <= k ->
          slice buf' o k = slice buf o k).
Proof.
  intros Hd Hso Hn Hlen. unfold std_copy_same. cbn [span_data span_size].
  rewrite decide_True by lia.
  destruct (std_copy_within_lookup (Z.to_nat n) buf (Z.to_nat so) (Z.to_nat d))
    as (buf' & -> & Hl & Hlk); [lia|lia|].
  exists buf'. split; [done|]. split; [done|]. split; [|split].
  - apply slice_ext; [lia..|]. intros i Hi. rewrite Hlk.
    rewrite decide_True by lia. f_equal. lia.
  - intros o k Ho Hk Hend. apply slice_ext; [lia..|]. intros i Hi.
    rewrite Hlk. by rewrite decide_False by lia.
  - intros o k Ho Hk. apply slice_ext; [lia..|]. intros i Hi.
    rewrite Hlk. by rewrite decide_False by lia.
Qed.

(** The key loop of [Slide] for one layer of a steady cache: every chunk
    loses its first element and gains the chunk's element of key-out. *)
Lemma Slide_key_chunks_spec (c : SlidingWindowKeyValueCache.t)
    (Hh Dd C : Z) key_in key_out :
  SlidingWindowKeyValueCache.window_size_ c = 1 ->
  SlidingWindowKeyValueCache.key_cache_shape_in_ c = [Hh; 1; Dd; C - 1] ->
  SlidingWindowKeyValueCache.key_cache_shape_out_ c = [Hh; 1; Dd; 1] ->
  0 <= Hh -> 0 <= Dd -> 1 < C ->
  Z.of_nat (length key_in) = Hh * Dd * (C - 1) ->
  Z.of_nat (length key_out) = Hh * Dd ->
  exists data,
    SlidingWindowKeyValueCache.Slide_key_chunks c key_in key_out = Ok data
    /\ length data = length key_in
    /\ forall j, 0 <= j < Hh * Dd ->
         slice data (j * (C - 1)) (C - 2)
         = slice key_in (j * (C - 1) + 1) (C - 2)
         /\ slice data (j * (C - 1) + (C - 2)) 1 = slice key_out j 1.
Proof.
  intros HW Hin Hout HHh HDd HC Hlin Hlout.
  unfold SlidingWindowKeyValueCache.Slide_key_chunks.
  rewrite HW, Hin, Hout. cbn [lookup_total list_lookup_total].
  edestruct (for_loop_inv (fun (i : nat) (buf : list byte) =>
      length buf = length key_in
      /\ (forall o k, Z.of_nat i * (C - 1) <= o -> 0 <= k ->
            slice buf o k = slice key_in o k)
      /\ forall j, 0 <= j < Z.of_nat i ->
           slice buf (j * (C - 1)) (C - 2)
           = slice key_in (j * (C - 1) + 1) (C - 2)
           /\ slice buf (j * (C - 1) + (C - 2)) 1 = slice key_out j 1))
    as (data & Hrun & Hlen & _ & Hchunks); [| |].
  3: { exists data. split; [exact Hrun|]. split; [done|].
       intros j Hj. apply Hchunks. lia. }
  - split; [done|]. split; [done|]. intros j Hj. lia.
  - intros i buf Hi (Hlen & Htail & Hprev).
    assert (0 <= Z.of_nat i < Hh * Dd) as Hi' by lia.
    destruct (std_copy_same_spec buf (Z.of_nat i * (C - 1) + 1)
                (Z.of_nat i * (C - 1)) (C - 1 - 1) (C - 1 - 1))
      as (buf1 & -> & Hlen1 & Hsame1 & Hbefore1 & Hafter1); try nia.
    cbn [mbind outcome_bind].
    destruct (std_copy_spec key_out buf1 (Z.of_nat i * 1)
                (Z.of_nat i * (C - 1) + (C - 1) - 1) 1 1)
      as (buf2 & -> & Hlen2 & Hsame2 & Hbefore2 & Hafter2); try nia.
    eexists. split; [done|]. split; [congruence|]. split.
    + intros o k Ho Hk. rewrite Hafter2, Hafter1 by nia. apply Htail; nia.
    + intros j Hj. destruct (decide (j = Z.of_nat i)) as [->|Hne].
      * split.
        -- rewrite Hbefore2 by nia.
           replace (C - 2) with (C - 1 - 1) by lia. rewrite Hsame1.
           apply Htail; nia.
        -- replace (Z.of_nat i * (C - 1) + (C - 2))
             with (Z.of_nat i * (C - 1) + (C - 1) - 1) by lia.
           rewrite Hsame2. f_equal. lia.
      * destruct (Hprev j) as [Hp1 Hp2]; [lia|].
        rewrite !Hbefore2, !Hbefore1 by nia. done.
Qed.

(** The value loop of [Slide] for one layer of a steady cache: the rows of
    every head move up by one, and the head's row of value-out becomes its
    last row. *)
Lemma Slide_value_rows_spec (c : SlidingWindowKeyValueCache.t)
    (Hh Dd C : Z) value_in value_out :
  SlidingWindowKeyValueCache.window_size_ c = 1 ->
  SlidingWindowKeyValueCache.value_cache_shape_in_ c = [Hh; 1; C - 1; Dd] ->
  SlidingWindowKeyValueCache.value_cache_shape_out_ c = [Hh; 1; 1; Dd] ->
  0 <= Hh -> 0 <= Dd -> 1 < C ->
  Z.of_nat (length value_in) = Hh * (C - 1) * Dd ->
  Z.of_nat (length value_out) = Hh * Dd ->
  exists data,
    SlidingWindowKeyValueCache.Slide_value_rows c value_in value_out = Ok data
    /\ length data = length value_in
    /\ forall h, 0 <= h < Hh ->
         slice data (h * (C - 1) * Dd) ((C - 2) * Dd)
         = slice value_in (h * (C - 1) * Dd + Dd) ((C - 2) * Dd)
         /\ slice data (h * (C - 1) * Dd + (C - 2) * Dd) Dd
            = slice value_out (h * Dd) Dd.
Proof.
  intros HW Hin Hout HHh HDd HC Hlin Hlout.
  unfold SlidingWindowKeyValueCache.Slide_value_rows.
  rewrite HW, Hin, Hout. cbn [lookup_total list_lookup_total].
  edestruct (for_loop_inv (fun (i : nat) (buf : list byte) =>
      length buf = length value_in
      /\ (forall o k, Z.of_nat i * (C - 1) * Dd <= o -> 0 <= k ->
            slice buf o k = slice value_in o k)
      /\ forall h, 0 <= h < Z.of_nat i ->
           slice buf (h * (C - 1) * Dd) ((C - 2) * Dd)
           = slice value_in (h * (C - 1) * Dd + Dd) ((C - 2) * Dd)
           /\ slice buf (h * (C - 1) * Dd + (C - 2) * Dd) Dd
              = slice value_out (h * Dd) Dd))
    as (data & Hrun & Hlen & _ & Hrows); [| |].
  3: { exists data. split; [exact Hrun|]. split; [done|].
       intros h Hh'. apply Hrows. lia. }
  - split; [done|]. split; [done|]. intros h Hh'. lia.
  - intros i buf Hi (Hlen & Htail & Hprev).
    assert (0 <= Z.of_nat i < Hh) as Hi' by lia.
    assert ((Z.of_nat i + 1) * (C - 1) * Dd <= Hh * (C - 1) * Dd) as Hfit
      by (apply Z.mul_le_mono_nonneg_r; nia).
    assert ((Z.of_nat i + 1) * Dd <= Hh * Dd) as Hfit'
      by (apply Z.mul_le_mono_nonneg_r; nia).
    assert (0 <= Z.of_nat i * (C - 1) * Dd) as Hnn by nia.
    assert (0 <= (C - 2) * Dd) as Hnn' by nia.
    destruct (std_copy_same_spec buf
                (Z.of_nat i * (C - 1) * Dd + 1 * Dd)
                (Z.of_nat i * (C - 1) * Dd) ((C - 1 - 1) * Dd)
                ((C - 1 - 1) * Dd))
      as (buf1 & -> & Hlen1 & Hsame1 & Hbefore1 & Hafter1); try nia.
    cbn [mbind outcome_bind].
    destruct (std_copy_spec value_out buf1 (Z.of_nat i * 1 * Dd)
                (Z.of_nat i * (C - 1) * Dd + (C - 1 - 1) * Dd) (1 * Dd) (1 * Dd))
      as (buf2 & -> & Hlen2 & Hsame2 & Hbefore2 & Hafter2); try nia.
    eexists. split; [done|]. split; [congruence|]. split.
    + intros o k Ho Hk. rewrite Hafter2, Hafter1 by nia. apply Htail; nia.
    + intros h Hh'. destruct (decide (h = Z.of_nat i)) as [->|Hne].
      * split.
        -- rewrite Hbefore2 by nia.
           replace ((C - 2) * Dd) with ((C - 1 - 1) * Dd) by lia.
           rewrite Hsame1. replace (1 * Dd) with Dd by lia.
           apply Htail; nia.
        -- replace (Z.of_nat i * (C - 1) * Dd + (C - 2) * Dd)
             with (Z.of_nat i * (C - 1) * Dd + (C - 1 - 1) * Dd) by lia.
           replace Dd with (1 * Dd) at 3 4 by lia.
           rewrite Hsame2. f_equal; lia.
      * destruct (Hprev h) as [Hp1 Hp2]; [lia|].
        assert ((h + 1) * (C - 1) * Dd <= Z.of_nat i * (C - 1) * Dd)
          by (apply Z.mul_le_mono_nonneg_r; nia).
        rewrite !Hbefore2, !Hbefore1 by nia. done.
Qed.

Lemma with_data_tensor_of ty shape v data :
  tensor_of ty shape v -> length data = length (ov_data v) ->
  tensor_of ty shape (with_data v data).
Proof. intros (? & ? & ?) Hlen. unfold tensor_of. cbn. by rewrite Hlen. Qed.

(** The slide of a steady cache, with all it keeps. *)
Lemma SlidingWindow_slide m c st a beam_indices current_length Hh Dd C :
  SlidingWindow_steady c Hh Dd C ->
  exists c',
    SlidingWindowKeyValueCache.Update m c st a beam_indices current_length
    = Ok (c', st, a)
    /\ SlidingWindow_steady c' Hh Dd C
    /\ SlidingWindowKeyValueCache.layer_count_ c'
       = SlidingWindowKeyValueCache.layer_count_ c
    /\ SlidingWindowKeyValueCache.key_caches_out_ c'
       = SlidingWindowKeyValueCache.key_caches_out_ c
    /\ SlidingWindowKeyValueCache.value_caches_out_ c'
       = SlidingWindowKeyValueCache.value_caches_out_ c
    /\ SlidingWindowKeyValueCache.input_index_ c'
       = SlidingWindowKeyValueCache.input_index_ c
    /\ SlidingWindowKeyValueCache.output_index_ c'
       = SlidingWindowKeyValueCache.output_index_ c
    /\ forall layer, (layer < SlidingWindowKeyValueCache.layer_count_ c)%nat ->
         slid_layer Hh Dd C c c' layer.
Proof.
  intros (HW & (Hh0 & Dd0 & HC) & Hkin & Hkout & Hvin & Hvout & [Lki Aki]
          & [Lko Ako] & [Lvi Avi] & [Lvo Avo]).
  unfold SlidingWindowKeyValueCache.Update. rewrite decide_True by done.
  unfold SlidingWindowKeyValueCache.Slide.
  set (L := SlidingWindowKeyValueCache.layer_count_ c) in *.
  set (R := fun (k : nat) (kin vin : list (option OrtValue)) =>
    exists key_in key_out new_key value_in value_out new_value,
      SlidingWindowKeyValueCache.key_caches_in_ c !! k = Some (Some key_in) /\
      SlidingWindowKeyValueCache.key_caches_out_ c !! k = Some (Some key_out) /\
      kin !! k = Some (Some new_key) /\
      ov_id new_key = ov_id key_in /\
      SlidingWindowKeyValueCache.value_caches_in_ c !! k = Some (Some value_in) /\
      SlidingWindowKeyValueCache.value_caches_out_ c !! k
      = Some (Some value_out) /\
      vin !! k = Some (Some new_value) /\
      ov_id new_value = ov_id value_in /\
      (forall row, 0 <= row < Hh * Dd ->
         slice (ov_data new_key) (row * (C - 1)) (C - 2)
         = slice (ov_data key_in) (row * (C - 1) + 1) (C - 2) /\
         slice (ov_data new_key) (row * (C - 1) + (C - 2)) 1
         = slice (ov_data key_out) row 1) /\
      (forall h, 0 <= h < Hh ->
         slice (ov_data new_value) (h * (C - 1) * Dd) ((C - 2) * Dd)
         = slice (ov_data value_in) (h * (C - 1) * Dd + Dd) ((C - 2) * Dd) /\
         slice (ov_data new_value) (h * (C - 1) * Dd + (C - 2) * Dd) Dd
         = slice (ov_data value_out) (h * Dd) Dd)).
  edestruct (for_loop_inv
    (fun (i : nat) (cs : SlidingWindowKeyValueCache.caches) =>
      (length (SlidingWindowKeyValueCache.c_key_in cs) = L
       /\ length (SlidingWindowKeyValueCache.c_value_in cs) = L
       /\ SlidingWindowKeyValueCache.c_key_out cs
          = SlidingWindowKeyValueCache.key_caches_out_ c
       /\ SlidingWindowKeyValueCache.c_value_out cs
          = SlidingWindowKeyValueCache.value_caches_out_ c)
      /\ Forall (fun p => exists v, p = Some v
                   /\ tensor_of UINT8 [Hh; 1; Dd; C - 1] v)
           (SlidingWindowKeyValueCache.c_key_in cs)
      /\ Forall (fun p => exists v, p = Some v
                   /\ tensor_of UINT8 [Hh; 1; C - 1; Dd] v)
           (SlidingWindowKeyValueCache.c_value_in cs)
      /\ (forall k, (i <= k)%nat ->
            SlidingWindowKeyValueCache.c_key_in cs !! k
            = SlidingWindowKeyValueCache.key_caches_in_ c !! k
            /\ SlidingWindowKeyValueCache.c_value_in cs !! k
               = SlidingWindowKeyValueCache.value_caches_in_ c !! k)
      /\ forall k, (k < i)%nat ->
           R k (SlidingWindowKeyValueCache.c_key_in cs)
             (SlidingWindowKeyValueCache.c_value_in cs)))
    as (cs & Hrun & (Hl1 & Hl2 & Hko & Hvo) & Tk & Tv & _ & Hdone);
    [| |rewrite Hrun].
  - cbn. split; [done|]. split; [done|]. split; [done|]. split; [done|].
    intros k Hk. lia.
  - intros i cs Hi ((Hl1 & Hl2 & Hko & Hvo) & Tk & Tv & Hrest & Hprev).
    destruct (Hrest i (le_n _)) as (Eki & Evi).
    destruct (Forall_lookup_present _ _ i Aki) as (key_in & Hki & Tki); [lia|].
    destruct (Forall_lookup_present _ _ i Ako) as (key_out & Hko' & Tko); [lia|].
    destruct (Forall_lookup_present _ _ i Avi) as (val_in & Hvi & Tvi); [lia|].
    destruct (Forall_lookup_present _ _ i Avo) as (val_out & Hvo' & Tvo); [lia|].
    rewrite Hko, Hvo.
    rewrite <- Eki in Hki. rewrite <- Evi in Hvi.
    rewrite (vec_get_Ok _ _ _ Hki), (vec_get_Ok _ _ _ Hko').
    cbn [mbind outcome_bind deref].
    destruct (Slide_key_chunks_spec c Hh Dd C (ov_data key_in) (ov_data key_out))
      as (key_data & -> & Hkdlen & Hkrows); try done;
      [rewrite (tensor_of_UINT8_length Hh 1 Dd (C - 1)); [lia|nia|done]
      |rewrite (tensor_of_UINT8_length Hh 1 Dd 1); [lia|nia|done]|].
    cbn [mbind outcome_bind]. rewrite vec_set_Ok by lia.
    cbn [mbind outcome_bind].
    rewrite (vec_get_Ok _ _ _ Hvi), (vec_get_Ok _ _ _ Hvo').
    cbn [mbind outcome_bind deref].
    destruct (Slide_value_rows_spec c Hh Dd C (ov_data val_in) (ov_data val_out))
      as (value_data & -> & Hvdlen & Hvrows); try done;
      [rewrite (tensor_of_UINT8_length Hh 1 (C - 1) Dd); [lia|nia|done]
      |rewrite (tensor_of_UINT8_length Hh 1 1 Dd); [lia|nia|done]|].
    cbn [mbind outcome_bind]. rewrite vec_set_Ok by lia.
    cbn [mbind outcome_bind].
    eexists. split; [done|]. cbn [
      SlidingWindowKeyValueCache.c_key_in SlidingWindowKeyValueCache.c_key_out
      SlidingWindowKeyValueCache.c_value_in
      SlidingWindowKeyValueCache.c_value_out].
    rewrite !length_insert. split; [done|].
    split; [apply Forall_insert; [done|];
            eexists; split; [done|]; by apply with_data_tensor_of|].
    split; [apply Forall_insert; [done|];
            eexists; split; [done|]; by apply with_data_tensor_of|].
    split.
    + intros k Hk. rewrite !list_lookup_insert_ne by lia. apply Hrest. lia.
    + intros k Hk. destruct (decide (k = i)) as [->|Hki'].
      * exists key_in, key_out, (with_data key_in key_data),
          val_in, val_out, (with_data val_in value_data).
        rewrite !list_lookup_insert_eq by lia.
        rewrite <- Eki, <- Evi. cbn [with_data ov_id ov_data]. done.
      * destruct (Hprev k)
          as (x1 & x2 & x3 & x4 & x5 & x6 & ? & ? & ? & ? & ? & ? & ? & ?);
          [lia|].
        exists x1, x2, x3, x4, x5, x6.
        rewrite !list_lookup_insert_ne by lia. done.
  - cbn [mbind outcome_bind]. eexists. split; [done|].
    cbn [SlidingWindowKeyValueCache.with_caches
         SlidingWindowKeyValueCache.layer_count_
         SlidingWindowKeyValueCache.key_caches_out_
         SlidingWindowKeyValueCache.value_caches_out_
         SlidingWindowKeyValueCache.input_index_
         SlidingWindowKeyValueCache.output_index_].
    split.
    { unfold SlidingWindow_steady. cbn. rewrite Hko, Hvo. done. }
    do 5 (split; [done|]).
    intros layer Hlayer. apply Hdone. lia.
Qed.

(** X22. In the steady state [Update] slides: it returns, allocates nothing and
    leaves the request alone; the cache stays steady, with the same
    tensors in every place; and in every layer each key chunk and each
    head's value rows have lost their oldest entry and gained the entry of
    the out tensor at the end. The beam indices and the current length
    play no part. *)
Theorem Update_slides_window m c st a beam_indices current_length Hh Dd C :
  SlidingWindow_steady c Hh Dd C ->
  exists c',
    SlidingWindowKeyValueCache.Update m c st a beam_indices current_length
    = Ok (c', st, a)
    /\ SlidingWindow_steady c' Hh Dd C
    /\ SlidingWindowKeyValueCache.layer_count_ c'
       = SlidingWindowKeyValueCache.layer_count_ c
    /\ SlidingWindowKeyValueCache.key_caches_out_ c'
       = SlidingWindowKeyValueCache.key_caches_out_ c
    /\ SlidingWindowKeyValueCache.value_caches_out_ c'
       = SlidingWindowKeyValueCache.value_caches_out_ c
    /\ SlidingWindowKeyValueCache.input_index_ c'
       = SlidingWindowKeyValueCache.input_index_ c
    /\ SlidingWindowKeyValueCache.output_index_ c'
       = SlidingWindowKeyValueCache.output_index_ c
    /\ forall layer, (layer < SlidingWindowKeyValueCache.layer_count_ c)%nat ->
         slid_layer Hh Dd C c c' layer.
Proof. apply SlidingWindow_slide. Qed.

Lemma Update_slides_window_steady m c st a beam_indices current_length Hh Dd C :
  SlidingWindow_steady c Hh Dd C ->
  exists c',
    SlidingWindowKeyValueCache.Update m c st a beam_indices current_length
    = Ok (c', st, a)
    /\ SlidingWindow_steady c' Hh Dd C.
Proof.
  intros Hc.
  destruct (SlidingWindow_slide m c st a beam_indices current_length Hh Dd C Hc)
    as (c' & ? & ? & _).
  by exists c'.
Qed.

(** ** Sliding-window cache: what the collapse leaves *)

(** The value loop of the collapse for one layer. The rows kept from the
    old value-in tensor are read at the stride of the out tensor: head [h]
    gets the rows that start at row [h W + 1] of the old tensor (for head 0,
    its own rows without the oldest), followed by its rows of value-out. *)
Lemma Update_value_rows_spec (c : SlidingWindowKeyValueCache.t)
    (Hh Dd C W : Z) value_in value_out new_value :
  SlidingWindowKeyValueCache.window_size_ c = W ->
  SlidingWindowKeyValueCache.value_cache_shape_in_ c = [Hh; 1; C - W; Dd] ->
  SlidingWindowKeyValueCache.value_cache_shape_out_ c = [Hh; 1; W; Dd] ->
  0 <= Hh -> 0 <= Dd -> 0 < W -> W < C ->
  Hh <= 1 \/ 2 * W <= C ->
  Z.of_nat (length value_in) = Hh * (C - W) * Dd ->
  Z.of_nat (length value_out) = Hh * W * Dd ->
  Z.of_nat (length new_value) = Hh * (C - 1) * Dd ->
  exists data,
    SlidingWindowKeyValueCache.Update_value_rows c [Hh; 1; C - 1; Dd] 1
      value_in value_out new_value = Ok data
    /\ length data = length new_value
    /\ forall h, 0 <= h < Hh ->
         slice data (h * (C - 1) * Dd) ((C - W - 1) * Dd)
         = slice value_in ((h * W + 1) * Dd) ((C - W - 1) * Dd)
         /\ slice data (h * (C - 1) * Dd + (C - W - 1) * Dd) (W * Dd)
            = slice value_out (h * W * Dd) (W * Dd).
Proof.
  intros HW Hin Hout HHh HDd HWpos HWC Hfit Hlin Hlout Hlnew.
  unfold SlidingWindowKeyValueCache.Update_value_rows.
  rewrite HW, Hin, Hout. cbn [lookup_total list_lookup_total].
  edestruct (for_loop_inv (fun (i : nat) (buf : list byte) =>
      length buf = length new_value
      /\ forall h, 0 <= h < Z.of_nat i ->
           slice buf (h * (C - 1) * Dd) ((C - W - 1) * Dd)
           = slice value_in ((h * W + 1) * Dd) ((C - W - 1) * Dd)
           /\ slice buf (h * (C - 1) * Dd + (C - W - 1) * Dd) (W * Dd)
              = slice value_out (h * W * Dd) (W * Dd)))
    as (data & Hrun & Hlen & Hrows); [| |].
  3: { exists data. split; [exact Hrun|]. split; [done|].
       intros h Hh'. apply Hrows. lia. }
  - split; [done|]. intros h Hh'. lia.
  - intros i buf Hi [Hlen Hprev].
    assert (0 <= Z.of_nat i < Hh) as Hi' by lia.
    assert (Z.of_nat i * W + (C - W) <= Hh * (C - W)) as Hsrc.
    { destruct Hfit; [assert (Z.of_nat i = 0) as -> by lia; nia|nia]. }
    assert ((Z.of_nat i * W + (C - W)) * Dd <= Hh * (C - W) * Dd) as Hsrc'
      by (apply Z.mul_le_mono_nonneg_r; lia).
    assert ((Z.of_nat i + 1) * (C - 1) <= Hh * (C - 1)) as Hdst by nia.
    assert ((Z.of_nat i + 1) * (C - 1) * Dd <= Hh * (C - 1) * Dd) as Hdst'
      by (apply Z.mul_le_mono_nonneg_r; lia).
    assert ((Z.of_nat i + 1) * W * Dd <= Hh * W * Dd) as Hout'
      by (apply Z.mul_le_mono_nonneg_r; nia).
    assert (0 <= Z.of_nat i * (C - 1) * Dd) as Hnn by nia.
    assert (0 <= (C - W - 1) * Dd) as Hnn' by nia.
    destruct (std_copy_spec value_in buf
                (Z.of_nat i * W * Dd + 1 * Dd) (Z.of_nat i * (C - 1) * Dd)
                ((C - W - 1) * Dd) ((C - W - 1) * Dd))
      as (buf1 & -> & Hlen1 & Hsame1 & Hbefore1 & _); try nia.
    cbn [mbind outcome_bind].
    destruct (std_copy_spec value_out buf1 (Z.of_nat i * W * Dd)
                (Z.of_nat i * (C - 1) * Dd + (C - W - 1) * Dd)
                (W * Dd) (W * Dd))
      as (buf2 & -> & Hlen2 & Hsame2 & Hbefore2 & _); try nia.
    eexists. split; [done|]. split; [congruence|].
    intros h Hh'. destruct (decide (h = Z.of_nat i)) as [->|Hne].
    + split.
      * rewrite Hbefore2 by nia. rewrite Hsame1. f_equal. lia.
      * exact Hsame2.
    + destruct (Hprev h) as [Hp1 Hp2]; [lia|].
      assert ((h + 1) * (C - 1) * Dd <= Z.of_nat i * (C - 1) * Dd)
        by (apply Z.mul_le_mono_nonneg_r; nia).
      rewrite !Hbefore2, !Hbefore1 by nia. done.
Qed.

(** The last loop of the collapse binds every slot of the cache to the
    tensor the cache now holds in that place, and no other slot. *)
Lemma SlidingWindow_rebind_loop_inv (c : SlidingWindowKeyValueCache.t) st st' :
  for_loop (SlidingWindowKeyValueCache.layer_count_ c) 0
    (fun layer_idx st =>
      key_in ← vec_get (SlidingWindowKeyValueCache.key_caches_in_ c) layer_idx;
      st ← set_input st
             (SlidingWindowKeyValueCache.input_index_ c + 2 * layer_idx)
             (get key_in);
      value_in ←
        vec_get (SlidingWindowKeyValueCache.value_caches_in_ c) layer_idx;
      st ← set_input st
             (SlidingWindowKeyValueCache.input_index_ c + 2 * layer_idx + 1)
             (get value_in);
      key_out ← vec_get (SlidingWindowKeyValueCache.key_caches_out_ c) layer_idx;
      st ← set_output st
             (SlidingWindowKeyValueCache.output_index_ c + 2 * layer_idx)
             (get key_out);
      value_out ←
        vec_get (SlidingWindowKeyValueCache.value_caches_out_ c) layer_idx;
      set_output st
        (SlidingWindowKeyValueCache.output_index_ c + 2 * layer_idx + 1)
        (get value_out)) st = Ok st' ->
  let L := SlidingWindowKeyValueCache.layer_count_ c in
  let ii := SlidingWindowKeyValueCache.input_index_ c in
  let oi := SlidingWindowKeyValueCache.output_index_ c in
  (input_names_ st' = input_names_ st /\ output_names_ st' = output_names_ st
   /\ params_ st' = params_ st) /\
  same_outside ii (2 * L) (inputs_ st) (inputs_ st') /\
  same_outside oi (2 * L) (outputs_ st) (outputs_ st') /\
  forall k, (k < L)%nat ->
    inputs_ st' !! (ii + 2 * k)%nat
    = Some (get (default None (SlidingWindowKeyValueCache.key_caches_in_ c !! k))) /\
    inputs_ st' !! (ii + 2 * k + 1)%nat
    = Some (get (default None (SlidingWindowKeyValueCache.value_caches_in_ c !! k))) /\
    outputs_ st' !! (oi + 2 * k)%nat
    = Some (get (default None (SlidingWindowKeyValueCache.key_caches_out_ c !! k))) /\
    outputs_ st' !! (oi + 2 * k + 1)%nat
    = Some (get (default None (SlidingWindowKeyValueCache.value_caches_out_ c !! k))).
Proof.
  intros Hrun L ii oi.
  apply (for_loop_Ok_inv (fun (i : nat) (s : State) =>
    (input_names_ s = input_names_ st /\ output_names_ s = output_names_ st
     /\ params_ s = params_ st) /\
    same_outside ii (2 * i) (inputs_ st) (inputs_ s) /\
    same_outside oi (2 * i) (outputs_ st) (outputs_ s) /\
    forall k, (k < i)%nat ->
      inputs_ s !! (ii + 2 * k)%nat
      = Some (get (default None (SlidingWindowKeyValueCache.key_caches_in_ c !! k))) /\
      inputs_ s !! (ii + 2 * k + 1)%nat
      = Some (get (default None (SlidingWindowKeyValueCache.value_caches_in_ c !! k))) /\
      outputs_ s !! (oi + 2 * k)%nat
      = Some (get (default None (SlidingWindowKeyValueCache.key_caches_out_ c !! k))) /\
      outputs_ s !! (oi + 2 * k + 1)%nat
      = Some (get (default None (SlidingWindowKeyValueCache.value_caches_out_ c !! k)))))
    in Hrun; [exact Hrun| |].
  - split; [done|]. split; [apply same_outside_refl|].
    split; [apply same_outside_refl|]. intros k Hk. lia.
  - clear Hrun. intros i s s' Hi ((N1 & N2 & N3) & [Li Si] & [Lo So] & Hprev) Hbody.
    apply bind_Ok_inv in Hbody as (ki & Hki%vec_get_Ok_inv & Hbody).
    apply bind_Ok_inv in Hbody as (s1 & H1%set_input_Ok_inv & Hbody).
    apply bind_Ok_inv in Hbody as (vi & Hvi%vec_get_Ok_inv & Hbody).
    apply bind_Ok_inv in Hbody as (s2 & H2%set_input_Ok_inv & Hbody).
    apply bind_Ok_inv in Hbody as (ko & Hko%vec_get_Ok_inv & Hbody).
    apply bind_Ok_inv in Hbody as (s3 & H3%set_output_Ok_inv & Hbody).
    apply bind_Ok_inv in Hbody as (vo & Hvo%vec_get_Ok_inv & Hbody).
    apply set_output_Ok_inv in Hbody.
    destruct H1 as (B1 & I1 & O1 & X1 & Y1 & Z1).
    destruct H2 as (B2 & I2 & O2 & X2 & Y2 & Z2).
    destruct H3 as (B3 & O3 & I3 & X3 & Y3 & Z3).
    destruct Hbody as (B4 & O4 & I4 & X4 & Y4 & Z4).
    fold ii in I1, I2, B1, B2. fold oi in O3, O4, B3, B4.
    assert (Hin : inputs_ s'
      = <[(ii + 2 * i + 1)%nat := get vi]> (<[(ii + 2 * i)%nat := get ki]> (inputs_ s)))
      by congruence.
    assert (Hout : outputs_ s'
      = <[(oi + 2 * i + 1)%nat := get vo]> (<[(oi + 2 * i)%nat := get ko]> (outputs_ s)))
      by congruence.
    rewrite I1 in B2. rewrite length_insert in B2.
    rewrite O2, O1 in B3. rewrite O3, length_insert, O2, O1 in B4.
    split; [repeat split; congruence|].
    split; [|split].
    + split; [rewrite Hin, !length_insert; done|].
      intros k Hk. rewrite Hin, !list_lookup_insert_ne by lia. apply Si. lia.
    + split; [rewrite Hout, !length_insert; done|].
      intros k Hk. rewrite Hout, !list_lookup_insert_ne by lia. apply So. lia.
    + intros k Hk. rewrite Hin, Hout. destruct (decide (k = i)) as [->|].
      * rewrite Hki, Hvi, Hko, Hvo. cbn [default].
        rewrite (list_lookup_insert_ne _ (ii + 2 * i + 1)%nat (ii + 2 * i)%nat)
          by lia.
        rewrite (list_lookup_insert_ne _ (oi + 2 * i + 1)%nat (oi + 2 * i)%nat)
          by lia.
        rewrite !list_lookup_insert_eq by (rewrite ?length_insert; lia). done.
      * destruct (Hprev k) as (P1 & P2 & P3 & P4); [lia|].
        rewrite !list_lookup_insert_ne by lia. done.
Qed.

Lemma SlidingWindow_collapse m c st a beam_indices current_length Hh Dd C W :
  SlidingWindow_ready m c st Hh Dd C W ->
  exists c' st' a',
    SlidingWindowKeyValueCache.Update m c st a beam_indices current_length
    = Ok (c', st', a')
    /\ SlidingWindow_steady c' Hh Dd C
    /\ (SlidingWindowKeyValueCache.layer_count_ c'
        = SlidingWindowKeyValueCache.layer_count_ c /\
        SlidingWindowKeyValueCache.input_index_ c'
        = SlidingWindowKeyValueCache.input_index_ c /\
        SlidingWindowKeyValueCache.output_index_ c'
        = SlidingWindowKeyValueCache.output_index_ c)
    /\ alloc_next a'
       = (alloc_next a + 4 * SlidingWindowKeyValueCache.layer_count_ c)%nat
    /\ (forall layer, (layer < SlidingWindowKeyValueCache.layer_count_ c)%nat ->
          collapsed_layer Hh Dd C W a c c' layer)
    /\ for_loop (SlidingWindowKeyValueCache.layer_count_ c') 0
         (fun layer_idx st =>
           key_in ← vec_get (SlidingWindowKeyValueCache.key_caches_in_ c') layer_idx;
           st ← set_input st
                  (SlidingWindowKeyValueCache.input_index_ c' + 2 * layer_idx)
                  (get key_in);
           value_in ←
             vec_get (SlidingWindowKeyValueCache.value_caches_in_ c') layer_idx;
           st ← set_input st
                  (SlidingWindowKeyValueCache.input_index_ c' + 2 * layer_idx + 1)
                  (get value_in);
           key_out ←
             vec_get (SlidingWindowKeyValueCache.key_caches_out_ c') layer_idx;
           st ← set_output st
                  (SlidingWindowKeyValueCache.output_index_ c' + 2 * layer_idx)
                  (get key_out);
           value_out ←
             vec_get (SlidingWindowKeyValueCache.value_caches_out_ c') layer_idx;
           set_output st
             (SlidingWindowKeyValueCache.output_index_ c' + 2 * layer_idx + 1)
             (get value_out)) st = Ok st'.
Proof.
  intros (HHh & HDd & HC & HW & (Hh0 & Dd0 & HW1 & HWC) & Hfit & Hty
          & Hkin & Hkout & Hvin & Hvout & [Lki Aki] & [Lko Ako] & [Lvi Avi]
          & [Lvo Avo] & Hin & Hout).
  unfold SlidingWindowKeyValueCache.Update.
  rewrite decide_False by lia. rewrite HHh, HDd, HC, Hty.
  set (L := SlidingWindowKeyValueCache.layer_count_ c) in *.
  set (Q := fun (k : nat) (cs : SlidingWindowKeyValueCache.caches) =>
    exists key_in key_out value_in value_out
           new_key new_key_out new_value new_value_out,
      (SlidingWindowKeyValueCache.key_caches_in_ c !! k = Some (Some key_in) /\
       SlidingWindowKeyValueCache.key_caches_out_ c !! k = Some (Some key_out) /\
       SlidingWindowKeyValueCache.value_caches_in_ c !! k
       = Some (Some value_in) /\
       SlidingWindowKeyValueCache.value_caches_out_ c !! k
       = Some (Some value_out)) /\
      (SlidingWindowKeyValueCache.c_key_in cs !! k = Some (Some new_key) /\
       SlidingWindowKeyValueCache.c_key_out cs !! k = Some (Some new_key_out) /\
       SlidingWindowKeyValueCache.c_value_in cs !! k = Some (Some new_value) /\
       SlidingWindowKeyValueCache.c_value_out cs !! k
       = Some (Some new_value_out)) /\
      (ov_id new_key = (alloc_next a + 4 * k)%nat /\
       ov_id new_key_out = (alloc_next a + 4 * k + 1)%nat /\
       ov_id new_value = (alloc_next a + 4 * k + 2)%nat /\
       ov_id new_value_out = (alloc_next a + 4 * k + 3)%nat) /\
      (tensor_of UINT8 [Hh; 1; Dd; C - 1] new_key /\
       tensor_of UINT8 [Hh; 1; Dd; 1] new_key_out /\
       tensor_of UINT8 [Hh; 1; C - 1; Dd] new_value /\
       tensor_of UINT8 [Hh; 1; 1; Dd] new_value_out) /\
      (forall row, 0 <= row < Hh * Dd ->
         slice (ov_data new_key) (row * (C - 1)) (C - W - 1)
         = slice (ov_data key_in) (row * (C - W) + 1) (C - W - 1) /\
         slice (ov_data new_key) (row * (C - 1) + (C - 1 - W)) W
         = slice (ov_data key_out) (row * W) W) /\
      (forall h, 0 <= h < Hh ->
         slice (ov_data new_value) (h * (C - 1) * Dd) ((C - W - 1) * Dd)
         = slice (ov_data value_in) ((h * W + 1) * Dd) ((C - W - 1) * Dd) /\
         slice (ov_data new_value) (h * (C - 1) * Dd + (C - W - 1) * Dd) (W * Dd)
         = slice (ov_data value_out) (h * W * Dd) (W * Dd))).
  edestruct (for_loop_inv
    (fun (i : nat) (r : SlidingWindowKeyValueCache.caches * Allocator) =>
      let cs := r.1 in
      (length (SlidingWindowKeyValueCache.c_key_in cs) = L
       /\ length (SlidingWindowKeyValueCache.c_key_out cs) = L
       /\ length (SlidingWindowKeyValueCache.c_value_in cs) = L
       /\ length (SlidingWindowKeyValueCache.c_value_out cs) = L)
      /\ alloc_next r.2 = (alloc_next a + 4 * i)%nat
      /\ (forall k, (i <= k)%nat ->
            SlidingWindowKeyValueCache.c_key_in cs !! k
            = SlidingWindowKeyValueCache.key_caches_in_ c !! k
            /\ SlidingWindowKeyValueCache.c_key_out cs !! k
               = SlidingWindowKeyValueCache.key_caches_out_ c !! k
            /\ SlidingWindowKeyValueCache.c_value_in cs !! k
               = SlidingWindowKeyValueCache.value_caches_in_ c !! k
            /\ SlidingWindowKeyValueCache.c_value_out cs !! k
               = SlidingWindowKeyValueCache.value_caches_out_ c !! k)
      /\ forall k, (k < i)%nat -> Q k cs))
    as ([cs a1] & Hrun & (Hl1 & Hl2 & Hl3 & Hl4) & Hnext & _ & Hdone);
    [| |rewrite Hrun].
  - cbn. split; [done|]. split; [lia|]. split; [done|]. intros k Hk. lia.
  - intros i [cs a1] Hi ((Hl1 & Hl2 & Hl3 & Hl4) & Hnext & Hrest & Hprev).
    cbn [fst snd] in *.
    destruct (Hrest i (le_n _)) as (Eki & Eko & Evi & Evo).
    destruct (Forall_lookup_present _ _ i Aki) as (key_in & Hki & Tki); [lia|].
    destruct (Forall_lookup_present _ _ i Ako) as (key_out & Hko & Tko); [lia|].
    destruct (Forall_lookup_present _ _ i Avi) as (val_in & Hvi & Tvi); [lia|].
    destruct (Forall_lookup_present _ _ i Avo) as (val_out & Hvo & Tvo); [lia|].
    pose proof Hki as Hki0. pose proof Hko as Hko0.
    pose proof Hvi as Hvi0. pose proof Hvo as Hvo0.
    rewrite <- Eki in Hki. rewrite <- Eko in Hko.
    rewrite <- Evi in Hvi. rewrite <- Evo in Hvo.
    pose proof (CreateTensor_spec a1 [Hh; 1; Dd; C - 1] UINT8)
      as (Tnk & Hidk & Hn1).
    destruct (CreateTensor a1 [Hh; 1; Dd; C - 1] UINT8) as [key_cache a2].
    cbn [fst snd] in Tnk, Hidk, Hn1.
    rewrite (vec_get_Ok _ _ _ Hki), (vec_get_Ok _ _ _ Hko).
    cbn [mbind outcome_bind deref].
    destruct (Update_key_chunks_spec c Hh Dd C W (ov_data key_in)
                (ov_data key_out) (ov_data key_cache))
      as (key_data & -> & Hkdlen & Hkrows); try done; try lia;
      [rewrite (tensor_of_UINT8_length Hh 1 Dd (C - W)); [lia|nia|done]
      |rewrite (tensor_of_UINT8_length Hh 1 Dd W); [lia|nia|done]
      |rewrite (tensor_of_UINT8_length Hh 1 Dd (C - 1)); [lia|nia|done]|].
    cbn [mbind outcome_bind]. rewrite vec_set_Ok by lia.
    cbn [mbind outcome_bind].
    pose proof (CreateTensor_spec a2 [Hh; 1; Dd; 1] UINT8) as (Tnko & Hidko & Hn2).
    destruct (CreateTensor a2 [Hh; 1; Dd; 1] UINT8) as [new_key_out a3].
    cbn [fst snd] in Tnko, Hidko, Hn2.
    rewrite vec_set_Ok by lia. cbn [mbind outcome_bind].
    pose proof (CreateTensor_spec a3 [Hh; 1; C - 1; Dd] UINT8)
      as (Tnv & Hidv & Hn3).
    destruct (CreateTensor a3 [Hh; 1; C - 1; Dd] UINT8) as [value_cache a4].
    cbn [fst snd] in Tnv, Hidv, Hn3.
    rewrite (vec_get_Ok _ _ _ Hvi), (vec_get_Ok _ _ _ Hvo).
    cbn [mbind outcome_bind deref].
    destruct (Update_value_rows_spec c Hh Dd C W (ov_data val_in)
                (ov_data val_out) (ov_data value_cache))
      as (value_data & -> & Hvdlen & Hvrows); try done; try lia;
      [rewrite (tensor_of_UINT8_length Hh 1 (C - W) Dd); [lia|nia|done]
      |rewrite (tensor_of_UINT8_length Hh 1 W Dd); [lia|nia|done]
      |rewrite (tensor_of_UINT8_length Hh 1 (C - 1) Dd); [lia|nia|done]|].
    cbn [mbind outcome_bind]. rewrite vec_set_Ok by lia.
    cbn [mbind outcome_bind].
    pose proof (CreateTensor_spec a4 [Hh; 1; 1; Dd] UINT8) as (Tnvo & Hidvo & Hn4).
    destruct (CreateTensor a4 [Hh; 1; 1; Dd] UINT8) as [new_value_out a5].
    cbn [fst snd] in Tnvo, Hidvo, Hn4.
    rewrite vec_set_Ok by lia. cbn [mbind outcome_bind].
    eexists. split; [done|]. cbn [fst snd
      SlidingWindowKeyValueCache.c_key_in SlidingWindowKeyValueCache.c_key_out
      SlidingWindowKeyValueCache.c_value_in
      SlidingWindowKeyValueCache.c_value_out].
    rewrite !length_insert. split; [done|]. split; [lia|]. split.
    + intros k Hk. rewrite !list_lookup_insert_ne by lia. apply Hrest. lia.
    + intros k Hk. destruct (decide (k = i)) as [->|Hki'].
      * exists key_in, key_out, val_in, val_out,
          (with_data key_cache key_data), new_key_out,
          (with_data value_cache value_data), new_value_out.
        cbn [SlidingWindowKeyValueCache.c_key_in
             SlidingWindowKeyValueCache.c_key_out
             SlidingWindowKeyValueCache.c_value_in
             SlidingWindowKeyValueCache.c_value_out].
        rewrite !list_lookup_insert_eq by lia.
        cbn [with_data ov_id ov_data].
        split; [done|]. split; [done|]. split; [lia|].
        split; [|split; [exact Hkrows|exact Hvrows]].
        split; [by apply with_data_tensor_of|]. split; [done|].
        split; [by apply with_data_tensor_of|done].
      * destruct (Hprev k)
          as (x1 & x2 & x3 & x4 & x5 & x6 & x7 & x8 & ? & Hnew & ?); [lia|].
        exists x1, x2, x3, x4, x5, x6, x7, x8.
        cbn [SlidingWindowKeyValueCache.c_key_in
             SlidingWindowKeyValueCache.c_key_out
             SlidingWindowKeyValueCache.c_value_in
             SlidingWindowKeyValueCache.c_value_out] in Hnew |- *.
        rewrite !list_lookup_insert_ne by lia. done.
  - cbn [mbind outcome_bind fst snd] in *.
    set (c' :=
      {| SlidingWindowKeyValueCache.layer_count_ := L;
         SlidingWindowKeyValueCache.window_size_ := 1;
         SlidingWindowKeyValueCache.key_cache_shape_in_ := [Hh; 1; Dd; C - 1];
         SlidingWindowKeyValueCache.key_cache_shape_out_ := [Hh; 1; Dd; 1];
         SlidingWindowKeyValueCache.value_cache_shape_in_ := [Hh; 1; C - 1; Dd];
         SlidingWindowKeyValueCache.value_cache_shape_out_ := [Hh; 1; 1; Dd];
         SlidingWindowKeyValueCache.type_ := UINT8;
         SlidingWindowKeyValueCache.key_caches_in_ :=
           SlidingWindowKeyValueCache.c_key_in cs;
         SlidingWindowKeyValueCache.key_caches_out_ :=
           SlidingWindowKeyValueCache.c_key_out cs;
         SlidingWindowKeyValueCache.value_caches_in_ :=
           SlidingWindowKeyValueCache.c_value_in cs;
         SlidingWindowKeyValueCache.value_caches_out_ :=
           SlidingWindowKeyValueCache.c_value_out cs;
         SlidingWindowKeyValueCache.input_name_strings_ :=
           SlidingWindowKeyValueCache.input_name_strings_ c;
         SlidingWindowKeyValueCache.output_name_strings_ :=
           SlidingWindowKeyValueCache.output_name_strings_ c;
         SlidingWindowKeyValueCache.input_index_ :=
           SlidingWindowKeyValueCache.input_index_ c;
         SlidingWindowKeyValueCache.output_index_ :=
           SlidingWindowKeyValueCache.output_index_ c |}).
    destruct (SlidingWindow_rebind_loop c' st) as [st' Hst']; try done.
    rewrite Hst'. cbn [mbind outcome_bind].
    exists c', st', a1. split; [done|].
    split.
    { unfold SlidingWindow_steady. cbn.
      assert (Hforall : forall (sel : SlidingWindowKeyValueCache.caches ->
                                      list (option OrtValue)) shape,
        length (sel cs) = L ->
        (forall k, (k < L)%nat -> exists v, sel cs !! k = Some (Some v)
                                            /\ tensor_of UINT8 shape v) ->
        Forall (fun p => exists v, p = Some v /\ tensor_of UINT8 shape v)
          (sel cs)).
      { intros sel shape Hlen Hk. apply Forall_lookup. intros k p Hp.
        pose proof (lookup_lt_Some _ _ _ Hp).
        destruct (Hk k) as (v & Hv & Tv); [lia|].
        exists v. split; [congruence|done]. }
      split; [done|]. split; [lia|]. do 4 (split; [done|]).
      repeat split; try done;
        (apply (Hforall _ _); [done|]; intros k Hk;
         destruct (Hdone k) as (x1 & x2 & x3 & x4 & x5 & x6 & x7 & x8 & _
                                & (N1 & N2 & N3 & N4) & _ & (T1 & T2 & T3 & T4)
                                & _); [lia|]; eauto). }
    split; [done|]. split; [lia|]. split; [|exact Hst'].
    intros layer Hlayer. apply Hdone. lia.
Qed.

(** X23. The collapse, layer by layer: it returns, and in every layer the four
    tensors are new ones, with the key chunks and value rows described by
    [collapsed_layer]: each new key chunk is the old chunk without its
    oldest element, followed by the chunk of key-out; the new value rows
    of head [h] are the old rows read from row [h W + 1] on (the offset is
    taken with the stride of value-out), followed by the head's rows of
    value-out. *)
Theorem Update_collapse_layers m c st a beam_indices current_length Hh Dd C W :
  SlidingWindow_ready m c st Hh Dd C W ->
  exists c' st' a',
    SlidingWindowKeyValueCache.Update m c st a beam_indices current_length
    = Ok (c', st', a')
    /\ alloc_next a'
       = (alloc_next a + 4 * SlidingWindowKeyValueCache.layer_count_ c)%nat
    /\ forall layer, (layer < SlidingWindowKeyValueCache.layer_count_ c)%nat ->
         collapsed_layer Hh Dd C W a c c' layer.
Proof.
  intros Hready.
  destruct (SlidingWindow_collapse m c st a beam_indices current_length
              Hh Dd C W Hready)
    as (c' & st' & a' & Hrun & _ & _ & Hnext & Hlayers & _).
  by exists c', st', a'.
Qed.

(** X24. The collapse rebinds the request: the two input and two output slots
    of every layer hold the layer's new tensors (key before value); the
    slot names, the generator parameters and all other slots are as before. *)
Theorem Update_collapse_rebinds m c st a beam_indices current_length Hh Dd C W :
  SlidingWindow_ready m c st Hh Dd C W ->
  exists c' st' a',
    SlidingWindowKeyValueCache.Update m c st a beam_indices current_length
    = Ok (c', st', a')
    /\ (input_names_ st' = input_names_ st
        /\ output_names_ st' = output_names_ st /\ params_ st' = params_ st)
    /\ same_outside (SlidingWindowKeyValueCache.input_index_ c)
         (2 * SlidingWindowKeyValueCache.layer_count_ c)
         (inputs_ st) (inputs_ st')
    /\ same_outside (SlidingWindowKeyValueCache.output_index_ c)
         (2 * SlidingWindowKeyValueCache.layer_count_ c)
         (outputs_ st) (outputs_ st')
    /\ forall layer, (layer < SlidingWindowKeyValueCache.layer_count_ c)%nat ->
         exists key_in value_in key_out value_out,
           SlidingWindowKeyValueCache.key_caches_in_ c' !! layer
           = Some (Some key_in) /\
           SlidingWindowKeyValueCache.value_caches_in_ c' !! layer
           = Some (Some value_in) /\
           SlidingWindowKeyValueCache.key_caches_out_ c' !! layer
           = Some (Some key_out) /\
           SlidingWindowKeyValueCache.value_caches_out_ c' !! layer
           = Some (Some value_out) /\
           inputs_ st' !! (SlidingWindowKeyValueCache.input_index_ c + 2 * layer)%nat
           = Some (Some (ov_id key_in)) /\
           inputs_ st'
             !! (SlidingWindowKeyValueCache.input_index_ c + 2 * layer + 1)%nat
           = Some (Some (ov_id value_in)) /\
           outputs_ st'
             !! (SlidingWindowKeyValueCache.output_index_ c + 2 * layer)%nat
           = Some (Some (ov_id key_out)) /\
           outputs_ st'
             !! (SlidingWindowKeyValueCache.output_index_ c + 2 * layer + 1)%nat
           = Some (Some (ov_id value_out)).
Proof.
  intros Hready.
  destruct (SlidingWindow_collapse m c st a beam_indices current_length
              Hh Dd C W Hready)
    as (c' & st' & a' & Hrun & _ & (EL & Eii & Eoi) & _ & Hlayers & Hbind).
  exists c', st', a'. split; [done|].
  apply SlidingWindow_rebind_loop_inv in Hbind.
  rewrite EL, Eii, Eoi in Hbind.
  destruct Hbind as (Hnames & Hsi & Hso & Hslots).
  do 3 (split; [done|]). intros layer Hlayer.
  destruct (Hlayers layer Hlayer)
    as (x1 & x2 & x3 & x4 & nk & nko & nv & nvo & _ & (N1 & N2 & N3 & N4) & _).
  destruct (Hslots layer Hlayer) as (S1 & S2 & S3 & S4).
  rewrite N1, N2, N3, N4 in *. by exists nk, nv, nko, nvo.
Qed.

(** X25. Once collapsed, always sliding: after the first [Update] of a ready
    cache, any further calls return, whatever their arguments; they
    allocate nothing, do not touch the request, and leave the cache in its
    steady state with window 1. *)
Theorem Update_window_stays_one m c st a beam_indices current_length calls
    Hh Dd C W :
  SlidingWindow_ready m c st Hh Dd C W ->
  exists c1 st1 a1 c',
    SlidingWindowKeyValueCache.Update m c st a beam_indices current_length
    = Ok (c1, st1, a1)
    /\ SlidingWindow_Update_many m c1 st1 a1 calls = Ok (c', st1, a1)
    /\ SlidingWindow_steady c' Hh Dd C
    /\ SlidingWindowKeyValueCache.window_size_ c' = 1.
Proof.
  intros Hready.
  destruct (SlidingWindow_collapse m c st a beam_indices current_length
              Hh Dd C W Hready)
    as (c1 & st1 & a1 & Hrun & Hsteady & _).
  exists c1, st1, a1.
  assert (Hmany : forall c0, SlidingWindow_steady c0 Hh Dd C ->
            exists c', SlidingWindow_Update_many m c0 st1 a1 calls
                       = Ok (c', st1, a1)
                       /\ SlidingWindow_steady c' Hh Dd C).
  { clear. induction calls as [|[bis len] calls IH]; intros c0 Hc0.
    { by exists c0. }
    cbn [SlidingWindow_Update_many].
    destruct (Update_slides_window_steady m c0 st1 a1 bis len Hh Dd C Hc0)
      as (c2 & -> & Hc2).
    cbn [mbind outcome_bind fst snd]. by apply IH. }
  destruct (Hmany c1 Hsteady) as (c' & Hrun' & Hc').
  exists c'. split; [done|]. split; [done|]. split; [done|]. apply Hc'.
Qed.

(** ** Roaming arrays *)

Section roaming.
Import RoamingArray.
Context {T : Type} (uninitialised : nat -> nat -> T).

Lemma contents_Some_inv (mem : list (option (list T))) s l :
  size s <> 0%nat -> contents mem s = Some l ->
  exists b pos arr,
    data s = Some (b, pos) /\ mem !! b = Some (Some arr) /\
    (pos + size s <= length arr)%nat /\ l = take (size s) (drop pos arr).
Proof.
  intros Hne. unfold contents. destruct (data s) as [[b pos]|].
  - destruct (mem !! b) as [[arr|]|] eqn:Hb; [|done..].
    destruct (decide _); [|done]. intros [= <-]. by exists b, pos, arr.
  - by rewrite decide_False.
Qed.

Lemma contents_live (mem : list (option (list T))) b pos n arr :
  mem !! b = Some (Some arr) -> (pos + n <= length arr)%nat ->
  contents mem (Span (Some (b, pos)) n) = Some (take n (drop pos arr)).
Proof.
  intros Hb Hlen. unfold contents. cbn. rewrite Hb. by rewrite decide_True.
Qed.

(** A span that looks into another array than the one written shows what
    it showed. *)
Lemma contents_other (mem : list (option (list T))) b new s :
  (forall pos, data s <> Some (b, pos)) ->
  contents (<[b := new]> mem) s = contents mem s.
Proof.
  intros Hs. unfold contents. destruct (data s) as [[b' pos]|] eqn:Hd; [|done].
  rewrite list_lookup_insert_ne; [done|]. intros ->. by eapply Hs.
Qed.

(** [cudaMemcpy] between two live arrays: the destination range takes the
    elements of the source range. *)
Lemma cudaMemcpy_spec (mem : list (option (list T))) db dpos dl sb spos sl n :
  mem !! db = Some (Some dl) -> mem !! sb = Some (Some sl) -> db <> sb ->
  (dpos + n <= length dl)%nat -> (spos + n <= length sl)%nat ->
  exists mem',
    cudaMemcpy mem (Some (db, dpos)) (Some (sb, spos)) n = Ok mem' /\
    length mem' = length mem /\
    contents mem' (Span (Some (db, dpos)) n) = Some (take n (drop spos sl)) /\
    forall s, (forall pos, data s <> Some (db, pos)) ->
              contents mem' s = contents mem s.
Proof.
  intros Hd Hs Hne Hdl Hsl. unfold cudaMemcpy.
  destruct (decide (n = 0%nat)) as [->|Hn].
  { exists mem. split; [done|]. split; [done|]. split; [|done].
    by rewrite (contents_live _ _ _ _ dl). }
  rewrite Hd, Hs. rewrite decide_True by done.
  eexists. split; [done|]. split; [by rewrite length_insert|]. split.
  - unfold contents. cbn.
    rewrite list_lookup_insert_eq by (by eapply lookup_lt_Some).
    assert (Hlen : length (take dpos dl) = dpos) by (rewrite length_take; lia).
    assert (Hmid : length (take n (drop spos sl)) = n)
      by (rewrite length_take, length_drop; lia).
    rewrite decide_True.
    + rewrite drop_app_length' by done. by rewrite take_app_length' by done.
    + rewrite !length_app, Hlen, Hmid, length_drop. lia.
  - intros s Hs'. by apply contents_other.
Qed.

(** X26. [GetCPU] on an array that lives on the device only: a new host array
    of the same size is allocated and the device elements are copied into
    it; the device elements stay as they are; and asking again gives the
    same host span without another allocation or copy. *)
Theorem GetCPU_copies_device (mem : list (option (list T))) (r : t) l :
  empty (cpu_ r) = true -> size (device_ r) <> 0%nat ->
  contents mem (device_ r) = Some l ->
  owner_apart mem (cpu_owner_ r) (device_ r) ->
  exists s r' mem',
    GetCPU uninitialised mem r = Ok (s, r', mem') /\
    s = Span (Some (length mem, 0%nat)) (size (device_ r)) /\
    cpu_ r' = s /\ device_ r' = device_ r /\
    cpu_owner_ r' = Some (length mem) /\
    contents mem' s = Some l /\
    contents mem' (device_ r) = Some l /\
    GetCPU uninitialised mem' r' = Ok (s, r', mem').
Proof.
  intros Hcpu Hsize Hl Howner.
  destruct (contents_Some_inv _ _ _ Hsize Hl)
    as (b & pos & arr & Hdata & Hb & Hlen & ->).
  set (n := size (device_ r)) in *.
  set (p := length mem).
  unfold GetCPU. rewrite Hcpu.
  assert (Hdev : empty (device_ r) = false)
    by (unfold empty; by apply bool_decide_eq_false).
  rewrite Hdev. cbn [andb negb CudaMallocArray]. fold n p.
  set (mem0 := mem ++ [Some (uninitialised p <$> seq 0 n)]).
  assert (Hbp : b <> p) by (apply lookup_lt_Some in Hb; unfold p; lia).
  assert (Hnew : free mem0 (cpu_owner_ r) !! p
                 = Some (Some (uninitialised p <$> seq 0 n))
                 /\ free mem0 (cpu_owner_ r) !! b = Some (Some arr)).
  { assert (mem0 !! p = Some (Some (uninitialised p <$> seq 0 n))) as H0
      by (unfold mem0; by rewrite lookup_app_r, Nat.sub_diag by (unfold p; lia)).
    assert (mem0 !! b = Some (Some arr)) as H1
      by (unfold mem0; rewrite lookup_app_l; [done|by eapply lookup_lt_Some]).
    unfold owner_apart in Howner. destruct (cpu_owner_ r) as [o|]; cbn [free].
    - destruct Howner as [Ho Hapart].
      rewrite !list_lookup_insert_ne; [done| |unfold p; lia].
      intros ->. by eapply Hapart.
    - done. }
  destruct Hnew as [Hp Hb'].
  destruct (cudaMemcpy_spec (free mem0 (cpu_owner_ r)) p 0
              (uninitialised p <$> seq 0 n) b pos arr n)
    as (mem' & Hcopy & Hlen' & Hdst & Hothers); try done.
  { by rewrite length_fmap, length_seq. }
  cbn [data size]. rewrite Hdata, Hcopy. cbn [mbind outcome_bind].
  eexists _, _, mem'. split; [done|]. cbn [cpu_ device_ cpu_owner_].
  do 4 (split; [done|]). split; [done|]. split.
  - rewrite Hothers by (rewrite Hdata; intros pos' [= ? _]; done).
    unfold contents. rewrite Hdata, Hb'. by rewrite decide_True.
  - unfold empty at 1. cbn [cpu_ size].
    rewrite bool_decide_eq_false_2 by done. done.
Qed.

(** X27. With a host and a device copy in place, [GetCPU] and [GetGPU] hand
    out the spans as they are, whatever the other side holds;
    [FlushGPUChanges] brings the host copy up to the device elements, and
    [FlushCPUChanges] the device copy up to the host elements. Neither
    changes the side it reads. *)
Theorem Flush_brings_up_to_date (mem : list (option (list T))) (r : t) :
  mirrored mem (cpu_ r) (device_ r) ->
  GetCPU uninitialised mem r = Ok (cpu_ r, r, mem) /\
  GetGPU uninitialised mem r = Ok (device_ r, r, mem) /\
  (exists mem',
     FlushGPUChanges mem r = Ok mem' /\
     contents mem' (cpu_ r) = contents mem (device_ r) /\
     contents mem' (device_ r) = contents mem (device_ r)) /\
  (exists mem',
     FlushCPUChanges mem r = Ok mem' /\
     contents mem' (device_ r) = contents mem (cpu_ r) /\
     contents mem' (cpu_ r) = contents mem (cpu_ r)).
Proof.
  intros (Hc & Hsz & [lc Hlc] & [ld Hld] & Hapart).
  assert (Hd : size (device_ r) <> 0%nat) by congruence.
  destruct (contents_Some_inv _ _ _ Hc Hlc)
    as (cb & cpos & carr & Hcdata & Hcb & Hclen & ->).
  destruct (contents_Some_inv _ _ _ Hd Hld)
    as (db & dpos & darr & Hddata & Hdb & Hdlen & ->).
  assert (Hne : cb <> db) by (by eapply Hapart).
  assert (Hce : empty (cpu_ r) = false)
    by (unfold empty; by apply bool_decide_eq_false).
  assert (Hde : empty (device_ r) = false)
    by (unfold empty; by apply bool_decide_eq_false).
  unfold GetCPU, GetGPU, FlushGPUChanges, FlushCPUChanges.
  rewrite Hce, Hde. cbn [andb negb]. split; [done|]. split; [done|].
  rewrite Hcdata, Hddata. split.
  - destruct (cudaMemcpy_spec mem cb cpos carr db dpos darr (size (cpu_ r)))
      as (mem' & -> & _ & Hdst & Hothers); try done; [lia|].
    exists mem'. split; [done|]. split.
    + replace (cpu_ r) with (Span (Some (cb, cpos)) (size (cpu_ r)))
        at 1 by (destruct (cpu_ r); cbn in *; congruence).
      rewrite Hdst, Hld. by rewrite Hsz.
    + apply Hothers. rewrite Hddata. intros pos [= ? _]. done.
  - destruct (cudaMemcpy_spec mem db dpos darr cb cpos carr (size (cpu_ r)))
      as (mem' & -> & _ & Hdst & Hothers); try done; [lia|].
    exists mem'. split; [done|]. split.
    + replace (device_ r)
        with (Span (Some (db, dpos)) (size (cpu_ r)))
        at 1 by (destruct (device_ r); cbn in *; congruence).
      by rewrite Hdst, Hlc.
    + apply Hothers. rewrite Hcdata. intros pos [= ? _]. done.
Qed.

End roaming.

(** ** The batching engine *)

Section engine.
Import OgaEngine.

Variable kMaxBatchSize : Z.
Variable run_batch : list string -> outcome (list string).

Lemma Schedule_loop_spec n queue scheduled :
  Schedule_loop n queue scheduled = (scheduled ++ take n queue, drop n queue).
Proof.
  revert queue scheduled. induction n as [|n IH]; intros queue scheduled.
  { cbn. by rewrite app_nil_r. }
  destruct queue as [|front rest]; cbn [Schedule_loop].
  { cbn. by rewrite app_nil_r. }
  rewrite IH. cbn. by rewrite <- (assoc_L (++)).
Qed.

(** X28. [Schedule] takes the prompts from the front of the queue, in the order
    they were queued, up to [kMaxBatchSize] of them, and leaves the others
    queued in their order; the request id is not touched. *)
Theorem Schedule_fifo (e : t) :
  let k := Z.to_nat kMaxBatchSize in
  Schedule kMaxBatchSize e
  = (take k (unscheduled_prompts_ e),
     {| unscheduled_prompts_ := drop k (unscheduled_prompts_ e);
        request_id_ := request_id_ e |}) /\
  (Schedule kMaxBatchSize e).1
    ++ unscheduled_prompts_ (Schedule kMaxBatchSize e).2
  = unscheduled_prompts_ e /\
  length (Schedule kMaxBatchSize e).1
  = (k `min` length (unscheduled_prompts_ e))%nat.
Proof.
  intros k. unfold Schedule. rewrite Schedule_loop_spec. cbn [fst snd].
  fold k. split; [done|]. cbn [unscheduled_prompts_].
  split; [apply take_drop|apply length_take].
Qed.

Lemma batches_of_fuel fuel1 fuel2 k queue :
  (0 < k)%nat -> (length queue <= fuel1)%nat -> (length queue <= fuel2)%nat ->
  batches_of fuel1 k queue = batches_of fuel2 k queue.
Proof.
  intros Hk. revert fuel2 queue.
  induction fuel1 as [|fuel1 IH]; intros fuel2 queue H1 H2.
  { destruct queue; [|cbn in H1; lia]. by destruct fuel2. }
  destruct queue as [|p queue]; [by destruct fuel2|].
  destruct fuel2 as [|fuel2]; [cbn in H2; lia|].
  cbn [batches_of]. f_equal.
  apply IH; rewrite length_drop; cbn [length] in *; lia.
Qed.

Lemma batches_cons k p queue :
  (0 < k)%nat ->
  batches k (p :: queue)
  = take k (p :: queue) :: batches k (drop k (p :: queue)).
Proof.
  intros Hk. unfold batches. cbn [length batches_of]. f_equal.
  apply batches_of_fuel; [done| |done].
  rewrite length_drop. cbn [length]. lia.
Qed.

Lemma Generate_loop_spec fuel (e : t) outputs :
  1 <= kMaxBatchSize ->
  (length (unscheduled_prompts_ e) < fuel)%nat ->
  Generate_loop kMaxBatchSize run_batch fuel e outputs
  = Some ((fun out_strings =>
             (outputs ++ out_strings,
              {| unscheduled_prompts_ := []; request_id_ := request_id_ e |}))
          <$> run_batches run_batch
                (batches (Z.to_nat kMaxBatchSize) (unscheduled_prompts_ e))).
Proof.
  intros Hk. revert e outputs.
  induction fuel as [|fuel IH]; intros [queue rid] outputs Hfuel; [lia|].
  cbn [Generate_loop unscheduled_prompts_ request_id_] in *.
  destruct queue as [|p queue].
  { rewrite decide_True by done. cbn. by rewrite app_nil_r. }
  rewrite decide_False by done.
  rewrite batches_cons by lia. cbn [run_batches].
  unfold Schedule. rewrite Schedule_loop_spec.
  cbn [fst snd unscheduled_prompts_ request_id_ app].
  destruct (run_batch (take (Z.to_nat kMaxBatchSize) (p :: queue)))
    as [out_strings| |]; [|done..].
  cbn [mbind outcome_bind]. rewrite IH.
  - cbn [unscheduled_prompts_ request_id_].
    destruct (run_batches _ _) as [rest| |]; [|done..].
    cbn. by rewrite (assoc_L (++)).
  - cbn [unscheduled_prompts_]. rewrite length_drop. cbn [length] in *. lia.
Qed.

(** X29. [Generate] with a batch size of at least 1 ends: it queues the prompts
    behind what is already queued, runs the queue batch after batch, and
    leaves it empty. What it returns starts with one empty text per prompt
    passed in; the texts of the batches follow, in the order of the
    batches. If a batch throws, so does [Generate]. *)
Theorem Generate_outputs fuel (e : t) prompts :
  1 <= kMaxBatchSize ->
  (length (unscheduled_prompts_ e) + length prompts < fuel)%nat ->
  Generate kMaxBatchSize run_batch fuel e prompts
  = Some ((fun out_strings =>
             (replicate (length prompts) ""%string ++ out_strings,
              {| unscheduled_prompts_ := []; request_id_ := request_id_ e |}))
          <$> run_batches run_batch
                (batches (Z.to_nat kMaxBatchSize)
                   (unscheduled_prompts_ e ++ prompts))).
Proof.
  intros Hk Hfuel. unfold Generate. rewrite Generate_loop_spec; [done|done|].
  cbn [unscheduled_prompts_]. rewrite length_app. lia.
Qed.

(** X30. Requests added one after the other get consecutive ids, starting at
    the engine's next id, and join the queue at the back in the order they
    were added. *)
Theorem AddRequest_ids (e : t) prompts :
  request_id_ e + Z.of_nat (length prompts) <= INT64_MAX ->
  AddRequest_many e prompts
  = Ok ((fun i => request_id_ e + Z.of_nat i) <$> seq 0 (length prompts),
        {| unscheduled_prompts_ := unscheduled_prompts_ e ++ prompts;
           request_id_ := request_id_ e + Z.of_nat (length prompts) |}).
Proof.
  revert e. induction prompts as [|p prompts IH]; intros [queue rid] Hmax.
  { cbn. by rewrite app_nil_r, Z.add_0_r. }
  cbn [AddRequest_many unscheduled_prompts_ request_id_ length] in *.
  unfold AddRequest at 1. cbn [unscheduled_prompts_ request_id_].
  rewrite decide_False by lia. cbn [mbind outcome_bind fst snd].
  rewrite IH by (cbn [request_id_]; lia).
  cbn [mbind outcome_bind fst snd unscheduled_prompts_ request_id_ seq fmap
       list_fmap].
  f_equal. f_equal.
  - f_equal; [lia|]. rewrite <- fmap_S_seq, <- list_fmap_compose.
    apply list_fmap_ext. intros i x _. cbn. lia.
  - f_equal; [by rewrite <- (assoc_L (++))|lia].
Qed.

End engine.

(** * Concrete runs *)


(** The same run, byte by byte: the present tensor holds the key rows of
    beams 0 and 1, then the value rows of beams 0 and 1 (4 bytes each);
    with beam indices [1; 0] the past tensor holds them swapped within
    each half. *)
Example Combined_Update_swaps_rows :
  (r ← example_combined;
   r' ← KV_Cache_Combined.Update (example_model FLOAT) r.1.1 r.1.2 r.2 [1; 0] 2;
   Ok (ov_data <$> KV_Cache_Combined.presents_ r.1.1 !!! 0%nat,
       ov_data <$> KV_Cache_Combined.pasts_ r'.1.1 !!! 0%nat))
  = Ok (Some [x20; x21; x22; x23;  x24; x25; x26; x27;
              x28; x29; x2a; x2b;  x2c; x2d; x2e; x2f],
        Some [x24; x25; x26; x27;  x20; x21; x22; x23;
              x2c; x2d; x2e; x2f;  x28; x29; x2a; x2b]).
Proof. vm_compute. reflexivity. Qed.

Lemma Split_ready_example :
  exists c st a,
    example_split FLOAT 2 false = Ok (c, st, a)
    /\ Split_ready c st 2 1 1 1
    /\ (0 < KV_Cache.layer_count_ c)%nat.
Proof.
  eexists _, _, _. split; [reflexivity|]. split; [|cbn; lia].
  unfold Split_ready. cbn.
  split; [reflexivity|]. split; [reflexivity|]. split; [lia|].
  split; [by left|]. split; [reflexivity|]. split; [reflexivity|].
  split; [|lia].
  repeat constructor; eexists; (split; [reflexivity|]); by repeat split.
Qed.






(** C2, failing input: two heads, context length 5, window 3. The
    constructor and [Add] return a cache whose value-in tensors have 2
    rows per head, 4 bytes in all. The first [Update] reads the old rows
    of head 1 from byte (1 * 3 + 1) * 1 = 4 on, the offset taken with the
    3 rows per head of value-out: outside the tensor. *)
Lemma Update_collapse_reads_past_value_in :
  (r ← example_sliding_two_heads;
   Ok (SlidingWindowKeyValueCache.window_size_ r.1.1,
       SlidingWindowKeyValueCache.key_cache_shape_in_ r.1.1,
       SlidingWindowKeyValueCache.value_cache_shape_in_ r.1.1,
       SlidingWindowKeyValueCache.value_cache_shape_out_ r.1.1,
       (fun v => length (ov_data v))
         <$> SlidingWindowKeyValueCache.value_caches_in_ r.1.1 !!! 0%nat))
  = Ok (3, [2; 1; 1; 2], [2; 1; 2; 1], [2; 1; 3; 1], Some 4%nat)
  /\ (r ← example_sliding_two_heads;
      SlidingWindowKeyValueCache.Update example_model_two_heads
        r.1.1 r.1.2 r.2 [] 4) = Undefined.
Proof. split; vm_compute; reflexivity. Qed.

(** C3: shared-buffer mode with one beam. *)
Lemma Update_shared_buffer_noop_witness :
  exists c a0 log c1 st1,
    KV_Cache.KV_Cache {| log_enabled := true; log_warning := true |}
      (example_model FLOAT) (example_state 1 true) example_allocator
    = Ok (c, a0, log)
    /\ KV_Cache.Add c (example_state 1 true) = Ok (c1, st1)
    /\ inputs_ st1 = outputs_ st1
    /\ Update_many (example_model FLOAT) c1 st1 a0
         [([], 2); ([0], 3); ([5; 7], 4)] = Ok (c1, st1, a0).
Proof.
  eexists _, _, _, _, _. split; [reflexivity|]. split; [reflexivity|].
  split; [reflexivity|].
  eapply (Update_shared_buffer_noop
            {| log_enabled := true; log_warning := true |}
            (example_model FLOAT)
            (example_state 1 true) example_allocator _ _ _
            (example_state 1 true));
    [reflexivity|reflexivity|by left|reflexivity].
Defined.

(** The collapse, byte by byte: key-in was four pad bytes, key-out holds
    two bytes; the new key-in is the last three pad bytes followed by the
    two bytes of key-out. *)
Example Update_collapse_bytes :
  (r ← example_sliding;
   r' ← SlidingWindowKeyValueCache.Update (example_model UINT8)
          r.1.1 r.1.2 r.2 [] 2;
   Ok (ov_data <$> SlidingWindowKeyValueCache.key_caches_in_ r.1.1 !!! 0%nat,
       ov_data <$> SlidingWindowKeyValueCache.key_caches_out_ r.1.1 !!! 0%nat,
       ov_data <$> SlidingWindowKeyValueCache.key_caches_in_ r'.1.1 !!! 0%nat,
       SlidingWindowKeyValueCache.window_size_ r'.1.1))
  = Ok (Some [x00; x00; x00; x00], Some [x30; x31],
        Some [x00; x00; x00; x30; x31], 1).
Proof. vm_compute. reflexivity. Qed.

Lemma Update_collapses_window_witness :
  exists c st a,
    example_sliding = Ok (c, st, a)
    /\ SlidingWindow_ready (example_model UINT8) c st 1 1 6 2
    /\ exists c' st' a',
         SlidingWindowKeyValueCache.Update (example_model UINT8) c st a [] 2
         = Ok (c', st', a')
         /\ SlidingWindowKeyValueCache.window_size_ c' = 1
         /\ SlidingWindowKeyValueCache.key_cache_shape_in_ c = [1; 1; 1; 6 - 2]
         /\ SlidingWindowKeyValueCache.key_cache_shape_in_ c' = [1; 1; 1; 6 - 1]
         /\ forall layer,
              (layer < SlidingWindowKeyValueCache.layer_count_ c)%nat ->
              exists old_in old_out new_in,
                SlidingWindowKeyValueCache.key_caches_in_ c !! layer
                = Some (Some old_in)
                /\ SlidingWindowKeyValueCache.key_caches_out_ c !! layer
                   = Some (Some old_out)
                /\ SlidingWindowKeyValueCache.key_caches_in_ c' !! layer
                   = Some (Some new_in)
                /\ ov_shape old_in = [1; 1; 1; 6 - 2]
                /\ ov_shape new_in = [1; 1; 1; 6 - 1]
                /\ forall row, 0 <= row < 1 * 1 ->
                     slice (ov_data new_in) (row * (6 - 1) + (6 - 1 - 2)) 2
                     = slice (ov_data old_out) (row * 2) 2.
Proof.
  eexists _, _, _. split; [reflexivity|].
  match goal with |- ?R /\ _ => assert (Hready : R) end.
  { unfold SlidingWindow_ready. cbn.
    repeat (split; [first [reflexivity|lia|by left]|]).
    repeat split; try lia;
      repeat constructor; eexists; (split; [reflexivity|]); by repeat split. }
  split; [exact Hready|].
  by apply Update_collapses_window.
Defined.

(** C5, counterexample: shared-buffer mode requested with two beams and
    the log disabled; the mode is switched off and nothing is logged. *)
Lemma KV_Cache_downgrade_not_logged :
  exists c a,
    KV_Cache.KV_Cache {| log_enabled := false; log_warning := true |}
      (example_model FLOAT) (example_state 2 true) example_allocator
    = Ok (c, a, [])
    /\ past_present_share_buffer (params_ (example_state 2 true)) = true
    /\ KV_Cache.past_present_share_buffer_ c = false.
Proof. eexists _, _. split; [reflexivity|]. split; reflexivity. Qed.

(** With the log enabled the same construction logs the warning. *)
Example KV_Cache_downgrade_logged :
  exists c a,
    KV_Cache.KV_Cache {| log_enabled := true; log_warning := true |}
      (example_model FLOAT) (example_state 2 true) example_allocator
    = Ok (c, a, [KV_Cache.share_buffer_warning])
    /\ KV_Cache.past_present_share_buffer_ c = false.
Proof. eexists _, _. split; reflexivity. Qed.

Lemma KV_Cache_share_buffer_flag_witness :
  exists c a log,
    KV_Cache.KV_Cache {| log_enabled := true; log_warning := false |}
      (example_model FLOAT) (example_state 2 true) example_allocator
    = Ok (c, a, log)
    /\ KV_Cache.past_present_share_buffer_ c = true && (false || false)
    /\ log = [].
Proof.
  eexists _, _, _. split; [reflexivity|].
  exact (proj1 (KV_Cache_share_buffer_flag
                  {| log_enabled := true; log_warning := false |}
                  (example_model FLOAT) (example_state 2 true)
                  example_allocator) _ _ _ eq_refl).
Defined.

(** C7, counterexample: constructors given a declared element type that is
    neither float nor half return a cache of that type. *)
Lemma constructors_accept_other_types :
  (exists c a,
     KV_Cache_Combined.KV_Cache_Combined (example_model INT8)
       (example_state 2 false) example_allocator = Ok (c, a)
     /\ KV_Cache_Combined.type_ c = INT8)
  /\
  (exists c a log,
     KV_Cache.KV_Cache {| log_enabled := true; log_warning := true |}
       (example_model DOUBLE) (example_state 2 false) example_allocator
     = Ok (c, a, log)
     /\ KV_Cache.type_ c = DOUBLE).
Proof.
  split.
  - eexists _, _. split; reflexivity.
  - eexists _, _, _. split; reflexivity.
Qed.

Lemma PickPastState_type_dispatch_witness :
  exists c a,
    KV_Cache_Combined.KV_Cache_Combined (declare_type UINT16 (example_model FLOAT))
      (example_state 2 false) example_allocator = Ok (c, a)
    /\ KV_Cache_Combined.type_ c = UINT16.
Proof.
  apply (proj1 (proj2 (proj2 PickPastState_type_dispatch))).
  eexists. reflexivity.
Defined.

Lemma constructors_name_counts_and_duplicates :
  (exists c a,
     Cross_Cache.Cross_Cache (example_model FLOAT) (example_state 2 false)
       example_allocator = Ok (c, a)
     /\ num_hidden_layers (config_ (example_model FLOAT)) = 1%nat
     /\ Cross_Cache.input_name_strings_ c
        = ["past_key_values.0.encoder.key"; "past_key_values.0.encoder.value"]
     /\ Cross_Cache.output_name_strings_ c
        = ["present.0.encoder.key"; "present.0.encoder.value"])
  /\
  (exists c a,
     KV_Cache_Combined.KV_Cache_Combined example_model_plain_names
       (example_state 2 false) example_allocator = Ok (c, a)
     /\ KV_Cache_Combined.input_name_strings_ c = ["past"; "past"]).
Proof.
  split.
  - eexists _, _. split; [reflexivity|]. repeat split.
  - eexists _, _. split; reflexivity.
Qed.

Lemma constructors_slot_names_witness :
  exists c a,
    KV_Cache_Combined.KV_Cache_Combined (example_model FLOAT)
      (example_state 2 false) example_allocator = Ok (c, a)
    /\ NoDup (KV_Cache_Combined.input_name_strings_ c)
    /\ length (KV_Cache_Combined.input_name_strings_ c) = 1%nat.
Proof.
  eexists _, _. split; [reflexivity|].
  destruct (proj1 constructors_slot_names (example_model FLOAT)
              (example_state 2 false) example_allocator _ _ eq_refl)
    as ([Hlen _] & _ & Hnodup & _).
  split; [by apply Hnodup|exact Hlen].
Defined.

Example EnsureReadbackHeap_grows :
  DmlReadbackHeap.EnsureReadbackHeap 1048576 example_device
    DmlReadbackHeap.DmlReadbackHeap 3000000
  = Ok {| DmlReadbackHeap.m_readbackHeap :=
            Some {| DmlReadbackHeap.Width := 4194304 |};
          DmlReadbackHeap.m_capacity := 4194304 |}.
Proof. vm_compute. reflexivity. Qed.

Example EnsureReadbackHeap_out_of_memory :
  DmlReadbackHeap.EnsureReadbackHeap 1048576 example_device
    DmlReadbackHeap.DmlReadbackHeap (2 ^ 63 + 1)
  = Throw (hresult_error E_OUTOFMEMORY).
Proof. vm_compute. reflexivity. Qed.

Lemma EnsureReadbackHeap_capacity_witness :
  heap_inv 1048576 DmlReadbackHeap.DmlReadbackHeap
  /\ 0 <= 3000000 <= DmlReadbackHeap.SIZE_MAX
  /\ exists h',
       DmlReadbackHeap.EnsureReadbackHeap 1048576 example_device
         DmlReadbackHeap.DmlReadbackHeap 3000000 = Ok h'
       /\ heap_inv 1048576 h'
       /\ 3000000 <= DmlReadbackHeap.m_capacity h'
       /\ (exists res, DmlReadbackHeap.m_readbackHeap h' = Some res
                       /\ DmlReadbackHeap.Width res
                          = DmlReadbackHeap.m_capacity h')
       /\ exists k : nat,
            DmlReadbackHeap.m_capacity h' = 1048576 * 2 ^ Z.of_nat k.
Proof.
  assert (H0 : 0 < 1048576) by lia.
  assert (H1 : 1048576 <= DmlReadbackHeap.SIZE_MAX)
    by (vm_compute; discriminate).
  assert (H2 : 0 <= 3000000 <= DmlReadbackHeap.SIZE_MAX)
    by (split; [lia|vm_compute; discriminate]).
  assert (H3 : 3000000 <= DmlReadbackHeap.SIZE_MAX `div` 2)
    by (vm_compute; discriminate).
  split; [reflexivity|]. split; [exact H2|].
  destruct (EnsureReadbackHeap_capacity 1048576 H0 H1 example_device
              DmlReadbackHeap.DmlReadbackHeap 3000000 eq_refl H2)
    as (_ & Hreturns & Hcapacity & _).
  destruct (Hreturns H3 ltac:(reflexivity)) as [h' Hrun].
  exists h'. split; [exact Hrun|].
  destruct (Hcapacity h' Hrun) as (Hinv & _ & Hsize & Hwidth & Hpow).
  split; [exact Hinv|]. split; [exact Hsize|]. split; [exact Hwidth|exact Hpow].
Defined.


Lemma ComputeNewCapacity_tight_witness :
  DmlReadbackHeap.ComputeNewCapacity 1024 3000 = Ok 4096
  /\ 3000 <= 4096 < 2 * 3000.
Proof.
  split; [reflexivity|].
  apply (proj1 (proj2 (ComputeNewCapacity_tight 1024 3000
                         ltac:(unfold DmlReadbackHeap.SIZE_MAX; lia)))).
  - reflexivity.
  - lia.
Defined.

Lemma EnsureReadbackHeap_reuse_witness :
  exists h',
    DmlReadbackHeap.EnsureReadbackHeap 1048576 example_device
      DmlReadbackHeap.DmlReadbackHeap 3000000 = Ok h'
    /\ DmlReadbackHeap.EnsureReadbackHeap 1048576 failing_device h' 2000000
       = Ok h'.
Proof.
  eexists. split; [reflexivity|].
  apply (EnsureReadbackHeap_reuse 1048576 example_device failing_device
           DmlReadbackHeap.DmlReadbackHeap 3000000 2000000);
    [reflexivity|lia].
Defined.

Lemma EnsureReadbackHeap_device_failure_witness :
  (exists h',
     DmlReadbackHeap.EnsureReadbackHeap 1048576 example_device
       DmlReadbackHeap.DmlReadbackHeap 3000000 = Ok h')
  /\ DmlReadbackHeap.EnsureReadbackHeap 1048576 failing_device
       DmlReadbackHeap.DmlReadbackHeap 3000000
     = Throw (hresult_error E_FAIL).
Proof.
  assert (H0 : 0 < 1048576 <= DmlReadbackHeap.SIZE_MAX)
    by (split; [lia|vm_compute; discriminate]).
  assert (H1 : 3000000 <= DmlReadbackHeap.SIZE_MAX `div` 2)
    by (vm_compute; discriminate).
  split.
  - apply (proj1 (EnsureReadbackHeap_device_failure 1048576 example_device
                    DmlReadbackHeap.DmlReadbackHeap 3000000 H0 eq_refl H1)).
    reflexivity.
  - apply (proj2 (EnsureReadbackHeap_device_failure 1048576 failing_device
                    DmlReadbackHeap.DmlReadbackHeap 3000000 H0 eq_refl H1)).
    + reflexivity.
    + by left.
Defined.

Lemma ReadbackFromGpu_regions_layout_witness :
  exists h' cmds,
    DmlReadbackHeap.ReadbackFromGpu_regions 1048576 example_device
      DmlReadbackHeap.DmlReadbackHeap [7; 8]%nat [100; 200] [1; 2]%nat
    = Ok (h', cmds)
    /\ cmds !! 1%nat = Some (DmlReadbackHeap.CopyBufferRegion 100 2 0 200)
    /\ cmds !! 7%nat = Some (DmlReadbackHeap.memcpy 8 100 200).
Proof.
  eexists _, _. split; [reflexivity|].
  apply (proj1 (proj2 (proj2 (proj2
           (ReadbackFromGpu_regions_layout 1048576 example_device
              DmlReadbackHeap.DmlReadbackHeap [7; 8]%nat [100; 200] [1; 2]%nat
              _ _ ltac:(done) eq_refl)))) 1%nat 8%nat 2%nat 200);
    reflexivity.
Defined.

Lemma ReadbackFromGpu_one_region_witness :
  DmlReadbackHeap.ReadbackFromGpu_regions 1048576 example_device
    DmlReadbackHeap.DmlReadbackHeap [7%nat] [100] [1%nat]
  = DmlReadbackHeap.ReadbackFromGpu 1048576 example_device
      DmlReadbackHeap.DmlReadbackHeap 7 100 1 0.
Proof. apply ReadbackFromGpu_one_region. lia. Defined.

Lemma ComposeKeyValueName_format_witness :
  ComposeKeyValueName "past_key_values.%d.key" 3 = Ok "past_key_values.3.key".
Proof.
  apply (proj1 (ComposeKeyValueName_format "past_key_values." ".key" 3
                  eq_refl eq_refl)).
  vm_compute. lia.
Defined.

Lemma constructors_need_a_layer_witness :
  KV_Cache_Combined.KV_Cache_Combined example_model_no_layers
    (example_state 1 false) example_allocator = Undefined.
Proof.
  apply (constructors_need_a_layer {| log_enabled := true; log_warning := true |}
           example_model_no_layers (example_state 1 false) example_allocator).
  reflexivity.
Defined.

Lemma KV_Cache_ctor_tensors_witness :
  exists c a' log,
    KV_Cache.KV_Cache {| log_enabled := true; log_warning := true |}
      (example_model FLOAT) (example_state 1 true) example_allocator
    = Ok (c, a', log)
    /\ KV_Cache.shape_ c = [1; 1; 4; 1]
    /\ KV_Cache.pasts_ c = [None; None]
    /\ alloc_next a' = 4%nat.
Proof.
  eexists _, _, _. split; [reflexivity|].
  destruct (KV_Cache_ctor_tensors {| log_enabled := true; log_warning := true |}
              (example_model FLOAT) (example_state 1 true) example_allocator
              _ _ _ eq_refl eq_refl) as (Hshape & _ & Hpasts & _ & _ & Hnext).
  split; [exact Hshape|]. split; [exact Hpasts|exact Hnext].
Defined.

Lemma Cross_Cache_ctor_tensors_witness :
  exists c a',
    Cross_Cache.Cross_Cache (example_model FLOAT) (example_state 2 false)
      example_allocator = Ok (c, a')
    /\ Cross_Cache.shape_ c = [2; 1; 1500; 1]
    /\ length (Cross_Cache.values_ c) = 2%nat
    /\ alloc_next a' = 3%nat.
Proof.
  eexists _, _. split; [reflexivity|].
  destruct (Cross_Cache_ctor_tensors (example_model FLOAT)
              (example_state 2 false) example_allocator _ _ eq_refl)
    as (_ & Hshape & Hlen & _ & Hnext).
  split; [exact Hshape|]. split; [exact Hlen|exact Hnext].
Defined.

Lemma SlidingWindow_ctor_padding_witness :
  exists c a',
    SlidingWindowKeyValueCache.SlidingWindowKeyValueCache (example_model UINT8)
      (example_state 1 false) example_allocator = Ok (c, a')
    /\ SlidingWindowKeyValueCache.window_size_ c = 2
    /\ SlidingWindowKeyValueCache.key_cache_shape_in_ c = [1; 1; 1; 6 - 2]
    /\ exists key_in,
         SlidingWindowKeyValueCache.key_caches_in_ c !! 0%nat = Some (Some key_in)
         /\ ov_data key_in = [x00; x00; x00; x00].
Proof.
  eexists _, _. split; [reflexivity|].
  destruct (SlidingWindow_ctor_padding (example_model UINT8)
              (example_state 1 false) example_allocator _ _
              {| window_size := 2; pad_value := 0 |} eq_refl eq_refl)
    as (HW & Hshape & _ & _ & _ & Hlayers).
  split; [exact HW|]. split; [exact Hshape|].
  destruct (Hlayers 0%nat ltac:(cbn; lia))
    as (key_in & value_in & key_out & value_out & Hk & _ & _ & _ & _ & _ & _ & _
        & Hdata & _).
  exists key_in. split; [exact Hk|exact Hdata].
Defined.

Lemma Combined_Add_slots_witness :
  exists c a c1 st1,
    KV_Cache_Combined.KV_Cache_Combined (example_model FLOAT)
      (example_state 2 false) example_allocator = Ok (c, a)
    /\ KV_Cache_Combined.Add c (example_state 2 false) = Ok (c1, st1)
    /\ inputs_ st1 = [Some 1%nat] /\ outputs_ st1 = [Some 2%nat]
    /\ input_names_ st1 = ["past_0"%string].
Proof.
  eexists _, _, _, _. split; [reflexivity|].
  match goal with |- ?E /\ _ => assert (Hadd : E) by reflexivity end.
  split; [exact Hadd|].
  destruct (Combined_Add_slots _ _ _ _ Hadd) as (Hi & Hn & Ho & _).
  split; [exact Hi|]. split; [exact Ho|exact Hn].
Defined.

Lemma Split_Add_slots_witness :
  exists c a log c1 st1,
    KV_Cache.KV_Cache {| log_enabled := true; log_warning := true |}
      (example_model FLOAT) (example_state 1 true) example_allocator
    = Ok (c, a, log)
    /\ KV_Cache.Add c (example_state 1 true) = Ok (c1, st1)
    /\ inputs_ st1 = [Some 2%nat; Some 3%nat]
    /\ outputs_ st1 = [Some 2%nat; Some 3%nat].
Proof.
  destruct (KV_Cache.KV_Cache {| log_enabled := true; log_warning := true |}
              (example_model FLOAT) (example_state 1 true) example_allocator)
    as [[[c a] log]| |] eqn:Hc; [|vm_compute in Hc; discriminate..].
  pose proof Hc as Hnf. vm_compute in Hnf. injection Hnf as <- <- <-.
  match type of Hc with
  | _ = Ok (?c, _, _) =>
      destruct (KV_Cache.Add c (example_state 1 true)) as [[c1 st1]| |] eqn:Hadd;
      [|vm_compute in Hadd; discriminate..]
  end.
  eexists _, _, _, c1, st1. split; [reflexivity|].
  split; [exact Hadd|].
  destruct (Split_Add_slots _ _ _ _ Hadd) as (Hi & _ & Ho & _).
  split; [exact Hi|exact Ho].
Defined.

Lemma AddEncoder_slots_witness :
  exists c a log st1,
    KV_Cache.KV_Cache {| log_enabled := true; log_warning := true |}
      (example_model FLOAT) (example_state 1 false) example_allocator
    = Ok (c, a, log)
    /\ KV_Cache.AddEncoder c (example_state 1 false) = Ok st1
    /\ inputs_ st1 = [] /\ outputs_ st1 = [Some 2%nat; Some 3%nat].
Proof.
  eexists _, _, _, _. split; [reflexivity|].
  match goal with |- ?E /\ _ => assert (Hadd : E) by reflexivity end.
  split; [exact Hadd|].
  destruct (AddEncoder_slots _ _ _ Hadd) as (Hi & _ & Ho & _).
  split; [exact Hi|exact Ho].
Defined.

Lemma Cross_Cache_outputs_are_inputs_witness :
  exists c a st1 st2,
    Cross_Cache.Cross_Cache (example_model FLOAT) (example_state 2 false)
      example_allocator = Ok (c, a)
    /\ Cross_Cache.AddOutputs c (example_state 2 false) = Ok st1
    /\ Cross_Cache.AddInputs c (example_state 2 false) = Ok st2
    /\ outputs_ st1 = [Some 1%nat; Some 2%nat]
    /\ inputs_ st2 = [Some 1%nat; Some 2%nat].
Proof.
  eexists _, _, _, _. split; [reflexivity|].
  match goal with |- ?E /\ _ => assert (Hout : E) by reflexivity end.
  split; [exact Hout|].
  match goal with |- ?E /\ _ => assert (Hin : E) by reflexivity end.
  split; [exact Hin|].
  destruct (Cross_Cache_outputs_are_inputs _ _ _ _ _ Hout Hin)
    as (_ & Ho & _ & _ & Hi & _).
  split; [exact Ho|exact Hi].
Defined.

Lemma Update_keeps_ready_witness :
  exists c st a c' st' a',
    example_split FLOAT 2 false = Ok (c, st, a)
    /\ Split_ready c st 2 1 1 1
    /\ KV_Cache.Update (example_model FLOAT) c st a [1; 0] 2 = Ok (c', st', a')
    /\ Split_ready c' st' 2 1 2 1.
Proof.
  destruct (example_split FLOAT 2 false) as [[[c st] a]| |] eqn:Hc;
    [|vm_compute in Hc; discriminate..].
  pose proof Hc as Hnf. vm_compute in Hnf. injection Hnf as <- <- <-.
  match type of Hc with
  | _ = Ok (?c, ?st, ?a) =>
      destruct (KV_Cache.Update (example_model FLOAT) c st a [1; 0] 2)
        as [[[c' st'] a']| |] eqn:Hupd; [|vm_compute in Hupd; discriminate..]
  end.
  eexists _, _, _, c', st', a'. split; [reflexivity|].
  match goal with |- ?R /\ _ => assert (Hready : R) end.
  { unfold Split_ready. cbn.
    split; [reflexivity|]. split; [reflexivity|]. split; [lia|].
    split; [by left|]. split; [reflexivity|]. split; [reflexivity|].
    split; [|lia].
    repeat constructor; eexists; (split; [reflexivity|]); by repeat split. }
  split; [exact Hready|]. split; [exact Hupd|].
  apply (proj2 (Update_keeps_ready (example_model FLOAT) [1; 0] 2 2 1 1 1
                  ltac:(lia)) _ _ _ _ _ _ Hready Hupd).
Defined.

Lemma Update_slides_window_witness :
  exists c st a,
    example_sliding_collapsed = Ok (c, st, a)
    /\ SlidingWindow_steady c 1 1 6
    /\ exists c',
         SlidingWindowKeyValueCache.Update (example_model UINT8) c st a [] 3
         = Ok (c', st, a)
         /\ SlidingWindow_steady c' 1 1 6.
Proof.
  destruct example_sliding_collapsed as [[[c st] a]| |] eqn:Hc;
    [|vm_compute in Hc; discriminate..].
  pose proof Hc as Hnf. vm_compute in Hnf. injection Hnf as <- <- <-.
  eexists _, _, _. split; [reflexivity|].
  match goal with |- ?R /\ _ => assert (Hsteady : R) end.
  { unfold SlidingWindow_steady. cbn.
    repeat (split; [first [reflexivity|lia]|]).
    repeat split; try lia;
      repeat constructor; eexists; (split; [reflexivity|]); by repeat split. }
  split; [exact Hsteady|].
  match goal with
  | |- exists c', SlidingWindowKeyValueCache.Update ?m ?c ?st ?a ?b ?l = _ /\ _ =>
      destruct (Update_slides_window m c st a b l 1 1 6 Hsteady)
        as (c' & Hrun & Hc' & _)
  end.
  exists c'. split; [exact Hrun|exact Hc'].
Defined.

Lemma Update_collapse_layers_witness :
  exists c st a,
    example_sliding = Ok (c, st, a)
    /\ SlidingWindow_ready (example_model UINT8) c st 1 1 6 2
    /\ exists c' st' a',
         SlidingWindowKeyValueCache.Update (example_model UINT8) c st a [] 2
         = Ok (c', st', a')
         /\ alloc_next a' = (alloc_next a + 4 * 1)%nat
         /\ collapsed_layer 1 1 6 2 a c c' 0.
Proof.
  destruct example_sliding as [[[c st] a]| |] eqn:Hc;
    [|vm_compute in Hc; discriminate..].
  pose proof Hc as Hnf. vm_compute in Hnf. injection Hnf as <- <- <-.
  eexists _, _, _. split; [reflexivity|].
  match goal with |- ?R /\ _ => assert (Hready : R) end.
  { unfold SlidingWindow_ready. cbn.
    repeat (split; [first [reflexivity|lia|by left]|]).
    repeat split; try lia;
      repeat constructor; eexists; (split; [reflexivity|]); by repeat split. }
  split; [exact Hready|].
  match goal with
  | |- exists c' st' a',
         SlidingWindowKeyValueCache.Update ?m ?c ?st ?a ?b ?l = _ /\ _ =>
      destruct (Update_collapse_layers m c st a b l 1 1 6 2 Hready)
        as (c' & st' & a' & Hrun & Hnext & Hlayers)
  end.
  exists c', st', a'. split; [exact Hrun|]. split; [exact Hnext|].
  apply Hlayers. cbn. lia.
Defined.

Lemma Update_collapse_rebinds_witness :
  exists c st a,
    example_sliding = Ok (c, st, a)
    /\ SlidingWindow_ready (example_model UINT8) c st 1 1 6 2
    /\ exists c' st' a',
         SlidingWindowKeyValueCache.Update (example_model UINT8) c st a [] 2
         = Ok (c', st', a')
         /\ input_names_ st' = input_names_ st.
Proof.
  destruct example_sliding as [[[c st] a]| |] eqn:Hc;
    [|vm_compute in Hc; discriminate..].
  pose proof Hc as Hnf. vm_compute in Hnf. injection Hnf as <- <- <-.
  eexists _, _, _. split; [reflexivity|].
  match goal with |- ?R /\ _ => assert (Hready : R) end.
  { unfold SlidingWindow_ready. cbn.
    repeat (split; [first [reflexivity|lia|by left]|]).
    repeat split; try lia;
      repeat constructor; eexists; (split; [reflexivity|]); by repeat split. }
  split; [exact Hready|].
  match goal with
  | |- exists c' st' a',
         SlidingWindowKeyValueCache.Update ?m ?c ?st ?a ?b ?l = _ /\ _ =>
      destruct (Update_collapse_rebinds m c st a b l 1 1 6 2 Hready)
        as (c' & st' & a' & Hrun & (Hnames & _) & _)
  end.
  exists c', st', a'. split; [exact Hrun|exact Hnames].
Defined.

Lemma Update_window_stays_one_witness :
  exists c st a,
    example_sliding = Ok (c, st, a)
    /\ SlidingWindow_ready (example_model UINT8) c st 1 1 6 2
    /\ exists c1 st1 a1 c',
         SlidingWindowKeyValueCache.Update (example_model UINT8) c st a [] 2
         = Ok (c1, st1, a1)
         /\ SlidingWindow_Update_many (example_model UINT8) c1 st1 a1
              [([], 3); ([1; 0], 4); ([], 5)] = Ok (c', st1, a1)
         /\ SlidingWindow_steady c' 1 1 6
         /\ SlidingWindowKeyValueCache.window_size_ c' = 1.
Proof.
  destruct example_sliding as [[[c st] a]| |] eqn:Hc;
    [|vm_compute in Hc; discriminate..].
  pose proof Hc as Hnf. vm_compute in Hnf. injection Hnf as <- <- <-.
  eexists _, _, _. split; [reflexivity|].
  match goal with |- ?R /\ _ => assert (Hready : R) end.
  { unfold SlidingWindow_ready. cbn.
    repeat (split; [first [reflexivity|lia|by left]|]).
    repeat split; try lia;
      repeat constructor; eexists; (split; [reflexivity|]); by repeat split. }
  split; [exact Hready|].
  apply (Update_window_stays_one _ _ _ _ _ _ _ 1 1 6 2 Hready).
Defined.

Lemma GetCPU_copies_device_witness :
  exists s r' mem',
    RoamingArray.GetCPU (fun _ _ => 0) example_memory
      (RoamingArray.SetGPU RoamingArray.RoamingArray
         (RoamingArray.Span (Some (0%nat, 1%nat)) 2))
    = Ok (s, r', mem')
    /\ RoamingArray.contents mem' s = Some [20; 30]
    /\ RoamingArray.contents mem' (RoamingArray.Span (Some (0%nat, 1%nat)) 2)
       = Some [20; 30].
Proof.
  destruct (GetCPU_copies_device (fun _ _ => 0) example_memory
              (RoamingArray.SetGPU RoamingArray.RoamingArray
                 (RoamingArray.Span (Some (0%nat, 1%nat)) 2))
              [20; 30] eq_refl ltac:(done) eq_refl I)
    as (s & r' & mem' & Hrun & _ & _ & _ & _ & Hs & Hd & _).
  exists s, r', mem'. split; [exact Hrun|]. split; [exact Hs|exact Hd].
Defined.

Lemma Flush_brings_up_to_date_witness :
  RoamingArray.mirrored example_memory (RoamingArray.cpu_ example_roaming)
    (RoamingArray.device_ example_roaming)
  /\ exists mem',
       RoamingArray.FlushGPUChanges example_memory example_roaming = Ok mem'
       /\ RoamingArray.contents mem' (RoamingArray.cpu_ example_roaming)
          = Some [3; 4].
Proof.
  assert (Hm : RoamingArray.mirrored example_memory
                 (RoamingArray.cpu_ example_roaming)
                 (RoamingArray.device_ example_roaming)).
  { split; [done|]. split; [reflexivity|].
    split; [by eexists|]. split; [by eexists|].
    intros b1 p1 b2 p2 [= <- _] [= <- _]. done. }
  split; [exact Hm|].
  destruct (proj1 (proj2 (proj2
              (Flush_brings_up_to_date (fun _ _ => 0) example_memory
                 example_roaming Hm))))
    as (mem' & Hrun & Hcpu & _).
  exists mem'. split; [exact Hrun|exact Hcpu].
Defined.

Lemma Generate_outputs_witness :
  OgaEngine.Generate 2 example_run_batch 4 example_engine ["b"; "c"]%string
  = Some (Ok ([""; ""; "a!"; "b!"; "c!"]%string,
              {| OgaEngine.unscheduled_prompts_ := [];
                 OgaEngine.request_id_ := 5 |})).
Proof.
  apply (Generate_outputs 2 example_run_batch 4 example_engine
           ["b"; "c"]%string); [lia|cbn; lia].
Defined.

Lemma AddRequest_ids_witness :
  OgaEngine.AddRequest_many example_engine ["x"; "y"]%string
  = Ok ([5; 6],
        {| OgaEngine.unscheduled_prompts_ := ["a"; "x"; "y"]%string;
           OgaEngine.request_id_ := 7 |}).
Proof.
  apply (AddRequest_ids example_engine ["x"; "y"]%string).
  vm_compute. discriminate.
Defined.

Lemma SlidingWindow_ctor_type_check_witness :
  SlidingWindowKeyValueCache.SlidingWindowKeyValueCache (example_model FLOAT)
    (example_state 1 false) example_allocator
  = Throw (runtime_error
      "Expected input data type to be uint8_t for SlidingWindowKeyValueCache. Actual: 1").
Proof.
  apply (proj1 (proj2 (SlidingWindow_ctor_type_check (example_model FLOAT)
                         (example_state 1 false) example_allocator))
           "past_key_values.0.key"%string FLOAT);
    [by eexists|cbn; lia| |reflexivity|reflexivity|discriminate].
  intros i Hi. assert (i = 0%nat) as -> by (cbn in Hi; lia).
  split; [|split; [|split]]; eexists; reflexivity.
Defined.

Lemma constructors_then_Add_ready_witness :
  exists c a c1 st1,
    KV_Cache_Combined.KV_Cache_Combined (example_model FLOAT)
      (example_state 2 false) example_allocator = Ok (c, a)
    /\ KV_Cache_Combined.Add c (example_state 2 false) = Ok (c1, st1)
    /\ Combined_ready c1 st1 2 1 1 1.
Proof.
  destruct (KV_Cache_Combined.KV_Cache_Combined (example_model FLOAT)
              (example_state 2 false) example_allocator)
    as [[c a]| |] eqn:Hc; [|vm_compute in Hc; discriminate..].
  pose proof Hc as Hnf. vm_compute in Hnf. injection Hnf as <- <-.
  match type of Hc with
  | _ = Ok (?c, _) =>
      destruct (KV_Cache_Combined.Add c (example_state 2 false))
        as [[c1 st1]| |] eqn:Hadd; [|vm_compute in Hadd; discriminate..]
  end.
  eexists _, _, c1, st1. split; [reflexivity|]. split; [exact Hadd|].
  apply (proj1 (constructors_then_Add_ready (example_model FLOAT)
                  (example_state 2 false) (example_state 2 false))
           _ _ _ _ _ Hc Hadd);
    [by left|vm_compute; discriminate..].
Defined.

Lemma Update_binds_slots_witness :
  exists c st a c' st' a',
    example_split FLOAT 2 false = Ok (c, st, a)
    /\ KV_Cache.Update (example_model FLOAT) c st a [1; 0] 2 = Ok (c', st', a')
    /\ KV_Cache.shape_ c' = [2; 1; 2; 1].
Proof.
  destruct (example_split FLOAT 2 false) as [[[c st] a]| |] eqn:Hc;
    [|vm_compute in Hc; discriminate..].
  pose proof Hc as Hnf. vm_compute in Hnf. injection Hnf as <- <- <-.
  match type of Hc with
  | _ = Ok (?c, ?st, ?a) =>
      destruct (KV_Cache.Update (example_model FLOAT) c st a [1; 0] 2)
        as [[[c' st'] a']| |] eqn:Hupd; [|vm_compute in Hupd; discriminate..]
  end.
  eexists _, _, _, c', st', a'. split; [reflexivity|]. split; [exact Hupd|].
  match type of Hupd with
  | KV_Cache.Update _ ?c ?st ?a _ _ = _ =>
      exact (proj1 (proj2 (Update_binds_slots (example_model FLOAT) [1; 0] 2)
                      c st a c' st' a' eq_refl Hupd))
  end.
Defined.

Lemma Update_frame_witness :
  exists c st a c' st' a',
    example_split FLOAT 2 false = Ok (c, st, a)
    /\ KV_Cache.Update (example_model FLOAT) c st a [1; 0] 2 = Ok (c', st', a')
    /\ input_names_ st' = input_names_ st
    /\ output_names_ st' = output_names_ st.
Proof.
  destruct (example_split FLOAT 2 false) as [[[c st] a]| |] eqn:Hc;
    [|vm_compute in Hc; discriminate..].
  pose proof Hc as Hnf. vm_compute in Hnf. injection Hnf as <- <- <-.
  match type of Hc with
  | _ = Ok (?c, ?st, ?a) =>
      destruct (KV_Cache.Update (example_model FLOAT) c st a [1; 0] 2)
        as [[[c' st'] a']| |] eqn:Hupd; [|vm_compute in Hupd; discriminate..]
  end.
  eexists _, _, _, c', st', a'. split; [reflexivity|]. split; [exact Hupd|].
  destruct (proj2 (Update_frame (example_model FLOAT) [1; 0] 2)
              _ _ _ _ _ _ Hupd) as (Hin & Hout & _).
  split; [exact Hin|exact Hout].
Defined.

Lemma Update_empty_hands_over_witness :
  exists c st a,
    example_split FLOAT 2 false = Ok (c, st, a)
    /\ Split_ready c st 2 1 1 1
    /\ exists c' st' a',
         KV_Cache.Update (example_model FLOAT) c st a [] 2 = Ok (c', st', a')
         /\ exists v,
              KV_Cache.presents_ c !! 0%nat = Some (Some v)
              /\ KV_Cache.pasts_ c' !! 0%nat = Some (Some v).
Proof.
  destruct (example_split FLOAT 2 false) as [[[c st] a]| |] eqn:Hc;
    [|vm_compute in Hc; discriminate..].
  pose proof Hc as Hnf. vm_compute in Hnf. injection Hnf as <- <- <-.
  eexists _, _, _. split; [reflexivity|].
  match goal with |- ?R /\ _ => assert (Hready : R) end.
  { unfold Split_ready. cbn.
    split; [reflexivity|]. split; [reflexivity|]. split; [lia|].
    split; [by left|]. split; [reflexivity|]. split; [reflexivity|].
    split; [|lia].
    repeat constructor; eexists; (split; [reflexivity|]); by repeat split. }
  split; [exact Hready|].
  match goal with
  | |- exists c' st' a', KV_Cache.Update ?m ?c ?st ?a _ _ = _ /\ _ =>
      destruct (proj2 (Update_empty_hands_over m 2 2 1 1 1) c st a Hready)
        as (c' & st' & a' & Hupd & Hlayers)
  end.
  exists c', st', a'. split; [exact Hupd|].
  destruct (Hlayers 0%nat ltac:(cbn; lia)) as (v & Hv & Hp & _).
  exists v. split; [exact Hv|exact Hp].
Defined.
